(** * Bookmark synchronisation and taxonomy engine

    A shallow embedding of the bookmark engine of the extension: the two
    synchronisation routines ([convertBrowserBookmarks] and the tree walking
    [syncBookmarks]), the Pinia bookmark store (record CRUD, per-category
    counts, tag recomputation), the query projection ([filteredBookmarks],
    the service level [searchBookmarks]), the category tree projection
    ([buildCategoryTree]) and the node search helper of
    [utils/bookmarkHelper.ts].

    Conventions of the embedding:
    - JavaScript numbers that hold timestamps, counts and positions are
      integers ([Z]); where a result depends on the sum of a stored
      counter and a number whatever is stored (the visit counter, the tag
      counters of the analysis), the sum is the addition of doubles
      ([js_add]);
    - an optional field [f?: T] is [option T]; truthiness tests ([||], [!],
      [if (x)]) are written out with the helpers of module [JS];
    - [Date.now()] and [uuidv4()] are read from the environment: the [k]-th
      call of a run returns [dateNow k], respectively [uuidv4 k], and the
      number of calls made so far is threaded through the code;
    - a string stands for a well-formed JavaScript string, written in
      UTF-8: equality, concatenation and containment are read off the
      bytes; [toLowerCase], [trim], [new URL(..).origin] and
      [localeCompare] belong to the host and are parameters;
    - writes to the storage succeed, and the calls to the browser and to
      the message bus, which do not touch the collections, are left out. *)

From Stdlib Require Import ZArith List String Ascii Bool Lia Permutation Sorted
  DecimalString.
From stdpp Require Import base option list strings gmap.
Import ListNotations.

Set Warnings "-register-all".

Local Open Scope string_scope.
Local Open Scope list_scope.
Local Open Scope Z_scope.

(** ** JavaScript value conventions *)

Module JS.

(** [s || d] on strings: the empty string is falsy. *)
Definition str_or (s d : string) : string :=
  if String.eqb s "" then d else s.

(** Truthiness of an optional string ([undefined] and [""] are falsy). *)
Definition truthy_ostr (o : option string) : bool :=
  match o with
  | Some s => negb (String.eqb s "")
  | None => false
  end.

(** Truthiness of an optional number ([undefined] and [0] are falsy). *)
Definition truthy_onum (o : option Z) : bool :=
  match o with
  | Some z => negb (Z.eqb z 0)
  | None => false
  end.

(** [o || d] on optional numbers. *)
Definition onum_or (o : option Z) (d : Z) : Z :=
  match o with
  | Some z => if Z.eqb z 0 then d else z
  | None => d
  end.

(** [n || d] on numbers. *)
Definition num_or (n d : Z) : Z := if Z.eqb n 0 then d else n.

(** [o || d] on optional strings. *)
Definition ostr_or (o : option string) (d : string) : string :=
  match o with
  | Some s => str_or s d
  | None => d
  end.

(** Truthiness of an optional boolean. *)
Definition truthy_obool (o : option bool) : bool :=
  match o with
  | Some b => b
  | None => false
  end.

End JS.

(** ** Data model ([types/index.ts], [constants/index.ts]) *)

Inductive FolderState := EXPANDED | COLLAPSED.

Record AiGenerated := mkAiGenerated {
  ai_category : option string;
  ai_tags : option (list string);
  ai_summary : option string;
  ai_confidence : option Z   (* carried along, never inspected *)
}.

Record Bookmark := mkBookmark {
  b_id : string;
  b_title : string;
  b_url : string;
  b_favicon : option string;
  b_description : option string;
  b_categoryId : string;
  b_tags : list string;
  b_createdAt : Z;
  b_updatedAt : Z;
  b_lastVisited : option Z;
  b_visitCount : Z;
  b_aiGenerated : option AiGenerated;
  b_originalId : option string;
  b_parentId : option string;
  b_index : option Z
}.

(** A stored category.  The [children] field of the source interface is only
    ever filled in on projected trees, see [CategoryTree]. *)
Record Category := mkCategory {
  c_id : string;
  c_name : string;
  c_parentId : option string;
  c_color : option string;
  c_icon : option string;
  c_order : Z;
  c_createdAt : Z;
  c_updatedAt : Z;
  c_bookmarkCount : Z;
  c_isAiGenerated : bool;
  c_builtin : option bool;
  c_level : option Z;
  c_folderState : option FolderState
}.

Record Tag := mkTag {
  t_id : string;
  t_name : string;
  t_color : option string;
  t_count : Z;
  t_createdAt : Z;
  t_updatedAt : Z;
  t_isAiGenerated : bool
}.

(** A flattened host node ([BrowserBookmarkNode] without [children]). *)
Record FlatNode := mkFlatNode {
  f_id : string;
  f_parentId : option string;
  f_index : option Z;
  f_url : option string;
  f_title : string;
  f_dateAdded : option Z;
  f_dateGroupModified : option Z
}.

(** [DEFAULT_CATEGORIES]: id, name, icon; all are builtin. *)
Definition DEFAULT_CATEGORIES : list (string * string * string) :=
  [ ("all", "所有书签", "bookmark");
    ("frequent", "常用书签", "star");
    ("recent", "最近添加", "clock");
    ("uncategorized", "未分类", "folder") ].

(** Field updates used by the spreads of the source. *)
Definition b_with_category (cid : string) (upd : Z) (b : Bookmark) : Bookmark :=
  {| b_id := b_id b; b_title := b_title b; b_url := b_url b;
     b_favicon := b_favicon b; b_description := b_description b;
     b_categoryId := cid; b_tags := b_tags b; b_createdAt := b_createdAt b;
     b_updatedAt := upd; b_lastVisited := b_lastVisited b;
     b_visitCount := b_visitCount b; b_aiGenerated := b_aiGenerated b;
     b_originalId := b_originalId b; b_parentId := b_parentId b;
     b_index := b_index b |}.

Definition b_with_updatedAt (upd : Z) (b : Bookmark) : Bookmark :=
  b_with_category (b_categoryId b) upd b.

Definition b_with_favicon (fav : option string) (b : Bookmark) : Bookmark :=
  {| b_id := b_id b; b_title := b_title b; b_url := b_url b;
     b_favicon := fav; b_description := b_description b;
     b_categoryId := b_categoryId b; b_tags := b_tags b;
     b_createdAt := b_createdAt b; b_updatedAt := b_updatedAt b;
     b_lastVisited := b_lastVisited b; b_visitCount := b_visitCount b;
     b_aiGenerated := b_aiGenerated b; b_originalId := b_originalId b;
     b_parentId := b_parentId b; b_index := b_index b |}.

(** [{ ...category, bookmarkCount: count, updatedAt: now }] *)
Definition c_with_count (count upd : Z) (c : Category) : Category :=
  {| c_id := c_id c; c_name := c_name c; c_parentId := c_parentId c;
     c_color := c_color c; c_icon := c_icon c; c_order := c_order c;
     c_createdAt := c_createdAt c; c_updatedAt := upd;
     c_bookmarkCount := count; c_isAiGenerated := c_isAiGenerated c;
     c_builtin := c_builtin c; c_level := c_level c;
     c_folderState := c_folderState c |}.

Definition c_with_updatedAt (upd : Z) (c : Category) : Category :=
  c_with_count (c_bookmarkCount c) upd c.

(** [{ ...tag, count: n }] *)
Definition t_with_count (n : Z) (t : Tag) : Tag :=
  {| t_id := t_id t; t_name := t_name t; t_color := t_color t; t_count := n;
     t_createdAt := t_createdAt t; t_updatedAt := t_updatedAt t;
     t_isAiGenerated := t_isAiGenerated t |}.

(** [Partial<Bookmark>]: the fields a caller wants to overwrite. *)
Record BookmarkChanges := mkChanges {
  ch_id : option string;
  ch_title : option string;
  ch_url : option string;
  ch_favicon : option (option string);
  ch_description : option (option string);
  ch_categoryId : option string;
  ch_tags : option (list string);
  ch_createdAt : option Z;
  ch_updatedAt : option Z;
  ch_lastVisited : option (option Z);
  ch_visitCount : option Z;
  ch_aiGenerated : option (option AiGenerated);
  ch_originalId : option (option string);
  ch_parentId : option (option string);
  ch_index : option (option Z)
}.

(** [{ ...old, ...changes }] *)
Definition applyChanges (ch : BookmarkChanges) (old : Bookmark) : Bookmark :=
  {| b_id := default (b_id old) (ch_id ch);
     b_title := default (b_title old) (ch_title ch);
     b_url := default (b_url old) (ch_url ch);
     b_favicon := default (b_favicon old) (ch_favicon ch);
     b_description := default (b_description old) (ch_description ch);
     b_categoryId := default (b_categoryId old) (ch_categoryId ch);
     b_tags := default (b_tags old) (ch_tags ch);
     b_createdAt := default (b_createdAt old) (ch_createdAt ch);
     b_updatedAt := default (b_updatedAt old) (ch_updatedAt ch);
     b_lastVisited := default (b_lastVisited old) (ch_lastVisited ch);
     b_visitCount := default (b_visitCount old) (ch_visitCount ch);
     b_aiGenerated := default (b_aiGenerated old) (ch_aiGenerated ch);
     b_originalId := default (b_originalId old) (ch_originalId ch);
     b_parentId := default (b_parentId old) (ch_parentId ch);
     b_index := default (b_index old) (ch_index ch) |}.

Definition noChanges : BookmarkChanges :=
  mkChanges None None None None None None None None None None None None None
            None None.

(** [{ categoryId: cid }] *)
Definition changeCategoryId (cid : string) : BookmarkChanges :=
  mkChanges None None None None None (Some cid) None None None None None None
            None None None.

(** [arr.findIndex(p)]; [None] stands for [-1]. *)
Fixpoint findIndex {A} (p : A -> bool) (l : list A) : option nat :=
  match l with
  | [] => None
  | x :: l' => if p x then Some O else S <$> findIndex p l'
  end.

(** *** Persisted collections and the store's reactive state *)

Record Storage := mkStorage {
  st_bookmarks : list Bookmark;
  st_categories : list Category;
  st_tags : list Tag;
  st_lastSync : Z
}.

Definition st_set_bookmarks (bs : list Bookmark) (st : Storage) : Storage :=
  {| st_bookmarks := bs; st_categories := st_categories st;
     st_tags := st_tags st; st_lastSync := st_lastSync st |}.

Definition st_set_categories (cs : list Category) (st : Storage) : Storage :=
  {| st_bookmarks := st_bookmarks st; st_categories := cs;
     st_tags := st_tags st; st_lastSync := st_lastSync st |}.

Definition st_set_tags (ts : list Tag) (st : Storage) : Storage :=
  {| st_bookmarks := st_bookmarks st; st_categories := st_categories st;
     st_tags := ts; st_lastSync := st_lastSync st |}.

(** The refs of [useBookmarkStore] together with the storage they are
    written back to. *)
Record Store := mkStore {
  bookmarks : list Bookmark;
  categories : list Category;
  tags : list Tag;
  storage : Storage
}.

Definition set_bookmarks (bs : list Bookmark) (s : Store) : Store :=
  {| bookmarks := bs; categories := categories s; tags := tags s;
     storage := storage s |}.

Definition set_categories (cs : list Category) (s : Store) : Store :=
  {| bookmarks := bookmarks s; categories := cs; tags := tags s;
     storage := storage s |}.

Definition set_tags (ts : list Tag) (s : Store) : Store :=
  {| bookmarks := bookmarks s; categories := categories s; tags := ts;
     storage := storage s |}.

(** [storageService.saveBookmarks(bookmarks.value)] and its siblings. *)
Definition saveBookmarks (s : Store) : Store :=
  {| bookmarks := bookmarks s; categories := categories s; tags := tags s;
     storage := st_set_bookmarks (bookmarks s) (storage s) |}.

Definition saveCategories (s : Store) : Store :=
  {| bookmarks := bookmarks s; categories := categories s; tags := tags s;
     storage := st_set_categories (categories s) (storage s) |}.

Definition saveTags (s : Store) : Store :=
  {| bookmarks := bookmarks s; categories := categories s; tags := tags s;
     storage := st_set_tags (tags s) (storage s) |}.

(** The working state of one [syncBookmarks] pass: the output array, the
    category array, and [categoryMap] as references into that array. *)
Record SyncState := mkSyncState {
  sy_bookmarks : list Bookmark;
  sy_newCategories : list Category;
  sy_categoryMap : gmap string nat
}.

(** *** [Map<string, Tag>] with its insertion order *)

Definition TagMap : Type := list (string * Tag).

Fixpoint TagMap_get (k : string) (m : TagMap) : option Tag :=
  match m with
  | [] => None
  | (k', v) :: m' => if String.eqb k' k then Some v else TagMap_get k m'
  end.

(** [map.set(k, v)]: an existing key keeps its position. *)
Fixpoint TagMap_set (k : string) (v : Tag) (m : TagMap) : TagMap :=
  match m with
  | [] => [(k, v)]
  | (k', v') :: m' =>
      if String.eqb k' k then (k', v) :: m' else (k', v') :: TagMap_set k v m'
  end.

Definition TagMap_values (m : TagMap) : list Tag := List.map snd m.

(** *** Strings and arrays of the runtime *)

(** The string functions of the runtime that depend on the Unicode tables:
    [s.toLowerCase()] and [s.trim()].  They belong to the host. *)
Class StringHost := {
  toLowerCase : string -> string;
  trim : string -> string
}.

(** [s.includes(sub)] *)
Fixpoint includes (s sub : string) : bool :=
  String.prefix sub s ||
  match s with
  | EmptyString => false
  | String _ s' => includes s' sub
  end.

(** [arr.includes(x)] on an array of strings. *)
Definition arr_includes (arr : list string) (x : string) : bool :=
  existsb (String.eqb x) arr.

(** [arr.sort(cmp)]: the sort of the runtime is stable; for a consistent
    comparator its result is the stable sorted arrangement, computed here by
    insertion from the right. *)
Fixpoint sort_insert {A} (cmp : A -> A -> Z) (x : A) (l : list A) : list A :=
  match l with
  | [] => [x]
  | y :: l' => if cmp x y <=? 0 then x :: l else y :: sort_insert cmp x l'
  end.

Definition sort {A} (cmp : A -> A -> Z) : list A -> list A :=
  fix go (l : list A) : list A :=
    match l with
    | [] => []
    | x :: l' => sort_insert cmp x (go l')
    end.

(** *** Query parameters ([SearchParams]) *)

Inductive SortBy := SortTitle | SortDateAdded | SortLastVisited | SortUrl.
Inductive SortOrder := Asc | Desc.

Record SearchParams := mkSearchParams {
  sp_keyword : option string;
  sp_categoryId : option string;
  sp_tags : option (list string);
  sp_sortBy : option SortBy;
  sp_sortOrder : option SortOrder
}.

(** *** Trees *)

(** A projected category: the record with [level] and [folderState] set, and
    its [children]. *)
Inductive CategoryTree :=
  CNode { ct_category : Category; ct_children : list CategoryTree }.

(** [BrowserBookmarkNode] as returned by the host. *)
Inductive BrowserBookmarkNode :=
  BNode {
    n_id : string;
    n_parentId : option string;
    n_index : option Z;
    n_url : option string;
    n_title : string;
    n_dateAdded : option Z;
    n_dateGroupModified : option Z;
    n_children : option (list BrowserBookmarkNode)
  }.

(** [EnhancedBookmarkNode] of [utils/bookmarkHelper.ts]. *)
Inductive EnhancedBookmarkNode :=
  ENode {
    e_id : string;
    e_parentId : option string;
    e_index : option Z;
    e_url : option string;
    e_title : string;
    e_dateAdded : option Z;
    e_children : option (list EnhancedBookmarkNode);
    e_level : Z;
    e_isFolder : bool;
    e_folderState : option FolderState;
    e_path : option (list string)
  }.

(** [{ ...child, level, folderState }] *)
Definition c_with_level (level : Z) (fs : FolderState) (c : Category) : Category :=
  {| c_id := c_id c; c_name := c_name c; c_parentId := c_parentId c;
     c_color := c_color c; c_icon := c_icon c; c_order := c_order c;
     c_createdAt := c_createdAt c; c_updatedAt := c_updatedAt c;
     c_bookmarkCount := c_bookmarkCount c;
     c_isAiGenerated := c_isAiGenerated c; c_builtin := c_builtin c;
     c_level := Some level; c_folderState := Some fs |}.

(** ** The environment: clock and identifier source *)

Record World := mkWorld {
  w_clock : nat;   (* calls of [Date.now()] made so far *)
  w_ids : nat      (* calls of [uuidv4()] made so far *)
}.

Definition Eff (A : Type) : Type := World -> A * World.

Definition ret {A} (x : A) : Eff A := fun w => (x, w).

Definition bind {A B} (m : Eff A) (k : A -> Eff B) : Eff B :=
  fun w => let (a, w') := m w in k a w'.

Notation "'do' x <- m ; k" := (bind m (fun x => k))
  (at level 10, x name, m at level 100, k at level 200).
Notation "'do' ' p <- m ; k" := (bind m (fun x => match x with p => k end))
  (at level 10, p pattern, m at level 100, k at level 200).

(** [for (const x of xs) acc = step(acc, x)] *)
Definition forEach {A S} (step : S -> A -> Eff S) : list A -> S -> Eff S :=
  fix go (xs : list A) (acc : S) : Eff S :=
    match xs with
    | [] => ret acc
    | x :: xs' => do acc' <- step acc x; go xs' acc'
    end.

(** [xs.map(f)] for an effectful callback, left to right. *)
Fixpoint mapM {A B} (f : A -> Eff B) (xs : list A) : Eff (list B) :=
  match xs with
  | [] => ret []
  | x :: xs' => do y <- f x; do ys <- mapM f xs'; ret (y :: ys)
  end.

Section Host.

Context {stringHost : StringHost}.

Section Engine.

(** The host environment. *)
Variable dateNow : nat -> Z.
Variable uuidv4 : nat -> string.
(** [new URL(u).origin]; [None] when the constructor throws. *)
Variable urlOrigin : string -> option string.

Definition now : Eff Z :=
  fun w => (dateNow (w_clock w),
            {| w_clock := S (w_clock w); w_ids := w_ids w |}).

Definition uuid : Eff string :=
  fun w => (uuidv4 (w_ids w),
            {| w_clock := w_clock w; w_ids := S (w_ids w) |}).

(** *** [convertBrowserBookmarks] (second bookmark service) *)

(** [DEFAULT_CATEGORIES.map(cat => ({ ...cat, order: 0, createdAt: Date.now(), ... }))] *)
Definition defaultCategory (d : string * string * string) : Eff Category :=
  let '(i, n, ic) := d in
  do created <- now;
  do updated <- now;
  ret {| c_id := i; c_name := n; c_parentId := None; c_color := None;
         c_icon := Some ic; c_order := 0; c_createdAt := created;
         c_updatedAt := updated; c_bookmarkCount := 0;
         c_isAiGenerated := false; c_builtin := Some true;
         c_level := None; c_folderState := None |}.

(** [new Map(storedBookmarks.map(b => [b.originalId, b]))]: a later entry
    replaces an earlier one with the same key. *)
Definition bookmarkMapOf (stored : list Bookmark) : gmap (option string) Bookmark :=
  fold_left (fun m b => <[b_originalId b := b]> m) stored ∅.

(** Lines 162-170: fill in the favicon when it is missing. *)
Definition extractFavicon (b : Bookmark) : Bookmark :=
  if JS.truthy_ostr (b_favicon b) then b
  else match urlOrigin (b_url b) with
       | Some origin => b_with_favicon (Some ("chrome://favicon/" ++ origin)%string) b
       | None => b
       end.

(** One iteration of the loop over the host nodes (lines 126-173). *)
Definition convertNode (bookmarkMap : gmap (option string) Bookmark)
    (bookmarks : list Bookmark) (node : FlatNode) : Eff (list Bookmark) :=
  if negb (JS.truthy_ostr (f_url node)) then ret bookmarks
  else
    let url := JS.ostr_or (f_url node) "" in
    match bookmarkMap !! Some (f_id node) with
    | Some existing =>
        do updated <- now;
        let bookmark :=
          {| b_id := b_id existing;
             b_title := JS.str_or (f_title node) (b_title existing);
             b_url := JS.str_or url (b_url existing);
             b_favicon := b_favicon existing;
             b_description := b_description existing;
             b_categoryId := b_categoryId existing;
             b_tags := b_tags existing;
             b_createdAt := b_createdAt existing;
             b_updatedAt := updated;
             b_lastVisited := b_lastVisited existing;
             b_visitCount := b_visitCount existing;
             b_aiGenerated := b_aiGenerated existing;
             b_originalId := Some (f_id node);
             b_parentId := b_parentId existing;
             b_index := b_index existing |} in
        ret (bookmarks ++ [extractFavicon bookmark])
    | None =>
        do newId <- uuid;
        do created <- (if JS.truthy_onum (f_dateAdded node)
                       then ret (JS.onum_or (f_dateAdded node) 0) else now);
        do updated <- now;
        let bookmark :=
          {| b_id := newId;
             b_title := JS.str_or (f_title node) "未命名书签";
             b_url := url;
             b_favicon := None;
             b_description := None;
             b_categoryId := "uncategorized";
             b_tags := [];
             b_createdAt := created;
             b_updatedAt := updated;
             b_lastVisited := None;
             b_visitCount := 0;
             b_aiGenerated := None;
             b_originalId := Some (f_id node);
             b_parentId := None;
             b_index := None |} in
        ret (bookmarks ++ [extractFavicon bookmark])
    end.

(** Lines 175-183: recompute every category's [bookmarkCount]. *)
Definition recount (bookmarks : list Bookmark) (categories : list Category)
    : Eff (list Category) :=
  mapM (fun category =>
          let count := Z.of_nat (length
            (List.filter (fun b => String.eqb (b_categoryId b) (c_id category))
                         bookmarks)) in
          do updated <- now;
          ret (c_with_count count updated category))
       categories.

Definition convertBrowserBookmarks (browserBookmarks : list FlatNode)
    (storedBookmarks : list Bookmark) (storedCategories : list Category)
    : Eff (list Bookmark * list Category) :=
  do categories <- (if (0 <? length storedCategories)%nat
                    then ret storedCategories
                    else mapM defaultCategory DEFAULT_CATEGORIES);
  let bookmarkMap := bookmarkMapOf storedBookmarks in
  do bookmarks <- forEach (convertNode bookmarkMap) browserBookmarks [];
  do categories' <- recount bookmarks categories;
  ret (bookmarks, categories').

(** *** The Pinia bookmark store ([stores/bookmark.ts]) *)

(** [updateCategoryBookmarkCount]: recompute one category's count. *)
Definition updateCategoryBookmarkCount (categoryId : string) (s : Store)
    : Eff Store :=
  match findIndex (fun c => String.eqb (c_id c) categoryId) (categories s) with
  | None => ret s
  | Some index =>
      let count := Z.of_nat (length
        (List.filter (fun b => String.eqb (b_categoryId b) categoryId)
                     (bookmarks s))) in
      do updated <- now;
      let categories' :=
        match categories s !! index with
        | Some c => <[index := c_with_count count updated c]> (categories s)
        | None => categories s
        end in
      ret (saveCategories (set_categories categories' s))
  end.

(** The new tag record created at lines 391-398. *)
Definition newTag (tagName : string) : Eff Tag :=
  do i <- uuid;
  do created <- now;
  do updated <- now;
  ret {| t_id := i; t_name := tagName; t_color := None; t_count := 1;
         t_createdAt := created; t_updatedAt := updated;
         t_isAiGenerated := false |}.

(** The body of the inner [forEach] of [updateTags] (lines 385-400). *)
Definition countTag (tagMap : TagMap) (tagName : string) : Eff TagMap :=
  match TagMap_get tagName tagMap with
  | Some tag => ret (TagMap_set tagName (t_with_count (t_count tag + 1) tag) tagMap)
  | None => do tag <- newTag tagName; ret (TagMap_set tagName tag tagMap)
  end.

(** [updateTags]: recompute the tag collection from the bookmarks.  The
    parameter [tagNames] is not used by the body. *)
Definition updateTags (tagNames : list string) (s : Store) : Eff Store :=
  let tagMap0 :=
    fold_left (fun m tag => TagMap_set (t_name tag) (t_with_count 0 tag) m)
              (tags s) [] in
  do tagMap <- forEach (fun m b => forEach countTag (b_tags b) m)
                       (bookmarks s) tagMap0;
  let updatedTags :=
    List.filter (fun tag => 0 <? t_count tag) (TagMap_values tagMap) in
  ret (saveTags (set_tags updatedTags s)).

(** [updateBookmark].  The calls to the browser and to the message bus do
    not touch the store and are left out; storage writes succeed. *)
Definition updateBookmark (id : string) (changes : BookmarkChanges) (s : Store)
    : Eff (bool * Store) :=
  match findIndex (fun b => String.eqb (b_id b) id) (bookmarks s) with
  | None => ret (false, s)
  | Some index =>
      match bookmarks s !! index with
      | None => ret (false, s)
      | Some oldBookmark =>
          let oldCategoryId := b_categoryId oldBookmark in
          let oldTags := b_tags oldBookmark in
          do updated <- now;
          let updatedBookmark :=
            b_with_updatedAt updated (applyChanges changes oldBookmark) in
          let s1 := saveBookmarks
            (set_bookmarks (<[index := updatedBookmark]> (bookmarks s)) s) in
          do s2 <- (if negb (String.eqb oldCategoryId (b_categoryId updatedBookmark))
                    then do s' <- updateCategoryBookmarkCount oldCategoryId s1;
                         updateCategoryBookmarkCount (b_categoryId updatedBookmark) s'
                    else ret s1);
          do s3 <- (if negb (bool_decide (oldTags = b_tags updatedBookmark))
                    then updateTags (b_tags updatedBookmark) s2
                    else ret s2);
          ret (true, s3)
      end
  end.

(** [deleteBookmark] of the store. *)
Definition deleteBookmark (id : string) (s : Store) : Eff (bool * Store) :=
  match findIndex (fun b => String.eqb (b_id b) id) (bookmarks s) with
  | None => ret (false, s)
  | Some index =>
      match bookmarks s !! index with
      | None => ret (false, s)
      | Some bookmark =>
          let s1 := saveBookmarks
            (set_bookmarks (delete index (bookmarks s)) s) in
          do s2 <- updateCategoryBookmarkCount (b_categoryId bookmark) s1;
          do s3 <- (if (0 <? length (b_tags bookmark))%nat
                    then updateTags (b_tags bookmark) s2
                    else ret s2);
          ret (true, s3)
      end
  end.

(** [deleteCategory] of the store. *)
Definition deleteCategory (id : string) (s : Store) : Eff (bool * Store) :=
  match List.find (fun c => String.eqb (c_id c) id) (categories s) with
  | None => ret (false, s)
  | Some category =>
      if JS.truthy_obool (c_builtin category) then ret (false, s)
      else
        let affectedBookmarks :=
          List.filter (fun b => String.eqb (b_categoryId b) id) (bookmarks s) in
        do s1 <- forEach
                   (fun acc bookmark =>
                      do r <- updateBookmark (b_id bookmark)
                                (changeCategoryId "uncategorized") acc;
                      ret (snd r))
                   affectedBookmarks s;
        let categories' :=
          List.filter (fun c => negb (String.eqb (c_id c) id)) (categories s1) in
        ret (true, saveCategories (set_categories categories' s1))
  end.

(** *** The storage backed service ([services/bookmark.ts]) *)

(** [updateCategoryCount]: add [delta] to one stored category's count. *)
Definition updateCategoryCount (categoryId : string) (delta : Z)
    (st : Storage) : Eff Storage :=
  match findIndex (fun c => String.eqb (c_id c) categoryId) (st_categories st) with
  | None => ret st
  | Some categoryIndex =>
      match st_categories st !! categoryIndex with
      | None => ret st
      | Some c =>
          do updated <- now;
          ret (st_set_categories
                 (<[categoryIndex :=
                      c_with_count (c_bookmarkCount c + delta) updated c]>
                    (st_categories st)) st)
      end
  end.

(** [deleteBookmark] of the service. *)
Definition service_deleteBookmark (id : string) (st : Storage)
    : Eff (bool * Storage) :=
  match findIndex (fun b => String.eqb (b_id b) id) (st_bookmarks st) with
  | None => ret (false, st)
  | Some bookmarkIndex =>
      match st_bookmarks st !! bookmarkIndex with
      | None => ret (false, st)
      | Some bookmark =>
          do st1 <- updateCategoryCount (b_categoryId bookmark) (-1) st;
          ret (true, st_set_bookmarks
                       (delete bookmarkIndex (st_bookmarks st)) st1)
      end
  end.

(** *** The tree walking [syncBookmarks] ([services/bookmark.ts]) *)

(** [bookmarkMap]: stored bookmarks by [originalId], those without one
    are skipped (lines 105-111). *)
Definition originalIdMap (existingBookmarks : list Bookmark)
    : gmap string Bookmark :=
  fold_left (fun m b =>
               if JS.truthy_ostr (b_originalId b)
               then <[JS.ostr_or (b_originalId b) "" := b]> m else m)
            existingBookmarks ∅.

(** [categoryMap] holds references to the category objects that also sit
    in [newCategories]; a reference is the position in that array. *)
Definition categoryRefs (existingCategories : list Category) : gmap string nat :=
  fold_left (fun m ic => <[c_id (snd ic) := fst ic]> m)
            (imap (fun i c => (i, c)) existingCategories) ∅.

Definition initSync (existingCategories : list Category) : SyncState :=
  {| sy_bookmarks := []; sy_newCategories := existingCategories;
     sy_categoryMap := categoryRefs existingCategories |}.

(** Lines 134-158: find or create the category of a folder. *)
Definition folderCategory (existingCategories : list Category)
    (node : BrowserBookmarkNode) (parentCategoryId : option string)
    (s : SyncState) : Eff (string * SyncState) :=
  match List.find (fun c => String.eqb (c_name c) (n_title node)
                            && negb (JS.truthy_obool (c_builtin c)))
                  existingCategories with
  | Some existingCategory => ret (c_id existingCategory, s)
  | None =>
      do categoryId <- uuid;
      do created <- (if JS.truthy_onum (n_dateAdded node)
                     then ret (JS.onum_or (n_dateAdded node) 0) else now);
      do updated <- now;
      let newCategory :=
        {| c_id := categoryId; c_name := n_title node;
           c_parentId := parentCategoryId; c_color := None; c_icon := None;
           c_order := JS.onum_or (n_index node) 0;
           c_createdAt := created; c_updatedAt := updated;
           c_bookmarkCount := 0; c_isAiGenerated := false;
           c_builtin := None; c_level := None;
           c_folderState := Some COLLAPSED |} in
      ret (categoryId,
           {| sy_bookmarks := sy_bookmarks s;
              sy_newCategories := sy_newCategories s ++ [newCategory];
              sy_categoryMap :=
                <[categoryId := length (sy_newCategories s)]>
                  (sy_categoryMap s) |})
  end.

(** Lines 168-205: keep, update or create the bookmark of a leaf. *)
Definition syncLeaf (bookmarkMap : gmap string Bookmark)
    (node : BrowserBookmarkNode) (parentCategoryId : option string)
    (s : SyncState) : Eff SyncState :=
  let existingBookmark := bookmarkMap !! n_id node in
  let keep :=
    match existingBookmark with
    | Some e => JS.onum_or (n_dateAdded node) 0 <=? b_updatedAt e
    | None => false
    end in
  match existingBookmark, keep with
  | Some e, true =>
      ret {| sy_bookmarks := sy_bookmarks s ++ [e];
             sy_newCategories := sy_newCategories s;
             sy_categoryMap := sy_categoryMap s |}
  | _, _ =>
      let categoryId := JS.ostr_or parentCategoryId "uncategorized" in
      let url := JS.ostr_or (n_url node) "" in
      do newId <- (match existingBookmark with
                   | Some e => if String.eqb (b_id e) "" then uuid
                               else ret (b_id e)
                   | None => uuid
                   end);
      do created <- (match existingBookmark with
                     | Some e =>
                         if negb (b_createdAt e =? 0) then ret (b_createdAt e)
                         else if JS.truthy_onum (n_dateAdded node)
                              then ret (JS.onum_or (n_dateAdded node) 0)
                              else now
                     | None =>
                         if JS.truthy_onum (n_dateAdded node)
                         then ret (JS.onum_or (n_dateAdded node) 0)
                         else now
                     end);
      do updated <- now;
      let bookmark :=
        {| b_id := newId;
           b_title := n_title node;
           b_url := url;
           b_favicon := Some ("chrome://favicon/" ++ url)%string;
           b_description := None;
           b_categoryId := categoryId;
           b_tags := match existingBookmark with
                     | Some e => b_tags e
                     | None => []
                     end;
           b_createdAt := created;
           b_updatedAt := updated;
           b_lastVisited := None;
           b_visitCount := match existingBookmark with
                           | Some e => JS.num_or (b_visitCount e) 0
                           | None => 0
                           end;
           b_aiGenerated := match existingBookmark with
                            | Some e => b_aiGenerated e
                            | None => None
                            end;
           b_originalId := Some (n_id node);
           b_parentId := n_parentId node;
           b_index := n_index node |} in
      let newCategories' :=
        match sy_categoryMap s !! categoryId with
        | Some ref =>
            match sy_newCategories s !! ref with
            | Some category =>
                <[ref := c_with_count (c_bookmarkCount category + 1)
                                      (c_updatedAt category) category]>
                  (sy_newCategories s)
            | None => sy_newCategories s
            end
        | None => sy_newCategories s
        end in
      ret {| sy_bookmarks := sy_bookmarks s ++ [bookmark];
             sy_newCategories := newCategories';
             sy_categoryMap := sy_categoryMap s |}
  end.

(** [processBookmarkNode] (lines 122-206). *)
Fixpoint processBookmarkNode (existingCategories : list Category)
    (bookmarkMap : gmap string Bookmark) (node : BrowserBookmarkNode)
    (parentCategoryId : option string) (s : SyncState) {struct node}
    : Eff SyncState :=
  if negb (JS.truthy_ostr (n_parentId node)) then
    match n_children node with
    | Some children =>
        forEach (fun acc child =>
                   processBookmarkNode existingCategories bookmarkMap
                                       child None acc)
                children s
    | None => ret s
    end
  else if negb (JS.truthy_ostr (n_url node)) then
    do '(categoryId, s1) <-
      folderCategory existingCategories node parentCategoryId s;
    match n_children node with
    | Some children =>
        forEach (fun acc child =>
                   processBookmarkNode existingCategories bookmarkMap
                                       child (Some categoryId) acc)
                children s1
    | None => ret s1
    end
  else syncLeaf bookmarkMap node parentCategoryId s.

(** [syncBookmarks] of the service: [None] when the host returns no tree
    (the routine throws and nothing is written). *)
Definition syncBookmarks (rootNode : list BrowserBookmarkNode) (st : Storage)
    : Eff (option Storage) :=
  match rootNode with
  | [] => ret None
  | root :: _ =>
      let existingBookmarks := st_bookmarks st in
      let existingCategories := st_categories st in
      let bookmarkMap := originalIdMap existingBookmarks in
      do s <- (match n_children root with
               | Some children =>
                   forEach (fun acc child =>
                              processBookmarkNode existingCategories
                                                  bookmarkMap child None acc)
                           children (initSync existingCategories)
               | None => ret (initSync existingCategories)
               end);
      do synced <- now;
      ret (Some {| st_bookmarks := sy_bookmarks s;
                   st_categories := sy_newCategories s;
                   st_tags := st_tags st;
                   st_lastSync := synced |})
  end.

(** *** Query projection *)

(** [a.localeCompare(b)] of the host. *)
Variable localeCompare : string -> string -> Z.

(** The category stage of [filteredBookmarks] (lines 36-52). *)
Definition categoryFilter (search : SearchParams) (result : list Bookmark)
    : Eff (list Bookmark) :=
  let categoryId := JS.ostr_or (sp_categoryId search) "" in
  if JS.truthy_ostr (sp_categoryId search) && negb (String.eqb categoryId "all")
  then
    if String.eqb categoryId "uncategorized" then
      ret (List.filter (fun bookmark =>
                          String.eqb (b_categoryId bookmark) ""
                          || String.eqb (b_categoryId bookmark) "uncategorized")
                       result)
    else if String.eqb categoryId "frequent" then
      ret (take 20 (sort (fun a b => b_visitCount b - b_visitCount a) result))
    else if String.eqb categoryId "recent" then
      do t <- now;
      let thirtyDaysAgo := t - 30 * 24 * 60 * 60 * 1000 in
      ret (List.filter (fun bookmark => thirtyDaysAgo <=? b_createdAt bookmark)
                       result)
    else
      ret (List.filter (fun bookmark =>
                          String.eqb (b_categoryId bookmark) categoryId)
                       result)
  else ret result.

(** The tag stage of [filteredBookmarks] (lines 55-59). *)
Definition tagFilter (search : SearchParams) (result : list Bookmark)
    : list Bookmark :=
  match sp_tags search with
  | Some tags =>
      if (0 <? length tags)%nat
      then List.filter (fun bookmark =>
                          forallb (fun tag => arr_includes (b_tags bookmark) tag)
                                  tags)
                       result
      else result
  | None => result
  end.

(** The keyword stage of [filteredBookmarks] (lines 62-72). *)
Definition keywordFilter (search : SearchParams) (result : list Bookmark)
    : list Bookmark :=
  if JS.truthy_ostr (sp_keyword search) then
    let keyword := toLowerCase (JS.ostr_or (sp_keyword search) "") in
    List.filter (fun bookmark =>
                   includes (toLowerCase (b_title bookmark)) keyword
                   || includes (toLowerCase (b_url bookmark)) keyword
                   || match b_description bookmark with
                      | Some d => includes (toLowerCase d) keyword
                      | None => false
                      end
                   || existsb (fun tag => includes (toLowerCase tag) keyword)
                              (b_tags bookmark))
                result
  else result.

(** The comparator of the final ordering (lines 75-99). *)
Definition compareBookmarks (search : SearchParams) (a b : Bookmark) : Z :=
  let comparison :=
    match sp_sortBy search with
    | Some SortTitle => localeCompare (b_title a) (b_title b)
    | Some SortDateAdded => b_createdAt a - b_createdAt b
    | Some SortLastVisited =>
        JS.onum_or (b_lastVisited a) 0 - JS.onum_or (b_lastVisited b) 0
    | Some SortUrl => localeCompare (b_url a) (b_url b)
    | None => b_createdAt a - b_createdAt b
    end in
  match sp_sortOrder search with
  | Some Asc => comparison
  | _ => - comparison
  end.

(** [filteredBookmarks] of the store, up to the final [enhanceBookmarks]
    call, which decorates every record for display and neither drops nor
    reorders any. *)
Definition filteredBookmarks (search : SearchParams) (bookmarks : list Bookmark)
    : Eff (list Bookmark) :=
  do result <- categoryFilter search bookmarks;
  let result := tagFilter search result in
  let result := keywordFilter search result in
  ret (sort (compareBookmarks search) result).

(** [searchBookmarks] of the service ([services/bookmark.ts]). *)
Definition service_searchBookmarks (keyword categoryId : option string)
    (tags : option (list string)) (bookmarks : list Bookmark)
    : Eff (list Bookmark) :=
  let cid := JS.ostr_or categoryId "" in
  do filtered <-
    (if JS.truthy_ostr categoryId && negb (String.eqb cid "all") then
       if String.eqb cid "frequent" then
         ret (take 20 (sort (fun a b => JS.num_or (b_visitCount b) 0
                                        - JS.num_or (b_visitCount a) 0)
                            bookmarks))
       else if String.eqb cid "recent" then
         do t <- now;
         let oneWeekAgo := t - 7 * 24 * 60 * 60 * 1000 in
         ret (sort (fun a b => b_createdAt b - b_createdAt a)
                   (List.filter (fun b => oneWeekAgo <? b_createdAt b)
                                bookmarks))
       else if String.eqb cid "uncategorized" then
         ret (List.filter (fun b => String.eqb (b_categoryId b) "uncategorized")
                          bookmarks)
       else
         ret (List.filter (fun b => String.eqb (b_categoryId b) cid) bookmarks)
     else ret bookmarks);
  let filtered :=
    match tags with
    | Some tags =>
        if (0 <? length tags)%nat
        then List.filter (fun b =>
                            existsb (fun tagId => arr_includes (b_tags b) tagId)
                                    tags)
                         filtered
        else filtered
    | None => filtered
    end in
  let filtered :=
    if JS.truthy_ostr keyword && negb (String.eqb (trim (JS.ostr_or keyword "")) "")
    then
      let searchTerm := toLowerCase (trim (JS.ostr_or keyword "")) in
      List.filter (fun b =>
                     includes (toLowerCase (b_title b)) searchTerm
                     || includes (toLowerCase (b_url b)) searchTerm
                     || match b_description b with
                        | Some d => negb (String.eqb d "")
                                    && includes (toLowerCase d) searchTerm
                        | None => false
                        end)
                  filtered
    else filtered in
  ret filtered.

End Engine.

(** ** Category tree projection ([buildCategoryTree]) *)

(** [category.parentId || 'root'] *)
Definition parentKey (category : Category) : string :=
  JS.ostr_or (c_parentId category) "root".

(** Lines 221-237: the groups of categories by parent key. *)
Definition groupByParent (categories : list Category)
    : gmap string (list Category) :=
  let categoryMap0 :=
    fold_left (fun m category =>
                 match m !! parentKey category with
                 | Some _ => m
                 | None => <[parentKey category := []]> m
                 end)
              categories ∅ in
  fold_left (fun m category =>
               let children := default [] (m !! parentKey category) in
               <[parentKey category := children ++ [category]]> m)
            categories categoryMap0.

(** [all.map(f)] for a callback that may fail to return. *)
Definition mapOpt {A B} (f : A -> option B) : list A -> option (list B) :=
  fix go (xs : list A) : option (list B) :=
    match xs with
    | [] => Some []
    | x :: xs' =>
        match f x with
        | Some y => match go xs' with
                    | Some ys => Some (y :: ys)
                    | None => None
                    end
        | None => None
        end
    end.

(** [buildTree] (lines 240-253).  The recursion of the source follows the
    [id] of each child and need not end; [fuel] bounds its depth and [None]
    stands for a call that does not return. *)
Fixpoint buildTree (fuel : nat) (categoryMap : gmap string (list Category))
    (parentId : string) (level : Z) : option (list CategoryTree) :=
  match fuel with
  | O => None
  | S fuel' =>
      let children := default [] (categoryMap !! parentId) in
      match mapOpt (fun child =>
                      match buildTree fuel' categoryMap (c_id child) (level + 1) with
                      | Some childCategories =>
                          Some (CNode (c_with_level level
                                         (if level <? 1 then EXPANDED else COLLAPSED)
                                         child)
                                      childCategories)
                      | None => None
                      end)
                   children with
      | Some nodes =>
          Some (sort (fun a b => c_order (ct_category a) - c_order (ct_category b))
                     nodes)
      | None => None
      end
  end.

Definition buildCategoryTree (fuel : nat) (categories : list Category)
    : option (list CategoryTree) :=
  buildTree fuel (groupByParent categories) "root" 0.

(** ** Node search ([utils/bookmarkHelper.ts]) *)

(** The test of lines 88-91. *)
Definition nodeMatches (lowerQuery : string) (node : EnhancedBookmarkNode) : bool :=
  let matchesTitle := includes (toLowerCase (e_title node)) lowerQuery in
  let matchesUrl :=
    if JS.truthy_ostr (e_url node)
    then includes (toLowerCase (JS.ostr_or (e_url node) "")) lowerQuery
    else false in
  matchesTitle || matchesUrl.

(** The inner function [search]; [results] is the array it pushes to.  The
    source guards the loop over the children with a length test; the loop
    over an empty array does nothing. *)
Fixpoint search (lowerQuery : string) (node : EnhancedBookmarkNode)
    (results : list EnhancedBookmarkNode) {struct node}
    : list EnhancedBookmarkNode :=
  let results1 :=
    if nodeMatches lowerQuery node then results ++ [node] else results in
  match e_children node with
  | Some children =>
      fold_left (fun acc child => search lowerQuery child acc) children results1
  | None => results1
  end.

Definition searchBookmarks (nodes : list EnhancedBookmarkNode) (query : string)
    : list EnhancedBookmarkNode :=
  if String.eqb query "" then []
  else
    let lowerQuery := toLowerCase query in
    fold_left (fun acc node => search lowerQuery node acc) nodes [].


(** ** Vocabulary of the statements *)

(** The number of bookmarks filed directly under category [cid]. *)
Definition directMembers (cid : string) (bs : list Bookmark) : Z :=
  Z.of_nat (length (List.filter (fun b => String.eqb (b_categoryId b) cid) bs)).





(** The first twenty bookmarks by descending [visitCount], and the others. *)
Definition byVisitsDesc (a b : Bookmark) : Z := b_visitCount b - b_visitCount a.

Definition mostVisited (bs : list Bookmark) : list Bookmark :=
  take 20 (sort byVisitsDesc bs).

Definition lessVisited (bs : list Bookmark) : list Bookmark :=
  drop 20 (sort byVisitsDesc bs).

Definition visitedTimes (v : Z) (b : Bookmark) : bool := b_visitCount b =? v.

(** The two stages that follow the category stage in the service's
    [searchBookmarks]: the bookmarks that carry one of the requested tags
    (all bookmarks when none is requested), and of these the ones whose
    title, url or description contains the trimmed keyword in lower case
    (all of them when the keyword is missing, empty or blank). *)
Definition carryingSomeTag (tags : option (list string)) (l : list Bookmark)
    : list Bookmark :=
  match tags with
  | Some (t :: ts) =>
      List.filter (fun b => existsb (arr_includes (b_tags b)) (t :: ts)) l
  | _ => l
  end.

Definition mentioning (keyword : option string) (l : list Bookmark)
    : list Bookmark :=
  match keyword with
  | Some k =>
      if String.eqb k "" || String.eqb (trim k) "" then l
      else
        List.filter
          (fun b =>
             includes (toLowerCase (b_title b)) (toLowerCase (trim k))
             || includes (toLowerCase (b_url b)) (toLowerCase (trim k))
             || match b_description b with
                | Some d =>
                    negb (String.eqb d "")
                    && includes (toLowerCase d) (toLowerCase (trim k))
                | None => false
                end)
          l
  | None => l
  end.

(** The bookmark carries every requested tag, respectively one of them. *)
Definition hasAllTags (tags : list string) (b : Bookmark) : Prop :=
  forall t, In t tags -> In t (b_tags b).

Definition hasSomeTag (tags : list string) (b : Bookmark) : Prop :=
  exists t, In t tags /\ In t (b_tags b).

(** Every tag name written on the bookmarks, with repetitions. *)
Definition allTagNames (bs : list Bookmark) : list string := flat_map b_tags bs.

(** How often [name] is written on the bookmarks. *)
Definition occurrences (name : string) (names : list string) : Z :=
  Z.of_nat (length (List.filter (String.eqb name) names)).

(** How many bookmarks carry [name]. *)
Definition referencing (name : string) (bs : list Bookmark) : Z :=
  Z.of_nat (length (List.filter (fun b => arr_includes (b_tags b) name) bs)).

(** The [folderState] that goes with a level. *)
Definition levelState (level : Z) : FolderState :=
  if level <? 1 then EXPANDED else COLLAPSED.

Definition byOrder (a b : Category) : Z := c_order a - c_order b.

(** The categories whose parent key is [key], in the order of the input. *)
Definition childrenOf (key : string) (categories : list Category) : list Category :=
  List.filter (fun c => String.eqb (parentKey c) key) categories.

(** [projects categories key level nodes]: [nodes] is the projection of the
    categories filed under [key].  Its records are those of the group, each
    with [level] and the [folderState] of that level written over whatever
    the record held, arranged by ascending [order] with equal orders left in
    input order; the children of a node are the projection, one level down,
    of the group filed under the node's [id]. *)
Inductive projects (categories : list Category)
    : string -> Z -> list CategoryTree -> Prop :=
| projects_group (key : string) (level : Z) (nodes : list CategoryTree)
      (group : list Category) :
    Permutation group (childrenOf key categories) ->
    StronglySorted (fun a b => c_order a <= c_order b) group ->
    (forall v, List.filter (fun c => c_order c =? v) group
               = List.filter (fun c => c_order c =? v) (childrenOf key categories)) ->
    List.map ct_category nodes
      = List.map (c_with_level level (levelState level)) group ->
    Forall (fun n => projects categories (c_id (ct_category n)) (level + 1)
                              (ct_children n))
           nodes ->
    projects categories key level nodes.

(** The loop of [deleteCategory] over the affected bookmarks.  A bookmark
    of the deleted category is either still waiting in [todo] and
    untouched, or has been moved. *)
Definition reassigned (id : string) (todo : list Bookmark)
    (b b' : Bookmark) : Prop :=
  if String.eqb (b_categoryId b) id
  then (In (b_id b) (b_id <$> todo) /\ b' = b) \/
       (exists t, b' = b_with_category "uncategorized" t b)
  else b' = b.

(** The bookmark nodes (those with a url) of a flattened host tree. *)
Definition flatLeaves (nodes : list FlatNode) : list FlatNode :=
  List.filter (fun n => JS.truthy_ostr (f_url n)) nodes.

(** Every node of a host tree, a parent before its children. *)
Fixpoint treeNodes (node : BrowserBookmarkNode) : list BrowserBookmarkNode :=
  node :: match n_children node with
          | Some children => flat_map treeNodes children
          | None => []
          end.

(** The record is the same up to its [updatedAt] stamp. *)
Definition restamped (b1 b2 : Bookmark) : Prop :=
  exists t, b2 = b_with_updatedAt t b1.

Definition c_restamped (c1 c2 : Category) : Prop :=
  exists t, c2 = c_with_updatedAt t c1.

(** What [convertBrowserBookmarks] hands out for the bookmark node [n]: a
    record correlated to [n] that already carries the node's url and title
    and a settled favicon, stamped with a reading of the clock. *)
Definition fromNode (dateNow : nat -> Z) (urlOrigin : string -> option string)
    (n : FlatNode) (b : Bookmark) : Prop :=
  b_originalId b = Some (f_id n) /\
  JS.str_or (JS.ostr_or (f_url n) "") (b_url b) = b_url b /\
  JS.str_or (f_title n) (b_title b) = b_title b /\
  extractFavicon urlOrigin b = b /\
  exists k, b_updatedAt b = dateNow k.

(** The bookmark nodes and the folder nodes that [processBookmarkNode]
    reaches: a node without [parentId] is skipped and its children are
    walked, a folder is walked with its children, the children of a
    bookmark node are not walked. *)
Fixpoint syncLeaves (node : BrowserBookmarkNode) : list BrowserBookmarkNode :=
  if negb (JS.truthy_ostr (n_parentId node))
     || negb (JS.truthy_ostr (n_url node))
  then match n_children node with
       | Some children => flat_map syncLeaves children
       | None => []
       end
  else [node].

Fixpoint syncFolders (node : BrowserBookmarkNode) : list BrowserBookmarkNode :=
  let below := match n_children node with
               | Some children => flat_map syncFolders children
               | None => []
               end in
  if negb (JS.truthy_ostr (n_parentId node)) then below
  else if negb (JS.truthy_ostr (n_url node)) then node :: below
  else [].

(** What [processBookmarkNode] looks at when it searches the category of a
    folder: the name of a category and whether it is builtin. *)
Definition folderKey (c : Category) : string * bool :=
  (c_name c, JS.truthy_obool (c_builtin c)).

(** [bs] pushed to the output array of a pass. *)
Definition pushed (bs : list Bookmark) (s : SyncState) : SyncState :=
  {| sy_bookmarks := sy_bookmarks s ++ bs;
     sy_newCategories := sy_newCategories s;
     sy_categoryMap := sy_categoryMap s |}.

(** The stored bookmark [b] is correlated to the host node [n] and is not
    older than it. *)
Definition keptFor (n : BrowserBookmarkNode) (b : Bookmark) : Prop :=
  b_originalId b = Some (n_id n) /\
  JS.onum_or (n_dateAdded n) 0 <= b_updatedAt b.

(** The bookmark nodes a [syncBookmarks] pass reaches from the children of
    the first root. *)
Definition walkedLeaves (rootNode : list BrowserBookmarkNode)
    : list BrowserBookmarkNode :=
  match rootNode with
  | [] => []
  | root :: _ =>
      match n_children root with
      | Some children => flat_map syncLeaves children
      | None => []
      end
  end.

(** The state of the tag map after the names [seen] have been counted. *)
Definition TagMap_counts (m : TagMap) (seen : list string) : Prop :=
  NoDup (List.map fst m) /\
  (forall k v, TagMap_get k m = Some v ->
               t_name v = k /\ t_count v = occurrences k seen) /\
  (forall k, In k seen -> exists v, TagMap_get k m = Some v).


(** ** Further routines of the store, the services and the helpers *)

(** ** Counters of the runtime *)

(** A counter is a double that holds an integer.  [nearestDouble x] is the
    double nearest to the integer [x], a tie going to the even
    significand: up to [2^53] in magnitude every integer is a double,
    beyond that only every second, then every fourth integer, and so on.
    Magnitudes from [2^1024] on, which the runtime turns into [Infinity],
    are outside the model. *)
Definition nearestDouble (x : Z) : Z :=
  let m := Z.abs x in
  if m <=? 2 ^ 53 then x
  else
    let unit := 2 ^ (Z.log2 m - 52) in
    let q := m / unit in
    let r := m mod unit in
    let q' :=
      if 2 * r <? unit then q
      else if unit <? 2 * r then q + 1
      else if Z.even q then q else q + 1 in
    Z.sgn x * (q' * unit).

(** [a + b] on counters. *)
Definition js_add (a b : Z) : Z := nearestDouble (a + b).

(** Field updates of the remaining spreads. *)
Definition b_with_originalId (original : option string) (b : Bookmark) : Bookmark :=
  {| b_id := b_id b; b_title := b_title b; b_url := b_url b;
     b_favicon := b_favicon b; b_description := b_description b;
     b_categoryId := b_categoryId b; b_tags := b_tags b;
     b_createdAt := b_createdAt b; b_updatedAt := b_updatedAt b;
     b_lastVisited := b_lastVisited b; b_visitCount := b_visitCount b;
     b_aiGenerated := b_aiGenerated b; b_originalId := original;
     b_parentId := b_parentId b; b_index := b_index b |}.

(** [{ ...bookmark, visitCount: count, lastVisited: visited }] *)
Definition b_with_visit (count : Z) (visited : option Z) (b : Bookmark) : Bookmark :=
  {| b_id := b_id b; b_title := b_title b; b_url := b_url b;
     b_favicon := b_favicon b; b_description := b_description b;
     b_categoryId := b_categoryId b; b_tags := b_tags b;
     b_createdAt := b_createdAt b; b_updatedAt := b_updatedAt b;
     b_lastVisited := visited; b_visitCount := count;
     b_aiGenerated := b_aiGenerated b; b_originalId := b_originalId b;
     b_parentId := b_parentId b; b_index := b_index b |}.

(** [category.folderState = state] *)
Definition c_with_folderState (state : FolderState) (c : Category) : Category :=
  {| c_id := c_id c; c_name := c_name c; c_parentId := c_parentId c;
     c_color := c_color c; c_icon := c_icon c; c_order := c_order c;
     c_createdAt := c_createdAt c; c_updatedAt := c_updatedAt c;
     c_bookmarkCount := c_bookmarkCount c;
     c_isAiGenerated := c_isAiGenerated c; c_builtin := c_builtin c;
     c_level := c_level c; c_folderState := Some state |}.

(** *** [flattenBookmarkTree] (second bookmark service, lines 58-93) *)

(** The body of [traverse] for one node; [result] is the array it pushes
    to and [parentId] the argument of the enclosing call. *)
Fixpoint traverse (parentId : option string) (node : BrowserBookmarkNode)
    (result : list FlatNode) {struct node} : list FlatNode :=
  if String.eqb (n_id node) "toolbar_____" then
    match n_children node with
    | Some children =>
        fold_left (fun acc child => traverse (Some (n_id node)) child acc)
                  children result
    | None => result
    end
  else
    let bookmarkNode :=
      {| f_id := n_id node;
         f_parentId := if JS.truthy_ostr parentId then parentId
                       else n_parentId node;
         f_index := n_index node;
         f_url := n_url node;
         f_title := n_title node;
         f_dateAdded := n_dateAdded node;
         f_dateGroupModified := n_dateGroupModified node |} in
    let result1 := result ++ [bookmarkNode] in
    match n_children node with
    | Some children =>
        fold_left (fun acc child => traverse (Some (n_id node)) child acc)
                  children result1
    | None => result1
    end.

Definition flattenBookmarkTree (tree : list BrowserBookmarkNode) : list FlatNode :=
  fold_left (fun acc node => traverse None node acc) tree [].

(** *** [updateCategoryFolderState] of the store (lines 511-540) *)

(** The loop of [findAndUpdate] over an array: the first element whose
    visit succeeds ends the loop. *)
Definition firstHit {A} (visit : A -> bool * A) : list A -> bool * list A :=
  fix go (cats : list A) : bool * list A :=
    match cats with
    | [] => (false, [])
    | cat :: rest =>
        let (found, cat') := visit cat in
        if found then (true, cat' :: rest)
        else let (found', rest') := go rest in (found', cat' :: rest')
    end.

(** One round of the loop of [findAndUpdate]: the element itself, then its
    children. *)
Fixpoint findAndUpdate_visit (targetId : string) (state : FolderState)
    (cat : CategoryTree) {struct cat} : bool * CategoryTree :=
  if String.eqb (c_id (ct_category cat)) targetId then
    (true, CNode (c_with_folderState state (ct_category cat)) (ct_children cat))
  else if (0 <? length (ct_children cat))%nat then
    let (found, children') :=
      firstHit (findAndUpdate_visit targetId state) (ct_children cat) in
    (found, CNode (ct_category cat) children')
  else (false, cat).

Definition findAndUpdate (cats : list CategoryTree) (targetId : string)
    (state : FolderState) : bool * list CategoryTree :=
  firstHit (findAndUpdate_visit targetId state) cats.

(** [updateCategoryFolderState] works on the projected tree, which is not
    written to the storage. *)
Definition updateCategoryFolderState (id : string) (folderState : FolderState)
    (categoryTree : list CategoryTree) : list CategoryTree :=
  snd (findAndUpdate categoryTree id folderState).

(** What the service reads from [settings.ai]. *)
Record AiSettings := mkAiSettings {
  set_autoClassify : bool;
  set_apiKey : string
}.

Section MoreEngine.

Variable dateNow : nat -> Z.
Variable uuidv4 : nat -> string.
Variable urlOrigin : string -> option string.
(** [bookmarkService.addBookmarkToBrowser]: the id of the node the host
    creates, [None] when the host refuses. *)
Variable addBookmarkToBrowser : Bookmark -> option string.

(** *** [syncBookmarks] of the second bookmark service (lines 20-51) *)

(** [bookmarkTree] is what [browser.bookmarks.getTree()] yields, [None] when
    it throws. *)
Definition flat_syncBookmarks (bookmarkTree : option (list BrowserBookmarkNode))
    (st : Storage) : Eff (bool * Storage) :=
  match bookmarkTree with
  | None => ret (false, st)
  | Some tree =>
      let browserBookmarks := flattenBookmarkTree tree in
      let storedBookmarks := st_bookmarks st in
      let storedCategories := st_categories st in
      do '(bookmarks, categories) <-
        convertBrowserBookmarks dateNow uuidv4 urlOrigin browserBookmarks
                                storedBookmarks storedCategories;
      do synced <- now dateNow;
      ret (true, {| st_bookmarks := bookmarks; st_categories := categories;
                    st_tags := st_tags st; st_lastSync := synced |})
  end.

(** *** More of the Pinia bookmark store ([stores/bookmark.ts]) *)

(** [addBookmark] of the store (lines 192-241). *)
Definition addBookmark (bookmark : BookmarkChanges) (s : Store)
    : Eff (Bookmark * Store) :=
  do newId <- uuid uuidv4;
  do created <- now dateNow;
  do updated <- now dateNow;
  let newBookmark :=
    applyChanges bookmark
      {| b_id := newId;
         b_title := JS.ostr_or (ch_title bookmark) "未命名书签";
         b_url := JS.ostr_or (ch_url bookmark) "";
         b_favicon := None;
         b_description :=
           Some (JS.ostr_or (default None (ch_description bookmark)) "");
         b_categoryId := JS.ostr_or (ch_categoryId bookmark) "uncategorized";
         b_tags := default [] (ch_tags bookmark);
         b_createdAt := created;
         b_updatedAt := updated;
         b_lastVisited := None;
         b_visitCount := 0;
         b_aiGenerated := None;
         b_originalId := None;
         b_parentId := None;
         b_index := None |} in
  let newBookmark :=
    if negb (JS.truthy_ostr (default None (ch_originalId bookmark))) then
      match addBookmarkToBrowser newBookmark with
      | Some browserId => b_with_originalId (Some browserId) newBookmark
      | None => newBookmark
      end
    else newBookmark in
  let s1 := saveBookmarks (set_bookmarks (bookmarks s ++ [newBookmark]) s) in
  do s2 <- updateCategoryBookmarkCount dateNow (b_categoryId newBookmark) s1;
  do s3 <- (if (0 <? length (b_tags newBookmark))%nat
            then updateTags dateNow uuidv4 (b_tags newBookmark) s2
            else ret s2);
  ret (newBookmark, s3).

(** [addBookmarkVisit] of the store (lines 548-568). *)
Definition addBookmarkVisit (id : string) (s : Store) : Eff Store :=
  match findIndex (fun b => String.eqb (b_id b) id) (bookmarks s) with
  | None => ret s
  | Some index =>
      match bookmarks s !! index with
      | None => ret s
      | Some bookmark =>
          do visited <- now dateNow;
          let updatedBookmark :=
            b_with_visit (js_add (JS.num_or (b_visitCount bookmark) 0) 1)
                         (Some visited) bookmark in
          ret (saveBookmarks
                 (set_bookmarks (<[index := updatedBookmark]> (bookmarks s)) s))
      end
  end.

(** *** More of the storage backed service ([services/bookmark.ts]) *)

(** [ensureDefaultCategories] (lines 39-87). *)
Definition ensureDefaultCategories (st : Storage) : Eff Storage :=
  let categories := st_categories st in
  if (length categories =? 0)%nat then
    do defaultCategories <- mapM (defaultCategory dateNow) DEFAULT_CATEGORIES;
    ret (st_set_categories defaultCategories st)
  else
    let existingIds : gset string := list_to_set (c_id <$> categories) in
    do missingCategories <-
      forEach (fun missing cat =>
                 if negb (bool_decide (fst (fst cat) ∈ existingIds))
                 then do c <- defaultCategory dateNow cat; ret (missing ++ [c])
                 else ret missing)
              DEFAULT_CATEGORIES [];
    if (0 <? length missingCategories)%nat
    then ret (st_set_categories (categories ++ missingCategories) st)
    else ret st.

(** [initialize] (lines 21-34); the flag is the [_initialized] field. *)
Definition initialize (initialized : bool) (st : Storage)
    : Eff (bool * Storage) :=
  if initialized then ret (initialized, st)
  else do st' <- ensureDefaultCategories st; ret (true, st').

(** [addBookmark] of the service (lines 227-270).  When automatic
    classification is switched on and a key is set, the routine launches
    [analyzeBookmark] for the new bookmark and returns without waiting
    for it: the result names the bookmark whose analysis is under way.
    The steps of that analysis are taken later, in between the calls that
    follow. *)
Definition service_addBookmark (settings : AiSettings)
    (bookmark : BookmarkChanges) (st : Storage)
    : Eff ((Bookmark * option string) * Storage) :=
  do t <- now dateNow;
  do bookmarkId <- uuid uuidv4;
  let newBookmark :=
    applyChanges bookmark
      {| b_id := bookmarkId;
         b_title := JS.ostr_or (ch_title bookmark) "";
         b_url := JS.ostr_or (ch_url bookmark) "";
         b_favicon :=
           Some (JS.ostr_or (default None (ch_favicon bookmark))
                   ("chrome://favicon/"
                    ++ default "undefined" (ch_url bookmark))%string);
         b_description :=
           Some (JS.ostr_or (default None (ch_description bookmark)) "");
         b_categoryId := JS.ostr_or (ch_categoryId bookmark) "uncategorized";
         b_tags := default [] (ch_tags bookmark);
         b_createdAt := t;
         b_updatedAt := t;
         b_lastVisited := None;
         b_visitCount := 0;
         b_aiGenerated := None;
         b_originalId := None;
         b_parentId := None;
         b_index := None |} in
  let existingBookmarks := st_bookmarks st in
  let updatedBookmarks := existingBookmarks ++ [newBookmark] in
  do st1 <- updateCategoryCount dateNow (b_categoryId newBookmark) 1 st;
  let st2 := st_set_bookmarks updatedBookmarks st1 in
  if set_autoClassify settings && negb (String.eqb (set_apiKey settings) "")
  then ret ((newBookmark, Some (b_id newBookmark)), st2)
  else ret ((newBookmark, None), st2).

(** [updateBookmark] of the service (lines 277-310); [None] when the routine
    throws because no bookmark carries [id]. *)
Definition service_updateBookmark (id : string) (data : BookmarkChanges)
    (st : Storage) : Eff (option Bookmark * Storage) :=
  match findIndex (fun b => String.eqb (b_id b) id) (st_bookmarks st) with
  | None => ret (None, st)
  | Some bookmarkIndex =>
      match st_bookmarks st !! bookmarkIndex with
      | None => ret (None, st)
      | Some oldBookmark =>
          do updated <- now dateNow;
          let updatedBookmark :=
            b_with_updatedAt updated (applyChanges data oldBookmark) in
          let bookmarks := <[bookmarkIndex := updatedBookmark]> (st_bookmarks st) in
          do st1 <-
            (if JS.truthy_ostr (ch_categoryId data)
                && negb (String.eqb (JS.ostr_or (ch_categoryId data) "")
                                    (b_categoryId oldBookmark))
             then do st' <- updateCategoryCount dateNow
                              (b_categoryId oldBookmark) (-1) st;
                  updateCategoryCount dateNow
                    (JS.ostr_or (ch_categoryId data) "") 1 st'
             else ret st);
          ret (Some updatedBookmark, st_set_bookmarks bookmarks st1)
      end
  end.

End MoreEngine.

(** ** [analyzeBookmark] of the service ([services/bookmark.ts], lines 347-473) *)

(** [{ ...bookmark, aiGenerated: data, updatedAt: upd }] *)
Definition b_with_analysis (data : option AiGenerated) (upd : Z) (b : Bookmark)
    : Bookmark :=
  {| b_id := b_id b; b_title := b_title b; b_url := b_url b;
     b_favicon := b_favicon b; b_description := b_description b;
     b_categoryId := b_categoryId b; b_tags := b_tags b;
     b_createdAt := b_createdAt b; b_updatedAt := upd;
     b_lastVisited := b_lastVisited b; b_visitCount := b_visitCount b;
     b_aiGenerated := data; b_originalId := b_originalId b;
     b_parentId := b_parentId b; b_index := b_index b |}.

(** [updatedBookmark.tags = tags] *)
Definition b_with_tags (tags : list string) (b : Bookmark) : Bookmark :=
  {| b_id := b_id b; b_title := b_title b; b_url := b_url b;
     b_favicon := b_favicon b; b_description := b_description b;
     b_categoryId := b_categoryId b; b_tags := tags;
     b_createdAt := b_createdAt b; b_updatedAt := b_updatedAt b;
     b_lastVisited := b_lastVisited b; b_visitCount := b_visitCount b;
     b_aiGenerated := b_aiGenerated b; b_originalId := b_originalId b;
     b_parentId := b_parentId b; b_index := b_index b |}.

(** [tag.count = n; tag.updatedAt = upd] *)
Definition t_counted_at (n upd : Z) (t : Tag) : Tag :=
  {| t_id := t_id t; t_name := t_name t; t_color := t_color t; t_count := n;
     t_createdAt := t_createdAt t; t_updatedAt := upd;
     t_isAiGenerated := t_isAiGenerated t |}.

(** The working state of the tag loop: the stored tags followed by the new
    ones, [tagMap] as references into that array, and the ids collected for
    the bookmark. *)
Record TagWork := mkTagWork {
  tw_all : list Tag;
  tw_map : gmap string nat;
  tw_bookmarkTags : list string
}.

(** [tags.forEach(tag => tagMap.set(tag.name.toLowerCase(), tag))] *)
Definition tagRefs (tags : list Tag) : gmap string nat :=
  fold_left (fun m it => <[toLowerCase (t_name (snd it)) := fst it]> m)
            (imap (fun i t => (i, t)) tags) ∅.

Section Analysis.

Variable dateNow : nat -> Z.
Variable uuidv4 : nat -> string.
(** [aiService.analyzeBookmark]: [None] when the analysis fails, otherwise
    the [data] of the result, which may be missing. *)
Variable aiAnalyze : Bookmark -> option (option AiGenerated).

(** One round of the loop over the recommended tags (lines 431-455). *)
Definition recommendTag (work : TagWork) (tagName : string) : Eff TagWork :=
  let normTagName := toLowerCase tagName in
  match tw_map work !! normTagName with
  | Some ref =>
      match tw_all work !! ref with
      | Some tag =>
          do updated <- now dateNow;
          ret {| tw_all := <[ref := t_counted_at (js_add (t_count tag) 1)
                                                 updated tag]>
                             (tw_all work);
                 tw_map := tw_map work;
                 tw_bookmarkTags := tw_bookmarkTags work ++ [t_id tag] |}
      | None => ret work
      end
  | None =>
      do tagId <- uuid uuidv4;
      do created <- now dateNow;
      do updated <- now dateNow;
      let newTag :=
        {| t_id := tagId; t_name := tagName; t_color := None; t_count := 1;
           t_createdAt := created; t_updatedAt := updated;
           t_isAiGenerated := true |} in
      ret {| tw_all := tw_all work ++ [newTag];
             tw_map := <[normTagName := length (tw_all work)]> (tw_map work);
             tw_bookmarkTags := tw_bookmarkTags work ++ [tagId] |}
  end.

(** Lines 379-413: file the bookmark under the recommended category. *)
Definition recommendCategory (name : string) (updatedBookmark : Bookmark)
    (st : Storage) : Eff (Bookmark * Storage) :=
  let categories := st_categories st in
  do '(categoryId, st0) <-
    (match List.find (fun c => String.eqb (toLowerCase (c_name c))
                                          (toLowerCase name)) categories with
     | Some existingCategory => ret (c_id existingCategory, st)
     | None =>
         do newId <- uuid uuidv4;
         do created <- now dateNow;
         do updated <- now dateNow;
         let newCategory :=
           {| c_id := newId; c_name := name; c_parentId := None;
              c_color := None; c_icon := None;
              c_order := Z.of_nat (length categories);
              c_createdAt := created; c_updatedAt := updated;
              c_bookmarkCount := 1; c_isAiGenerated := true;
              c_builtin := None; c_level := None; c_folderState := None |} in
         ret (newId, st_set_categories (categories ++ [newCategory]) st)
     end);
  let updatedBookmark :=
    b_with_category categoryId (b_updatedAt updatedBookmark) updatedBookmark in
  do st1 <- updateCategoryCount dateNow "uncategorized" (-1) st0;
  do st2 <- updateCategoryCount dateNow categoryId 1 st1;
  ret (updatedBookmark, st2).

(** [analyzeBookmark]; [None] is the [null] the routine returns after it
    caught its own exception. *)
Definition analyzeBookmark (id : string) (st : Storage)
    : Eff (option Bookmark * Storage) :=
  match findIndex (fun b => String.eqb (b_id b) id) (st_bookmarks st) with
  | None => ret (None, st)
  | Some bookmarkIndex =>
      match st_bookmarks st !! bookmarkIndex with
      | None => ret (None, st)
      | Some bookmark =>
          match aiAnalyze bookmark with
          | None => ret (None, st)
          | Some data =>
              do updated <- now dateNow;
              let updatedBookmark := b_with_analysis data updated bookmark in
              let category :=
                match data with Some d => ai_category d | None => None end in
              do '(updatedBookmark, st1) <-
                (if JS.truthy_ostr category
                    && String.eqb (b_categoryId updatedBookmark) "uncategorized"
                 then recommendCategory (JS.ostr_or category "")
                                        updatedBookmark st
                 else ret (updatedBookmark, st));
              do '(updatedBookmark, st2) <-
                (match (match data with Some d => ai_tags d | None => None end) with
                 | Some tags =>
                     if (0 <? length tags)%nat then
                       let stored := st_tags st1 in
                       do work <- forEach recommendTag tags
                                    {| tw_all := stored;
                                       tw_map := tagRefs stored;
                                       tw_bookmarkTags := [] |};
                       ret (b_with_tags (tw_bookmarkTags work) updatedBookmark,
                            st_set_tags (tw_all work) st1)
                     else ret (updatedBookmark, st1)
                 | None => ret (updatedBookmark, st1)
                 end);
              ret (Some updatedBookmark,
                   st_set_bookmarks
                     (<[bookmarkIndex := updatedBookmark]> (st_bookmarks st))
                     st2)
          end
      end
  end.

End Analysis.

(** ** Display helpers ([utils/dateFormatter.ts], [enhanceBookmarks]) *)

(** A number in a template literal. *)
Definition showNumber (n : Z) : string := NilZero.string_of_int (Z.to_int n).

Section Display.

Variable dateNow : nat -> Z.
(** [formatDate] reads the calendar and the time zone of the host. *)
Variable formatDate : Z -> string.

(** [getRelativeTimeDescription]; [date] is the time value of the argument,
    [None] for an invalid date.  [new Date()] reads the clock. *)
Definition getRelativeTimeDescription (date : option Z) (locale : string)
    : Eff string :=
  do t <- now dateNow;
  match date with
  | None => ret "Invalid Date"
  | Some d =>
      let diffInSeconds := (t - d) / 1000 in
      if diffInSeconds <? 60 then
        ret (if String.eqb locale "zh-CN" then "刚刚" else "just now")
      else if diffInSeconds <? 3600 then
        let minutes := diffInSeconds / 60 in
        ret (if String.eqb locale "zh-CN"
             then showNumber minutes ++ "分钟前"
             else showNumber minutes ++ " minutes ago")%string
      else if diffInSeconds <? 86400 then
        let hours := diffInSeconds / 3600 in
        ret (if String.eqb locale "zh-CN"
             then showNumber hours ++ "小时前"
             else showNumber hours ++ " hours ago")%string
      else if diffInSeconds <? 2592000 then
        let days := diffInSeconds / 86400 in
        ret (if String.eqb locale "zh-CN"
             then showNumber days ++ "天前"
             else showNumber days ++ " days ago")%string
      else if diffInSeconds <? 31536000 then
        let months := diffInSeconds / 2592000 in
        ret (if String.eqb locale "zh-CN"
             then showNumber months ++ "个月前"
             else showNumber months ++ " months ago")%string
      else
        let years := diffInSeconds / 31536000 in
        ret (if String.eqb locale "zh-CN"
             then showNumber years ++ "年前"
             else showNumber years ++ " years ago")%string
  end.

(** [EnhancedBookmark]: a bookmark decorated for display. *)
Record EnhancedBookmark := mkEnhancedBookmark {
  eb_bookmark : Bookmark;
  eb_isFolder : bool;
  eb_level : Z;
  eb_formattedDate : string;
  eb_relativeTime : string;
  eb_path : list string
}.

(** [enhanceBookmarks] (second bookmark service, lines 194-212). *)
Definition enhanceBookmarks (bookmarks : list Bookmark)
    (categories : list Category) : Eff (list EnhancedBookmark) :=
  mapM (fun bookmark =>
          let category :=
            List.find (fun c => String.eqb (c_id c) (b_categoryId bookmark))
                      categories in
          let formatted := formatDate (b_createdAt bookmark) in
          do relative <- getRelativeTimeDescription
                           (Some (b_createdAt bookmark)) "zh-CN";
          ret {| eb_bookmark := bookmark;
                 eb_isFolder := false;
                 eb_level := 0;
                 eb_formattedDate := formatted;
                 eb_relativeTime := relative;
                 eb_path := match category with
                            | Some c => [c_name c]
                            | None => ["未分类"]
                            end |})
       bookmarks.

(** The computed [filteredBookmarks] of the store with its last step. *)
Definition displayedBookmarks (localeCompare : string -> string -> Z)
    (search : SearchParams) (s : Store) : Eff (list EnhancedBookmark) :=
  do result <- filteredBookmarks dateNow localeCompare search (bookmarks s);
  enhanceBookmarks result (categories s).

End Display.

(** ** Vocabulary of the further statements *)

(** The units of a relative time, the seconds each one lasts and the
    number of seconds from which the next one is used. *)
Inductive RelativeUnit := Minutes | Hours | Days | Months | Years.

Definition unitSeconds (u : RelativeUnit) : Z :=
  match u with
  | Minutes => 60
  | Hours => 3600
  | Days => 86400
  | Months => 2592000
  | Years => 31536000
  end.

Definition unitLimit (u : RelativeUnit) : option Z :=
  match u with
  | Minutes => Some 3600
  | Hours => Some 86400
  | Days => Some 2592000
  | Months => Some 31536000
  | Years => None
  end.

(** The largest number shown with a unit. *)
Definition unitMost (u : RelativeUnit) : option Z :=
  match u with
  | Minutes => Some 59
  | Hours => Some 23
  | Days => Some 29
  | Months => Some 12
  | Years => None
  end.

Definition ago (locale : string) (n : Z) (u : RelativeUnit) : string :=
  (showNumber n ++
   if String.eqb locale "zh-CN"
   then match u with
        | Minutes => "分钟前"
        | Hours => "小时前"
        | Days => "天前"
        | Months => "个月前"
        | Years => "年前"
        end
   else match u with
        | Minutes => " minutes ago"
        | Hours => " hours ago"
        | Days => " days ago"
        | Months => " months ago"
        | Years => " years ago"
        end)%string.


(** A host node with the [parentId] argument [traverse] is called with for
    it, in depth-first order. *)
Fixpoint withParent (parentId : option string) (node : BrowserBookmarkNode)
    : list (option string * BrowserBookmarkNode) :=
  (parentId, node)
    :: match n_children node with
       | Some children => flat_map (withParent (Some (n_id node))) children
       | None => []
       end.

Definition isToolbar (node : BrowserBookmarkNode) : bool :=
  String.eqb (n_id node) "toolbar_____".

Definition notToolbar (pn : option string * BrowserBookmarkNode) : bool :=
  negb (isToolbar (snd pn)).

(** The flat node [f] stands for the host node [node] reached below
    [parentId]. *)
Definition flatOf (pn : option string * BrowserBookmarkNode) (f : FlatNode)
    : Prop :=
  f_id f = n_id (snd pn) /\
  f_parentId f = (if JS.truthy_ostr (fst pn) then fst pn
                  else n_parentId (snd pn)) /\
  f_index f = n_index (snd pn) /\
  f_url f = n_url (snd pn) /\
  f_title f = n_title (snd pn) /\
  f_dateAdded f = n_dateAdded (snd pn) /\
  f_dateGroupModified f = n_dateGroupModified (snd pn).

(** The bookmark nodes of a host tree that a flat pass turns into records. *)
Definition flatBookmarkNodes (tree : list BrowserBookmarkNode)
    : list BrowserBookmarkNode :=
  List.filter (fun n => negb (isToolbar n) && JS.truthy_ostr (n_url n))
              (flat_map treeNodes tree).

(** The record [b] carries what the user attached to the stored record
    [e]: identity, category, tags, description, visits, analysis. *)
Definition keepsUserData (e b : Bookmark) : Prop :=
  b_id b = b_id e /\ b_categoryId b = b_categoryId e /\
  b_tags b = b_tags e /\ b_createdAt b = b_createdAt e /\
  b_description b = b_description e /\ b_visitCount b = b_visitCount e /\
  b_lastVisited b = b_lastVisited e /\ b_aiGenerated b = b_aiGenerated e.

(** The record [b] was made for a host node that had no stored record:
    it is uncategorised, untagged and unvisited, and as old as the node
    says. *)
Definition freshFor (uuidv4 : nat -> string) (n : FlatNode) (b : Bookmark)
    : Prop :=
  (exists k, b_id b = uuidv4 k) /\ b_categoryId b = "uncategorized" /\
  b_tags b = [] /\ b_description b = None /\ b_visitCount b = 0 /\
  b_lastVisited b = None /\ b_aiGenerated b = None /\
  b_title b = JS.str_or (f_title n) "未命名书签" /\
  (JS.truthy_onum (f_dateAdded n) = true ->
   b_createdAt b = JS.onum_or (f_dateAdded n) 0).

(** What the tree walking pass pushes for the bookmark node [n], given the
    stored records by [originalId]: the stored record itself when it is
    not older than the node; otherwise a record rebuilt from the node that
    keeps the stored tags, visit count and analysis (and id and creation
    time when they are set) and drops description and last visit; a new
    record when nothing is stored for the node. *)
Definition leafRecord (m : gmap string Bookmark) (n : BrowserBookmarkNode)
    (b : Bookmark) : Prop :=
  b_originalId b = Some (n_id n) /\
  match m !! n_id n with
  | Some e =>
      if JS.onum_or (n_dateAdded n) 0 <=? b_updatedAt e then b = e
      else
        b_title b = n_title n /\ b_url b = JS.ostr_or (n_url n) "" /\
        b_tags b = b_tags e /\ b_visitCount b = b_visitCount e /\
        b_aiGenerated b = b_aiGenerated e /\
        b_description b = None /\ b_lastVisited b = None /\
        (b_id e <> "" -> b_id b = b_id e) /\
        (b_createdAt e <> 0 -> b_createdAt b = b_createdAt e)
  | None =>
      b_title b = n_title n /\ b_url b = JS.ostr_or (n_url n) "" /\
      b_tags b = [] /\ b_visitCount b = 0 /\ b_aiGenerated b = None /\
      b_description b = None /\ b_lastVisited b = None /\
      (JS.truthy_onum (n_dateAdded n) = true ->
       b_createdAt b = JS.onum_or (n_dateAdded n) 0)
  end.

(** The category [c'] is [c] with a count that is not smaller. *)
Definition grown (c c' : Category) : Prop :=
  c_with_count 0 0 c' = c_with_count 0 0 c /\
  c_bookmarkCount c <= c_bookmarkCount c'.

(** The category made for the folder [n]. *)
Definition folderRecord (n : BrowserBookmarkNode) (c : Category) : Prop :=
  c_name c = n_title n /\ c_builtin c = None /\ c_isAiGenerated c = false /\
  c_folderState c = Some COLLAPSED /\ c_order c = JS.onum_or (n_index n) 0 /\
  c_level c = None.

(** No stored category that is not builtin is named like the folder. *)
Definition unmatchedFolder (cats : list Category) (n : BrowserBookmarkNode)
    : bool :=
  match List.find (fun c => String.eqb (c_name c) (n_title n)
                            && negb (JS.truthy_obool (c_builtin c))) cats with
  | Some _ => false
  | None => true
  end.

(** The folders a [syncBookmarks] pass reaches from the children of the
    first root. *)
Definition walkedFolders (rootNode : list BrowserBookmarkNode)
    : list BrowserBookmarkNode :=
  match rootNode with
  | [] => []
  | root :: _ =>
      match n_children root with
      | Some children => flat_map syncFolders children
      | None => []
      end
  end.

(** The final ordering of [filteredBookmarks] is by a date unless the
    query asks for titles or urls, which are compared by the host. *)
Definition sortsByDate (search : SearchParams) : bool :=
  match sp_sortBy search with
  | Some SortTitle | Some SortUrl => false
  | _ => true
  end.

(** The date the final ordering goes by, negated for the descending
    order, which is the default. *)
Definition orderedKey (search : SearchParams) (b : Bookmark) : Z :=
  let date := match sp_sortBy search with
              | Some SortLastVisited => JS.onum_or (b_lastVisited b) 0
              | _ => b_createdAt b
              end in
  match sp_sortOrder search with
  | Some Asc => date
  | _ => - date
  end.

(** [filedUnder categories key c]: the category [c] is filed under [key],
    directly or through a chain of categories. *)
Inductive filedUnder (categories : list Category) : string -> Category -> Prop :=
| filed_here (key : string) (c : Category) :
    In c categories -> parentKey c = key -> filedUnder categories key c
| filed_below (key : string) (p c : Category) :
    In p categories -> parentKey p = key ->
    filedUnder categories (c_id p) c -> filedUnder categories key c.

(** The record [b'] is [b] after an analysis that yielded [data] at time
    [t]: category and tags may have been replaced, nothing else. *)
Definition analysed (data : option AiGenerated) (t : Z) (b b' : Bookmark)
    : Prop :=
  b_with_tags [] (b_with_category "" 0 b')
  = b_with_tags [] (b_with_category "" 0 (b_with_analysis data t b)) /\
  b_updatedAt b' = t.

(** The analysis recommends a category for a bookmark that has none. *)
Definition recommendsCategory (data : option AiGenerated) (b : Bookmark)
    : option string :=
  match data with
  | Some d =>
      if JS.truthy_ostr (ai_category d)
         && String.eqb (b_categoryId b) "uncategorized"
      then ai_category d else None
  | None => None
  end.

(** The analysis recommends at least one tag. *)
Definition recommendsTags (data : option AiGenerated) : option (list string) :=
  match data with
  | Some d =>
      match ai_tags d with
      | Some (t :: ts) => Some (t :: ts)
      | _ => None
      end
  | None => None
  end.

(** A stored category named [name], whatever the case. *)
Definition categoryNamed (name : string) (cats : list Category)
    : option Category :=
  List.find (fun c => String.eqb (toLowerCase (c_name c)) (toLowerCase name))
            cats.

(** The name of the category an analysis of [id] creates: the bookmark is
    found and uncategorised, the analysis succeeds and recommends a
    category, and no stored category has that name. *)
Definition createsCategory (aiAnalyze : Bookmark -> option (option AiGenerated))
    (id : string) (st : Storage) : option string :=
  match findIndex (fun b => String.eqb (b_id b) id) (st_bookmarks st) with
  | Some i =>
      match st_bookmarks st !! i with
      | Some b =>
          match aiAnalyze b with
          | Some data =>
              match recommendsCategory data b with
              | Some name =>
                  match categoryNamed name (st_categories st) with
                  | Some _ => None
                  | None => Some name
                  end
              | None => None
              end
          | None => None
          end
      | None => None
      end
  | None => None
  end.

(** The tag record [t'] is [t] counted further. *)
Definition tgrown (t t' : Tag) : Prop :=
  t_counted_at 0 0 t' = t_counted_at 0 0 t /\ t_count t <= t_count t'.

(** A tag record made by an analysis. *)
Definition recommended (t : Tag) : Prop :=
  t_isAiGenerated t = true /\ 1 <= t_count t.

(** Every count of the collection can be raised [n] times within the
    range in which the counters are exact. *)
Definition roomFor (n : Z) (ts : list Tag) : Prop :=
  n <= 2 ^ 53 /\
  Forall (fun t => - 2 ^ 53 <= t_count t /\ t_count t + n <= 2 ^ 53) ts.

(** The sum of the counts of a tag collection. *)
Definition totalCount (ts : list Tag) : Z :=
  fold_right (fun t acc => t_count t + acc) 0 ts.

(** The tag collection holds a record with id [tid] whose name is [name]
    up to case. *)
Definition holdsTag (ts : list Tag) (name tid : string) : Prop :=
  exists i t, ts !! i = Some t /\ t_id t = tid /\
              toLowerCase (t_name t) = toLowerCase name.

(** The tag names that an analysis of the bookmark [id] recommends. *)
Definition tagsFor (aiAnalyze : Bookmark -> option (option AiGenerated))
    (id : string) (st : Storage) : option (list string) :=
  match findIndex (fun b => String.eqb (b_id b) id) (st_bookmarks st) with
  | Some i =>
      match st_bookmarks st !! i with
      | Some b =>
          match aiAnalyze b with
          | Some data => recommendsTags data
          | None => None
          end
      | None => None
      end
  | None => None
  end.

(** The categories of a projected tree in depth-first order. *)
Fixpoint treeCategories (node : CategoryTree) : list Category :=
  ct_category node :: flat_map treeCategories (ct_children node).

(** The shape of a projected tree: the number of children of every node,
    in depth-first order. *)
Fixpoint treeArities (node : CategoryTree) : list nat :=
  length (ct_children node) :: flat_map treeArities (ct_children node).

(** Every category carries the number of bookmarks filed under it, and no
    two categories share an identifier. *)
Definition countsConsistent (bs : list Bookmark) (cs : list Category) : Prop :=
  NoDup (c_id <$> cs) /\
  Forall (fun c => c_bookmarkCount c = directMembers (c_id c) bs) cs.

(** The tag collection is the tally of the tag names written on the
    bookmarks. *)
Definition tagsConsistent (bs : list Bookmark) (ts : list Tag) : Prop :=
  NoDup (List.map t_name ts) /\
  Forall (fun t => t_count t = occurrences (t_name t) (allTagNames bs)) ts /\
  Forall (fun t => 0 < t_count t) ts /\
  (forall name, In name (allTagNames bs) -> In name (List.map t_name ts)).

(** The tag map with every count set back to zero. *)
Definition TagMap_reset (m : TagMap) : TagMap :=
  List.map (fun kv => (fst kv, t_with_count 0 (snd kv))) m.

(** The persisted collections are those held in memory. *)
Definition writtenBack (s : Store) : Prop :=
  st_bookmarks (storage s) = bookmarks s /\
  st_categories (storage s) = categories s /\
  st_tags (storage s) = tags s.

(** What every call on the store keeps: each of the three properties holds
    afterwards when it held before. *)
Definition keepsInvariants (s s' : Store) : Prop :=
  (countsConsistent (bookmarks s) (categories s) ->
   countsConsistent (bookmarks s') (categories s')) /\
  (tagsConsistent (bookmarks s) (tags s) ->
   tagsConsistent (bookmarks s') (tags s')) /\
  (writtenBack s -> writtenBack s').

(** The calls a client of the store can make on the bookmarks. *)
Inductive StoreAction :=
| AddBookmark (bookmark : BookmarkChanges)
| UpdateBookmark (id : string) (changes : BookmarkChanges)
| DeleteBookmark (id : string)
| DeleteCategory (id : string)
| AddBookmarkVisit (id : string)
| UpdateCategoryBookmarkCount (categoryId : string)
| UpdateTags (tagNames : list string).

Definition perform (dateNow : nat -> Z) (uuidv4 : nat -> string)
    (addBookmarkToBrowser : Bookmark -> option string)
    (s : Store) (a : StoreAction) : Eff Store :=
  match a with
  | AddBookmark bookmark =>
      do r <- addBookmark dateNow uuidv4 addBookmarkToBrowser bookmark s;
      ret (snd r)
  | UpdateBookmark id changes =>
      do r <- updateBookmark dateNow uuidv4 id changes s; ret (snd r)
  | DeleteBookmark id =>
      do r <- deleteBookmark dateNow uuidv4 id s; ret (snd r)
  | DeleteCategory id =>
      do r <- deleteCategory dateNow uuidv4 id s; ret (snd r)
  | AddBookmarkVisit id => addBookmarkVisit dateNow id s
  | UpdateCategoryBookmarkCount categoryId =>
      updateCategoryBookmarkCount dateNow categoryId s
  | UpdateTags tagNames => updateTags dateNow uuidv4 tagNames s
  end.

(** The calls a client of the storage backed service can make. *)
Inductive ServiceAction :=
| ServiceAdd (bookmark : BookmarkChanges)
| ServiceUpdate (id : string) (data : BookmarkChanges)
| ServiceDelete (id : string).

(** The storage of the service together with the bookmarks whose analysis
    [addBookmark] has launched. *)
Record Service := mkService {
  sv_storage : Storage;
  sv_launched : list string
}.

Definition service_perform (dateNow : nat -> Z) (uuidv4 : nat -> string)
    (settings : AiSettings) (sv : Service) (a : ServiceAction) : Eff Service :=
  match a with
  | ServiceAdd bookmark =>
      do r <- service_addBookmark dateNow uuidv4 settings bookmark
                                  (sv_storage sv);
      ret {| sv_storage := snd r;
             sv_launched :=
               sv_launched sv ++ match snd (fst r) with
                                 | Some id => [id]
                                 | None => []
                                 end |}
  | ServiceUpdate id data =>
      do r <- service_updateBookmark dateNow id data (sv_storage sv);
      ret {| sv_storage := snd r; sv_launched := sv_launched sv |}
  | ServiceDelete id =>
      do r <- service_deleteBookmark dateNow id (sv_storage sv);
      ret {| sv_storage := snd r; sv_launched := sv_launched sv |}
  end.

(** No analysis is launched under these settings. *)
Definition analysisOff (settings : AiSettings) : Prop :=
  set_autoClassify settings = false \/ set_apiKey settings = "".

(** An update that does not blank the category of a bookmark. *)
Definition keepsCategoryNamed (a : ServiceAction) : Prop :=
  match a with
  | ServiceUpdate _ data => ch_categoryId data <> Some ""
  | _ => True
  end.


(** ** Sorting a bookmark forest ([utils/bookmarkHelper.ts]) *)

(** [node.children = children] *)
Definition e_with_children (children : option (list EnhancedBookmarkNode))
    (node : EnhancedBookmarkNode) : EnhancedBookmarkNode :=
  ENode (e_id node) (e_parentId node) (e_index node) (e_url node)
        (e_title node) (e_dateAdded node) children (e_level node)
        (e_isFolder node) (e_folderState node) (e_path node).

(** The UTF-16 code units of a string, read off its UTF-8 bytes: one
    unit for a character of one, two or three bytes, a pair of surrogates
    for a character of four bytes. *)
Fixpoint codeUnits (s : string) : list N :=
  match s with
  | EmptyString => []
  | String c0 s1 =>
      let b0 := N_of_ascii c0 in
      if (b0 <? 128)%N then b0 :: codeUnits s1
      else
        match s1 with
        | EmptyString => [b0]
        | String c1 s2 =>
            let b1 := N_of_ascii c1 in
            if (b0 <? 224)%N
            then ((b0 mod 32) * 64 + b1 mod 64)%N :: codeUnits s2
            else
              match s2 with
              | EmptyString => [b0; b1]
              | String c2 s3 =>
                  let b2 := N_of_ascii c2 in
                  if (b0 <? 240)%N
                  then ((b0 mod 16) * 4096 + (b1 mod 64) * 64 + b2 mod 64)%N
                       :: codeUnits s3
                  else
                    match s3 with
                    | EmptyString => [b0; b1; b2]
                    | String c3 s4 =>
                        let b3 := N_of_ascii c3 in
                        let point :=
                          ((b0 mod 8) * 262144 + (b1 mod 64) * 4096
                           + (b2 mod 64) * 64 + b3 mod 64)%N in
                        let v := (point - 65536)%N in
                        (55296 + v / 1024)%N :: (56320 + v mod 1024)%N
                        :: codeUnits s4
                    end
              end
        end
  end.

(** The order of sequences of code units: the first difference decides, a
    proper prefix comes first. *)
Fixpoint unitsLt (a b : list N) : bool :=
  match a, b with
  | _, [] => false
  | [], _ :: _ => true
  | x :: a', y :: b' => (x <? y)%N || ((x =? y)%N && unitsLt a' b')
  end.

(** [a < b] on strings. *)
Definition js_lt (a b : string) : bool := unitsLt (codeUnits a) (codeUnits b).

(** [valueA < valueB] for the values that the [switch] on [sortBy] reads
    from the two nodes (lines 121-138); any other [sortBy] than the three
    named ones takes the [default] branch. *)
Definition valueLt (sortBy : SortBy) (a b : EnhancedBookmarkNode) : bool :=
  match sortBy with
  | SortTitle => js_lt (toLowerCase (e_title a)) (toLowerCase (e_title b))
  | SortDateAdded =>
      JS.onum_or (e_dateAdded a) 0 <? JS.onum_or (e_dateAdded b) 0
  | SortUrl => js_lt (JS.ostr_or (e_url a) "") (JS.ostr_or (e_url b) "")
  | SortLastVisited =>
      js_lt (toLowerCase (e_title a)) (toLowerCase (e_title b))
  end.

(** The comparator handed to [sorted.sort] (lines 119-150);
    [valueA > valueB] is [valueB < valueA]. *)
Definition compareNodes (sortBy : SortBy) (sortOrder : SortOrder)
    (a b : EnhancedBookmarkNode) : Z :=
  if e_isFolder a && negb (e_isFolder b) then -1
  else if negb (e_isFolder a) && e_isFolder b then 1
  else
    match sortOrder with
    | Asc =>
        if valueLt sortBy a b then -1
        else if valueLt sortBy b a then 1 else 0
    | Desc =>
        if valueLt sortBy b a then -1
        else if valueLt sortBy a b then 1 else 0
    end.

(** [sortBookmarks] (lines 112-162), the forest it returns.  The source
    sorts a level and then calls itself on the children of the sorted
    nodes; [fuel] bounds the depth of these calls. *)
Fixpoint sortBookmarks (fuel : nat) (sortBy : SortBy) (sortOrder : SortOrder)
    (bookmarks : list EnhancedBookmarkNode)
    : option (list EnhancedBookmarkNode) :=
  match fuel with
  | O => None
  | S fuel' =>
      let sorted := sort (compareNodes sortBy sortOrder) bookmarks in
      mapOpt (fun node =>
                match e_children node with
                | Some (c :: cs) =>
                    match sortBookmarks fuel' sortBy sortOrder (c :: cs) with
                    | Some children => Some (e_with_children (Some children) node)
                    | None => None
                    end
                | _ => Some node
                end)
             sorted
  end.

(** The number of levels below and including a node. *)
Fixpoint height (node : EnhancedBookmarkNode) : nat :=
  S (match e_children node with
     | Some children => fold_right Nat.max 0%nat (List.map height children)
     | None => 0%nat
     end).

Definition forestHeight (nodes : list EnhancedBookmarkNode) : nat :=
  fold_right Nat.max 0%nat (List.map height nodes).

(** What a node is sorted by: the code units of its title in lower case,
    its date (a missing date counts as 0), or the code units of its url (a
    missing url counts as the empty string); the title for any other
    [sortBy]. *)
Inductive SortKey :=
| KeyText (units : list N)
| KeyNumber (n : Z).

Definition sortKey (sortBy : SortBy) (node : EnhancedBookmarkNode) : SortKey :=
  match sortBy with
  | SortDateAdded =>
      KeyNumber (match e_dateAdded node with Some d => d | None => 0 end)
  | SortUrl =>
      KeyText (codeUnits (match e_url node with Some u => u | None => "" end))
  | _ => KeyText (codeUnits (toLowerCase (e_title node)))
  end.

(** The dictionary order of sequences of code units. *)
Inductive unitsLe : list N -> list N -> Prop :=
| unitsLe_nil (b : list N) : unitsLe [] b
| unitsLe_less (x y : N) (a b : list N) : (x < y)%N -> unitsLe (x :: a) (y :: b)
| unitsLe_same (x : N) (a b : list N) : unitsLe a b -> unitsLe (x :: a) (x :: b).

Definition keyLe (k1 k2 : SortKey) : Prop :=
  match k1, k2 with
  | KeyText a, KeyText b => unitsLe a b
  | KeyNumber m, KeyNumber n => m <= n
  | _, _ => False
  end.

Definition sameKey (k1 k2 : SortKey) : bool :=
  match k1, k2 with
  | KeyText a, KeyText b => bool_decide (a = b)
  | KeyNumber m, KeyNumber n => m =? n
  | _, _ => false
  end.

(** [a] may stand before [b]: a folder before a bookmark; among folders
    and among bookmarks, the smaller key first when ascending, the larger
    key first when descending. *)
Definition nodeBefore (sortBy : SortBy) (sortOrder : SortOrder)
    (a b : EnhancedBookmarkNode) : Prop :=
  (e_isFolder a = true /\ e_isFolder b = false) \/
  (e_isFolder a = e_isFolder b /\
   match sortOrder with
   | Asc => keyLe (sortKey sortBy a) (sortKey sortBy b)
   | Desc => keyLe (sortKey sortBy b) (sortKey sortBy a)
   end).

(** [b] is of the kind of [a] and has the same key. *)
Definition tied (sortBy : SortBy) (a b : EnhancedBookmarkNode) : bool :=
  Bool.eqb (e_isFolder a) (e_isFolder b)
  && sameKey (sortKey sortBy a) (sortKey sortBy b).

(** [arranged sortBy sortOrder input output]: the nodes of [output] are
    those of [input] with nothing but their children changed; folders
    stand before bookmarks, both in the requested order, with tied nodes
    in the order of the input; and the children of every node are
    arranged in the same way. *)
Inductive arranged (sortBy : SortBy) (sortOrder : SortOrder)
    : list EnhancedBookmarkNode -> list EnhancedBookmarkNode -> Prop :=
| arranged_level (input sorted output : list EnhancedBookmarkNode) :
    Permutation sorted input ->
    StronglySorted (nodeBefore sortBy sortOrder) sorted ->
    (forall a, List.filter (tied sortBy a) sorted
               = List.filter (tied sortBy a) input) ->
    Forall2 (fun s o =>
               e_with_children None o = e_with_children None s /\
               option_Forall2 (arranged sortBy sortOrder)
                              (e_children s) (e_children o))
            sorted output ->
    arranged sortBy sortOrder input output.

End Host.
(** ** A sample environment and sample data *)

Module Sample.

(** A host for western text.  [lower] maps the letters [A]-[Z] and the
    capital letters of the Latin-1 supplement (U+00C0 to U+00DE without
    the multiplication sign, the bytes C3 80 to C3 9E) and leaves every
    other byte as it is; [strip] removes, at both ends, space, tab, line
    feed, vertical tab, form feed and carriage return, the no-break space
    (C2 A0) and the ideographic space (E3 80 80). *)
Definition lowerAscii (c : ascii) : ascii :=
  let n := nat_of_ascii c in
  if ((65 <=? n) && (n <=? 90))%nat then ascii_of_nat (n + 32) else c.

Definition capitalLatin (c0 c1 : ascii) : bool :=
  let n := nat_of_ascii c1 in
  ((nat_of_ascii c0 =? 195) && (128 <=? n) && (n <=? 158)
   && negb (n =? 151))%nat.

Fixpoint lower (s : string) : string :=
  match s with
  | EmptyString => EmptyString
  | String c0 s1 =>
      match s1 with
      | String c1 s2 =>
          if capitalLatin c0 c1
          then String c0 (String (ascii_of_nat (nat_of_ascii c1 + 32))
                                 (lower s2))
          else String (lowerAscii c0) (lower s1)
      | EmptyString => String (lowerAscii c0) EmptyString
      end
  end.

Definition isSpace (c : ascii) : bool :=
  let n := nat_of_ascii c in
  ((n =? 32) || ((9 <=? n) && (n <=? 13)))%nat.

(** Leading white space, for a text and for a text written backwards. *)
Fixpoint stripStart (s : string) : string :=
  match s with
  | String c0 s1 =>
      if isSpace c0 then stripStart s1
      else
        match s1 with
        | String c1 s2 =>
            if ((nat_of_ascii c0 =? 194) && (nat_of_ascii c1 =? 160))%nat
            then stripStart s2
            else
              match s2 with
              | String c2 s3 =>
                  if ((nat_of_ascii c0 =? 227) && (nat_of_ascii c1 =? 128)
                      && (nat_of_ascii c2 =? 128))%nat
                  then stripStart s3 else s
              | EmptyString => s
              end
        | EmptyString => s
        end
  | EmptyString => EmptyString
  end.

Fixpoint stripStartBackwards (s : string) : string :=
  match s with
  | String c0 s1 =>
      if isSpace c0 then stripStartBackwards s1
      else
        match s1 with
        | String c1 s2 =>
            if ((nat_of_ascii c0 =? 160) && (nat_of_ascii c1 =? 194))%nat
            then stripStartBackwards s2
            else
              match s2 with
              | String c2 s3 =>
                  if ((nat_of_ascii c0 =? 128) && (nat_of_ascii c1 =? 128)
                      && (nat_of_ascii c2 =? 227))%nat
                  then stripStartBackwards s3 else s
              | EmptyString => s
              end
        | EmptyString => s
        end
  | EmptyString => EmptyString
  end.

Definition backwards (s : string) : string :=
  string_of_list_ascii (List.rev (list_ascii_of_string s)).

Definition strip (s : string) : string :=
  backwards (stripStartBackwards (backwards (stripStart s))).

#[export] Instance westernHost : StringHost :=
  {| toLowerCase := lower; trim := strip |}.

(** A clock that advances by one millisecond per reading. *)
Definition clock (k : nat) : Z := 1000 + Z.of_nat k.

(** A clock that stands still. *)
Definition frozen (k : nat) : Z := 1000.

Fixpoint tally (k : nat) : string :=
  match k with
  | O => ""
  | S k' => String "i" (tally k')
  end.

Definition ids (k : nat) : string := ("uuid-" ++ tally k)%string.

(** A url parser that accepts the urls with an [https://] scheme and takes
    the whole url for the origin. *)
Definition origin (u : string) : option string :=
  if String.prefix "https://" u then Some u else None.

Definition collate (a b : string) : Z :=
  match String.compare a b with
  | Lt => -1
  | Eq => 0
  | Gt => 1
  end.

Definition w0 : World := {| w_clock := 0; w_ids := 0 |}.

Definition leaf (i title url : string) (added : Z) : FlatNode :=
  {| f_id := i; f_parentId := Some "1"; f_index := Some 0;
     f_url := Some url; f_title := title; f_dateAdded := Some added;
     f_dateGroupModified := None |}.

Definition folder (i title : string) : FlatNode :=
  {| f_id := i; f_parentId := Some "0"; f_index := Some 0;
     f_url := None; f_title := title; f_dateAdded := Some 5;
     f_dateGroupModified := None |}.

Definition hostNodes : list FlatNode :=
  [ folder "1" "Work"; leaf "h1" "Site A" "https://a.example" 7 ].

Definition bookmark (i title url cat : string) (tags : list string)
    (visits : Z) (original : option string) : Bookmark :=
  {| b_id := i; b_title := title; b_url := url; b_favicon := None;
     b_description := None; b_categoryId := cat; b_tags := tags;
     b_createdAt := 10; b_updatedAt := 20; b_lastVisited := None;
     b_visitCount := visits; b_aiGenerated := None;
     b_originalId := original; b_parentId := None; b_index := None |}.

Definition category (i name : string) (parent : option string) (order : Z)
    (builtin : option bool) (state : option FolderState) : Category :=
  {| c_id := i; c_name := name; c_parentId := parent; c_color := None;
     c_icon := None; c_order := order; c_createdAt := 1; c_updatedAt := 2;
     c_bookmarkCount := 0; c_isAiGenerated := false; c_builtin := builtin;
     c_level := None; c_folderState := state |}.

(** A record made inside the application, never pushed to the host. *)
Definition localNote : Bookmark :=
  bookmark "b-local" "Note" "https://note.example" "uncategorized" [] 0 None.

Definition hostTree : list BrowserBookmarkNode :=
  [ BNode "0" None None None "" None None
      (Some [ BNode "1" (Some "0") (Some 0) None "Work" (Some 5) None
                (Some [ BNode "h1" (Some "1") (Some 0)
                          (Some "https://a.example") "Site A" (Some 7) None
                          None ]) ]) ].

Definition emptyStorage : Storage :=
  {| st_bookmarks := []; st_categories := []; st_tags := []; st_lastSync := 0 |}.

Definition storageOf (bs : list Bookmark) (cs : list Category) : Storage :=
  {| st_bookmarks := bs; st_categories := cs; st_tags := []; st_lastSync := 0 |}.

Definition storeOf (bs : list Bookmark) (cs : list Category) (ts : list Tag)
    : Store :=
  {| bookmarks := bs; categories := cs; tags := ts;
     storage := {| st_bookmarks := bs; st_categories := cs; st_tags := ts;
                   st_lastSync := 0 |} |}.

Definition builtins : list Category :=
  [ category "all" "All" None 0 (Some true) None;
    category "uncategorized" "Uncategorized" None 0 (Some true) None ].

Definition work : Category := category "work" "Work" None 1 None (Some COLLAPSED).
Definition play : Category := category "play" "Play" (Some "work") 0 None None.

Definition shelf : list Bookmark :=
  [ bookmark "b1" "GitHub" "https://github.com" "work" ["dev"; "git"] 3 None;
    bookmark "b2" "News" "https://news.example" "play" ["dev"] 5 None;
    bookmark "b3" "Docs" "https://docs.example" "work" [] 1 None ].

(** Two bookmarks of Work that carry the same identifier. *)
Definition twins : list Bookmark :=
  [ bookmark "dup" "One" "https://one.example" "work" [] 0 None;
    bookmark "dup" "Two" "https://two.example" "work" [] 0 None ].

(** Two categories with the same identifier, the second one builtin. *)
Definition shadowed : list Category :=
  [ category "x" "Mine" None 0 None None;
    category "x" "Fixed" None 1 (Some true) None ].

(** One bookmark that lists the same tag twice. *)
Definition twice : list Bookmark :=
  [ bookmark "b1" "GitHub" "https://github.com" "work" ["dev"; "dev"] 0 None ].

(** Twenty-five bookmarks with the given visit counts. *)
Definition visits : list Z :=
  [50; 10; 5; 100; 1; 7; 7; 30; 2; 9; 60; 3; 8; 40; 7; 11; 12; 13; 14; 15;
   16; 17; 18; 19; 20].

Definition visited : list Bookmark :=
  imap (fun i v => bookmark (tally (S i)) "t" "https://x.example" "work"
                            (if (v <? 10) then ["low"] else ["high"]) v None)
       visits.

Definition frequent : SearchParams :=
  {| sp_keyword := None; sp_categoryId := Some "frequent";
     sp_tags := Some ["low"]; sp_sortBy := Some SortDateAdded;
     sp_sortOrder := Some Asc |}.

Definition tagged (ts : list string) : SearchParams :=
  {| sp_keyword := None; sp_categoryId := None; sp_tags := Some ts;
     sp_sortBy := None; sp_sortOrder := None |}.

Definition enode (i title : string) (url : option string)
    (children : option (list EnhancedBookmarkNode)) : EnhancedBookmarkNode :=
  ENode i None None url title None children 0
        (match url with Some _ => false | None => true end) None None.

Definition forest : list EnhancedBookmarkNode :=
  [ enode "1" "Tools" None
      (Some [ enode "2" "GitHub" (Some "https://github.com") None;
              enode "3" "Mail" (Some "https://mail.example/GIT") None;
              enode "4" "News" (Some "https://news.example") None ]);
    enode "5" "git book" None (Some []) ].

(** A category that calls itself [root]: the root group contains it, and
    so does the group of its children. *)
Definition selfRooted : Category := category "root" "Loop" None 0 None None.


(** A host that accepts every new bookmark. *)
Definition host (b : Bookmark) : option string := Some ("host-" ++ b_id b)%string.

Definition tag (i name : string) (count : Z) : Tag :=
  {| t_id := i; t_name := name; t_color := None; t_count := count;
     t_createdAt := 1; t_updatedAt := 2; t_isAiGenerated := false |}.

(** The shelf with its categories counted and its tags tallied. *)
Definition tidy : Store :=
  storeOf shelf
          [ category "uncategorized" "Uncategorized" None 0 (Some true) None;
            c_with_count 2 2 work; c_with_count 1 2 play ]
          [ tag "t1" "dev" 2; tag "t2" "git" 1 ].

(** A bookmark to be added: titled, filed under [play], tagged [git]. *)
Definition draft : BookmarkChanges :=
  mkChanges None (Some "Blog") (Some "https://blog.example") None None
            (Some "play") (Some ["git"]) None None None None None None None
            None.

Definition session : list StoreAction :=
  [ AddBookmark draft; UpdateBookmark "b1" (changeCategoryId "play");
    AddBookmarkVisit "b2"; DeleteBookmark "b3"; DeleteCategory "play" ].

Definition serviceSession : list ServiceAction :=
  [ ServiceAdd draft; ServiceUpdate "b1" (changeCategoryId "play");
    ServiceDelete "b3" ].

(** Settings without automatic classification, and settings with it. *)
Definition quiet : AiSettings := mkAiSettings false "".
Definition eager : AiSettings := mkAiSettings true "key".

(** The tidy store as the service sees it, with no analysis launched. *)
Definition tidyService : Service :=
  {| sv_storage := storage tidy; sv_launched := [] |}.

(** A bookmark to be added that names no category. *)
Definition loose : BookmarkChanges :=
  mkChanges None (Some "Blog") (Some "https://blog.example") None None
            None None None None None None None None None None.

(** A category filed under an id that no category carries. *)
Definition stray : Category := category "stray" "Stray" (Some "gone") 0 None None.

(** An analysis that files every bookmark under Reading and tags it with
    three names, two of which differ only in case. *)
Definition advice (b : Bookmark) : option (option AiGenerated) :=
  Some (Some {| ai_category := Some "Reading";
                ai_tags := Some ["Dev"; "rust"; "RUST"];
                ai_summary := None; ai_confidence := None |}).

(** A storage with one bookmark waiting to be filed. *)
Definition inbox : Storage :=
  {| st_bookmarks :=
       [ bookmark "n1" "Rust book" "https://rust.example" "uncategorized" []
                  0 None;
         bookmark "b3" "Docs" "https://docs.example" "work" [] 1 None ];
     st_categories :=
       [ c_with_count 1 2
           (category "uncategorized" "Uncategorized" None 0 (Some true) None);
         c_with_count 1 2 work ];
     st_tags := [ tag "t1" "dev" 2 ];
     st_lastSync := 0 |}.

(** A forest of bookmarks and folders; two children of the folder have
    titles that differ only in case. *)
Definition mixed : list EnhancedBookmarkNode :=
  [ enode "a" "zeta" (Some "https://z.example") None;
    enode "b" "Alpha" None
      (Some [ enode "c" "beta" (Some "https://c.example") None;
              enode "d" "Beta" (Some "https://d.example") None;
              enode "e" "alpha" None None ]);
    enode "f" "alpha" (Some "https://a.example") None ].

(** An analysis that recommends a category and a tag in capitals, and a
    storage that holds both in small letters. *)
Definition conseil (b : Bookmark) : option (option AiGenerated) :=
  Some (Some {| ai_category := Some "École";
                ai_tags := Some ["Über"];
                ai_summary := None; ai_confidence := None |}).

Definition cartable : Storage :=
  {| st_bookmarks :=
       [ bookmark "n1" "Cours" "https://cours.example" "uncategorized" []
                  0 None ];
     st_categories :=
       [ c_with_count 1 2
           (category "uncategorized" "Uncategorized" None 0 (Some true) None);
         category "c1" "école" None 1 None None ];
     st_tags := [ tag "t1" "über" 4 ];
     st_lastSync := 0 |}.

End Sample.
(** * Properties *)

(** ** Generic facts about the helpers *)

(** Case analysis on every conditional of the goal. *)
Ltac case_conditions :=
  repeat match goal with
         | |- context [if ?c then _ else _] => destruct c
         end.

(** Unfold one step of an effectful computation. *)
Ltac run_eff := unfold bind, uuid, now, ret.

Section HostFacts.

Context {stringHost : StringHost}.

Lemma findIndex_None {A} (p : A -> bool) (l : list A) :
  findIndex p l = None <-> Forall (fun x => p x = false) l.
Proof.
  induction l as [|x l IH]; simpl.
  - split; [constructor | reflexivity].
  - rewrite Forall_cons_iff. destruct (p x) eqn:Hp.
    + split; [discriminate | intros [? _]; discriminate].
    + destruct (findIndex p l); simpl in *.
      * split; [discriminate |]. intros [_ Hl]. apply IH in Hl. discriminate.
      * split; [| reflexivity]. intros _. split; [reflexivity |].
        apply IH. reflexivity.
Qed.

Lemma findIndex_Some {A} (p : A -> bool) (l : list A) (i : nat) :
  findIndex p l = Some i ->
  exists x, l !! i = Some x /\ p x = true /\
            Forall (fun y => p y = false) (take i l).
Proof.
  revert i. induction l as [|x l IH]; simpl; intros i H; [discriminate |].
  destruct (p x) eqn:Hp.
  - inversion H; subst. exists x. repeat split; auto.
  - destruct (findIndex p l) as [j|] eqn:Hj; simpl in H; [| discriminate].
    inversion H; subst. destruct (IH j eq_refl) as (y & Hy & Hpy & Hpre).
    exists y. repeat split; auto. simpl. constructor; assumption.
Qed.

Lemma mapM_cons_run {A B} (f : A -> Eff B) (x : A) (xs : list A) (w : World) :
  mapM f (x :: xs) w
  = let (y, w1) := f x w in
    let (ys, w2) := mapM f xs w1 in (y :: ys, w2).
Proof. reflexivity. Qed.

Section EngineFacts.

Variable dateNow : nat -> Z.
Variable uuidv4 : nat -> string.
Variable urlOrigin : string -> option string.

Lemma recount_spec bs cs w :
  Forall2 (fun c c' =>
             c_id c' = c_id c /\ c_name c' = c_name c /\
             c_parentId c' = c_parentId c /\
             c_bookmarkCount c' = directMembers (c_id c) bs)
          cs (fst (recount dateNow bs cs w)).
Proof.
  revert w. induction cs as [|c cs IH]; intros w; simpl.
  - constructor.
  - unfold recount in *. simpl. unfold bind at 1. simpl.
    unfold bind at 1.
    match goal with |- context [mapM ?f cs ?w'] =>
      specialize (IH w'); destruct (mapM f cs w') as [ys w''] end.
    simpl in *. constructor; auto.
Qed.

Lemma recount_In bs cs w c' :
  In c' (fst (recount dateNow bs cs w)) ->
  c_bookmarkCount c' = directMembers (c_id c') bs /\
  exists c, In c cs /\ c_id c = c_id c'.
Proof.
  intros Hin. pose proof (recount_spec bs cs w) as H.
  induction H as [|c d cs ds (Hid & _ & _ & Hcount) _ IH]; [contradiction |].
  destruct Hin as [-> | Hin].
  - split; [congruence |]. exists c. split; [left; reflexivity | congruence].
  - destruct (IH Hin) as [? (c0 & ? & ?)]. split; [assumption |].
    exists c0. split; [right; assumption | assumption].
Qed.

(** The store's single category recount writes the same direct count. *)
Lemma updateCategoryBookmarkCount_spec cid s w i :
  findIndex (fun c => String.eqb (c_id c) cid) (categories s) = Some i ->
  exists c c',
    categories s !! i = Some c /\
    categories (fst (updateCategoryBookmarkCount dateNow cid s w)) !! i = Some c' /\
    c_id c' = cid /\
    c_bookmarkCount c' = directMembers cid (bookmarks s) /\
    bookmarks (fst (updateCategoryBookmarkCount dateNow cid s w)) = bookmarks s.
Proof.
  intros Hi. unfold updateCategoryBookmarkCount. rewrite Hi.
  destruct (findIndex_Some _ _ _ Hi) as (c & Hc & Hp & _).
  unfold bind, now, ret. simpl. rewrite Hc. simpl.
  exists c. eexists. split; [reflexivity |].
  split; [apply list_lookup_insert_eq; eapply lookup_lt_Some; eassumption |].
  simpl. apply String.eqb_eq in Hp. auto.
Qed.

(** Every category handed out by the recount step carries its direct
    member count; identifiers and parent links are those of the input. *)
Lemma recount_direct (bs : list Bookmark) (cs : list Category) (w : World) :
  Forall (fun c' => c_bookmarkCount c' = directMembers (c_id c') bs)
         (fst (recount dateNow bs cs w)) /\
  List.map c_id (fst (recount dateNow bs cs w)) = List.map c_id cs /\
  List.map c_parentId (fst (recount dateNow bs cs w)) = List.map c_parentId cs.
Proof.
  pose proof (recount_spec bs cs w) as H.
  induction H as [|c d cs ds (Hid & _ & Hpar & Hcount) _ (IH1 & IH2 & IH3)];
    simpl.
  - repeat split; constructor.
  - repeat split.
    + constructor; [congruence | assumption].
    + congruence.
    + congruence.
Qed.

(** The whole pass hands out categories whose counts agree with the
    bookmarks it hands out. *)
Lemma convertBrowserBookmarks_counts nodes bs cs w :
  let out := fst (convertBrowserBookmarks dateNow uuidv4 urlOrigin nodes bs cs w) in
  Forall (fun c' => c_bookmarkCount c' = directMembers (c_id c') (fst out))
         (snd out).
Proof.
  unfold convertBrowserBookmarks, bind.
  destruct (if (0 <? length cs)%nat then _ else _) as [cats w1].
  destruct (forEach _ nodes [] w1) as [bms w2].
  pose proof (recount_direct bms cats w2) as (H & _).
  destruct (recount dateNow bms cats w2) as [cats' w3]. simpl in *. exact H.
Qed.

(** C3. After the recount step (the last step of [convertBrowserBookmarks]),
    every category of the result, those without members included, carries
    as [bookmarkCount] the number of bookmarks whose [categoryId] is that
    category's [id]: direct members only, whatever the [parentId] links
    between the categories are; the result has the identifiers and parent
    links of the input categories in the same order.  The counts a whole
    pass hands out agree with the bookmarks it hands out.  The store's
    [updateCategoryBookmarkCount] writes the same direct count into the
    category it is called for. *)
Theorem recount_count_consistency (bs : list Bookmark) (cs : list Category)
    (nodes : list FlatNode) (storedBookmarks : list Bookmark)
    (storedCategories : list Category) (cid : string) (s : Store) (i : nat)
    (w : World) :
  (Forall (fun c' => c_bookmarkCount c' = directMembers (c_id c') bs)
          (fst (recount dateNow bs cs w)) /\
   List.map c_id (fst (recount dateNow bs cs w)) = List.map c_id cs /\
   List.map c_parentId (fst (recount dateNow bs cs w)) = List.map c_parentId cs) /\
  (let out := fst (convertBrowserBookmarks dateNow uuidv4 urlOrigin nodes
                     storedBookmarks storedCategories w) in
   Forall (fun c' => c_bookmarkCount c' = directMembers (c_id c') (fst out))
          (snd out)) /\
  (findIndex (fun c => String.eqb (c_id c) cid) (categories s) = Some i ->
   exists c c',
     categories s !! i = Some c /\
     categories (fst (updateCategoryBookmarkCount dateNow cid s w)) !! i = Some c' /\
     c_id c' = cid /\
     c_bookmarkCount c' = directMembers cid (bookmarks s) /\
     bookmarks (fst (updateCategoryBookmarkCount dateNow cid s w)) = bookmarks s).
Proof.
  split; [apply recount_direct |].
  split; [apply convertBrowserBookmarks_counts |].
  apply updateCategoryBookmarkCount_spec.
Qed.

(** C9. Deleting an identifier that no stored bookmark carries returns
    [false] and changes nothing: the store (bookmarks, categories with
    their counts, tags, persisted copies) and the environment are as
    before; the service level routine behaves the same on the storage. *)
Theorem deleteBookmark_not_found (id : string) (s : Store) (st : Storage)
    (w : World) :
  Forall (fun b => b_id b <> id) (bookmarks s) ->
  Forall (fun b => b_id b <> id) (st_bookmarks st) ->
  deleteBookmark dateNow uuidv4 id s w = ((false, s), w) /\
  service_deleteBookmark dateNow id st w = ((false, st), w).
Proof.
  intros Hs Hst.
  assert (Hnone : forall l, Forall (fun b => b_id b <> id) l ->
            findIndex (fun b => String.eqb (b_id b) id) l = None).
  { intros l Hl. apply findIndex_None. eapply Forall_impl; [exact Hl |].
    simpl. intros b Hb. apply String.eqb_neq. exact Hb. }
  unfold deleteBookmark, service_deleteBookmark.
  rewrite (Hnone _ Hs), (Hnone _ Hst). split; reflexivity.
Qed.

End EngineFacts.

(** ** Node search *)


Lemma filter_app_bool {A} (p : A -> bool) (l1 l2 : list A) :
  List.filter p (l1 ++ l2) = List.filter p l1 ++ List.filter p l2.
Proof.
  induction l1 as [|x l1 IH]; simpl; [reflexivity |].
  destruct (p x); simpl; congruence.
Qed.








(** ** The stable sort *)

Section SortFacts.

Context {A : Type} (key : A -> Z) (cmp : A -> A -> Z).
Hypothesis cmp_key : forall a b, (cmp a b <=? 0) = (key a <=? key b).

Lemma sort_insert_perm (x : A) (l : list A) :
  Permutation (sort_insert cmp x l) (x :: l).
Proof.
  induction l as [|y l IH]; simpl; [reflexivity |].
  destruct (cmp x y <=? 0); [reflexivity |].
  rewrite IH. apply perm_swap.
Qed.

Lemma sort_perm (l : list A) : Permutation (sort cmp l) l.
Proof.
  induction l as [|x l IH]; simpl; [reflexivity |].
  rewrite sort_insert_perm. constructor. exact IH.
Qed.

Lemma sort_insert_sorted (x : A) (l : list A) :
  StronglySorted (fun a b => key a <= key b) l ->
  StronglySorted (fun a b => key a <= key b) (sort_insert cmp x l).
Proof.
  induction l as [|y l IH]; intros Hs; simpl.
  - repeat constructor.
  - inversion Hs as [|? ? Hl Hy]; subst.
    destruct (cmp x y <=? 0) eqn:E; rewrite cmp_key in E.
    + apply Z.leb_le in E. constructor; [exact Hs |].
      constructor; [exact E |].
      eapply Forall_impl; [exact Hy |]. simpl. intros; lia.
    + apply Z.leb_gt in E. constructor; [apply IH; exact Hl |].
      rewrite (sort_insert_perm x l). constructor; [lia | exact Hy].
Qed.

Lemma sort_sorted (l : list A) :
  StronglySorted (fun a b => key a <= key b) (sort cmp l).
Proof.
  induction l as [|x l IH]; simpl; [constructor |].
  apply sort_insert_sorted. exact IH.
Qed.

(** Stability: elements with the same key keep their relative order. *)
Lemma sort_insert_stable (v : Z) (x : A) (l : list A) :
  List.filter (fun a => key a =? v) (sort_insert cmp x l)
  = List.filter (fun a => key a =? v) (x :: l).
Proof.
  induction l as [|y l IH]; simpl; [reflexivity |].
  destruct (cmp x y <=? 0) eqn:E; [reflexivity |].
  rewrite cmp_key in E. apply Z.leb_gt in E.
  simpl. rewrite IH. simpl.
  destruct (key x =? v) eqn:Ex, (key y =? v) eqn:Ey; try reflexivity.
  apply Z.eqb_eq in Ex, Ey. lia.
Qed.

Lemma sort_stable (v : Z) (l : list A) :
  List.filter (fun a => key a =? v) (sort cmp l)
  = List.filter (fun a => key a =? v) l.
Proof.
  induction l as [|x l IH]; simpl; [reflexivity |].
  rewrite sort_insert_stable. simpl. rewrite IH. reflexivity.
Qed.

Lemma sort_length (l : list A) : length (sort cmp l) = length l.
Proof. apply Permutation_length, sort_perm. Qed.

Lemma sorted_take_drop (n : nat) (l : list A) :
  StronglySorted (fun a b => key a <= key b) l ->
  forall a b, In a (take n l) -> In b (drop n l) -> key a <= key b.
Proof.
  intros Hs a b Ha Hb. rewrite <- (take_drop n l) in Hs.
  induction (take n l) as [|x t IH]; [contradiction |].
  simpl in Hs. inversion Hs as [|? ? Ht Hx]; subst.
  destruct Ha as [<- | Ha]; [| auto].
  rewrite Forall_forall in Hx. apply Hx.
  apply list_elem_of_In, in_or_app. right. exact Hb.
Qed.

End SortFacts.

(** ** Query projection *)

Lemma arr_includes_In (arr : list string) (x : string) :
  arr_includes arr x = true <-> In x arr.
Proof.
  unfold arr_includes. rewrite existsb_exists. split.
  - intros (y & Hy & E). apply String.eqb_eq in E. subst. exact Hy.
  - intros H. exists x. split; [exact H | apply String.eqb_refl].
Qed.

Lemma filter_bool_sublist {A} (p : A -> bool) (l : list A) :
  sublist (List.filter p l) l.
Proof.
  induction l as [|x l IH]; simpl; [constructor |].
  destruct (p x); [apply sublist_skip | apply sublist_cons]; exact IH.
Qed.

Lemma filter_take_prefix {A} (p : A -> bool) (n : nat) (l : list A) :
  List.filter p (take n l) `prefix_of` List.filter p l.
Proof.
  exists (List.filter p (drop n l)).
  rewrite <- filter_app_bool, take_drop. reflexivity.
Qed.

Section ProjectionFacts.

Variable dateNow : nat -> Z.
Variable localeCompare : string -> string -> Z.

Lemma byVisitsDesc_key (a b : Bookmark) :
  (byVisitsDesc a b <=? 0) = (- b_visitCount a <=? - b_visitCount b).
Proof.
  unfold byVisitsDesc.
  destruct (Z.leb_spec (b_visitCount b - b_visitCount a) 0),
           (Z.leb_spec (- b_visitCount a) (- b_visitCount b)); lia || reflexivity.
Qed.

(** What [mostVisited] selects. *)
Lemma mostVisited_spec (bs : list Bookmark) :
  length (mostVisited bs) = Nat.min 20 (length bs) /\
  Permutation (mostVisited bs ++ lessVisited bs) bs /\
  (forall a b, In a (mostVisited bs) -> In b (lessVisited bs) ->
               b_visitCount b <= b_visitCount a) /\
  StronglySorted (fun a b => b_visitCount b <= b_visitCount a) (mostVisited bs) /\
  (forall v, List.filter (visitedTimes v) (mostVisited bs)
             `prefix_of` List.filter (visitedTimes v) bs).
Proof.
  pose proof (sort_sorted (fun b => - b_visitCount b) byVisitsDesc
                          byVisitsDesc_key bs) as Hsorted.
  unfold mostVisited, lessVisited. repeat split.
  - rewrite length_take, (sort_length byVisitsDesc). reflexivity.
  - rewrite take_drop. apply sort_perm.
  - intros a b Ha Hb.
    pose proof (sorted_take_drop (fun b => - b_visitCount b) 20 _ Hsorted
                                 a b Ha Hb) as Hab.
    cbv beta in Hab. lia.
  - rewrite <- (take_drop 20 (sort byVisitsDesc bs)) in Hsorted.
    induction (take 20 (sort byVisitsDesc bs)) as [|x t IH]; [constructor |].
    simpl in Hsorted. inversion Hsorted as [|? ? Ht Hx]; subst.
    constructor; [apply IH; exact Ht |].
    apply Forall_app in Hx as [Hx _].
    eapply Forall_impl; [exact Hx |]. simpl. intros; lia.
  - intros v.
    assert (E : List.filter (visitedTimes v) bs
                = List.filter (visitedTimes v) (sort byVisitsDesc bs)).
    { symmetry.
      pose proof (sort_stable (fun b => - b_visitCount b) byVisitsDesc
                              byVisitsDesc_key (- v) bs) as Hst.
      erewrite (filter_ext (visitedTimes v)), Hst.
      - apply filter_ext. intros b. unfold visitedTimes.
        destruct (Z.eqb_spec (- b_visitCount b) (- v)),
                 (Z.eqb_spec (b_visitCount b) v); lia || reflexivity.
      - intros b. unfold visitedTimes.
        destruct (Z.eqb_spec (- b_visitCount b) (- v)),
                 (Z.eqb_spec (b_visitCount b) v); lia || reflexivity. }
    rewrite E. apply filter_take_prefix.
Qed.

Lemma num_or_zero (n : Z) : JS.num_or n 0 = n.
Proof. unfold JS.num_or. destruct (Z.eqb_spec n 0); congruence. Qed.

Lemma sort_ext {A} (c1 c2 : A -> A -> Z) (l : list A) :
  (forall a b, c1 a b = c2 a b) -> sort c1 l = sort c2 l.
Proof.
  intros E. induction l as [|x l IH]; simpl; [reflexivity |].
  rewrite IH. generalize (sort c2 l). intros s.
  induction s as [|y s IHs]; simpl; [reflexivity |].
  rewrite E, IHs. reflexivity.
Qed.

Lemma service_stages (keyword : option string) (tags : option (list string))
    (bs : list Bookmark) (w : World) :
  service_searchBookmarks dateNow keyword None tags bs w
  = (mentioning keyword (carryingSomeTag tags bs), w).
Proof.
  unfold service_searchBookmarks, bind, ret. cbn [JS.truthy_ostr andb].
  f_equal.
  assert (Ht : match tags with
               | Some tags0 =>
                   if (0 <? length tags0)%nat
                   then List.filter
                          (fun b => existsb (fun tagId => arr_includes (b_tags b) tagId)
                                            tags0) bs
                   else bs
               | None => bs
               end = carryingSomeTag tags bs).
  { destruct tags as [[|t ts]|]; reflexivity. }
  rewrite Ht. unfold mentioning.
  destruct keyword as [k|]; [| reflexivity].
  cbn [JS.truthy_ostr JS.ostr_or]. unfold JS.str_or.
  destruct (String.eqb k "") eqn:Hk; cbn [negb andb orb]; [reflexivity |].
  destruct (String.eqb (trim k) ""); reflexivity.
Qed.

Lemma mentioning_In keyword l b : In b (mentioning keyword l) -> In b l.
Proof.
  unfold mentioning. destruct keyword as [k|]; [| auto].
  destruct (_ || _); [auto |]. intros H. apply filter_In in H. tauto.
Qed.

Lemma carryingSomeTag_In tags l b : In b (carryingSomeTag tags l) -> In b l.
Proof.
  unfold carryingSomeTag. destruct tags as [[|t ts]|]; auto.
  intros H. apply filter_In in H. tauto.
Qed.

(** C5. With [categoryId = 'frequent'] the projection first takes the
    twenty most visited bookmarks of the whole list (all of them when
    there are fewer): the selection is ordered by descending
    [visitCount], no left out bookmark has more visits than a selected
    one, and among bookmarks with equal [visitCount] the ones that come
    first in the original array are selected, in their original order.
    The tag stage and then the keyword stage run on that selection only:
    [filteredBookmarks] returns the selection narrowed by its tag stage
    and its keyword stage and then sorted, the service level search
    returns the selection narrowed to the bookmarks that carry one of the
    requested tags and mention the keyword. *)
Theorem frequent_selects_top_twenty_first (search : SearchParams)
    (keyword : option string) (tags : option (list string))
    (bs : list Bookmark) (w : World) :
  sp_categoryId search = Some "frequent" ->
  filteredBookmarks dateNow localeCompare search bs w
    = (sort (compareBookmarks localeCompare search)
            (keywordFilter search (tagFilter search (mostVisited bs))), w) /\
  service_searchBookmarks dateNow keyword (Some "frequent") tags bs w
    = (mentioning keyword (carryingSomeTag tags (mostVisited bs)), w) /\
  (forall b, In b (fst (filteredBookmarks dateNow localeCompare search bs w)) ->
             In b (mostVisited bs)) /\
  (forall b, In b (fst (service_searchBookmarks dateNow keyword
                          (Some "frequent") tags bs w)) ->
             In b (mostVisited bs)) /\
  length (mostVisited bs) = Nat.min 20 (length bs) /\
  Permutation (mostVisited bs ++ lessVisited bs) bs /\
  (forall a b, In a (mostVisited bs) -> In b (lessVisited bs) ->
               b_visitCount b <= b_visitCount a) /\
  StronglySorted (fun a b => b_visitCount b <= b_visitCount a) (mostVisited bs) /\
  (forall v, List.filter (visitedTimes v) (mostVisited bs)
             `prefix_of` List.filter (visitedTimes v) bs).
Proof.
  intros Hcat.
  assert (Hstore : filteredBookmarks dateNow localeCompare search bs w
    = (sort (compareBookmarks localeCompare search)
            (keywordFilter search (tagFilter search (mostVisited bs))), w)).
  { unfold filteredBookmarks, categoryFilter, bind, ret. rewrite Hcat.
    reflexivity. }
  assert (Hsvc : service_searchBookmarks dateNow keyword (Some "frequent") tags bs w
    = (mentioning keyword (carryingSomeTag tags (mostVisited bs)), w)).
  { rewrite <- (service_stages keyword tags (mostVisited bs) w).
    unfold service_searchBookmarks, bind, ret. simpl.
    unfold mostVisited, byVisitsDesc.
    rewrite (sort_ext _ (fun a b => b_visitCount b - b_visitCount a));
      [reflexivity |].
    intros a b. rewrite !num_or_zero. reflexivity. }
  split; [exact Hstore |]. split; [exact Hsvc |].
  split.
  { rewrite Hstore. simpl. intros b Hb.
    apply (Permutation_in _ (sort_perm _ _)) in Hb.
    unfold keywordFilter, tagFilter in Hb.
    repeat match type of Hb with
           | In _ (if ?c then _ else _) => destruct c
           | In _ (match ?o with Some _ => _ | None => _ end) => destruct o
           | In _ (List.filter _ _) => apply filter_In in Hb as [Hb _]
           end; exact Hb. }
  split.
  { rewrite Hsvc. cbn [fst]. intros b Hb.
    apply mentioning_In, carryingSomeTag_In in Hb. exact Hb. }
  apply mostVisited_spec.
Qed.

(** C6. The tag stage of the store's [filteredBookmarks] keeps, in their
    order, exactly the bookmarks that carry every requested tag; the tag
    stage of the service's [searchBookmarks] keeps the bookmarks that
    carry at least one of them. *)
Theorem tag_filter_semantics (search : SearchParams) (tags : list string)
    (bs : list Bookmark) (w : World) :
  sp_tags search = Some tags -> tags <> [] ->
  (forall b, In b (tagFilter search bs) <-> In b bs /\ hasAllTags tags b) /\
  sublist (tagFilter search bs) bs /\
  (forall b, In b (fst (service_searchBookmarks dateNow None None (Some tags) bs w))
             <-> In b bs /\ hasSomeTag tags b) /\
  sublist (fst (service_searchBookmarks dateNow None None (Some tags) bs w)) bs.
Proof.
  intros Htags Hne.
  assert (Hlen : (0 <? length tags)%nat = true).
  { destruct tags; [congruence | reflexivity]. }
  unfold tagFilter, service_searchBookmarks, bind, ret. rewrite Htags. simpl.
  rewrite Hlen. repeat split.
  - apply filter_In in H. tauto.
  - apply filter_In in H as [_ H]. rewrite forallb_forall in H.
    intros t Ht. apply arr_includes_In, H, Ht.
  - intros [Hb Hall]. apply filter_In. split; [exact Hb |].
    apply forallb_forall. intros t Ht. apply arr_includes_In, Hall, Ht.
  - apply filter_bool_sublist.
  - apply filter_In in H. tauto.
  - apply filter_In in H as [_ H]. apply existsb_exists in H as (t & Ht & Hi).
    exists t. split; [exact Ht | apply arr_includes_In, Hi].
  - intros [Hb (t & Ht & Hi)]. apply filter_In. split; [exact Hb |].
    apply existsb_exists. exists t. split; [exact Ht | apply arr_includes_In, Hi].
  - apply filter_bool_sublist.
Qed.

End ProjectionFacts.

(** ** The tag map and [updateTags] *)

Lemma TagMap_get_set_eq k v m : TagMap_get k (TagMap_set k v m) = Some v.
Proof.
  induction m as [|[k' v'] m IH]; simpl.
  - rewrite String.eqb_refl. reflexivity.
  - destruct (String.eqb k' k) eqn:E; simpl; rewrite E; [reflexivity | exact IH].
Qed.

Lemma TagMap_get_set_ne k k0 v m :
  k0 <> k -> TagMap_get k0 (TagMap_set k v m) = TagMap_get k0 m.
Proof.
  intros Hne. induction m as [|[k' v'] m IH]; simpl.
  - destruct (String.eqb k k0) eqn:E; [| reflexivity].
    apply String.eqb_eq in E. congruence.
  - destruct (String.eqb k' k) eqn:E; simpl.
    + apply String.eqb_eq in E. subst k'.
      destruct (String.eqb k k0) eqn:E0; [| reflexivity].
      apply String.eqb_eq in E0. congruence.
    + rewrite IH. reflexivity.
Qed.

Lemma TagMap_get_In k v m : TagMap_get k m = Some v -> In (k, v) m.
Proof.
  induction m as [|[k' v'] m IH]; simpl; [discriminate |].
  destruct (String.eqb k' k) eqn:E.
  - apply String.eqb_eq in E. intros [= ->]. left. congruence.
  - intros H. right. apply IH, H.
Qed.

Lemma TagMap_In_get k v m :
  NoDup (List.map fst m) -> In (k, v) m -> TagMap_get k m = Some v.
Proof.
  induction m as [|[k' v'] m IH]; simpl; [contradiction |].
  intros Hnd Hin. apply NoDup_cons in Hnd as [Hk' Hnd].
  destruct Hin as [[= -> ->] | Hin].
  - rewrite String.eqb_refl. reflexivity.
  - destruct (String.eqb k' k) eqn:E; [| apply IH; assumption].
    apply String.eqb_eq in E. subst k'. exfalso. apply Hk'.
    apply list_elem_of_In, (in_map fst _ _ Hin).
Qed.

Lemma TagMap_set_keys k v m :
  List.map fst (TagMap_set k v m)
  = match TagMap_get k m with
    | Some _ => List.map fst m
    | None => List.map fst m ++ [k]
    end.
Proof.
  induction m as [|[k' v'] m IH]; simpl; [reflexivity |].
  destruct (String.eqb k' k) eqn:E; simpl; [reflexivity |].
  rewrite IH. destruct (TagMap_get k m); reflexivity.
Qed.

Lemma TagMap_get_None_keys k m :
  TagMap_get k m = None -> ~ In k (List.map fst m).
Proof.
  induction m as [|[k' v'] m IH]; simpl; [tauto |].
  destruct (String.eqb k' k) eqn:E; [discriminate |].
  apply String.eqb_neq in E. intros H [? | ?]; [congruence | apply IH; auto].
Qed.

Lemma TagMap_set_NoDup k v m :
  NoDup (List.map fst m) -> NoDup (List.map fst (TagMap_set k v m)).
Proof.
  intros Hnd. rewrite TagMap_set_keys.
  destruct (TagMap_get k m) eqn:E; [exact Hnd |].
  apply NoDup_app. split; [exact Hnd |]. split.
  - intros x Hx Hk. apply list_elem_of_In in Hx, Hk.
    destruct Hk as [<- | []]. eapply TagMap_get_None_keys; eauto.
  - apply NoDup_singleton.
Qed.

Lemma occurrences_snoc_eq k seen :
  occurrences k (seen ++ [k]) = occurrences k seen + 1.
Proof.
  unfold occurrences. rewrite filter_app_bool, length_app. simpl.
  rewrite String.eqb_refl. simpl. lia.
Qed.

Lemma occurrences_snoc_ne k k0 seen :
  k0 <> k -> occurrences k0 (seen ++ [k]) = occurrences k0 seen.
Proof.
  intros Hne. unfold occurrences. rewrite filter_app_bool, length_app. simpl.
  destruct (String.eqb k0 k) eqn:E; simpl; [| lia].
  apply String.eqb_eq in E. congruence.
Qed.

Lemma occurrences_not_In k seen : ~ In k seen -> occurrences k seen = 0.
Proof.
  intros Hn. unfold occurrences.
  replace (List.filter (String.eqb k) seen) with (@nil string); [reflexivity |].
  symmetry. induction seen as [|x seen IH]; simpl; [reflexivity |].
  destruct (String.eqb k x) eqn:E.
  - apply String.eqb_eq in E. subst. exfalso. apply Hn. left. reflexivity.
  - apply IH. intros H. apply Hn. right. exact H.
Qed.

Lemma occurrences_In_pos k seen : In k seen -> 0 < occurrences k seen.
Proof.
  unfold occurrences. induction seen as [|x seen IH]; simpl; [contradiction |].
  intros [-> | Hin].
  - rewrite String.eqb_refl. simpl. lia.
  - destruct (String.eqb k x); simpl; [lia | apply IH, Hin].
Qed.

Section TagFacts.

Variable dateNow : nat -> Z.
Variable uuidv4 : nat -> string.

Lemma countTag_counts m seen name w :
  TagMap_counts m seen ->
  TagMap_counts (fst (countTag dateNow uuidv4 m name w)) (seen ++ [name]).
Proof.
  intros (Hnd & Hval & Hseen). unfold countTag.
  destruct (TagMap_get name m) as [tag|] eqn:Hget.
  - simpl. split; [apply TagMap_set_NoDup, Hnd |]. split.
    + intros k v Hk. destruct (string_dec k name) as [-> | Hne].
      * rewrite TagMap_get_set_eq in Hk. injection Hk as <-.
        destruct (Hval _ _ Hget) as [Hn Hc]. simpl.
        rewrite occurrences_snoc_eq, Hc. auto.
      * rewrite TagMap_get_set_ne in Hk by exact Hne.
        rewrite occurrences_snoc_ne by exact Hne. apply Hval, Hk.
    + intros k Hk. apply in_app_or in Hk.
      destruct (string_dec k name) as [-> | Hne].
      * rewrite TagMap_get_set_eq. eauto.
      * rewrite TagMap_get_set_ne by exact Hne.
        destruct Hk as [Hk | [Hk | []]]; [apply Hseen, Hk | congruence].
  - unfold newTag, bind, uuid, now, ret. simpl.
    split; [apply TagMap_set_NoDup, Hnd |]. split.
    + intros k v Hk. destruct (string_dec k name) as [-> | Hne].
      * rewrite TagMap_get_set_eq in Hk. injection Hk as <-. simpl.
        rewrite occurrences_snoc_eq, occurrences_not_In; [auto |].
        intros Hin. destruct (Hseen _ Hin) as [v Hv]. congruence.
      * rewrite TagMap_get_set_ne in Hk by exact Hne.
        rewrite occurrences_snoc_ne by exact Hne. apply Hval, Hk.
    + intros k Hk. apply in_app_or in Hk.
      destruct (string_dec k name) as [-> | Hne].
      * rewrite TagMap_get_set_eq. eauto.
      * rewrite TagMap_get_set_ne by exact Hne.
        destruct Hk as [Hk | [Hk | []]]; [apply Hseen, Hk | congruence].
Qed.

Lemma forEach_countTag_counts names : forall m seen w,
  TagMap_counts m seen ->
  TagMap_counts (fst (forEach (countTag dateNow uuidv4) names m w))
                (seen ++ names).
Proof.
  induction names as [|n names IH]; intros m seen w Hinv; simpl.
  - rewrite app_nil_r. exact Hinv.
  - unfold bind. pose proof (countTag_counts m seen n w Hinv) as H1.
    destruct (countTag dateNow uuidv4 m n w) as [m1 w1]. simpl in H1.
    specialize (IH m1 (seen ++ [n]) w1 H1).
    rewrite <- app_assoc in IH. exact IH.
Qed.

Lemma forEach_bookmarks_counts bs : forall m seen w,
  TagMap_counts m seen ->
  TagMap_counts
    (fst (forEach (fun m b => forEach (countTag dateNow uuidv4) (b_tags b) m)
                  bs m w))
    (seen ++ allTagNames bs).
Proof.
  induction bs as [|b bs IH]; intros m seen w Hinv; simpl.
  - rewrite app_nil_r. exact Hinv.
  - unfold bind.
    pose proof (forEach_countTag_counts (b_tags b) m seen w Hinv) as H1.
    destruct (forEach (countTag dateNow uuidv4) (b_tags b) m w) as [m1 w1].
    simpl in H1. specialize (IH m1 _ w1 H1).
    rewrite <- app_assoc in IH. exact IH.
Qed.

Lemma initial_tagMap_counts (ts : list Tag) : forall m,
  TagMap_counts m [] ->
  TagMap_counts
    (fold_left (fun m tag => TagMap_set (t_name tag) (t_with_count 0 tag) m) ts m)
    [].
Proof.
  induction ts as [|t ts IH]; intros m Hinv; simpl; [exact Hinv |].
  apply IH. destruct Hinv as (Hnd & Hval & _).
  split; [apply TagMap_set_NoDup, Hnd |]. split; [| intros k []].
  intros k v Hk. destruct (string_dec k (t_name t)) as [-> | Hne].
  - rewrite TagMap_get_set_eq in Hk. injection Hk as <-. simpl. auto.
  - rewrite TagMap_get_set_ne in Hk by exact Hne. apply Hval, Hk.
Qed.

Lemma occurrences_referencing name bs :
  Forall (fun b => NoDup (b_tags b)) bs ->
  occurrences name (allTagNames bs) = referencing name bs.
Proof.
  unfold occurrences, referencing, allTagNames.
  induction 1 as [|b bs Hb _ IH]; simpl; [reflexivity |].
  rewrite filter_app_bool, length_app, Nat2Z.inj_add, IH. clear IH.
  assert (Hone : length (List.filter (String.eqb name) (b_tags b))
                 = if arr_includes (b_tags b) name then 1%nat else 0%nat).
  { unfold arr_includes. induction Hb as [|x l Hx _ IHl]; simpl; [reflexivity |].
    destruct (String.eqb name x) eqn:E; simpl.
    - apply String.eqb_eq in E. subst x.
      replace (List.filter (String.eqb name) l) with (@nil string);
        [reflexivity |].
      symmetry. clear IHl. induction l as [|y l IHl']; simpl; [reflexivity |].
      destruct (String.eqb name y) eqn:Ey.
      + apply String.eqb_eq in Ey. subst y. exfalso. apply Hx. left.
      + apply IHl'. intros H. apply Hx. right. exact H.
    - exact IHl. }
  rewrite Hone. destruct (arr_includes (b_tags b) name); simpl; lia.
Qed.

(** C4. After [updateTags] every tag record has a positive count, no two
    records share a name, every tag name written on some bookmark has its
    record, and a record's count is the number of times its name is
    written on the bookmarks; this is the number of bookmarks carrying
    the tag when no bookmark lists a tag twice. *)
Theorem updateTags_prunes_and_counts (tagNames : list string) (s : Store)
    (w : World) :
  let ts := tags (fst (updateTags dateNow uuidv4 tagNames s w)) in
  Forall (fun t => 0 < t_count t) ts /\
  NoDup (List.map t_name ts) /\
  (forall name, In name (allTagNames (bookmarks s)) ->
                exists t, In t ts /\ t_name t = name) /\
  (forall t, In t ts ->
             t_count t = occurrences (t_name t) (allTagNames (bookmarks s))) /\
  (Forall (fun b => NoDup (b_tags b)) (bookmarks s) ->
   forall t, In t ts -> t_count t = referencing (t_name t) (bookmarks s)).
Proof.
  cbv zeta. unfold updateTags, bind, ret.
  set (m0 := fold_left
               (fun m tag => TagMap_set (t_name tag) (t_with_count 0 tag) m)
               (tags s) []).
  assert (H0 : TagMap_counts m0 []).
  { apply initial_tagMap_counts. split; [constructor |].
    split; [intros k v; discriminate | intros k []]. }
  pose proof (forEach_bookmarks_counts (bookmarks s) m0 [] w H0) as Hm.
  destruct (forEach _ (bookmarks s) m0 w) as [m w']. simpl in Hm. simpl.
  destruct Hm as (Hnd & Hval & Hseen).
  assert (Hin : forall t, In t (TagMap_values m) ->
                          TagMap_get (t_name t) m = Some t).
  { intros t Ht. unfold TagMap_values in Ht. apply in_map_iff in Ht.
    destruct Ht as ([k v] & <- & Hkv). simpl.
    pose proof (TagMap_In_get _ _ _ Hnd Hkv) as Hg.
    destruct (Hval _ _ Hg) as [-> _]. exact Hg. }
  assert (Hcount : forall t,
    In t (List.filter (fun tag => 0 <? t_count tag) (TagMap_values m)) ->
    t_count t = occurrences (t_name t) (allTagNames (bookmarks s))).
  { intros t Ht. apply filter_In in Ht as [Ht _].
    apply (Hval _ _ (Hin _ Ht)). }
  repeat split.
  - apply Forall_forall. intros t Ht. apply list_elem_of_In, filter_In in Ht.
    destruct Ht as [_ Ht]. apply Z.ltb_lt, Ht.
  - assert (Hnames : List.map t_name (TagMap_values m) = List.map fst m).
    { unfold TagMap_values. rewrite List.map_map. apply map_ext_in.
      intros [k v] Hkv. simpl.
      apply (Hval _ _ (TagMap_In_get _ _ _ Hnd Hkv)). }
    rewrite <- Hnames in Hnd. revert Hnd. generalize (TagMap_values m).
    intros l. induction l as [|t l IH]; simpl; intros Hl; [constructor |].
    apply NoDup_cons in Hl as [Ht Hl].
    destruct (0 <? t_count t); simpl; [| apply IH, Hl].
    apply NoDup_cons. split; [| apply IH, Hl].
    intros Hc. apply Ht. apply list_elem_of_In in Hc. apply list_elem_of_In.
    apply in_map_iff in Hc as (t' & E & Ht').
    apply filter_In in Ht' as [Ht' _]. apply in_map_iff. eauto.
  - intros name Hname. destruct (Hseen name Hname) as [v Hv].
    exists v. destruct (Hval _ _ Hv) as [Hn Hc]. split; [| exact Hn].
    apply filter_In. split.
    + unfold TagMap_values. apply in_map_iff. exists (name, v).
      split; [reflexivity | apply TagMap_get_In, Hv].
    + apply Z.ltb_lt. rewrite Hc. apply occurrences_In_pos, Hname.
  - exact Hcount.
  - intros Hdistinct t Ht. rewrite <- occurrences_referencing by exact Hdistinct.
    apply Hcount, Ht.
Qed.

End TagFacts.

(** ** Category tree projection *)

Lemma sort_map_commute {A B} (g : A -> B) (cmpA : A -> A -> Z)
    (cmpB : B -> B -> Z) (l : list A) :
  (forall a b, cmpB (g a) (g b) = cmpA a b) ->
  List.map g (sort cmpA l) = sort cmpB (List.map g l).
Proof.
  intros E. induction l as [|x l IH]; simpl; [reflexivity |].
  rewrite <- IH. generalize (sort cmpA l). intros s.
  induction s as [|y s IHs]; simpl; [reflexivity |].
  rewrite E. destruct (cmpA x y <=? 0); simpl; [reflexivity |].
  rewrite IHs. reflexivity.
Qed.

Lemma mapOpt_Some {A B} (f : A -> option B) (xs : list A) (ys : list B) :
  mapOpt f xs = Some ys -> Forall2 (fun x y => f x = Some y) xs ys.
Proof.
  revert ys. induction xs as [|x xs IH]; simpl; intros ys H.
  - injection H as <-. constructor.
  - destruct (f x) as [y|] eqn:Hx; [| discriminate].
    destruct (mapOpt f xs) as [ys'|]; [| discriminate].
    injection H as <-. constructor; [exact Hx | apply IH; reflexivity].
Qed.


Lemma groupByParent_first_pass (categories : list Category) :
  forall m : gmap string (list Category),
    (forall k l, m !! k = Some l -> l = []) ->
    forall k l,
      fold_left (fun m category =>
                   match m !! parentKey category with
                   | Some _ => m
                   | None => <[parentKey category := []]> m
                   end) categories m !! k = Some l -> l = [].
Proof.
  induction categories as [|c cs IH]; simpl; intros m Hm; [exact Hm |].
  apply IH. destruct (m !! parentKey c) eqn:E; [exact Hm |].
  intros k l. destruct (decide (parentKey c = k)) as [<- | Hne].
  - rewrite lookup_insert_eq. congruence.
  - rewrite lookup_insert_ne by exact Hne. apply Hm.
Qed.

Lemma groupByParent_second_pass (categories : list Category) (key : string) :
  forall m : gmap string (list Category),
    default [] (fold_left (fun m category =>
                             let children := default [] (m !! parentKey category) in
                             <[parentKey category := children ++ [category]]> m)
                          categories m !! key)
    = default [] (m !! key) ++ childrenOf key categories.
Proof.
  induction categories as [|c cs IH]; intros m; simpl.
  - rewrite app_nil_r. reflexivity.
  - rewrite IH. unfold childrenOf. simpl.
    destruct (String.eqb (parentKey c) key) eqn:E.
    + apply String.eqb_eq in E. subst key. rewrite lookup_insert_eq. simpl.
      rewrite <- app_assoc. reflexivity.
    + apply String.eqb_neq in E. rewrite lookup_insert_ne by exact E.
      reflexivity.
Qed.

Lemma groupByParent_lookup (categories : list Category) (key : string) :
  default [] (groupByParent categories !! key) = childrenOf key categories.
Proof.
  unfold groupByParent. rewrite groupByParent_second_pass.
  match goal with |- default [] (?m !! key) ++ _ = _ =>
    destruct (m !! key) as [l|] eqn:E end; simpl; [| reflexivity].
  apply groupByParent_first_pass in E; [subst; reflexivity |].
  intros k l0. rewrite lookup_empty. discriminate.
Qed.

Lemma byOrder_key (a b : Category) :
  (byOrder a b <=? 0) = (c_order a <=? c_order b).
Proof.
  unfold byOrder.
  destruct (Z.leb_spec (c_order a - c_order b) 0),
           (Z.leb_spec (c_order a) (c_order b)); lia || reflexivity.
Qed.

Lemma buildTree_projects (categories : list Category) (fuel : nat) :
  forall key level nodes,
    buildTree fuel (groupByParent categories) key level = Some nodes ->
    projects categories key level nodes.
Proof.
  induction fuel as [|fuel IH]; intros key level nodes H; simpl in H;
    [discriminate |].
  rewrite groupByParent_lookup in H.
  match type of H with
  | match mapOpt ?f ?l with _ => _ end = _ =>
      destruct (mapOpt f l) as [ns|] eqn:Hns; [| discriminate]
  end.
  injection H as <-. apply mapOpt_Some in Hns.
  set (cmpN := fun a b : CategoryTree =>
                 c_order (ct_category a) - c_order (ct_category b)).
  assert (Hcat : List.map ct_category ns
                 = List.map (c_with_level level (levelState level))
                            (childrenOf key categories)).
  { induction Hns as [|c n cs ns Hc _ IHns]; simpl; [reflexivity |].
    destruct (buildTree fuel _ (c_id c) (level + 1)); [| discriminate].
    injection Hc as <-. simpl. rewrite IHns. reflexivity. }
  assert (Hkids : Forall (fun n => projects categories (c_id (ct_category n))
                                            (level + 1) (ct_children n)) ns).
  { induction Hns as [|c n cs ns Hc _ IHns]; constructor.
    - destruct (buildTree fuel _ (c_id c) (level + 1)) as [kids|] eqn:Hk;
        [| discriminate].
      injection Hc as <-. simpl. apply IH, Hk.
    - apply IHns. simpl in Hcat. injection Hcat as _ Hcat. exact Hcat. }
  apply (projects_group categories key level _
           (sort byOrder (childrenOf key categories))).
  - apply sort_perm.
  - apply (sort_sorted c_order byOrder byOrder_key).
  - intros v. apply (sort_stable c_order byOrder byOrder_key).
  - rewrite (sort_map_commute ct_category cmpN byOrder) by reflexivity.
    rewrite Hcat.
    symmetry. apply sort_map_commute. reflexivity.
  - apply Forall_forall. intros n Hn. rewrite Forall_forall in Hkids.
    apply Hkids. apply list_elem_of_In. apply list_elem_of_In in Hn.
    eapply Permutation_in; [apply sort_perm | exact Hn].
Qed.




(** ** The store: category recount, bookmark update, category deletion *)

Lemma findIndex_unique_id (l : list Bookmark) (i : nat) (y : Bookmark) :
  NoDup (b_id <$> l) -> l !! i = Some y ->
  findIndex (fun b => String.eqb (b_id b) (b_id y)) l = Some i.
Proof.
  intros Hnd Hy.
  destruct (findIndex (fun b => String.eqb (b_id b) (b_id y)) l) as [j|] eqn:Hj.
  - destruct (findIndex_Some _ _ _ Hj) as (z & Hz & Hp & _).
    apply String.eqb_eq in Hp. f_equal.
    apply (proj1 (NoDup_alt _) Hnd j i (b_id y)).
    + rewrite list_lookup_fmap, Hz. simpl. congruence.
    + rewrite list_lookup_fmap, Hy. reflexivity.
  - apply findIndex_None in Hj. rewrite Forall_forall in Hj.
    assert (Hin : y ∈ l) by (apply list_elem_of_lookup; eauto).
    specialize (Hj y Hin). simpl in Hj. rewrite String.eqb_refl in Hj.
    discriminate.
Qed.

Lemma fmap_insert_same {A B} (f : A -> B) (l : list A) (i : nat) (x y : A) :
  l !! i = Some x -> f y = f x -> f <$> <[i:=y]> l = f <$> l.
Proof.
  intros Hx Hf. rewrite list_fmap_insert, Hf. apply list_insert_id.
  rewrite list_lookup_fmap, Hx. reflexivity.
Qed.

Section StoreFacts.

Variable dateNow : nat -> Z.
Variable uuidv4 : nat -> string.

Lemma updateCategoryBookmarkCount_frame cid s w :
  let s' := fst (updateCategoryBookmarkCount dateNow cid s w) in
  bookmarks s' = bookmarks s /\ tags s' = tags s /\
  c_with_count 0 0 <$> categories s' = c_with_count 0 0 <$> categories s.
Proof.
  unfold updateCategoryBookmarkCount.
  destruct (findIndex _ (categories s)) as [i|]; [| simpl; auto].
  unfold bind, now, ret. simpl.
  destruct (categories s !! i) as [c|] eqn:Hc; simpl; auto.
  repeat split.
  apply (fmap_insert_same (c_with_count 0 0) _ _ c); [exact Hc | reflexivity].
Qed.

(** Moving one bookmark to another category rewrites that bookmark alone
    and leaves the tags as they are; the categories change in their counts
    and stamps only. *)
Lemma updateBookmark_changeCategory id cid s w i old :
  findIndex (fun b => String.eqb (b_id b) id) (bookmarks s) = Some i ->
  bookmarks s !! i = Some old ->
  exists t s' w',
    updateBookmark dateNow uuidv4 id (changeCategoryId cid) s w
      = ((true, s'), w') /\
    bookmarks s' = <[i := b_with_category cid t old]> (bookmarks s) /\
    tags s' = tags s /\
    c_with_count 0 0 <$> categories s' = c_with_count 0 0 <$> categories s.
Proof.
  intros Hi Hold. exists (dateNow (w_clock w)).
  unfold updateBookmark. rewrite Hi, Hold.
  unfold bind at 1. unfold now at 1. cbv beta iota.
  set (w1 := {| w_clock := S (w_clock w); w_ids := w_ids w |}).
  set (upd := b_with_updatedAt (dateNow (w_clock w))
                (applyChanges (changeCategoryId cid) old)).
  change (b_with_category cid (dateNow (w_clock w)) old) with upd.
  change (b_tags upd) with (b_tags old).
  set (s1 := saveBookmarks (set_bookmarks (<[i:=upd]> (bookmarks s)) s)).
  unfold bind at 1.
  assert (H2 : forall s2 w2,
    (if negb (String.eqb (b_categoryId old) (b_categoryId upd))
     then do s' <- updateCategoryBookmarkCount dateNow (b_categoryId old) s1;
          updateCategoryBookmarkCount dateNow (b_categoryId upd) s'
     else ret s1) w1 = (s2, w2) ->
    bookmarks s2 = bookmarks s1 /\ tags s2 = tags s1 /\
    c_with_count 0 0 <$> categories s2 = c_with_count 0 0 <$> categories s1).
  { intros s2 w2. destruct (negb _).
    - unfold bind.
      pose proof (updateCategoryBookmarkCount_frame (b_categoryId old) s1 w1)
        as Ha.
      destruct (updateCategoryBookmarkCount dateNow (b_categoryId old) s1 w1)
        as [sa wa]. simpl in Ha.
      pose proof (updateCategoryBookmarkCount_frame (b_categoryId upd) sa wa)
        as Hb.
      destruct (updateCategoryBookmarkCount dateNow (b_categoryId upd) sa wa)
        as [sb wb]. simpl in Hb.
      intros [= <- <-]. destruct Ha as (? & ? & ?), Hb as (? & ? & ?).
      repeat split; simpl; congruence.
    - intros [= <- <-]. auto. }
  match goal with |- context [let (_, _) := ?e in _] =>
    destruct e as [s2 w2] eqn:E2 end.
  destruct (H2 s2 w2 eq_refl) as (Hb2 & Ht2 & Hc2).
  unfold bind. rewrite bool_decide_true by reflexivity. simpl.
  exists s2, w2. repeat split.
  - rewrite Hb2. reflexivity.
  - rewrite Ht2. reflexivity.
  - rewrite Hc2. reflexivity.
Qed.

Lemma reassign_loop (id : string) (orig : list Bookmark) :
  NoDup (b_id <$> orig) ->
  forall todo s0 w0,
    Forall (fun x => In x orig /\ b_categoryId x = id) todo ->
    b_id <$> bookmarks s0 = b_id <$> orig ->
    Forall2 (reassigned id todo) orig (bookmarks s0) ->
    exists s' w',
      forEach (fun acc bookmark =>
                 do r <- updateBookmark dateNow uuidv4 (b_id bookmark)
                           (changeCategoryId "uncategorized") acc;
                 ret (snd r))
              todo s0 w0 = (s', w') /\
      Forall2 (reassigned id []) orig (bookmarks s') /\
      tags s' = tags s0 /\
      c_with_count 0 0 <$> categories s' = c_with_count 0 0 <$> categories s0.
Proof.
  intros Hnd todo. induction todo as [|x todo IH]; intros s0 w0 Htodo Hids HR.
  - simpl. exists s0, w0. auto.
  - apply Forall_cons in Htodo as [[Hx Hxcat] Htodo].
    apply list_elem_of_In, list_elem_of_lookup in Hx as [i Hi].
    assert (Hcur : exists b', bookmarks s0 !! i = Some b').
    { apply lookup_lt_is_Some. rewrite <- (Forall2_length _ _ _ HR).
      eapply lookup_lt_Some, Hi. }
    destruct Hcur as [b' Hb'].
    assert (Hidb : b_id b' = b_id x).
    { assert (E : (b_id <$> bookmarks s0) !! i = (b_id <$> orig) !! i)
        by (rewrite Hids; reflexivity).
      rewrite !list_lookup_fmap, Hb', Hi in E. simpl in E. congruence. }
    assert (Hfind : findIndex (fun b => String.eqb (b_id b) (b_id x))
                              (bookmarks s0) = Some i).
    { rewrite <- Hidb. apply findIndex_unique_id; [| exact Hb'].
      rewrite Hids. exact Hnd. }
    destruct (updateBookmark_changeCategory (b_id x) "uncategorized" s0 w0 i b'
                Hfind Hb') as (t & s1 & w1 & Hrun & Hbs & Htg & Hcs).
    assert (Hnew : b_with_category "uncategorized" t b'
                   = b_with_category "uncategorized" t x).
    { pose proof (Forall2_lookup_lr _ _ _ _ _ _ HR Hi Hb') as Hr.
      unfold reassigned in Hr. rewrite Hxcat, String.eqb_refl in Hr.
      destruct Hr as [[_ ->] | [t' ->]]; reflexivity. }
    destruct (IH s1 w1 Htodo) as (s' & w' & Hloop & HR' & Htg' & Hcs').
    + rewrite Hbs. rewrite (fmap_insert_same b_id _ _ b'); auto.
    + rewrite Hbs, Hnew. apply Forall2_same_length_lookup. split.
      * rewrite length_insert. eapply Forall2_length, HR.
      * intros j b c Hb Hc.
        pose proof (Forall2_length _ _ _ HR) as Hlen.
        destruct (decide (i = j)) as [<- | Hne].
        -- rewrite list_lookup_insert_eq in Hc
             by (eapply lookup_lt_Some; eauto).
           injection Hc as <-. rewrite Hi in Hb. injection Hb as <-.
           unfold reassigned. rewrite Hxcat, String.eqb_refl. right. eauto.
        -- rewrite list_lookup_insert_ne in Hc by exact Hne.
           pose proof (Forall2_lookup_lr _ _ _ _ _ _ HR Hb Hc) as Hr.
           unfold reassigned in *.
           destruct (String.eqb (b_categoryId b) id); [| exact Hr].
           destruct Hr as [[Hin ->] | Hr]; [| right; exact Hr].
           left. split; [| reflexivity].
           rewrite fmap_cons in Hin. destruct Hin as [Hin | Hin]; [| exact Hin].
           exfalso. apply Hne.
           apply (proj1 (NoDup_alt _) Hnd i j (b_id x));
             rewrite list_lookup_fmap.
           ++ rewrite Hi. reflexivity.
           ++ rewrite Hb. simpl. congruence.
    + exists s', w'. split.
      * simpl. unfold bind at 1. unfold bind at 1. rewrite Hrun. simpl.
        exact Hloop.
      * repeat split; [exact HR' | congruence | congruence].
Qed.

Lemma find_unique_category (cs : list Category) (c : Category) (id : string) :
  NoDup (List.map c_id cs) -> In c cs -> c_id c = id ->
  List.find (fun c => String.eqb (c_id c) id) cs = Some c.
Proof.
  intros Hnd Hin <-. induction cs as [|x cs IH]; [contradiction |].
  simpl in *. apply NoDup_cons in Hnd as [Hx Hnd].
  destruct Hin as [-> | Hin].
  - rewrite String.eqb_refl. reflexivity.
  - destruct (String.eqb_spec (c_id x) (c_id c)) as [E | _]; [| auto].
    exfalso. apply Hx. rewrite E. apply list_elem_of_In, in_map, Hin.
Qed.

Lemma filter_map_ids (id : string) (cs cs' : list Category) :
  c_with_count 0 0 <$> cs' = c_with_count 0 0 <$> cs ->
  List.map (c_with_count 0 0)
           (List.filter (fun c => negb (String.eqb (c_id c) id)) cs')
  = List.map (c_with_count 0 0)
             (List.filter (fun c => negb (String.eqb (c_id c) id)) cs).
Proof.
  revert cs'. induction cs as [|c cs IH]; intros [|c' cs'] E;
    try discriminate; [reflexivity |].
  rewrite !fmap_cons in E.
  assert (Ec : c_with_count 0 0 c' = c_with_count 0 0 c)
    by exact (f_equal (fun l => List.hd (c_with_count 0 0 c) l) E).
  apply (f_equal (@List.tl _)) in E. cbn [List.tl] in E.
  assert (Hid : c_id c' = c_id c) by exact (f_equal c_id Ec).
  simpl. rewrite Hid.
  destruct (String.eqb (c_id c) id); simpl; [apply IH, E |].
  rewrite (IH cs' E). f_equal. exact Ec.
Qed.

(** C8. In a store whose bookmarks have distinct identifiers and whose
    categories have distinct identifiers, [deleteCategory] never deletes
    a builtin category: called with the identifier of a builtin category
    it returns [false] and leaves the store and the environment as they
    are, and whatever it is called with, every builtin category is still
    there afterwards.  When it deletes a category that is not builtin,
    every bookmark filed under the deleted category is filed under
    ['uncategorized'] afterwards (only [updatedAt] changes besides),
    every other bookmark is untouched, the tags are untouched, and the
    categories are the former ones without the deleted one, changed in
    their counts and stamps only; so no bookmark refers to the deleted
    category (unless it is ['uncategorized'] itself), and when
    ['uncategorized'] is a stored
    category other than the deleted one and every bookmark was filed
    under a stored category, every bookmark is filed under a stored
    category afterwards. *)
Theorem deleteCategory_spec (id : string) (s : Store) (w : World) :
  NoDup (List.map b_id (bookmarks s)) ->
  NoDup (List.map c_id (categories s)) ->
  exists ok s' w',
    deleteCategory dateNow uuidv4 id s w = ((ok, s'), w') /\
    (forall c, In c (categories s) -> JS.truthy_obool (c_builtin c) = true ->
               In (c_with_count 0 0 c)
                  (List.map (c_with_count 0 0) (categories s'))) /\
    (forall c, In c (categories s) -> c_id c = id ->
               JS.truthy_obool (c_builtin c) = true ->
               ok = false /\ s' = s /\ w' = w) /\
    (forall c, In c (categories s) -> c_id c = id ->
               JS.truthy_obool (c_builtin c) = false ->
               ok = true /\
               Forall2 (fun b b' =>
                          if String.eqb (b_categoryId b) id
                          then exists t, b' = b_with_category "uncategorized" t b
                          else b' = b)
                       (bookmarks s) (bookmarks s') /\
               List.map (c_with_count 0 0) (categories s')
                 = List.map (c_with_count 0 0)
                     (List.filter (fun c => negb (String.eqb (c_id c) id))
                                  (categories s)) /\
               tags s' = tags s /\
               (id <> "uncategorized" ->
                Forall (fun b' => b_categoryId b' <> id) (bookmarks s')) /\
               (id <> "uncategorized" ->
                In "uncategorized" (List.map c_id (categories s)) ->
                Forall (fun b => In (b_categoryId b)
                                    (List.map c_id (categories s)))
                       (bookmarks s) ->
                Forall (fun b' => In (b_categoryId b')
                                     (List.map c_id (categories s')))
                       (bookmarks s'))).
Proof.
  intros Hnd Hcd. unfold deleteCategory.
  destruct (List.find (fun c => String.eqb (c_id c) id) (categories s))
    as [category|] eqn:Hfind.
  2: { exists false, s, w. split; [reflexivity |].
       split; [intros c Hc _; apply in_map, Hc |].
       split; intros c Hc Hid _; exfalso;
         rewrite (find_unique_category _ c id Hcd Hc Hid) in Hfind;
         discriminate. }
  destruct (JS.truthy_obool (c_builtin category)) eqn:Hbuiltin.
  { exists false, s, w. split; [reflexivity |].
    split; [intros c Hc _; apply in_map, Hc |].
    split; [auto |]. intros c Hc Hid Hb. exfalso.
    rewrite (find_unique_category _ c id Hcd Hc Hid) in Hfind.
    injection Hfind as <-. congruence. }
  set (affected := List.filter (fun b => String.eqb (b_categoryId b) id)
                               (bookmarks s)).
  destruct (reassign_loop id (bookmarks s) Hnd affected s w)
    as (s1 & w1 & Hloop & HR & Htg & Hcs).
  { apply Forall_forall. intros x Hx.
    apply list_elem_of_In, filter_In in Hx as [Hx Hc].
    apply String.eqb_eq in Hc. auto. }
  { reflexivity. }
  { apply Forall2_same_length_lookup. split; [reflexivity |].
    intros i b c Hb Hc. rewrite Hb in Hc. injection Hc as <-.
    unfold reassigned. destruct (String.eqb (b_categoryId b) id) eqn:E;
      [| reflexivity].
    left. split; [| reflexivity].
    change (In (b_id b) (List.map b_id affected)). apply in_map.
    apply filter_In. split; [| exact E].
    apply list_elem_of_In, list_elem_of_lookup. eauto. }
  unfold bind at 1. rewrite Hloop. cbn [fst snd]. unfold ret.
  eexists _, _, _. split; [reflexivity |].
  cbn [bookmarks categories tags saveCategories set_categories].
  assert (HF : Forall2 (fun b b' =>
               if String.eqb (b_categoryId b) id
               then exists t, b' = b_with_category "uncategorized" t b
               else b' = b) (bookmarks s) (bookmarks s1)).
  { eapply Forall2_impl; [exact HR |]. unfold reassigned. intros b b' Hr.
    destruct (String.eqb (b_categoryId b) id); [| exact Hr].
    destruct Hr as [[[] _] | Hr]; exact Hr. }
  assert (HC : List.map (c_with_count 0 0)
                 (List.filter (fun c => negb (String.eqb (c_id c) id))
                              (categories s1))
               = List.map (c_with_count 0 0)
                   (List.filter (fun c => negb (String.eqb (c_id c) id))
                                (categories s)))
    by (apply filter_map_ids, Hcs).
  split.
  { intros c Hc Hb. rewrite HC. apply in_map, filter_In. split; [exact Hc |].
    apply negb_true_iff, String.eqb_neq. intros Hid.
    rewrite (find_unique_category _ c id Hcd Hc Hid) in Hfind.
    injection Hfind as <-. congruence. }
  split.
  { intros c Hc Hid Hb. exfalso.
    rewrite (find_unique_category _ c id Hcd Hc Hid) in Hfind.
    injection Hfind as <-. congruence. }
  intros c Hc Hid Hb.
  split; [reflexivity |]. split; [exact HF |]. split; [exact HC |].
  split; [exact Htg |].
  split.
  { intros Hne. clear -HF Hne.
    induction HF as [|b b' l l' Hb _ IH]; constructor; [| exact IH].
    destruct (String.eqb (b_categoryId b) id) eqn:E.
    - destruct Hb as [t ->]. cbn [b_categoryId b_with_category]. congruence.
    - subst b'. apply String.eqb_neq, E. }
  intros Hne Hunc Hfiled.
  assert (Hids : List.map c_id
                   (List.filter (fun c => negb (String.eqb (c_id c) id))
                                (categories s1))
                 = List.filter (fun i => negb (String.eqb i id))
                               (List.map c_id (categories s))).
  { transitivity (List.map c_id (List.map (c_with_count 0 0)
                   (List.filter (fun c => negb (String.eqb (c_id c) id))
                                (categories s1)))).
    - rewrite map_map. reflexivity.
    - rewrite HC, map_map. clear.
      induction (categories s) as [|x l IH]; simpl; [reflexivity |].
      destruct (String.eqb (c_id x) id); simpl; [exact IH |].
      f_equal. exact IH. }
  rewrite Hids. clear -HF Hne Hunc Hfiled.
  induction HF as [|b b' l l' Hb _ IH]; constructor.
  - apply Forall_cons in Hfiled as [Hin _]. apply filter_In.
    destruct (String.eqb (b_categoryId b) id) eqn:E.
    + destruct Hb as [t ->]. cbn [b_categoryId b_with_category].
      split; [exact Hunc |].
      apply negb_true_iff, String.eqb_neq. congruence.
    + subst b'. split; [exact Hin |]. rewrite E. reflexivity.
  - apply IH. apply Forall_cons in Hfiled as [_ Hl]. exact Hl.
Qed.

End StoreFacts.

(** ** Synchronisation *)

Lemma BrowserBookmarkNode_nested_ind (P : BrowserBookmarkNode -> Prop) :
  (forall node,
     (forall children, n_children node = Some children -> Forall P children) ->
     P node) ->
  forall node, P node.
Proof.
  intros Hstep. fix IH 1. intros node. apply Hstep.
  destruct node as [i p ix u t d g ch]; simpl.
  intros children Hch. destruct ch as [l|]; [| discriminate].
  injection Hch as <-. induction l as [|c l IHl]; constructor.
  - apply IH.
  - exact IHl.
Qed.

Section SyncFacts.

Variable dateNow : nat -> Z.
Variable uuidv4 : nat -> string.
Variable urlOrigin : string -> option string.

Lemma extractFavicon_originalId b :
  b_originalId (extractFavicon urlOrigin b) = b_originalId b.
Proof.
  unfold extractFavicon. destruct (JS.truthy_ostr _); [reflexivity |].
  destruct (urlOrigin _); reflexivity.
Qed.

(** Every bookmark [convertNode] appends is correlated to the host node
    it was made from. *)
Lemma convertNode_output m acc node w :
  let out := fst (convertNode dateNow uuidv4 urlOrigin m acc node w) in
  out = acc \/
  exists b, out = acc ++ [b] /\ JS.truthy_ostr (f_url node) = true /\
            b_originalId b = Some (f_id node).
Proof.
  unfold convertNode. destruct (JS.truthy_ostr (f_url node)) eqn:Hu; simpl;
    [| left; reflexivity].
  right. destruct (m !! Some (f_id node)) as [e|];
    unfold bind, now, uuid, ret; simpl.
  - eexists. split; [reflexivity |]. split; [reflexivity |].
    apply extractFavicon_originalId.
  - destruct (JS.truthy_onum (f_dateAdded node)); simpl;
      (eexists; split; [reflexivity |]; split; [reflexivity |];
       apply extractFavicon_originalId).
Qed.

Lemma convertNodes_output m nodes : forall acc w b,
  In b (fst (forEach (convertNode dateNow uuidv4 urlOrigin m) nodes acc w)) ->
  In b acc \/
  exists n, In n (flatLeaves nodes) /\ b_originalId b = Some (f_id n).
Proof.
  induction nodes as [|n nodes IH]; intros acc w b Hb; simpl in Hb.
  - left. exact Hb.
  - unfold bind in Hb.
    pose proof (convertNode_output m acc n w) as Hn.
    destruct (convertNode dateNow uuidv4 urlOrigin m acc n w) as [acc' w'].
    simpl in Hn. destruct (IH acc' w' b Hb) as [Hacc | (n' & Hn' & Ho)].
    + destruct Hn as [-> | (b0 & -> & Hu & Ho)]; [left; exact Hacc |].
      apply in_app_or in Hacc as [Hacc | [<- | []]]; [left; exact Hacc |].
      right. exists n. split; [| exact Ho].
      unfold flatLeaves. simpl. rewrite Hu. left. reflexivity.
    + right. exists n'. split; [| exact Ho].
      unfold flatLeaves in *. simpl. destruct (JS.truthy_ostr (f_url n));
        [right |]; exact Hn'.
Qed.

Lemma originalIdMap_lookup (bs : list Bookmark) (k : string) (e : Bookmark) :
  originalIdMap bs !! k = Some e -> b_originalId e = Some k /\ In e bs.
Proof.
  unfold originalIdMap.
  assert (H : forall (m : gmap string Bookmark),
    (forall k e, m !! k = Some e -> b_originalId e = Some k /\ In e bs) ->
    forall l, (forall b, In b l -> In b bs) ->
    forall k e,
      fold_left (fun m b =>
                   if JS.truthy_ostr (b_originalId b)
                   then <[JS.ostr_or (b_originalId b) "" := b]> m else m)
                l m !! k = Some e ->
      b_originalId e = Some k /\ In e bs).
  { intros m Hm l. revert m Hm. induction l as [|b l IH]; intros m Hm Hl k0 e0;
      simpl; [apply Hm |].
    apply IH; [| intros; apply Hl; right; assumption].
    intros k1 e1. destruct (b_originalId b) as [o|] eqn:Ho; simpl; [| apply Hm].
    unfold JS.str_or. destruct (String.eqb o "") eqn:Eo; simpl; [apply Hm |].
    destruct (decide (o = k1)) as [<- | Hne].
    - rewrite lookup_insert_eq. intros [= <-]. split; [exact Ho |].
      apply Hl. left. reflexivity.
    - rewrite lookup_insert_ne by exact Hne. apply Hm. }
  apply (H ∅); [intros k0 e0; rewrite lookup_empty; discriminate | auto].
Qed.

Lemma syncLeaf_output (m : gmap string Bookmark) node parent s w :
  (forall k e, m !! k = Some e -> b_originalId e = Some k) ->
  exists b,
    sy_bookmarks (fst (syncLeaf dateNow uuidv4 m node parent s w))
      = sy_bookmarks s ++ [b] /\
    b_originalId b = Some (n_id node).
Proof.
  intros Hm. unfold syncLeaf.
  destruct (m !! n_id node) as [e|] eqn:He.
  - destruct (JS.onum_or (n_dateAdded node) 0 <=? b_updatedAt e).
    + simpl. exists e. split; [reflexivity | apply Hm, He].
    + run_eff. case_conditions; simpl; eexists; split; reflexivity.
  - run_eff. case_conditions; simpl; eexists; split; reflexivity.
Qed.

(** Every bookmark a pass of [processBookmarkNode] appends is correlated to
    a node of the tree it walked. *)
Lemma processBookmarkNode_output (cats : list Category)
    (m : gmap string Bookmark) :
  (forall k e, m !! k = Some e -> b_originalId e = Some k) ->
  forall node parent s w b,
    In b (sy_bookmarks (fst (processBookmarkNode dateNow uuidv4 cats m node
                                                 parent s w))) ->
    In b (sy_bookmarks s) \/
    exists n, In n (treeNodes node) /\ b_originalId b = Some (n_id n).
Proof.
  intros Hm node.
  induction node as [node IH] using BrowserBookmarkNode_nested_ind.
  assert (Hloop : forall children, n_children node = Some children ->
    forall parent s w b,
      In b (sy_bookmarks (fst (forEach
             (fun acc child => processBookmarkNode dateNow uuidv4 cats m
                                                   child parent acc)
             children s w))) ->
      In b (sy_bookmarks s) \/
      exists n, In n (flat_map treeNodes children) /\
                b_originalId b = Some (n_id n)).
  { intros children Hch parent. specialize (IH children Hch). clear Hch.
    induction IH as [|c cs Hc _ IHcs]; intros s w b Hb; simpl in Hb;
      [left; exact Hb |].
    unfold bind in Hb.
    destruct (processBookmarkNode dateNow uuidv4 cats m c parent s w)
      as [s1 w1] eqn:E1.
    destruct (IHcs s1 w1 b Hb) as [H1 | (n & Hn & Ho)].
    - pose proof (Hc parent s w b) as Hc'. rewrite E1 in Hc'.
      destruct (Hc' H1) as [? | (n & Hn & Ho)]; [left; assumption |].
      right. exists n. split; [| exact Ho]. simpl. apply in_or_app. left.
      exact Hn.
    - right. exists n. split; [| exact Ho]. simpl. apply in_or_app. right.
      exact Hn. }
  intros parent s w b.
  destruct node as [i p ix u t d g ch].
  cbn [processBookmarkNode n_parentId n_url n_children treeNodes] in *.
  set (node := BNode i p ix u t d g ch) in *.
  destruct (negb (JS.truthy_ostr p)).
  { destruct ch as [children|]; [| simpl; auto].
    intros Hb. destruct (Hloop children eq_refl None s w b Hb)
      as [? | (n & Hn & Ho)]; [left; assumption |].
    right. exists n. split; [right; exact Hn | exact Ho]. }
  destruct (negb (JS.truthy_ostr u)).
  { unfold bind at 1.
    assert (Hf : sy_bookmarks (snd (fst (folderCategory dateNow uuidv4 cats
                                           node parent s w)))
                 = sy_bookmarks s).
    { unfold folderCategory. destruct (List.find _ cats); [reflexivity |].
      unfold bind, uuid, now, ret. simpl.
      destruct (JS.truthy_onum d); reflexivity. }
    destruct (folderCategory dateNow uuidv4 cats node parent s w)
      as [[cid s1] w1]. simpl in Hf. rewrite <- Hf.
    destruct ch as [children|]; [| simpl; auto].
    intros Hb. destruct (Hloop children eq_refl (Some cid) s1 w1 b Hb)
      as [? | (n & Hn & Ho)]; [left; assumption |].
    right. exists n. split; [right; exact Hn | exact Ho]. }
  intros Hb.
  destruct (syncLeaf_output m node parent s w Hm) as (b0 & Hs & Ho).
  rewrite Hs in Hb. apply in_app_or in Hb as [Hb | [<- | []]];
    [left; exact Hb |].
  right. exists node. split; [left; reflexivity | exact Ho].
Qed.

(** C2. Both synchronisation passes build their output from the host
    nodes alone: every bookmark they hand out is correlated, through
    [originalId], to a node of the host tree.  Hence a stored record
    without [originalId] is never part of the output, and neither is a
    stored record whose [originalId] is the identifier of no host node. *)
Theorem sync_output_follows_host (nodes : list FlatNode)
    (rootNode : list BrowserBookmarkNode) (storedBookmarks : list Bookmark)
    (storedCategories : list Category) (st : Storage) (w : World) :
  let out := fst (fst (convertBrowserBookmarks dateNow uuidv4 urlOrigin nodes
                         storedBookmarks storedCategories w)) in
  (forall b, In b out ->
             exists n, In n (flatLeaves nodes) /\ b_originalId b = Some (f_id n)) /\
  (forall b, b_originalId b = None -> ~ In b out) /\
  (forall b h, b_originalId b = Some h ->
               ~ In h (List.map f_id (flatLeaves nodes)) -> ~ In b out) /\
  (rootNode <> [] ->
   exists st', fst (syncBookmarks dateNow uuidv4 rootNode st w) = Some st' /\
     (forall b, In b (st_bookmarks st') ->
                exists n, In n (flat_map treeNodes rootNode) /\
                          b_originalId b = Some (n_id n)) /\
     (forall b, b_originalId b = None -> ~ In b (st_bookmarks st')) /\
     (forall b h, b_originalId b = Some h ->
                  ~ In h (List.map n_id (flat_map treeNodes rootNode)) ->
                  ~ In b (st_bookmarks st'))).
Proof.
  cbv zeta.
  assert (Hflat : forall b,
    In b (fst (fst (convertBrowserBookmarks dateNow uuidv4 urlOrigin nodes
                      storedBookmarks storedCategories w))) ->
    exists n, In n (flatLeaves nodes) /\ b_originalId b = Some (f_id n)).
  { unfold convertBrowserBookmarks, bind.
    destruct (if (0 <? length storedCategories)%nat then _ else _) as [cats w1].
    destruct (forEach _ nodes [] w1) as [bms w2] eqn:E.
    destruct (recount dateNow bms cats w2) as [cats' w3]. simpl.
    intros b Hb.
    pose proof (convertNodes_output (bookmarkMapOf storedBookmarks) nodes
                  [] w1 b) as H.
    rewrite E in H. destruct (H Hb) as [[] | H']. exact H'. }
  split; [exact Hflat |]. split; [| split].
  - intros b Hnone Hb. destruct (Hflat b Hb) as (n & _ & Ho). congruence.
  - intros b h Hh Hnot Hb. destruct (Hflat b Hb) as (n & Hn & Ho).
    apply Hnot. rewrite Hh in Ho. injection Ho as ->. apply in_map, Hn.
  - intros Hne. destruct rootNode as [|root rest]; [congruence |]. clear Hne.
    unfold syncBookmarks, bind.
    assert (Htree : forall s w0 b,
      In b (sy_bookmarks (fst (
        match n_children root with
        | Some children =>
            forEach (fun acc child =>
                       processBookmarkNode dateNow uuidv4 (st_categories st)
                         (originalIdMap (st_bookmarks st)) child None acc)
                    children s
        | None => ret s
        end w0))) ->
      In b (sy_bookmarks s) \/
      exists n, In n (treeNodes root) /\ b_originalId b = Some (n_id n)).
    { intros s w0 b. destruct root as [i p ix u t d g ch].
      cbn [n_children treeNodes]. destruct ch as [children|]; [| simpl; auto].
      revert s w0. induction children as [|c cs IH]; intros s w0 Hb;
        simpl in Hb; [left; exact Hb |].
      unfold bind in Hb.
      destruct (processBookmarkNode dateNow uuidv4 (st_categories st)
                  (originalIdMap (st_bookmarks st)) c None s w0)
        as [s1 w1] eqn:E1.
      destruct (IH s1 w1 Hb) as [H1 | (n & [<- | Hn] & Ho)].
      - pose proof (processBookmarkNode_output (st_categories st)
                      (originalIdMap (st_bookmarks st))
                      (fun k e H => proj1 (originalIdMap_lookup _ _ _ H))
                      c None s w0 b) as Hc.
        rewrite E1 in Hc. destruct (Hc H1) as [? | (n & Hn & Ho)];
          [left; assumption |].
        right. exists n. split; [| exact Ho]. right. simpl.
        apply in_or_app. left. exact Hn.
      - right. eexists. split; [left; reflexivity | exact Ho].
      - right. exists n. split; [| exact Ho]. right. simpl.
        apply in_or_app. right. exact Hn. }
    match goal with |- context [let (_, _) := ?e in _] =>
      destruct e as [s1 w1] eqn:E end.
    unfold now, ret. simpl. eexists. split; [reflexivity |]. simpl.
    assert (Hout : forall b, In b (sy_bookmarks s1) ->
              exists n, In n (treeNodes root ++ flat_map treeNodes rest) /\
                        b_originalId b = Some (n_id n)).
    { intros b Hb. specialize (Htree (initSync (st_categories st)) w b).
      rewrite E in Htree. destruct (Htree Hb) as [[] | (n & Hn & Ho)].
      exists n. split; [apply in_or_app; left; exact Hn | exact Ho]. }
    split; [exact Hout |]. split.
    + intros b Hnone Hb. destruct (Hout b Hb) as (n & _ & Ho). congruence.
    + intros b h Hh Hnot Hb. destruct (Hout b Hb) as (n & Hn & Ho).
      apply Hnot. rewrite Hh in Ho. injection Ho as ->. apply in_map, Hn.
Qed.

(** *** A second pass of [convertBrowserBookmarks] *)

Lemma extractFavicon_restamp t b :
  extractFavicon urlOrigin (b_with_updatedAt t b)
  = b_with_updatedAt t (extractFavicon urlOrigin b).
Proof.
  unfold extractFavicon. simpl. destruct (JS.truthy_ostr (b_favicon b));
    [reflexivity |].
  destruct (urlOrigin (b_url b)); reflexivity.
Qed.

Lemma extractFavicon_settled b :
  extractFavicon urlOrigin (extractFavicon urlOrigin b)
  = extractFavicon urlOrigin b.
Proof.
  unfold extractFavicon.
  destruct (JS.truthy_ostr (b_favicon b)) eqn:Hf; [rewrite Hf; reflexivity |].
  destruct (urlOrigin (b_url b)) eqn:Ho; simpl; [reflexivity |].
  rewrite Hf, Ho. reflexivity.
Qed.

Lemma str_or_settled s d : JS.str_or s (JS.str_or s d) = JS.str_or s d.
Proof. unfold JS.str_or. destruct (String.eqb s ""); reflexivity. Qed.

Lemma str_or_same s : JS.str_or s s = s.
Proof. unfold JS.str_or. destruct (String.eqb s ""); reflexivity. Qed.

Lemma convertNode_folder m acc n w :
  JS.truthy_ostr (f_url n) = false ->
  convertNode dateNow uuidv4 urlOrigin m acc n w = (acc, w).
Proof. intros H. unfold convertNode. rewrite H. reflexivity. Qed.

Lemma convertNode_leaf m acc n w :
  JS.truthy_ostr (f_url n) = true ->
  exists b w',
    convertNode dateNow uuidv4 urlOrigin m acc n w = (acc ++ [b], w') /\
    fromNode dateNow urlOrigin n b.
Proof.
  intros H. unfold convertNode. rewrite H. simpl.
  assert (Hurl : forall d, JS.str_or (JS.ostr_or (f_url n) "") d
                           = JS.ostr_or (f_url n) "").
  { intros d. destruct (f_url n) as [u|]; [| discriminate]. simpl in *.
    destruct (String.eqb u "") eqn:E; [discriminate |].
    unfold JS.str_or. repeat rewrite E. reflexivity. }
  destruct (m !! Some (f_id n)) as [e|]; unfold bind, now, uuid, ret.
  - eexists _, _. split; [reflexivity |]. unfold fromNode.
    rewrite extractFavicon_originalId, extractFavicon_settled.
    repeat split.
    + unfold extractFavicon. simpl.
      destruct (JS.truthy_ostr (b_favicon e)); simpl.
      * rewrite !Hurl. reflexivity.
      * destruct (urlOrigin _); simpl; rewrite !Hurl; reflexivity.
    + unfold extractFavicon. simpl.
      destruct (JS.truthy_ostr (b_favicon e)); simpl;
        [apply str_or_settled |].
      destruct (urlOrigin _); simpl; apply str_or_settled.
    + unfold extractFavicon. simpl.
      destruct (JS.truthy_ostr (b_favicon e)); simpl; [eauto |].
      destruct (urlOrigin _); simpl; eauto.
  - destruct (JS.truthy_onum (f_dateAdded n)); simpl;
      (eexists _, _; split; [reflexivity |]; unfold fromNode;
       rewrite extractFavicon_originalId, extractFavicon_settled;
       repeat split;
       [ unfold extractFavicon; simpl; destruct (urlOrigin _); simpl;
         apply str_or_same
       | unfold extractFavicon; simpl; destruct (urlOrigin _); simpl;
         apply str_or_settled
       | unfold extractFavicon; simpl; destruct (urlOrigin _); simpl; eauto ]).
Qed.

Lemma convertNodes_first_pass m nodes : forall acc w,
  exists bs w',
    forEach (convertNode dateNow uuidv4 urlOrigin m) nodes acc w
      = (acc ++ bs, w') /\
    Forall2 (fromNode dateNow urlOrigin) (flatLeaves nodes) bs.
Proof.
  induction nodes as [|n nodes IH]; intros acc w.
  - exists [], w. rewrite app_nil_r. split; [reflexivity | constructor].
  - simpl. unfold bind, flatLeaves. simpl.
    destruct (JS.truthy_ostr (f_url n)) eqn:Hu.
    + destruct (convertNode_leaf m acc n w Hu) as (b & w1 & -> & Hb).
      destruct (IH (acc ++ [b]) w1) as (bs & w' & -> & Hbs).
      exists (b :: bs), w'. rewrite <- app_assoc. split; [reflexivity |].
      constructor; assumption.
    + rewrite (convertNode_folder m acc n w Hu).
      destruct (IH acc w) as (bs & w' & -> & Hbs). eauto.
Qed.

Lemma bookmarkMapOf_fold_other (l : list Bookmark) :
  forall (m : gmap (option string) Bookmark) k,
  ~ In k (List.map b_originalId l) ->
  fold_left (fun m b => <[b_originalId b := b]> m) l m !! k = m !! k.
Proof.
  induction l as [|b l IH]; intros m k Hk; simpl; [reflexivity |].
  simpl in Hk. rewrite IH by tauto.
  apply lookup_insert_ne. tauto.
Qed.

Lemma bookmarkMapOf_lookup (l : list Bookmark) (b : Bookmark) :
  NoDup (List.map b_originalId l) -> In b l ->
  bookmarkMapOf l !! b_originalId b = Some b.
Proof.
  unfold bookmarkMapOf. generalize (∅ : gmap (option string) Bookmark).
  induction l as [|x l IH]; intros m Hnd Hin; [contradiction |].
  simpl in *. apply NoDup_cons in Hnd as [Hx Hnd].
  destruct Hin as [-> | Hin].
  - rewrite bookmarkMapOf_fold_other.
    + apply lookup_insert_eq.
    + intros H. apply Hx, list_elem_of_In, H.
  - apply IH; assumption.
Qed.

Lemma convertNodes_second_pass m nodes : forall bs1 acc w,
  Forall2 (fun n b => m !! Some (f_id n) = Some b /\
                      fromNode dateNow urlOrigin n b)
          (flatLeaves nodes) bs1 ->
  exists bs2 w',
    forEach (convertNode dateNow uuidv4 urlOrigin m) nodes acc w
      = (acc ++ bs2, w') /\
    Forall2 (fun b1 b2 => exists k, b2 = b_with_updatedAt (dateNow k) b1)
            bs1 bs2.
Proof.
  induction nodes as [|n nodes IH]; intros bs1 acc w H.
  - inversion H; subst. exists [], w. rewrite app_nil_r.
    split; [reflexivity | constructor].
  - simpl. unfold bind. unfold flatLeaves in H. simpl in H.
    destruct (JS.truthy_ostr (f_url n)) eqn:Hu.
    + inversion H as [|? b1 ? bs1' [Hm Hb1] Hrest]; subst.
      unfold convertNode at 1. rewrite Hu, Hm. simpl.
      unfold bind, now, ret.
      destruct Hb1 as (Ho & Hurl & Htitle & Hfav & _).
      match goal with |- context [extractFavicon urlOrigin ?r] =>
        assert (Hr : r = b_with_updatedAt (dateNow (w_clock w)) b1) end.
      { unfold b_with_updatedAt, b_with_category.
        rewrite Hurl, Htitle, <- Ho. reflexivity. }
      rewrite Hr, extractFavicon_restamp, Hfav.
      destruct (IH bs1' (acc ++ [b_with_updatedAt (dateNow (w_clock w)) b1])
                   {| w_clock := S (w_clock w); w_ids := w_ids w |} Hrest)
        as (bs2 & w' & -> & Hbs2).
      eexists (_ :: bs2), w'. rewrite <- app_assoc.
      split; [reflexivity |]. constructor; eauto.
    + rewrite (convertNode_folder m acc n w Hu). apply IH, H.
Qed.

Lemma recount_shape bs cs : forall w,
  exists cs' w',
    recount dateNow bs cs w = (cs', w') /\
    Forall2 (fun c c' => exists k,
               c' = c_with_count (directMembers (c_id c) bs) (dateNow k) c)
            cs cs'.
Proof.
  induction cs as [|c cs IH]; intros w.
  - exists [], w. split; [reflexivity | constructor].
  - unfold recount in *. rewrite mapM_cons_run.
    match goal with |- context [mapM ?f cs] => set (step := f) in * end.
    unfold bind at 1, now at 1, ret at 1. cbv iota beta.
    destruct (IH {| w_clock := S (w_clock w); w_ids := w_ids w |})
      as (cs' & w' & E & Hcs).
    rewrite E. eexists _, _. split; [reflexivity |].
    constructor; [| exact Hcs]. eexists. reflexivity.
Qed.

Lemma directMembers_restamped cid bs1 bs2 :
  Forall2 restamped bs1 bs2 -> directMembers cid bs2 = directMembers cid bs1.
Proof.
  unfold directMembers. intros H. f_equal.
  induction H as [|b1 b2 l1 l2 [t ->] _ IH]; simpl; [reflexivity |].
  destruct (String.eqb (b_categoryId b1) cid); simpl; congruence.
Qed.

Lemma b_restamp_same b : b_with_updatedAt (b_updatedAt b) b = b.
Proof. destruct b; reflexivity. Qed.

Lemma c_restamp_same c : c_with_updatedAt (c_updatedAt c) c = c.
Proof. destruct c; reflexivity. Qed.

Lemma mapM_defaultCategory_length ds : forall w,
  length (fst (mapM (defaultCategory dateNow) ds w)) = length ds.
Proof.
  induction ds as [|d ds IH]; intros w; [reflexivity |].
  rewrite mapM_cons_run.
  destruct (defaultCategory dateNow d w) as [c w1].
  specialize (IH w1).
  destruct (mapM (defaultCategory dateNow) ds w1) as [cs w'].
  simpl in *. congruence.
Qed.

Lemma convertBrowserBookmarks_run nodes stored cats w :
  exists cats0 w0 bs w1 cs w2,
    (if (0 <? length cats)%nat then ret cats
     else mapM (defaultCategory dateNow) DEFAULT_CATEGORIES) w = (cats0, w0) /\
    forEach (convertNode dateNow uuidv4 urlOrigin (bookmarkMapOf stored))
            nodes [] w0 = (bs, w1) /\
    recount dateNow bs cats0 w1 = (cs, w2) /\
    convertBrowserBookmarks dateNow uuidv4 urlOrigin nodes stored cats w
      = ((bs, cs), w2).
Proof.
  unfold convertBrowserBookmarks, bind.
  destruct ((if (0 <? length cats)%nat then ret cats
             else mapM (defaultCategory dateNow) DEFAULT_CATEGORIES) w)
    as [cats0 w0] eqn:E0.
  destruct (forEach (convertNode dateNow uuidv4 urlOrigin (bookmarkMapOf stored))
                    nodes [] w0) as [bs w1] eqn:E1.
  destruct (recount dateNow bs cats0 w1) as [cs w2] eqn:E2.
  exists cats0, w0, bs, w1, cs, w2. auto.
Qed.

(** Running [convertBrowserBookmarks] again on its own output repeats the
    first pass up to the [updatedAt] stamps. *)
Lemma convertBrowserBookmarks_again (nodes : list FlatNode)
    (storedBookmarks : list Bookmark) (storedCategories : list Category)
    (w1 w2 : World) :
  NoDup (List.map f_id (flatLeaves nodes)) ->
  let pass1 := fst (convertBrowserBookmarks dateNow uuidv4 urlOrigin nodes
                      storedBookmarks storedCategories w1) in
  let pass2 := fst (convertBrowserBookmarks dateNow uuidv4 urlOrigin nodes
                      (fst pass1) (snd pass1) w2) in
  Forall2 restamped (fst pass1) (fst pass2) /\
  Forall2 c_restamped (snd pass1) (snd pass2) /\
  ((forall j k, dateNow j = dateNow k) -> pass2 = pass1).
Proof.
  intros Hnd. cbv zeta.
  destruct (convertBrowserBookmarks_run nodes storedBookmarks storedCategories w1)
    as (cats0 & w1a & bs1 & w1b & cs1 & w1c & Ecats & Ebs1 & Ecs1 & ->).
  simpl fst. simpl snd.
  assert (Hlen0 : (0 < length cats0)%nat).
  { destruct (0 <? length storedCategories)%nat eqn:El.
    - unfold ret in Ecats. injection Ecats as <- <-.
      apply Nat.ltb_lt, El.
    - pose proof (mapM_defaultCategory_length DEFAULT_CATEGORIES w1) as Hl.
      rewrite Ecats in Hl. simpl in Hl. lia. }
  destruct (convertNodes_first_pass (bookmarkMapOf storedBookmarks) nodes
              [] w1a) as (bs1' & w1b' & Ebs1' & Hbs1).
  rewrite Ebs1 in Ebs1'. simpl in Ebs1'. injection Ebs1' as <- <-.
  destruct (recount_shape bs1 cats0 w1b) as (cs1' & w1c' & Ecs1' & Hcs1).
  rewrite Ecs1 in Ecs1'. injection Ecs1' as <- <-.
  destruct (convertBrowserBookmarks_run nodes bs1 cs1 w2)
    as (cats1 & w2a & bs2 & w2b & cs2 & w2c & Ecats1 & Ebs2 & Ecs2 & ->).
  simpl fst. simpl snd.
  assert (Hlen1 : (0 <? length cs1)%nat = true).
  { apply Nat.ltb_lt. rewrite <- (Forall2_length _ _ _ Hcs1). exact Hlen0. }
  rewrite Hlen1 in Ecats1. unfold ret in Ecats1. injection Ecats1 as <- <-.
  assert (Hids : List.map b_originalId bs1
                 = List.map (fun n => Some (f_id n)) (flatLeaves nodes)).
  { clear -Hbs1. induction Hbs1 as [|n b ns bs (Ho & _) _ IH]; simpl;
      [reflexivity | congruence]. }
  assert (Hnd1 : NoDup (List.map b_originalId bs1)).
  { rewrite Hids, <- (List.map_map f_id Some).
    change (NoDup (Some <$> List.map f_id (flatLeaves nodes))).
    apply NoDup_fmap_2; [apply _ | exact Hnd]. }
  assert (Hmap : Forall2 (fun n b =>
                    bookmarkMapOf bs1 !! Some (f_id n) = Some b /\
                    fromNode dateNow urlOrigin n b) (flatLeaves nodes) bs1).
  { assert (Hin : forall b, In b bs1 ->
              bookmarkMapOf bs1 !! b_originalId b = Some b)
      by (intros b; apply bookmarkMapOf_lookup, Hnd1).
    revert Hin. generalize (bookmarkMapOf bs1). intros m Hin.
    clear -Hbs1 Hin. induction Hbs1 as [|n b ns bs Hb _ IH]; constructor.
    - split; [| exact Hb]. destruct Hb as (Ho & _). rewrite <- Ho.
      apply Hin. left. reflexivity.
    - apply IH. intros b' Hb'. apply Hin. right. exact Hb'. }
  destruct (convertNodes_second_pass (bookmarkMapOf bs1) nodes bs1 [] w2 Hmap)
    as (bs2' & w2b' & Ebs2' & Hbs2).
  rewrite Ebs2 in Ebs2'. simpl in Ebs2'. injection Ebs2' as <- <-.
  destruct (recount_shape bs2 cs1 w2b) as (cs2' & w2c' & Ecs2' & Hcs2).
  rewrite Ecs2 in Ecs2'. injection Ecs2' as <- <-.
  assert (Hre : Forall2 restamped bs1 bs2).
  { eapply Forall2_impl; [exact Hbs2 |]. intros b1 b2 [k ->].
    eexists. reflexivity. }
  assert (Hcre : Forall2 (fun c1 c2 => exists k,
                    c2 = c_with_updatedAt (dateNow k) c1) cs1 cs2).
  { clear -Hcs1 Hcs2 Hre. revert cs2 Hcs2.
    induction Hcs1 as [|c0 c1 l0 l1 [k1 ->] _ IH]; intros cs2 Hcs2;
      inversion Hcs2 as [|? c2 ? l2 [k2 ->] Hrest]; subst; constructor.
    - exists k2. simpl. rewrite (directMembers_restamped _ _ _ Hre).
      reflexivity.
    - apply IH, Hrest. }
  split; [exact Hre |]. split.
  - eapply Forall2_impl; [exact Hcre |]. intros c1 c2 [k ->].
    eexists. reflexivity.
  - intros Hclock. f_equal.
    + clear -Hbs1 Hbs2 Hclock. revert bs2 Hbs2.
      induction Hbs1 as [|n b ns bs (_ & _ & _ & _ & k & Hk) _ IH];
        intros bs2 Hbs2; inversion Hbs2 as [|? b2 ? l2 [k2 ->] Hrest]; subst;
        [reflexivity |].
      rewrite (Hclock k2 k), <- Hk, b_restamp_same. f_equal.
      apply IH, Hrest.
    + clear -Hcs1 Hcre Hclock. revert cs2 Hcre.
      induction Hcs1 as [|c0 c1 l0 l1 [k1 ->] _ IH]; intros cs2 Hcre;
        inversion Hcre as [|? c2 ? l2 [k2 ->] Hrest]; subst; [reflexivity |].
      rewrite (Hclock k2 k1). f_equal. apply IH, Hrest.
Qed.

(** *** A second pass of [syncBookmarks] *)

Lemma find_folderKey (title : string) (cats : list Category) :
  In (title, false) (List.map folderKey cats) ->
  exists c, List.find (fun c => String.eqb (c_name c) title
                                && negb (JS.truthy_obool (c_builtin c))) cats
            = Some c.
Proof.
  intros H. apply in_map_iff in H as (c & Hk & Hc).
  destruct (List.find _ cats) as [c'|] eqn:E; [eauto |].
  exfalso. apply (find_none _ _ E) in Hc. unfold folderKey in Hk.
  injection Hk as Hn Hb. rewrite Hn, Hb, String.eqb_refl in Hc. discriminate.
Qed.

Lemma folderKey_find (title : string) (cats : list Category) (c : Category) :
  List.find (fun c => String.eqb (c_name c) title
                      && negb (JS.truthy_obool (c_builtin c))) cats = Some c ->
  In (title, false) (List.map folderKey cats).
Proof.
  intros H. apply find_some in H as [Hin Hc].
  apply andb_true_iff in Hc as [Hn Hb]. apply String.eqb_eq in Hn.
  apply negb_true_iff in Hb. apply in_map_iff. exists c.
  split; [| exact Hin]. unfold folderKey. congruence.
Qed.

Lemma pushed_app bs1 bs2 s : pushed bs2 (pushed bs1 s) = pushed (bs1 ++ bs2) s.
Proof. unfold pushed. simpl. rewrite <- app_assoc. reflexivity. Qed.

Lemma pushed_nil s : pushed [] s = s.
Proof. unfold pushed. rewrite app_nil_r. destruct s; reflexivity. Qed.

(** A pass over a tree whose bookmarks are all stored and fresh, and whose
    folders all have their category, keeps every stored bookmark and
    changes nothing else. *)
Lemma processBookmarkNode_settled (cats : list Category)
    (m : gmap string Bookmark) (node : BrowserBookmarkNode) :
  (forall n, In n (syncLeaves node) ->
             exists b, m !! n_id n = Some b /\
                       JS.onum_or (n_dateAdded n) 0 <= b_updatedAt b) ->
  (forall f, In f (syncFolders node) ->
             In (n_title f, false) (List.map folderKey cats)) ->
  forall parent s w,
    exists bs,
      Forall2 (fun n b => m !! n_id n = Some b) (syncLeaves node) bs /\
      processBookmarkNode dateNow uuidv4 cats m node parent s w
        = (pushed bs s, w).
Proof.
  induction node as [node IH] using BrowserBookmarkNode_nested_ind.
  intros Hleaves Hfolders.
  assert (Hloop : forall children, n_children node = Some children ->
    (forall n, In n (flat_map syncLeaves children) ->
               exists b, m !! n_id n = Some b /\
                         JS.onum_or (n_dateAdded n) 0 <= b_updatedAt b) ->
    (forall f, In f (flat_map syncFolders children) ->
               In (n_title f, false) (List.map folderKey cats)) ->
    forall parent s w,
      exists bs,
        Forall2 (fun n b => m !! n_id n = Some b)
                (flat_map syncLeaves children) bs /\
        forEach (fun acc child =>
                   processBookmarkNode dateNow uuidv4 cats m child parent acc)
                children s w = (pushed bs s, w)).
  { intros children Hch. specialize (IH children Hch). clear Hch.
    induction IH as [|c cs Hc _ IHcs]; intros Hl Hf parent s w.
    - exists []. split; [constructor |]. simpl. rewrite pushed_nil. reflexivity.
    - simpl in Hl, Hf.
      destruct (Hc (fun n H => Hl n (in_or_app _ _ _ (or_introl H)))
                   (fun f H => Hf f (in_or_app _ _ _ (or_introl H)))
                   parent s w) as (bs1 & Hbs1 & E1).
      destruct (IHcs (fun n H => Hl n (in_or_app _ _ _ (or_intror H)))
                     (fun f H => Hf f (in_or_app _ _ _ (or_intror H)))
                     parent (pushed bs1 s) w) as (bs2 & Hbs2 & E2).
      exists (bs1 ++ bs2). split.
      + simpl. apply Forall2_app; assumption.
      + simpl. unfold bind. rewrite E1, E2, pushed_app. reflexivity. }
  intros parent s w.
  destruct node as [i p ix u t d g ch].
  cbn [processBookmarkNode syncLeaves syncFolders n_parentId n_url n_children]
    in *.
  destruct (negb (JS.truthy_ostr p)); cbn [orb] in *.
  { destruct ch as [children|].
    - apply (Hloop children eq_refl Hleaves Hfolders).
    - exists []. split; [constructor |]. rewrite pushed_nil. reflexivity. }
  destruct (negb (JS.truthy_ostr u)); cbn [orb] in *.
  { unfold bind at 1. unfold folderCategory. cbn [n_title].
    destruct (find_folderKey t cats) as [c Hc].
    { apply (Hfolders _ (or_introl eq_refl)). }
    rewrite Hc. unfold ret at 1.
    destruct ch as [children|].
    - apply (Hloop children eq_refl Hleaves).
      intros f Hf. apply Hfolders. right. exact Hf.
    - exists []. split; [constructor |]. rewrite pushed_nil. reflexivity. }
  destruct (Hleaves _ (or_introl eq_refl)) as (b & Hb & Hfresh).
  cbn [n_id n_dateAdded] in Hb, Hfresh.
  exists [b]. split; [repeat constructor; exact Hb |].
  unfold syncLeaf. cbn [n_id n_dateAdded]. rewrite Hb.
  apply Z.leb_le in Hfresh. rewrite Hfresh. reflexivity.
Qed.

Lemma syncLeaf_first_pass (m : gmap string Bookmark) node parent s w :
  (forall k e, m !! k = Some e -> b_originalId e = Some k) ->
  (forall k, JS.onum_or (n_dateAdded node) 0 <= dateNow k) ->
  exists b s' w',
    syncLeaf dateNow uuidv4 m node parent s w = (s', w') /\
    sy_bookmarks s' = sy_bookmarks s ++ [b] /\
    keptFor node b /\
    List.map folderKey (sy_newCategories s')
      = List.map folderKey (sy_newCategories s).
Proof.
  intros Hm Hclock. unfold syncLeaf.
  assert (Hcats : forall cid,
    List.map folderKey
      match sy_categoryMap s !! cid with
      | Some ref =>
          match sy_newCategories s !! ref with
          | Some category =>
              <[ref := c_with_count (c_bookmarkCount category + 1)
                                    (c_updatedAt category) category]>
                (sy_newCategories s)
          | None => sy_newCategories s
          end
      | None => sy_newCategories s
      end = List.map folderKey (sy_newCategories s)).
  { intros cid. destruct (sy_categoryMap s !! cid) as [ref|]; [| reflexivity].
    destruct (sy_newCategories s !! ref) as [c|] eqn:Hc; [| reflexivity].
    apply (fmap_insert_same folderKey _ _ c); [exact Hc | reflexivity]. }
  destruct (m !! n_id node) as [e|] eqn:He.
  - destruct (JS.onum_or (n_dateAdded node) 0 <=? b_updatedAt e) eqn:Hk.
    + exists e. eexists _, _. split; [reflexivity |]. simpl.
      split; [reflexivity |]. split; [| reflexivity].
      split; [apply Hm, He | apply Z.leb_le, Hk].
    + run_eff. case_conditions; cbv beta iota;
        (eexists _, _, _; split; [reflexivity |]; cbn [sy_bookmarks sy_newCategories];
         split; [reflexivity |]; split; [| apply Hcats];
         split; [reflexivity | apply Hclock]).
  - run_eff. case_conditions; cbv beta iota;
      (eexists _, _, _; split; [reflexivity |]; cbn [sy_bookmarks sy_newCategories];
       split; [reflexivity |]; split; [| apply Hcats];
       split; [reflexivity | apply Hclock]).
Qed.

Lemma folderCategory_first_pass cats node parent s w :
  (forall x, In x (List.map folderKey cats) ->
             In x (List.map folderKey (sy_newCategories s))) ->
  exists cid s' w',
    folderCategory dateNow uuidv4 cats node parent s w = ((cid, s'), w') /\
    sy_bookmarks s' = sy_bookmarks s /\
    (forall x, In x (List.map folderKey (sy_newCategories s)) ->
               In x (List.map folderKey (sy_newCategories s'))) /\
    In (n_title node, false) (List.map folderKey (sy_newCategories s')).
Proof.
  intros Hsub. unfold folderCategory.
  destruct (List.find _ cats) as [c|] eqn:Hfind.
  - eexists _, _, _. split; [reflexivity |]. split; [reflexivity |].
    split; [auto |]. apply Hsub. eapply folderKey_find, Hfind.
  - unfold bind, uuid, now, ret.
    destruct (JS.truthy_onum (n_dateAdded node)); cbv beta iota;
      (eexists _, _, _; split; [reflexivity |]; cbn [sy_bookmarks sy_newCategories];
       split; [reflexivity |]; rewrite List.map_app; split;
       [ intros x Hx; apply in_or_app; left; exact Hx
       | apply in_or_app; right; left; reflexivity ]).
Qed.

(** What a first pass over a tree leaves behind: one stored bookmark per
    bookmark node reached, correlated to it and not older than it, and a
    category for every folder reached. *)
Lemma processBookmarkNode_first_pass (cats : list Category)
    (m : gmap string Bookmark) (node : BrowserBookmarkNode) :
  (forall k e, m !! k = Some e -> b_originalId e = Some k) ->
  (forall n, In n (syncLeaves node) ->
             forall k, JS.onum_or (n_dateAdded n) 0 <= dateNow k) ->
  forall parent s w,
    (forall x, In x (List.map folderKey cats) ->
               In x (List.map folderKey (sy_newCategories s))) ->
    exists bs s' w',
      processBookmarkNode dateNow uuidv4 cats m node parent s w = (s', w') /\
      sy_bookmarks s' = sy_bookmarks s ++ bs /\
      Forall2 keptFor (syncLeaves node) bs /\
      (forall x, In x (List.map folderKey (sy_newCategories s)) ->
                 In x (List.map folderKey (sy_newCategories s'))) /\
      (forall f, In f (syncFolders node) ->
                 In (n_title f, false) (List.map folderKey (sy_newCategories s'))).
Proof.
  intros Hm. induction node as [node IH] using BrowserBookmarkNode_nested_ind.
  intros Hclock.
  assert (Hloop : forall children, n_children node = Some children ->
    (forall n, In n (flat_map syncLeaves children) ->
               forall k, JS.onum_or (n_dateAdded n) 0 <= dateNow k) ->
    forall parent s w,
      (forall x, In x (List.map folderKey cats) ->
                 In x (List.map folderKey (sy_newCategories s))) ->
      exists bs s' w',
        forEach (fun acc child =>
                   processBookmarkNode dateNow uuidv4 cats m child parent acc)
                children s w = (s', w') /\
        sy_bookmarks s' = sy_bookmarks s ++ bs /\
        Forall2 keptFor (flat_map syncLeaves children) bs /\
        (forall x, In x (List.map folderKey (sy_newCategories s)) ->
                   In x (List.map folderKey (sy_newCategories s'))) /\
        (forall f, In f (flat_map syncFolders children) ->
                   In (n_title f, false)
                      (List.map folderKey (sy_newCategories s')))).
  { intros children Hch. specialize (IH children Hch). clear Hch.
    induction IH as [|c cs Hc _ IHcs]; intros Hl parent s w Hsub.
    - exists [], s, w. split; [reflexivity |]. rewrite app_nil_r.
      split; [reflexivity |]. split; [constructor |]. split; [auto |].
      intros f [].
    - simpl in Hl.
      destruct (Hc (fun n H => Hl n (in_or_app _ _ _ (or_introl H)))
                   parent s w Hsub)
        as (bs1 & s1 & w1 & E1 & Hb1 & Hk1 & Hmono1 & Hf1).
      destruct (IHcs (fun n H => Hl n (in_or_app _ _ _ (or_intror H)))
                     parent s1 w1 (fun x H => Hmono1 x (Hsub x H)))
        as (bs2 & s2 & w2 & E2 & Hb2 & Hk2 & Hmono2 & Hf2).
      exists (bs1 ++ bs2), s2, w2. split.
      { simpl. unfold bind. rewrite E1. exact E2. }
      split; [rewrite Hb2, Hb1, app_assoc; reflexivity |].
      split; [simpl; apply Forall2_app; assumption |].
      split; [auto |].
      intros f Hf. simpl in Hf. apply in_app_or in Hf as [Hf | Hf]; auto. }
  intros parent s w Hsub.
  destruct node as [i p ix u t d g ch].
  cbn [processBookmarkNode syncLeaves syncFolders n_parentId n_url n_children]
    in *.
  destruct (negb (JS.truthy_ostr p)); cbn [orb] in *.
  { destruct ch as [children|].
    - apply (Hloop children eq_refl Hclock None s w Hsub).
    - exists [], s, w. split; [reflexivity |]. rewrite app_nil_r.
      split; [reflexivity |]. split; [constructor |]. split; [auto |].
      intros f []. }
  destruct (negb (JS.truthy_ostr u)); cbn [orb] in *.
  { unfold bind at 1.
    destruct (folderCategory_first_pass cats (BNode i p ix u t d g ch)
                parent s w Hsub)
      as (cid & s1 & w1 & E1 & Hb1 & Hmono1 & Hin1).
    rewrite E1. cbn [n_title] in Hin1.
    destruct ch as [children|].
    - destruct (Hloop children eq_refl Hclock (Some cid) s1 w1
                  (fun x H => Hmono1 x (Hsub x H)))
        as (bs & s2 & w2 & E2 & Hb2 & Hk2 & Hmono2 & Hf2).
      exists bs, s2, w2. split; [exact E2 |].
      split; [rewrite Hb2, Hb1; reflexivity |]. split; [exact Hk2 |].
      split; [auto |].
      intros f [<- | Hf]; [apply Hmono2, Hin1 | apply Hf2, Hf].
    - exists [], s1, w1. split; [reflexivity |]. rewrite app_nil_r.
      split; [exact Hb1 |]. split; [constructor |]. split; [exact Hmono1 |].
      intros f [<- | []]. exact Hin1. }
  destruct (syncLeaf_first_pass m (BNode i p ix u t d g ch) parent s w Hm
              (Hclock _ (or_introl eq_refl)))
    as (b & s1 & w1 & E1 & Hb1 & Hk1 & Hcats1).
  exists [b], s1, w1. split; [exact E1 |]. split; [exact Hb1 |].
  split; [constructor; [exact Hk1 | constructor] |].
  split; [rewrite Hcats1; auto |]. intros f [].
Qed.

Lemma originalIdMap_fold_other (l : list Bookmark) :
  forall (m : gmap string Bookmark) (k : string),
    (forall y, In y l -> b_originalId y <> Some k) ->
    fold_left (fun m b =>
                 if JS.truthy_ostr (b_originalId b)
                 then <[JS.ostr_or (b_originalId b) "" := b]> m else m)
              l m !! k = m !! k.
Proof.
  induction l as [|x l IH]; intros m k Hk; simpl; [reflexivity |].
  rewrite IH by (intros y Hy; apply Hk; right; exact Hy).
  specialize (Hk x (or_introl eq_refl)).
  destruct (b_originalId x) as [o|]; simpl; [| reflexivity].
  unfold JS.str_or. destruct (String.eqb o "") eqn:E; simpl; [reflexivity |].
  apply lookup_insert_ne. congruence.
Qed.

Lemma originalIdMap_lookup_unique (l : list Bookmark) (b : Bookmark)
    (k : string) :
  NoDup (List.map b_originalId l) -> In b l ->
  b_originalId b = Some k -> k <> "" ->
  originalIdMap l !! k = Some b.
Proof.
  unfold originalIdMap. generalize (∅ : gmap string Bookmark).
  induction l as [|x l IH]; intros m Hnd Hin Hk Hne; [contradiction |].
  simpl in *. apply NoDup_cons in Hnd as [Hx Hnd].
  destruct Hin as [-> | Hin].
  - rewrite originalIdMap_fold_other.
    + rewrite Hk. simpl. unfold JS.str_or.
      apply String.eqb_neq in Hne. rewrite Hne. simpl.
      apply lookup_insert_eq.
    + intros y Hy E. apply Hx. rewrite Hk, <- E.
      apply list_elem_of_In, in_map, Hy.
  - apply IH; assumption.
Qed.

(** A second run of [syncBookmarks] over an unchanged host tree, on the
    storage the first run wrote, writes the same bookmarks and the same
    categories, when the bookmark nodes reached carry distinct non-empty
    identifiers and no [dateAdded] is ahead of the clock. *)
Lemma syncBookmarks_second_pass (rootNode : list BrowserBookmarkNode)
    (st st1 : Storage) (w1 w2 : World) :
  NoDup (List.map n_id (walkedLeaves rootNode)) ->
  Forall (fun n => n_id n <> "") (walkedLeaves rootNode) ->
  (forall n k, In n (walkedLeaves rootNode) ->
               JS.onum_or (n_dateAdded n) 0 <= dateNow k) ->
  fst (syncBookmarks dateNow uuidv4 rootNode st w1) = Some st1 ->
  exists st2,
    fst (syncBookmarks dateNow uuidv4 rootNode st1 w2) = Some st2 /\
    st_bookmarks st2 = st_bookmarks st1 /\
    st_categories st2 = st_categories st1.
Proof.
  intros Hnd Hne Hclock Hrun.
  destruct rootNode as [|root rest]; [discriminate |].
  set (top := BNode "" None None None "" None None (n_children root)).
  assert (Hwalk : forall cats m s w,
    match n_children root with
    | Some children =>
        forEach (fun acc child =>
                   processBookmarkNode dateNow uuidv4 cats m child None acc)
                children s
    | None => ret s
    end w = processBookmarkNode dateNow uuidv4 cats m top None s w)
    by reflexivity.
  assert (Hleaves : walkedLeaves (root :: rest) = syncLeaves top) by reflexivity.
  rewrite Hleaves in *.
  unfold syncBookmarks, bind in Hrun. rewrite Hwalk in Hrun.
  destruct (processBookmarkNode_first_pass (st_categories st)
              (originalIdMap (st_bookmarks st)) top
              (fun k e H => proj1 (originalIdMap_lookup _ _ _ H))
              (fun n H k => Hclock n k H)
              None (initSync (st_categories st)) w1 (fun x H => H))
    as (bs1 & s1 & w1' & E1 & Hb1 & Hk1 & _ & Hf1).
  rewrite E1 in Hrun. unfold now, ret in Hrun. simpl in Hrun.
  injection Hrun as <-. simpl in Hb1.
  unfold syncBookmarks, bind. cbn [st_bookmarks st_categories].
  rewrite Hwalk, Hb1.
  assert (Hids : List.map b_originalId bs1
                 = List.map (fun n => Some (n_id n)) (syncLeaves top)).
  { clear -Hk1. induction Hk1 as [|n b ns bs [Ho _] _ IH]; simpl;
      [reflexivity | congruence]. }
  assert (Hnd1 : NoDup (List.map b_originalId bs1)).
  { rewrite Hids, <- (List.map_map n_id Some).
    change (NoDup (Some <$> List.map n_id (syncLeaves top))).
    apply NoDup_fmap_2; [apply _ | exact Hnd]. }
  assert (Hmap : Forall2 (fun n b => originalIdMap bs1 !! n_id n = Some b /\
                                     JS.onum_or (n_dateAdded n) 0 <= b_updatedAt b)
                         (syncLeaves top) bs1).
  { assert (Hin : forall b k, In b bs1 -> b_originalId b = Some k -> k <> "" ->
                              originalIdMap bs1 !! k = Some b)
      by (intros b k Hb; apply originalIdMap_lookup_unique; assumption).
    revert Hin. generalize (originalIdMap bs1). intros m Hin.
    clear -Hk1 Hin Hne. induction Hk1 as [|n b ns bs [Ho Hfresh] _ IH];
      constructor.
    - apply Forall_cons in Hne as [Hn _]. split; [| exact Hfresh].
      apply Hin; [left; reflexivity | exact Ho | exact Hn].
    - apply Forall_cons in Hne as [_ Hne]. apply IH; [exact Hne |].
      intros b' k Hb'. apply Hin. right. exact Hb'. }
  generalize dependent (originalIdMap bs1). intros m2 Hmap.
  destruct (processBookmarkNode_settled (sy_newCategories s1) m2 top)
    with (parent := @None string) (s := initSync (sy_newCategories s1))
         (w := w2)
    as (bs2 & Hbs2 & E2).
  { intros n Hn. clear -Hmap Hn.
    induction Hmap as [|n0 b ns bs Hb _ IH]; [contradiction |].
    destruct Hn as [<- | Hn]; [eauto | apply IH, Hn]. }
  { exact Hf1. }
  rewrite E2. unfold now, ret. simpl.
  eexists. split; [reflexivity |]. simpl. split; [| reflexivity].
  clear -Hmap Hbs2. revert bs2 Hbs2.
  induction Hmap as [|n b ns bs [Hb _] _ IH]; intros bs2 Hbs2;
    inversion Hbs2 as [|? b2 ? l2 Hb2 Hrest]; subst; [reflexivity |].
  f_equal; [congruence | apply IH, Hrest].
Qed.

(** C1. Synchronising a second time over unchanged host nodes, with the
    output of the first pass as prior state, repeats the first pass as
    follows.  [convertBrowserBookmarks], for host bookmark nodes with
    distinct identifiers, hands out the same bookmarks and the same
    categories in the same order, identifiers, titles, urls, categories,
    tags and counts included, so no category is duplicated; only the
    [updatedAt] stamps are taken anew from the clock, and the two outputs are
    equal when the clock reads the same in both passes.  [syncBookmarks],
    for reached bookmark nodes with distinct non-empty identifiers and no
    [dateAdded] ahead of the clock, writes exactly the bookmarks and
    categories of the first pass. *)
Theorem second_pass_repeats_first (nodes : list FlatNode)
    (storedBookmarks : list Bookmark) (storedCategories : list Category)
    (rootNode : list BrowserBookmarkNode) (st st1 : Storage) (w1 w2 : World) :
  (NoDup (List.map f_id (flatLeaves nodes)) ->
   let pass1 := fst (convertBrowserBookmarks dateNow uuidv4 urlOrigin nodes
                       storedBookmarks storedCategories w1) in
   let pass2 := fst (convertBrowserBookmarks dateNow uuidv4 urlOrigin nodes
                       (fst pass1) (snd pass1) w2) in
   Forall2 restamped (fst pass1) (fst pass2) /\
   Forall2 c_restamped (snd pass1) (snd pass2) /\
   ((forall j k, dateNow j = dateNow k) -> pass2 = pass1)) /\
  (NoDup (List.map n_id (walkedLeaves rootNode)) ->
   Forall (fun n => n_id n <> "") (walkedLeaves rootNode) ->
   (forall n k, In n (walkedLeaves rootNode) ->
                JS.onum_or (n_dateAdded n) 0 <= dateNow k) ->
   fst (syncBookmarks dateNow uuidv4 rootNode st w1) = Some st1 ->
   exists st2,
     fst (syncBookmarks dateNow uuidv4 rootNode st1 w2) = Some st2 /\
     st_bookmarks st2 = st_bookmarks st1 /\
     st_categories st2 = st_categories st1).
Proof.
  split.
  - apply convertBrowserBookmarks_again.
  - apply syncBookmarks_second_pass.
Qed.

End SyncFacts.

(** * Further properties *)

(** ** Flattening of the host tree *)

Lemma traverse_flat (node : BrowserBookmarkNode) :
  forall parent result,
    exists out,
      traverse parent node result = result ++ out /\
      Forall2 flatOf (List.filter notToolbar (withParent parent node)) out.
Proof.
  induction node as [node IH] using BrowserBookmarkNode_nested_ind.
  assert (Hloop : forall children, n_children node = Some children ->
    forall parent result,
      exists out,
        fold_left (fun acc child => traverse parent child acc) children result
        = result ++ out /\
        Forall2 flatOf
          (List.filter notToolbar (flat_map (withParent parent) children)) out).
  { intros children Hch. specialize (IH children Hch). clear Hch.
    induction IH as [|c cs Hc _ IHcs]; intros parent result; simpl.
    - exists []. rewrite app_nil_r. split; [reflexivity | constructor].
    - destruct (Hc parent result) as (o1 & E1 & F1). rewrite E1.
      destruct (IHcs parent (result ++ o1)) as (o2 & E2 & F2). rewrite E2.
      exists (o1 ++ o2). rewrite app_assoc. split; [reflexivity |].
      rewrite filter_app_bool. apply Forall2_app; assumption. }
  intros parent result.
  destruct node as [i p ix u t d g ch]; simpl in *.
  unfold notToolbar at 1, isToolbar at 1. simpl.
  destruct (String.eqb i "toolbar_____") eqn:Ei; simpl.
  - destruct ch as [children|].
    + apply (Hloop children eq_refl).
    + exists []. rewrite app_nil_r. split; [reflexivity | constructor].
  - destruct ch as [children|].
    + destruct (Hloop children eq_refl (Some i)
                  (result ++ [{| f_id := i;
                                 f_parentId := if JS.truthy_ostr parent
                                               then parent else p;
                                 f_index := ix; f_url := u; f_title := t;
                                 f_dateAdded := d;
                                 f_dateGroupModified := g |}]))
        as (o & E & F).
      rewrite E. eexists (_ :: o). rewrite <- app_assoc. simpl.
      split; [reflexivity |]. constructor; [| exact F].
      repeat split.
    + eexists [_]. split; [reflexivity |]. constructor; [| constructor].
      repeat split.
Qed.

Lemma withParent_nodes (node : BrowserBookmarkNode) :
  forall parent, List.map snd (withParent parent node) = treeNodes node.
Proof.
  induction node as [node IH] using BrowserBookmarkNode_nested_ind.
  intros parent. destruct node as [i p ix u t d g ch]; simpl in *.
  f_equal. destruct ch as [children|]; [| reflexivity].
  specialize (IH children eq_refl). generalize (Some i). intros q.
  induction IH as [|c cs Hc _ IHcs]; simpl; [reflexivity |].
  rewrite List.map_app, Hc, IHcs. reflexivity.
Qed.

Lemma Forall2_filter_bool {A B} (R : A -> B -> Prop) (p : A -> bool)
    (q : B -> bool) (l1 : list A) (l2 : list B) :
  (forall a b, R a b -> p a = q b) ->
  Forall2 R l1 l2 -> Forall2 R (List.filter p l1) (List.filter q l2).
Proof.
  intros Hpq H. induction H as [|a b l1 l2 Hab _ IH]; simpl; [constructor |].
  rewrite (Hpq a b Hab). destruct (q b); [constructor |]; assumption.
Qed.

Lemma filter_map_bool {A B} (g : A -> B) (p : B -> bool) (l : list A) :
  List.filter p (List.map g l) = List.map g (List.filter (fun a => p (g a)) l).
Proof.
  induction l as [|a l IH]; simpl; [reflexivity |].
  destruct (p (g a)); simpl; congruence.
Qed.

Lemma filter_filter_bool {A} (p q : A -> bool) (l : list A) :
  List.filter p (List.filter q l) = List.filter (fun x => q x && p x) l.
Proof.
  induction l as [|a l IH]; simpl; [reflexivity |].
  destruct (q a); simpl; [destruct (p a) |]; simpl; congruence.
Qed.

Lemma Forall2_with_left {A B} (R : A -> B -> Prop) (P : A -> Prop)
    (l : list A) (k : list B) :
  Forall2 R l k -> Forall P l -> Forall2 (fun a b => P a /\ R a b) l k.
Proof.
  intros H. induction H as [|a b l k Hab _ IH]; intros HP; [constructor |].
  apply Forall_cons_iff in HP as [Ha Hl]. constructor; auto.
Qed.

Lemma Forall2_chain {A B C} (P : A -> B -> Prop) (Q : B -> C -> Prop)
    (R : A -> C -> Prop) (l : list A) (k : list B) (m : list C) :
  (forall x y z, P x y -> Q y z -> R x z) ->
  Forall2 P l k -> Forall2 Q k m -> Forall2 R l m.
Proof.
  intros HPQ H. revert m. induction H as [|a b l k Hab _ IH]; intros m Hm.
  - inversion Hm. constructor.
  - inversion Hm; subst. constructor; eauto.
Qed.

Lemma filter_Forall_bool {A} (p : A -> bool) (l : list A) :
  Forall (fun a => p a = true) (List.filter p l).
Proof.
  induction l as [|a l IH]; simpl; [constructor |].
  destruct (p a) eqn:E; [constructor |]; assumption.
Qed.

Lemma flat_map_withParent_nodes (tree : list BrowserBookmarkNode) :
  flat_map treeNodes tree = List.map snd (flat_map (withParent None) tree).
Proof.
  induction tree as [|n tree IH]; simpl; [reflexivity |].
  rewrite List.map_app, withParent_nodes, IH. reflexivity.
Qed.

Lemma flattenBookmarkTree_flatOf (tree : list BrowserBookmarkNode) :
  Forall2 flatOf
    (List.filter notToolbar (flat_map (withParent None) tree))
    (flattenBookmarkTree tree).
Proof.
  assert (H : forall result, exists out,
    fold_left (fun acc node => traverse None node acc) tree result
    = result ++ out /\
    Forall2 flatOf (List.filter notToolbar (flat_map (withParent None) tree))
            out).
  { induction tree as [|n tree IH]; intros result; simpl.
    - exists []. rewrite app_nil_r. split; [reflexivity | constructor].
    - destruct (traverse_flat n None result) as (o1 & E1 & F1). rewrite E1.
      destruct (IH (result ++ o1)) as (o2 & E2 & F2). rewrite E2.
      exists (o1 ++ o2). rewrite app_assoc. split; [reflexivity |].
      rewrite filter_app_bool. apply Forall2_app; assumption. }
  destruct (H []) as (out & E & F). unfold flattenBookmarkTree. rewrite E.
  exact F.
Qed.

(** X1. [flattenBookmarkTree] lists the nodes of the host tree in
    depth-first order, a parent before its children, and leaves out exactly
    the nodes whose id is [toolbar_____]; the children of such a node are
    kept.  Every listed node carries the fields of its host node, and as
    [parentId] the id of the node it was reached from (that of a left-out
    toolbar node included), or its own [parentId] field at the top level and
    below a node with an empty id. *)
Theorem flattenBookmarkTree_preorder (tree : list BrowserBookmarkNode) :
  Forall2 flatOf
    (List.filter notToolbar (flat_map (withParent None) tree))
    (flattenBookmarkTree tree) /\
  List.map f_id (flattenBookmarkTree tree)
  = List.map n_id (List.filter (fun n => negb (isToolbar n))
                               (flat_map treeNodes tree)).
Proof.
  pose proof (flattenBookmarkTree_flatOf tree) as F. split; [exact F |].
  rewrite flat_map_withParent_nodes, filter_map_bool.
  change (fun a : option string * BrowserBookmarkNode => negb (isToolbar (snd a)))
    with notToolbar.
  induction F as [|pn f l1 l2 Hf _ IH]; simpl; [reflexivity |].
  destruct Hf as (Hid & _). congruence.
Qed.

(** The bookmark nodes of the flattened tree are the bookmark nodes of the
    tree. *)
Lemma flatLeaves_flatten (tree : list BrowserBookmarkNode) :
  Forall2 (fun n f => JS.truthy_ostr (n_url n) = true /\
                      f_id f = n_id n /\ f_url f = n_url n /\
                      f_title f = n_title n /\ f_dateAdded f = n_dateAdded n)
          (flatBookmarkNodes tree) (flatLeaves (flattenBookmarkTree tree)).
Proof.
  pose proof (flattenBookmarkTree_flatOf tree) as F.
  unfold flatBookmarkNodes, flatLeaves.
  rewrite flat_map_withParent_nodes, filter_map_bool. apply Forall2_fmap_l.
  rewrite <- (filter_filter_bool
                (fun pn : option string * BrowserBookmarkNode =>
                   JS.truthy_ostr (n_url (snd pn))) notToolbar).
  eapply Forall2_impl.
  - apply Forall2_with_left;
      [| apply (filter_Forall_bool
                  (fun pn : option string * BrowserBookmarkNode =>
                     JS.truthy_ostr (n_url (snd pn))))].
    apply (Forall2_filter_bool flatOf _ (fun f => JS.truthy_ostr (f_url f)));
      [| exact F].
    intros pn f (_ & _ & _ & Hu & _). rewrite Hu. reflexivity.
  - intros pn f (Hu & Hid & _ & _ & Hurl & Ht & Hd & _). simpl. auto.
Qed.

Section FlatSyncFacts.

Variable dateNow : nat -> Z.
Variable uuidv4 : nat -> string.
Variable urlOrigin : string -> option string.

Lemma mapM_defaultCategory_ids ds : forall w,
  List.map c_id (fst (mapM (defaultCategory dateNow) ds w))
  = List.map (fun d => fst (fst d)) ds.
Proof.
  induction ds as [|[[i n] ic] ds IH]; intros w; [reflexivity |].
  rewrite mapM_cons_run. unfold defaultCategory at 1, bind, now, ret.
  match goal with |- context [mapM ?f ds ?w1] =>
    specialize (IH w1); destruct (mapM f ds w1) as [cs w'] end.
  simpl in *. congruence.
Qed.

(** X2. [syncBookmarks] of the second service returns [false] and writes
    nothing when the host yields no tree.  Otherwise it returns [true] and
    stores one record per bookmark node of the tree (the nodes with a url
    that are not the toolbar node), in depth-first order, each correlated
    to its node through [originalId] and carrying the node's url and, when
    the node has one, its title; the stored categories keep the identifiers
    they had (the four defaults when there were none) and carry the number
    of stored bookmarks filed under them; the tags are left alone and the
    last reading of the clock is recorded as the time of the pass. *)
Theorem flat_syncBookmarks_spec (tree : list BrowserBookmarkNode)
    (st : Storage) (w : World) :
  flat_syncBookmarks dateNow uuidv4 urlOrigin None st w = ((false, st), w) /\
  exists st' w',
    flat_syncBookmarks dateNow uuidv4 urlOrigin (Some tree) st w
      = ((true, st'), w') /\
    Forall2 (fun n b => b_originalId b = Some (n_id n) /\
                        b_url b = JS.ostr_or (n_url n) "" /\
                        (n_title n <> "" -> b_title b = n_title n))
            (flatBookmarkNodes tree) (st_bookmarks st') /\
    List.map c_id (st_categories st')
      = (if (0 <? length (st_categories st))%nat
         then List.map c_id (st_categories st)
         else ["all"; "frequent"; "recent"; "uncategorized"]) /\
    Forall (fun c => c_bookmarkCount c = directMembers (c_id c) (st_bookmarks st'))
           (st_categories st') /\
    st_tags st' = st_tags st /\
    exists k, st_lastSync st' = dateNow k /\ w_clock w' = S k.
Proof.
  split; [reflexivity |].
  unfold flat_syncBookmarks. unfold bind at 1.
  destruct (convertBrowserBookmarks_run dateNow uuidv4 urlOrigin
              (flattenBookmarkTree tree) (st_bookmarks st) (st_categories st) w)
    as (cats0 & w0 & bs & w1 & cs & w2 & E0 & E1 & E2 & ->).
  unfold bind, now, ret. eexists _, _. split; [reflexivity |]. simpl.
  destruct (convertNodes_first_pass dateNow uuidv4 urlOrigin
              (bookmarkMapOf (st_bookmarks st)) (flattenBookmarkTree tree) [] w0)
    as (bs' & w1' & E1' & Hbs).
  rewrite E1 in E1'. injection E1' as -> _.
  pose proof (recount_direct dateNow bs' cats0 w1) as (Hcount & Hids & _).
  rewrite E2 in Hcount, Hids. simpl in Hcount, Hids.
  split; [| split; [| split; [exact Hcount | split; [reflexivity | eauto]]]].
  - eapply Forall2_chain; [| apply flatLeaves_flatten | exact Hbs].
    intros n f b (Hu & Hid & Hurl & Ht & _) (Ho & Hbu & Hbt & _).
    cbv beta in *. rewrite Hid in Ho. rewrite Hurl in Hbu. rewrite Ht in Hbt.
    split; [exact Ho |]. split.
    + rewrite <- Hbu. destruct (n_url n) as [u|]; [| discriminate].
      unfold JS.truthy_ostr in Hu. unfold JS.ostr_or, JS.str_or.
      destruct (String.eqb u "") eqn:Eu; [discriminate |].
      rewrite Eu. reflexivity.
    + intros Hne. rewrite <- Hbt. unfold JS.str_or.
      apply String.eqb_neq in Hne. rewrite Hne. reflexivity.
  - rewrite Hids. destruct (0 <? length (st_categories st))%nat.
    + unfold ret in E0. injection E0 as <- _. reflexivity.
    + pose proof (mapM_defaultCategory_ids DEFAULT_CATEGORIES w) as Hd.
      rewrite E0 in Hd. exact Hd.
Qed.

End FlatSyncFacts.

(** ** The invariants of the store *)

Lemma directMembers_cons cid b l :
  directMembers cid (b :: l)
  = (if String.eqb (b_categoryId b) cid then 1 else 0) + directMembers cid l.
Proof.
  unfold directMembers. cbn [List.filter].
  destruct (String.eqb (b_categoryId b) cid); [| lia].
  cbn [length]. lia.
Qed.

Lemma directMembers_nil cid : directMembers cid [] = 0.
Proof. reflexivity. Qed.

Lemma directMembers_insert cid (l : list Bookmark) i old new :
  l !! i = Some old ->
  directMembers cid (<[i := new]> l)
  = directMembers cid l
    - (if String.eqb (b_categoryId old) cid then 1 else 0)
    + (if String.eqb (b_categoryId new) cid then 1 else 0).
Proof.
  revert i. induction l as [|b l IH]; intros [|i] H; try discriminate.
  - injection H as ->. cbn [insert list_insert].
    rewrite !directMembers_cons. lia.
  - change (<[S i:=new]> (b :: l)) with (b :: <[i:=new]> l).
    rewrite !directMembers_cons, (IH i H). lia.
Qed.

Lemma directMembers_delete cid (l : list Bookmark) i old :
  l !! i = Some old ->
  directMembers cid (delete i l)
  = directMembers cid l - (if String.eqb (b_categoryId old) cid then 1 else 0).
Proof.
  revert i. induction l as [|b l IH]; intros [|i] H; try discriminate.
  - injection H as ->. cbn [delete list_delete].
    rewrite !directMembers_cons. lia.
  - change (delete (S i) (b :: l)) with (b :: delete i l).
    rewrite !directMembers_cons, (IH i H). lia.
Qed.

Lemma directMembers_snoc cid (l : list Bookmark) b :
  directMembers cid (l ++ [b])
  = directMembers cid l + (if String.eqb (b_categoryId b) cid then 1 else 0).
Proof.
  induction l as [|x l IH]; cbn [app].
  - rewrite directMembers_cons, !directMembers_nil. lia.
  - rewrite !directMembers_cons, IH. lia.
Qed.

Section StoreInvariants.

Variable dateNow : nat -> Z.
Variable uuidv4 : nat -> string.
Variable addBookmarkToBrowser : Bookmark -> option string.

(** A recount of [cid] repairs the count of [cid] and touches nothing
    else. *)
Lemma updateCategoryBookmarkCount_effect cid s w :
  let s' := fst (updateCategoryBookmarkCount dateNow cid s w) in
  bookmarks s' = bookmarks s /\ tags s' = tags s /\
  c_id <$> categories s' = c_id <$> categories s /\
  st_bookmarks (storage s') = st_bookmarks (storage s) /\
  st_tags (storage s') = st_tags (storage s) /\
  (st_categories (storage s) = categories s ->
   st_categories (storage s') = categories s') /\
  (forall ex,
     NoDup (c_id <$> categories s) ->
     Forall (fun c => ~ In (c_id c) (cid :: ex) ->
                      c_bookmarkCount c = directMembers (c_id c) (bookmarks s))
            (categories s) ->
     Forall (fun c => ~ In (c_id c) ex ->
                      c_bookmarkCount c = directMembers (c_id c) (bookmarks s))
            (categories s')).
Proof.
  unfold updateCategoryBookmarkCount.
  destruct (findIndex _ (categories s)) as [i|] eqn:Hi.
  - destruct (findIndex_Some _ _ _ Hi) as (c & Hc & Hp & _).
    apply String.eqb_eq in Hp.
    unfold bind, now, ret. simpl. rewrite Hc. simpl.
    repeat split.
    + apply (fmap_insert_same c_id _ _ c); [exact Hc | reflexivity].
    + intros ex Hnd Hall. apply Forall_lookup. intros j c' Hj Hex.
      destruct (decide (j = i)) as [-> | Hne].
      * rewrite list_lookup_insert_eq in Hj
          by (eapply lookup_lt_Some; eassumption).
        injection Hj as <-. simpl. rewrite Hp. reflexivity.
      * rewrite list_lookup_insert_ne in Hj by congruence.
        rewrite Forall_lookup in Hall. apply (Hall j c' Hj).
        intros [Heq | Hin]; [| exact (Hex Hin)].
        apply Hne. apply (proj1 (NoDup_alt _) Hnd j i (c_id c')).
        -- rewrite list_lookup_fmap, Hj. reflexivity.
        -- rewrite list_lookup_fmap, Hc. simpl. congruence.
  - simpl. repeat split; auto.
    intros ex _ Hall. apply findIndex_None in Hi.
    rewrite Forall_forall in Hall, Hi. apply Forall_forall.
    intros c Hc Hex. apply (Hall c Hc). intros [Heq | Hin]; [| exact (Hex Hin)].
    specialize (Hi c Hc). simpl in Hi. apply String.eqb_neq in Hi. congruence.
Qed.

Lemma updateTags_effect names s w :
  let s' := fst (updateTags dateNow uuidv4 names s w) in
  bookmarks s' = bookmarks s /\ categories s' = categories s /\
  st_bookmarks (storage s') = st_bookmarks (storage s) /\
  st_categories (storage s') = st_categories (storage s) /\
  st_tags (storage s') = tags s' /\
  tagsConsistent (bookmarks s) (tags s').
Proof.
  cbv zeta. unfold updateTags, bind, ret.
  set (m0 := fold_left
               (fun m tag => TagMap_set (t_name tag) (t_with_count 0 tag) m)
               (tags s) []).
  assert (H0 : TagMap_counts m0 []).
  { apply initial_tagMap_counts. split; [constructor |].
    split; [intros k v; discriminate | intros k []]. }
  pose proof (forEach_bookmarks_counts dateNow uuidv4 (bookmarks s) m0 [] w H0)
    as Hm.
  destruct (forEach _ (bookmarks s) m0 w) as [m w']. simpl in Hm. simpl.
  destruct Hm as (Hnd & Hval & Hseen).
  assert (Hin : forall t, In t (TagMap_values m) ->
                          TagMap_get (t_name t) m = Some t).
  { intros t Ht. unfold TagMap_values in Ht. apply in_map_iff in Ht.
    destruct Ht as ([k v] & <- & Hkv). simpl.
    pose proof (TagMap_In_get _ _ _ Hnd Hkv) as Hg.
    destruct (Hval _ _ Hg) as [-> _]. exact Hg. }
  repeat split.
  - assert (Hnames : List.map t_name (TagMap_values m) = List.map fst m).
    { unfold TagMap_values. rewrite List.map_map. apply map_ext_in.
      intros [k v] Hkv. simpl.
      apply (Hval _ _ (TagMap_In_get _ _ _ Hnd Hkv)). }
    rewrite <- Hnames in Hnd. revert Hnd. generalize (TagMap_values m).
    intros l. induction l as [|t l IH]; simpl; intros Hl; [constructor |].
    apply NoDup_cons in Hl as [Ht Hl].
    destruct (0 <? t_count t); simpl; [| apply IH, Hl].
    apply NoDup_cons. split; [| apply IH, Hl].
    intros Hc. apply Ht. apply list_elem_of_In in Hc. apply list_elem_of_In.
    apply in_map_iff in Hc as (t' & E & Ht').
    apply filter_In in Ht' as [Ht' _]. apply in_map_iff. eauto.
  - apply Forall_forall. intros t Ht. apply list_elem_of_In, filter_In in Ht.
    destruct Ht as [Ht _]. apply (Hval _ _ (Hin _ Ht)).
  - apply Forall_forall. intros t Ht. apply list_elem_of_In, filter_In in Ht.
    destruct Ht as [_ Ht]. apply Z.ltb_lt, Ht.
  - intros name Hname. destruct (Hseen name Hname) as [v Hv].
    destruct (Hval _ _ Hv) as [Hn Hc]. apply in_map_iff. exists v.
    split; [exact Hn |]. apply filter_In. split.
    + unfold TagMap_values. apply in_map_iff. exists (name, v).
      split; [reflexivity | apply TagMap_get_In, Hv].
    + apply Z.ltb_lt. rewrite Hc. apply occurrences_In_pos, Hname.
Qed.

Lemma keepsInvariants_refl s : keepsInvariants s s.
Proof. unfold keepsInvariants. tauto. Qed.

Lemma allTagNames_insert_same (l : list Bookmark) i old new :
  l !! i = Some old -> b_tags new = b_tags old ->
  allTagNames (<[i := new]> l) = allTagNames l.
Proof.
  unfold allTagNames. revert i.
  induction l as [|b l IH]; intros [|i] H Ht; try discriminate.
  - injection H as ->. simpl. rewrite Ht. reflexivity.
  - change (<[S i:=new]> (b :: l)) with (b :: <[i:=new]> l). simpl.
    rewrite (IH i H Ht). reflexivity.
Qed.

Lemma allTagNames_delete_empty (l : list Bookmark) i old :
  l !! i = Some old -> b_tags old = [] ->
  allTagNames (delete i l) = allTagNames l.
Proof.
  unfold allTagNames. revert i.
  induction l as [|b l IH]; intros [|i] H Ht; try discriminate.
  - injection H as ->. simpl. rewrite Ht. reflexivity.
  - change (delete (S i) (b :: l)) with (b :: delete i l). simpl.
    rewrite (IH i H Ht). reflexivity.
Qed.

Lemma allTagNames_snoc_empty (l : list Bookmark) b :
  b_tags b = [] -> allTagNames (l ++ [b]) = allTagNames l.
Proof.
  intros Ht. unfold allTagNames. rewrite flat_map_app. simpl.
  rewrite Ht. simpl. apply app_nil_r.
Qed.

Lemma tagsConsistent_names bs bs' ts :
  allTagNames bs' = allTagNames bs ->
  tagsConsistent bs ts -> tagsConsistent bs' ts.
Proof. unfold tagsConsistent. intros ->. tauto. Qed.

(** The two recounts that follow a change of category. *)
Lemma recount_pair_effect (old new : string) s1 w1 :
  let s2 := fst ((if negb (String.eqb old new)
                  then do s' <- updateCategoryBookmarkCount dateNow old s1;
                       updateCategoryBookmarkCount dateNow new s'
                  else ret s1) w1) in
  bookmarks s2 = bookmarks s1 /\ tags s2 = tags s1 /\
  c_id <$> categories s2 = c_id <$> categories s1 /\
  st_bookmarks (storage s2) = st_bookmarks (storage s1) /\
  st_tags (storage s2) = st_tags (storage s1) /\
  (st_categories (storage s1) = categories s1 ->
   st_categories (storage s2) = categories s2) /\
  (NoDup (c_id <$> categories s1) ->
   Forall (fun c => ~ In (c_id c) [old; new] ->
                    c_bookmarkCount c = directMembers (c_id c) (bookmarks s1))
          (categories s1) ->
   (old = new ->
    Forall (fun c => c_bookmarkCount c = directMembers (c_id c) (bookmarks s1))
           (categories s1)) ->
   Forall (fun c => c_bookmarkCount c = directMembers (c_id c) (bookmarks s1))
          (categories s2)).
Proof.
  destruct (String.eqb old new) eqn:E; simpl.
  - apply String.eqb_eq in E. repeat split; auto.
  - unfold bind.
    pose proof (updateCategoryBookmarkCount_effect old s1 w1) as Ha.
    destruct (updateCategoryBookmarkCount dateNow old s1 w1) as [sa wa].
    pose proof (updateCategoryBookmarkCount_effect new sa wa) as Hb.
    destruct (updateCategoryBookmarkCount dateNow new sa wa) as [sb wb].
    simpl in *.
    destruct Ha as (Ha1 & Ha2 & Ha3 & Ha4 & Ha5 & Ha6 & Ha7).
    destruct Hb as (Hb1 & Hb2 & Hb3 & Hb4 & Hb5 & Hb6 & Hb7).
    repeat split; try congruence.
    + auto.
    + intros Hnd Hall _. rewrite <- Ha1.
      eapply Forall_impl.
      * apply (Hb7 []); [rewrite Ha3; exact Hnd |].
        rewrite Ha1. apply (Ha7 [new] Hnd Hall).
      * simpl. intros c Hc. apply Hc. tauto.
Qed.

Lemma updateBookmark_keeps id changes s w :
  keepsInvariants s (snd (fst (updateBookmark dateNow uuidv4 id changes s w))).
Proof.
  unfold updateBookmark.
  destruct (findIndex _ (bookmarks s)) as [i|] eqn:Hi;
    [| apply keepsInvariants_refl].
  destruct (findIndex_Some _ _ _ Hi) as (old & Hold & _). rewrite Hold.
  unfold bind at 1. unfold now at 1. cbv beta iota.
  set (w1 := {| w_clock := S (w_clock w); w_ids := w_ids w |}).
  set (upd := b_with_updatedAt (dateNow (w_clock w)) (applyChanges changes old)).
  set (s1 := saveBookmarks (set_bookmarks (<[i:=upd]> (bookmarks s)) s)).
  unfold bind at 1.
  pose proof (recount_pair_effect (b_categoryId old) (b_categoryId upd) s1 w1)
    as H2.
  match goal with |- context [let (_, _) := ?e in _] =>
    destruct e as [s2 w2] end.
  simpl in H2. destruct H2 as (B2 & T2 & I2 & SB2 & ST2 & SC2 & C2).
  unfold bind.
  assert (Hcounts : countsConsistent (bookmarks s) (categories s) ->
                    countsConsistent (bookmarks s2) (categories s2)).
  { intros [Hnd Hall]. split; [rewrite I2; exact Hnd |].
    rewrite B2. apply C2; [exact Hnd | |].
    - eapply Forall_impl; [exact Hall |]. simpl. intros c Hc Hex.
      rewrite (directMembers_insert _ _ _ old upd Hold), Hc.
      destruct (String.eqb (b_categoryId old) (c_id c)) eqn:E1;
        [apply String.eqb_eq in E1; exfalso; apply Hex; left; exact E1 |].
      destruct (String.eqb (b_categoryId upd) (c_id c)) eqn:E2;
        [apply String.eqb_eq in E2; exfalso; apply Hex; right; left; exact E2 |].
      lia.
    - intros Heq. change (b_categoryId old = b_categoryId upd) in Heq.
      eapply Forall_impl; [exact Hall |]. simpl. intros c Hc.
      rewrite (directMembers_insert _ _ _ old upd Hold), Hc, <- Heq. lia. }
  assert (Hwritten : writtenBack s ->
                     st_bookmarks (storage s2) = bookmarks s2 /\
                     st_categories (storage s2) = categories s2 /\
                     st_tags (storage s2) = tags s2).
  { intros (W1 & W2 & W3). rewrite SB2, ST2, B2, T2.
    repeat split; [| exact W3]. apply SC2. exact W2. }
  destruct (bool_decide (b_tags old = b_tags upd)) eqn:Htags; cbn [negb].
  - apply bool_decide_eq_true in Htags. unfold ret. cbn [fst snd].
    repeat split.
    + apply Hcounts; assumption.
    + apply Hcounts; assumption.
    + rewrite T2. destruct H as (N & _). exact N.
    + rewrite T2, B2. simpl.
      rewrite (allTagNames_insert_same _ _ old upd Hold (eq_sym Htags)).
      destruct H as (_ & A & _). exact A.
    + rewrite T2. destruct H as (_ & _ & A & _). exact A.
    + rewrite T2, B2. simpl.
      rewrite (allTagNames_insert_same _ _ old upd Hold (eq_sym Htags)).
      destruct H as (_ & _ & _ & A). exact A.
    + apply Hwritten; assumption.
    + apply Hwritten; assumption.
    + apply Hwritten; assumption.
  - pose proof (updateTags_effect (b_tags upd) s2 w2) as H3.
    destruct (updateTags dateNow uuidv4 (b_tags upd) s2 w2) as [s3 w3].
    unfold ret. cbn [fst snd] in *.
    destruct H3 as (B3 & C3 & SB3 & SC3 & ST3 & T3).
    split; [| split].
    + rewrite B3, C3. exact Hcounts.
    + intros _. rewrite B3. exact T3.
    + intros Hw. destruct (Hwritten Hw) as (W1 & W2 & W3).
      repeat split; congruence.
Qed.

Lemma keepsInvariants_trans s1 s2 s3 :
  keepsInvariants s1 s2 -> keepsInvariants s2 s3 -> keepsInvariants s1 s3.
Proof. unfold keepsInvariants. tauto. Qed.

Lemma forEach_keeps {A} (step : Store -> A -> Eff Store) (xs : list A) :
  (forall acc x w, keepsInvariants acc (fst (step acc x w))) ->
  forall s w, keepsInvariants s (fst (forEach step xs s w)).
Proof.
  intros Hstep. induction xs as [|x xs IH]; intros s w; simpl.
  - apply keepsInvariants_refl.
  - unfold bind. specialize (Hstep s x w). destruct (step s x w) as [s1 w1].
    eapply keepsInvariants_trans; [exact Hstep | apply IH].
Qed.

Lemma Forall_filter_bool {A} (P : A -> Prop) (p : A -> bool) (l : list A) :
  Forall P l -> Forall P (List.filter p l).
Proof.
  induction 1 as [|x l Hx _ IH]; simpl; [constructor |].
  destruct (p x); [constructor |]; assumption.
Qed.

Lemma deleteBookmark_keeps id s w :
  keepsInvariants s (snd (fst (deleteBookmark dateNow uuidv4 id s w))).
Proof.
  unfold deleteBookmark.
  destruct (findIndex _ (bookmarks s)) as [i|] eqn:Hi;
    [| apply keepsInvariants_refl].
  destruct (findIndex_Some _ _ _ Hi) as (old & Hold & _). rewrite Hold.
  set (s1 := saveBookmarks (set_bookmarks (delete i (bookmarks s)) s)).
  unfold bind at 1.
  pose proof (updateCategoryBookmarkCount_effect (b_categoryId old) s1 w) as H2.
  destruct (updateCategoryBookmarkCount dateNow (b_categoryId old) s1 w)
    as [s2 w2].
  cbn [fst] in H2. destruct H2 as (B2 & T2 & I2 & SB2 & ST2 & SC2 & C2).
  unfold bind.
  assert (Hcounts : countsConsistent (bookmarks s) (categories s) ->
                    countsConsistent (bookmarks s2) (categories s2)).
  { intros [Hnd Hall]. split; [rewrite I2; exact Hnd |]. rewrite B2.
    eapply Forall_impl; [apply (C2 [] Hnd) |].
    - eapply Forall_impl; [exact Hall |]. simpl. intros c Hc Hex.
      rewrite (directMembers_delete _ _ _ old Hold), Hc.
      destruct (String.eqb (b_categoryId old) (c_id c)) eqn:E1;
        [apply String.eqb_eq in E1; exfalso; apply Hex; left; exact E1 |].
      lia.
    - simpl. intros c Hc. apply Hc. tauto. }
  assert (Hwritten : writtenBack s ->
                     st_bookmarks (storage s2) = bookmarks s2 /\
                     st_categories (storage s2) = categories s2 /\
                     st_tags (storage s2) = tags s2).
  { intros (W1 & W2 & W3). rewrite SB2, ST2, B2, T2.
    repeat split; [| exact W3]. apply SC2. exact W2. }
  destruct (0 <? length (b_tags old))%nat eqn:Htags.
  - pose proof (updateTags_effect (b_tags old) s2 w2) as H3.
    destruct (updateTags dateNow uuidv4 (b_tags old) s2 w2) as [s3 w3].
    unfold ret. cbn [fst snd] in *.
    destruct H3 as (B3 & C3 & SB3 & SC3 & ST3 & T3).
    split; [| split].
    + rewrite B3, C3. exact Hcounts.
    + intros _. rewrite B3. exact T3.
    + intros Hw. destruct (Hwritten Hw) as (W1 & W2 & W3).
      repeat split; congruence.
  - unfold ret. cbn [fst snd].
    assert (Hnil : b_tags old = []).
    { destruct (b_tags old); [reflexivity | discriminate]. }
    split; [exact Hcounts | split; [| exact Hwritten]].
    intros Ht. rewrite T2, B2.
    apply (tagsConsistent_names (bookmarks s)); [| exact Ht].
    apply (allTagNames_delete_empty _ _ old Hold Hnil).
Qed.

Lemma addBookmark_keeps bookmark s w :
  keepsInvariants s
    (snd (fst (addBookmark dateNow uuidv4 addBookmarkToBrowser bookmark s w))).
Proof.
  unfold addBookmark.
  unfold bind at 1, uuid at 1. unfold bind at 1, now at 1.
  unfold bind at 1, now at 1. cbv beta iota zeta.
  match goal with
  | |- context [saveBookmarks (set_bookmarks (bookmarks s ++ [?b]) s)] =>
      set (new := b)
  end.
  set (s1 := saveBookmarks (set_bookmarks (bookmarks s ++ [new]) s)).
  unfold bind at 1.
  match goal with |- context [updateCategoryBookmarkCount _ _ s1 ?w0] =>
    set (w1 := w0) end.
  pose proof (updateCategoryBookmarkCount_effect (b_categoryId new) s1 w1) as H2.
  destruct (updateCategoryBookmarkCount dateNow (b_categoryId new) s1 w1)
    as [s2 w2].
  cbn [fst] in H2. destruct H2 as (B2 & T2 & I2 & SB2 & ST2 & SC2 & C2).
  unfold bind.
  assert (Hcounts : countsConsistent (bookmarks s) (categories s) ->
                    countsConsistent (bookmarks s2) (categories s2)).
  { intros [Hnd Hall]. split; [rewrite I2; exact Hnd |]. rewrite B2.
    eapply Forall_impl; [apply (C2 [] Hnd) |].
    - eapply Forall_impl; [exact Hall |]. simpl. intros c Hc Hex.
      rewrite directMembers_snoc, Hc.
      destruct (String.eqb (b_categoryId new) (c_id c)) eqn:E1;
        [apply String.eqb_eq in E1; exfalso; apply Hex; left; exact E1 |].
      lia.
    - simpl. intros c Hc. apply Hc. tauto. }
  assert (Hwritten : writtenBack s ->
                     st_bookmarks (storage s2) = bookmarks s2 /\
                     st_categories (storage s2) = categories s2 /\
                     st_tags (storage s2) = tags s2).
  { intros (W1 & W2 & W3). rewrite SB2, ST2, B2, T2.
    repeat split; [| exact W3]. apply SC2. exact W2. }
  destruct (0 <? length (b_tags new))%nat eqn:Htags.
  - pose proof (updateTags_effect (b_tags new) s2 w2) as H3.
    destruct (updateTags dateNow uuidv4 (b_tags new) s2 w2) as [s3 w3].
    unfold ret. cbn [fst snd] in *.
    destruct H3 as (B3 & C3 & SB3 & SC3 & ST3 & T3).
    split; [| split].
    + rewrite B3, C3. exact Hcounts.
    + intros _. rewrite B3. exact T3.
    + intros Hw. destruct (Hwritten Hw) as (W1 & W2 & W3).
      repeat split; congruence.
  - unfold ret. cbn [fst snd].
    assert (Hnil : b_tags new = []).
    { destruct (b_tags new); [reflexivity | discriminate]. }
    split; [exact Hcounts | split; [| exact Hwritten]].
    intros Ht. rewrite T2, B2.
    apply (tagsConsistent_names (bookmarks s)); [| exact Ht].
    apply (allTagNames_snoc_empty _ _ Hnil).
Qed.

Lemma addBookmarkVisit_keeps id s w :
  keepsInvariants s (fst (addBookmarkVisit dateNow id s w)).
Proof.
  unfold addBookmarkVisit.
  destruct (findIndex _ (bookmarks s)) as [i|] eqn:Hi;
    [| apply keepsInvariants_refl].
  destruct (findIndex_Some _ _ _ Hi) as (old & Hold & _). rewrite Hold.
  unfold bind, now, ret. cbn [fst].
  set (upd := b_with_visit _ _ old).
  split; [| split].
  - intros [Hnd Hall]. split; [exact Hnd |].
    eapply Forall_impl; [exact Hall |]. simpl. intros c Hc.
    rewrite (directMembers_insert _ _ _ old upd Hold), Hc.
    change (b_categoryId upd) with (b_categoryId old). lia.
  - apply tagsConsistent_names.
    apply (allTagNames_insert_same _ _ old upd Hold). reflexivity.
  - intros (W1 & W2 & W3). repeat split; assumption.
Qed.

Lemma deleteCategory_keeps id s w :
  keepsInvariants s (snd (fst (deleteCategory dateNow uuidv4 id s w))).
Proof.
  unfold deleteCategory.
  destruct (List.find _ (categories s)) as [category|];
    [| apply keepsInvariants_refl].
  destruct (JS.truthy_obool (c_builtin category));
    [apply keepsInvariants_refl |].
  unfold bind at 1.
  match goal with |- context [forEach ?step ?xs s w] =>
    assert (H1 : keepsInvariants s (fst (forEach step xs s w)));
    [| destruct (forEach step xs s w) as [s1 w1] ]
  end.
  { apply forEach_keeps. intros acc x w'. unfold bind, ret.
    pose proof (updateBookmark_keeps (b_id x) (changeCategoryId "uncategorized")
                  acc w') as Hk.
    destruct (updateBookmark dateNow uuidv4 (b_id x)
                (changeCategoryId "uncategorized") acc w') as [[r s'] w''].
    exact Hk. }
  cbn [fst] in H1.
  eapply keepsInvariants_trans; [exact H1 |]. unfold ret. cbn [fst snd].
  split; [| split].
  - intros [Hnd Hall]. split.
    + eapply sublist_NoDup; [exact Hnd |].
      apply fmap_sublist, filter_bool_sublist.
    + apply Forall_filter_bool, Hall.
  - intros Ht. exact Ht.
  - intros (W1 & W2 & W3). repeat split; assumption.
Qed.

Lemma perform_keeps a s w :
  keepsInvariants s (fst (perform dateNow uuidv4 addBookmarkToBrowser s a w)).
Proof.
  destruct a as [bookmark | id changes | id | id | id | cid | names];
    unfold perform, bind, ret.
  - pose proof (addBookmark_keeps bookmark s w) as H.
    destruct (addBookmark _ _ _ _ _ _) as [[r s'] w']. exact H.
  - pose proof (updateBookmark_keeps id changes s w) as H.
    destruct (updateBookmark _ _ _ _ _ _) as [[r s'] w']. exact H.
  - pose proof (deleteBookmark_keeps id s w) as H.
    destruct (deleteBookmark _ _ _ _ _) as [[r s'] w']. exact H.
  - pose proof (deleteCategory_keeps id s w) as H.
    destruct (deleteCategory _ _ _ _ _) as [[r s'] w']. exact H.
  - apply addBookmarkVisit_keeps.
  - pose proof (updateCategoryBookmarkCount_effect cid s w) as H.
    destruct (updateCategoryBookmarkCount dateNow cid s w) as [s' w'].
    cbn [fst] in *. destruct H as (B2 & T2 & I2 & SB2 & ST2 & SC2 & C2).
    split; [| split].
    + intros [Hnd Hall]. split; [rewrite I2; exact Hnd |]. rewrite B2.
      eapply Forall_impl; [apply (C2 [] Hnd) |].
      * eapply Forall_impl; [exact Hall |]. simpl. tauto.
      * simpl. intros c Hc. apply Hc. tauto.
    + rewrite B2, T2. tauto.
    + intros (W1 & W2 & W3). unfold writtenBack. rewrite SB2, ST2, B2, T2.
      repeat split; [assumption | | assumption]. apply SC2. exact W2.
  - pose proof (updateTags_effect names s w) as H.
    destruct (updateTags dateNow uuidv4 names s w) as [s' w'].
    cbn [fst] in *. destruct H as (B3 & C3 & SB3 & SC3 & ST3 & T3).
    split; [| split].
    + rewrite B3, C3. tauto.
    + intros _. rewrite B3. exact T3.
    + intros (W1 & W2 & W3). unfold writtenBack. repeat split; congruence.
Qed.

Lemma actions_keep (actions : list StoreAction) s w :
  keepsInvariants s
    (fst (forEach (perform dateNow uuidv4 addBookmarkToBrowser) actions s w)).
Proof. apply forEach_keeps. intros acc a w'. apply perform_keeps. Qed.

(** X3. Count consistency is an invariant of the store: when no two
    categories share an id and every category carries the number of
    bookmarks filed directly under it, the same holds after any sequence of
    [addBookmark], [updateBookmark], [deleteBookmark], [deleteCategory],
    [addBookmarkVisit], [updateCategoryBookmarkCount] and [updateTags]
    calls, whatever their arguments and whether or not they find their
    target. *)
Theorem store_keeps_counts (actions : list StoreAction) (s : Store) (w : World) :
  countsConsistent (bookmarks s) (categories s) ->
  let s' := fst (forEach (perform dateNow uuidv4 addBookmarkToBrowser)
                         actions s w) in
  countsConsistent (bookmarks s') (categories s').
Proof. intros H. apply (actions_keep actions s w), H. Qed.

(** X4. Tag consistency is an invariant of the store: when the tag records
    have distinct names, positive counts equal to the number of times their
    name is written on the bookmarks, and cover every name written on a
    bookmark, the same holds after any sequence of store calls; the calls
    that leave the tag lists of the bookmarks alone do not recompute the
    tags, the others do. *)
Theorem store_keeps_tags (actions : list StoreAction) (s : Store) (w : World) :
  tagsConsistent (bookmarks s) (tags s) ->
  let s' := fst (forEach (perform dateNow uuidv4 addBookmarkToBrowser)
                         actions s w) in
  tagsConsistent (bookmarks s') (tags s').
Proof. intros H. apply (actions_keep actions s w), H. Qed.

(** X5. Every store call writes back what it changes: when the persisted
    bookmarks, categories and tags are those held in memory, they still are
    after any sequence of store calls. *)
Theorem store_writes_back (actions : list StoreAction) (s : Store) (w : World) :
  writtenBack s ->
  writtenBack (fst (forEach (perform dateNow uuidv4 addBookmarkToBrowser)
                            actions s w)).
Proof. intros H. apply (actions_keep actions s w), H. Qed.

End StoreInvariants.

(** ** Recomputing the tags twice *)

Lemma TagMap_get_absent k m : ~ In k (List.map fst m) -> TagMap_get k m = None.
Proof.
  induction m as [|[k' v'] m IH]; simpl; [reflexivity |].
  intros H. destruct (String.eqb k' k) eqn:E.
  - apply String.eqb_eq in E. exfalso. apply H. left. exact E.
  - apply IH. tauto.
Qed.

Lemma TagMap_set_absent k v m :
  TagMap_get k m = None -> TagMap_set k v m = m ++ [(k, v)].
Proof.
  induction m as [|[k' v'] m IH]; simpl; [reflexivity |].
  destruct (String.eqb k' k); [discriminate |]. intros H. rewrite (IH H).
  reflexivity.
Qed.

Lemma tagMap_of_distinct (ts : list Tag) : forall m,
  NoDup (List.map fst m ++ List.map t_name ts) ->
  fold_left (fun m tag => TagMap_set (t_name tag) (t_with_count 0 tag) m) ts m
  = m ++ List.map (fun t => (t_name t, t_with_count 0 t)) ts.
Proof.
  induction ts as [|t ts IH]; intros m Hnd; simpl.
  - rewrite app_nil_r. reflexivity.
  - rewrite TagMap_set_absent.
    + rewrite IH.
      * rewrite <- app_assoc. reflexivity.
      * rewrite List.map_app. simpl. rewrite <- app_assoc. exact Hnd.
    + apply TagMap_get_absent. intros Hin.
      apply NoDup_app in Hnd as (_ & Hdisj & _).
      apply (Hdisj (t_name t)); [apply list_elem_of_In, Hin |].
      simpl. left.
Qed.

Lemma TagMap_reset_set k v tag m :
  TagMap_get k m = Some tag -> t_with_count 0 v = t_with_count 0 tag ->
  TagMap_reset (TagMap_set k v m) = TagMap_reset m.
Proof.
  intros Hget Hv. induction m as [|[k' v'] m IH]; simpl in *; [discriminate |].
  destruct (String.eqb k' k); simpl.
  - injection Hget as ->. rewrite Hv. reflexivity.
  - rewrite (IH Hget). reflexivity.
Qed.

Lemma TagMap_reset_keys m : List.map fst (TagMap_reset m) = List.map fst m.
Proof. unfold TagMap_reset. rewrite List.map_map. reflexivity. Qed.

Section TagsTwice.

Variable dateNow : nat -> Z.
Variable uuidv4 : nat -> string.

Lemma forEach_countTag_known names : forall m w,
  (forall n, In n names -> In n (List.map fst m)) ->
  exists m', forEach (countTag dateNow uuidv4) names m w = (m', w) /\
             TagMap_reset m' = TagMap_reset m.
Proof.
  induction names as [|n names IH]; intros m w Hin; simpl.
  - exists m. split; reflexivity.
  - unfold bind. unfold countTag at 1.
    destruct (TagMap_get n m) as [tag|] eqn:Hget.
    + unfold ret at 1.
      assert (Hr : TagMap_reset (TagMap_set n (t_with_count (t_count tag + 1) tag) m)
                   = TagMap_reset m).
      { apply (TagMap_reset_set _ _ tag); [exact Hget | reflexivity]. }
      destruct (IH (TagMap_set n (t_with_count (t_count tag + 1) tag) m) w)
        as (m' & E & Hm').
      * intros k Hk. rewrite <- TagMap_reset_keys, Hr, TagMap_reset_keys.
        apply Hin. right. exact Hk.
      * exists m'. split; [exact E | congruence].
    + exfalso. apply (TagMap_get_None_keys _ _ Hget). apply Hin. left.
      reflexivity.
Qed.

Lemma forEach_bookmarks_known bs : forall m w,
  (forall n, In n (allTagNames bs) -> In n (List.map fst m)) ->
  exists m',
    forEach (fun m b => forEach (countTag dateNow uuidv4) (b_tags b) m) bs m w
      = (m', w) /\
    TagMap_reset m' = TagMap_reset m.
Proof.
  induction bs as [|b bs IH]; intros m w Hin; simpl.
  - exists m. split; reflexivity.
  - unfold bind.
    destruct (forEach_countTag_known (b_tags b) m w) as (m1 & E1 & R1).
    { intros n Hn. apply Hin. unfold allTagNames. simpl.
      apply in_or_app. left. exact Hn. }
    rewrite E1. destruct (IH m1 w) as (m' & E & R).
    { intros n Hn. rewrite <- TagMap_reset_keys, R1, TagMap_reset_keys.
      apply Hin. unfold allTagNames. simpl. apply in_or_app. right. exact Hn. }
    exists m'. split; [exact E | congruence].
Qed.

Lemma filter_all_bool {A} (p : A -> bool) (l : list A) :
  Forall (fun x => p x = true) l -> List.filter p l = l.
Proof.
  induction 1 as [|x l Hx _ IH]; simpl; [reflexivity |].
  rewrite Hx, IH. reflexivity.
Qed.

(** On a store whose tags are the tally of its bookmarks, [updateTags]
    only writes the tags back. *)
Lemma updateTags_settled names s w :
  tagsConsistent (bookmarks s) (tags s) ->
  updateTags dateNow uuidv4 names s w = (saveTags s, w).
Proof.
  intros (Hnd & Hocc & Hpos & Hcover). unfold updateTags.
  rewrite (tagMap_of_distinct (tags s) []) by exact Hnd. simpl.
  set (m0 := List.map (fun t => (t_name t, t_with_count 0 t)) (tags s)).
  assert (Hkeys : List.map fst m0 = List.map t_name (tags s)).
  { unfold m0. rewrite List.map_map. reflexivity. }
  assert (H0 : TagMap_counts m0 []).
  { split; [rewrite Hkeys; exact Hnd |]. split; [| intros k []].
    intros k v Hk. apply TagMap_get_In in Hk. unfold m0 in Hk.
    apply in_map_iff in Hk as (t & [= <- <-] & _). simpl. auto. }
  pose proof (forEach_bookmarks_counts dateNow uuidv4 (bookmarks s) m0 [] w H0)
    as Hm.
  destruct (forEach_bookmarks_known (bookmarks s) m0 w) as (m & E & R).
  { intros n Hn. rewrite Hkeys. apply Hcover, Hn. }
  unfold bind. rewrite E in *. simpl in Hm. destruct Hm as (Hndm & Hval & _).
  assert (Hvalues : TagMap_values m = tags s).
  { assert (Hreset : TagMap_reset m = m0).
    { rewrite R. unfold TagMap_reset, m0. rewrite List.map_map.
      apply map_ext. intros t. reflexivity. }
    assert (Hget : forall kv, In kv m -> TagMap_get (fst kv) m = Some (snd kv)).
    { intros [k v] Hkv. apply TagMap_In_get; assumption. }
    assert (Hgen : forall l ts,
      Forall (fun t => t_count t
                       = occurrences (t_name t) (allTagNames (bookmarks s))) ts ->
      TagMap_reset l = List.map (fun t => (t_name t, t_with_count 0 t)) ts ->
      (forall kv, In kv l -> TagMap_get (fst kv) m = Some (snd kv)) ->
      List.map snd l = ts).
    { induction l as [|[k v] l IH]; intros [|t ts] Ho Hr Hg;
        try discriminate; [reflexivity |].
      simpl in Hr. injection Hr as Hk Hid Hname Hcol Hcr Hup Hai Hrest.
      apply Forall_cons_iff in Ho as [Ht Hts]. simpl. f_equal.
      - destruct (Hval k v (Hg (k, v) (or_introl eq_refl))) as [Hn Hc].
        assert (Hcount : t_count v = t_count t) by (rewrite Hc, Ht; congruence).
        destruct t, v. simpl in *. congruence.
      - apply IH; [exact Hts | exact Hrest |].
        intros kv Hkv. apply Hg. right. exact Hkv. }
    apply (Hgen m (tags s) Hocc Hreset Hget). }
  unfold ret. rewrite Hvalues. f_equal.
  rewrite filter_all_bool.
  - destruct s; reflexivity.
  - eapply Forall_impl; [exact Hpos |]. simpl. intros t Ht.
    apply Z.ltb_lt. exact Ht.
Qed.

(** X6. [updateTags] is idempotent: run again on its own result it hands
    that result back, without reading the clock and without drawing an
    identifier; every tag record keeps its id, its stamps and its count. *)
Theorem updateTags_idempotent (names names' : list string) (s : Store)
    (w : World) :
  let r := updateTags dateNow uuidv4 names s w in
  updateTags dateNow uuidv4 names' (fst r) (snd r) = r.
Proof.
  cbv zeta.
  pose proof (updateTags_effect dateNow uuidv4 names s w) as H.
  destruct (updateTags dateNow uuidv4 names s w) as [s1 w1].
  cbn [fst snd] in *. destruct H as (B & _ & _ & _ & ST & T).
  rewrite updateTags_settled by (rewrite B; exact T).
  f_equal. destruct s1 as [bs cs ts [sb sc st sl]]. simpl in *. subst.
  reflexivity.
Qed.

End TagsTwice.

(** ** Visits *)

Lemma findIndex_insert_same {A} (p : A -> bool) (l : list A) (i : nat) (x : A) :
  findIndex p l = Some i -> p x = true -> findIndex p (<[i := x]> l) = Some i.
Proof.
  revert i. induction l as [|y l IH]; intros i H Hx; [discriminate |].
  simpl in H. destruct (p y) eqn:Hy.
  - injection H as <-. simpl. rewrite Hx. reflexivity.
  - destruct (findIndex p l) as [j|] eqn:Hj; [| discriminate].
    injection H as <-. change (<[S j:=x]> (y :: l)) with (y :: <[j:=x]> l).
    simpl. rewrite Hy, (IH j eq_refl Hx). reflexivity.
Qed.

Lemma js_add_exact (a b : Z) :
  - 2 ^ 53 <= a + b <= 2 ^ 53 -> js_add a b = a + b.
Proof.
  intros H. unfold js_add, nearestDouble. cbv zeta.
  destruct (Z.leb_spec (Z.abs (a + b)) (2 ^ 53)) as [_ | Hgt];
    [reflexivity | lia].
Qed.

Section VisitFacts.

Variable dateNow : nat -> Z.
Variable uuidv4 : nat -> string.
Variable addBookmarkToBrowser : Bookmark -> option string.

(** X7. [n] calls of [addBookmarkVisit] for the id of a stored bookmark
    whose [visitCount] is not below [-2^53] and stays within [2^53] raise
    the [visitCount] of the first bookmark with that id by exactly [n]
    and leave its [lastVisited] at the last reading of the clock; no
    other field of it, no other bookmark, no category and no tag changes,
    and the clock is read once per call. *)
Theorem addBookmarkVisit_counts_visits (n : nat) (id : string) (s : Store)
    (w : World) (i : nat) (b : Bookmark) :
  findIndex (fun b => String.eqb (b_id b) id) (bookmarks s) = Some i ->
  bookmarks s !! i = Some b ->
  - 2 ^ 53 <= b_visitCount b ->
  b_visitCount b + Z.of_nat n <= 2 ^ 53 ->
  let r := forEach (perform dateNow uuidv4 addBookmarkToBrowser)
                   (replicate n (AddBookmarkVisit id)) s w in
  bookmarks (fst r)
    = <[i := b_with_visit (b_visitCount b + Z.of_nat n)
                          (match n with
                           | O => b_lastVisited b
                           | S k => Some (dateNow (w_clock w + k)%nat)
                           end) b]> (bookmarks s) /\
  categories (fst r) = categories s /\ tags (fst r) = tags s /\
  snd r = {| w_clock := (w_clock w + n)%nat; w_ids := w_ids w |}.
Proof.
  revert s w b. induction n as [|n IH]; intros s w b Hi Hb Hlo Hhi; cbv zeta.
  - simpl. unfold ret. simpl. rewrite Z.add_0_r, Nat.add_0_r.
    repeat split; [| destruct w; reflexivity].
    symmetry. apply list_insert_id. rewrite Hb. destruct b; reflexivity.
  - set (b1 := b_with_visit (js_add (JS.num_or (b_visitCount b) 0) 1)
                 (Some (dateNow (w_clock w))) b).
    set (s1 := saveBookmarks (set_bookmarks (<[i:=b1]> (bookmarks s)) s)).
    set (w1 := {| w_clock := S (w_clock w); w_ids := w_ids w |}).
    assert (Hcount : b_visitCount b1 = b_visitCount b + 1).
    { unfold b1. cbn [b_visitCount b_with_visit]. rewrite num_or_zero.
      apply js_add_exact. lia. }
    assert (Hrun : forEach (perform dateNow uuidv4 addBookmarkToBrowser)
                     (replicate (S n) (AddBookmarkVisit id)) s w
                   = forEach (perform dateNow uuidv4 addBookmarkToBrowser)
                       (replicate n (AddBookmarkVisit id)) s1 w1).
    { cbn [replicate forEach]. unfold bind at 1. unfold perform at 1.
      unfold addBookmarkVisit. rewrite Hi, Hb. reflexivity. }
    rewrite Hrun.
    assert (Hi1 : findIndex (fun b => String.eqb (b_id b) id) (bookmarks s1)
                  = Some i).
    { apply findIndex_insert_same; [exact Hi |].
      destruct (findIndex_Some _ _ _ Hi) as (b0 & Hb0 & Hp & _).
      rewrite Hb in Hb0. injection Hb0 as <-. exact Hp. }
    assert (Hb1 : bookmarks s1 !! i = Some b1).
    { apply list_lookup_insert_eq. eapply lookup_lt_Some. exact Hb. }
    destruct (IH s1 w1 b1 Hi1 Hb1) as (B & C & T & W); [lia | lia |].
    rewrite B, C, T, W. cbn [bookmarks categories tags s1 saveBookmarks
                             set_bookmarks w_clock w_ids w1].
    rewrite list_insert_insert_eq.
    repeat split.
    + f_equal. rewrite Hcount. unfold b1, b_with_visit.
      cbn [b_id b_title b_url b_favicon b_description b_categoryId b_tags
           b_createdAt b_updatedAt b_lastVisited b_aiGenerated b_originalId
           b_parentId b_index].
      f_equal; [| lia].
      destruct n as [|k]; [f_equal; f_equal; lia |].
      f_equal. f_equal. lia.
    + f_equal. lia.
Qed.

End VisitFacts.

(** ** The default categories *)

Section DefaultsFacts.

Variable dateNow : nat -> Z.

Lemma mapM_defaultCategory_builtin ds : forall w,
  Forall (fun c => c_builtin c = Some true /\ c_bookmarkCount c = 0 /\
                   c_parentId c = None)
         (fst (mapM (defaultCategory dateNow) ds w)).
Proof.
  induction ds as [|[[i n] ic] ds IH]; intros w; [constructor |].
  rewrite mapM_cons_run. unfold defaultCategory at 1, bind, now, ret.
  match goal with |- context [mapM ?f ds ?w1] =>
    specialize (IH w1); destruct (mapM f ds w1) as [cs w'] end.
  simpl in *. constructor; auto.
Qed.

Lemma existingIds_includes (cats : list Category) (i : string) :
  bool_decide (i ∈ (list_to_set (c_id <$> cats) : gset string))
  = arr_includes (List.map c_id cats) i.
Proof.
  destruct (arr_includes (List.map c_id cats) i) eqn:E.
  - apply bool_decide_eq_true. apply elem_of_list_to_set.
    apply list_elem_of_In. apply arr_includes_In. exact E.
  - apply bool_decide_eq_false. intros H. apply elem_of_list_to_set in H.
    apply list_elem_of_In, arr_includes_In in H.
    change (c_id <$> cats) with (List.map c_id cats) in H. congruence.
Qed.

Lemma missing_loop (cats : list Category) ds : forall acc w,
  forEach (fun missing cat =>
             if negb (bool_decide (fst (fst cat)
                                   ∈ (list_to_set (c_id <$> cats) : gset string)))
             then do c <- defaultCategory dateNow cat; ret (missing ++ [c])
             else ret missing)
          ds acc w
  = let (new, w') :=
      mapM (defaultCategory dateNow)
           (List.filter (fun d => negb (arr_includes (List.map c_id cats)
                                                     (fst (fst d)))) ds) w in
    (acc ++ new, w').
Proof.
  induction ds as [|d ds IH]; intros acc w.
  - simpl. unfold ret. rewrite app_nil_r. reflexivity.
  - cbn [forEach List.filter]. unfold bind at 1.
    rewrite existingIds_includes.
    destruct (arr_includes (List.map c_id cats) (fst (fst d))); cbn [negb].
    + unfold ret at 1. apply IH.
    + rewrite mapM_cons_run. unfold bind at 1.
      destruct (defaultCategory dateNow d w) as [c w1]. unfold ret at 1.
      rewrite IH.
      destruct (mapM (defaultCategory dateNow) _ w1) as [new w']. 
      rewrite <- app_assoc. reflexivity.
Qed.

Lemma ensureDefaultCategories_run st w :
  exists added w',
    mapM (defaultCategory dateNow)
         (List.filter (fun d => negb (arr_includes
                                        (List.map c_id (st_categories st))
                                        (fst (fst d))))
                      DEFAULT_CATEGORIES) w = (added, w') /\
    ensureDefaultCategories dateNow st w
    = (if (0 <? length added)%nat
       then st_set_categories (st_categories st ++ added) st else st, w').
Proof.
  unfold ensureDefaultCategories.
  destruct (st_categories st) as [|c cats] eqn:Hc.
  - cbn [length Nat.eqb List.map arr_includes existsb negb List.filter].
    change (List.filter (fun _ => true) DEFAULT_CATEGORIES)
      with DEFAULT_CATEGORIES.
    unfold bind.
    pose proof (mapM_defaultCategory_length dateNow DEFAULT_CATEGORIES w) as Hl.
    destruct (mapM (defaultCategory dateNow) DEFAULT_CATEGORIES w)
      as [added w'].
    exists added, w'. split; [reflexivity |]. simpl in Hl. rewrite Hl.
    reflexivity.
  - cbn [length Nat.eqb]. unfold bind. rewrite missing_loop.
    destruct (mapM (defaultCategory dateNow) _ w) as [added w'].
    exists added, w'. split; [reflexivity |]. cbn [app].
    destruct (0 <? length added)%nat; reflexivity.
Qed.

(** X8. [ensureDefaultCategories] keeps every stored category, in order
    and untouched, and appends a builtin record with count 0 for exactly
    the default ids (all, frequent, recent, uncategorized) that no stored
    category carries, in that order; bookmarks, tags and the time of the
    last synchronisation are left alone.  Afterwards every default id is
    present, and a second call writes nothing and does not read the
    clock. *)
Theorem ensureDefaultCategories_spec (st : Storage) (w : World) :
  let r := ensureDefaultCategories dateNow st w in
  (exists added,
     st_categories (fst r) = st_categories st ++ added /\
     List.map c_id added
       = List.filter (fun i => negb (arr_includes
                                       (List.map c_id (st_categories st)) i))
                     ["all"; "frequent"; "recent"; "uncategorized"] /\
     Forall (fun c => c_builtin c = Some true /\ c_bookmarkCount c = 0 /\
                      c_parentId c = None) added) /\
  st_bookmarks (fst r) = st_bookmarks st /\
  st_tags (fst r) = st_tags st /\
  st_lastSync (fst r) = st_lastSync st /\
  Forall (fun i => In i (List.map c_id (st_categories (fst r))))
         ["all"; "frequent"; "recent"; "uncategorized"] /\
  ensureDefaultCategories dateNow (fst r) (snd r) = r.
Proof.
  cbv zeta.
  destruct (ensureDefaultCategories_run st w) as (added & w' & Hm & ->).
  cbn [fst snd].
  match type of Hm with
  | mapM _ ?ds _ = _ =>
      pose proof (mapM_defaultCategory_ids dateNow ds w) as Hids;
      pose proof (mapM_defaultCategory_builtin ds w) as Hb
  end.
  rewrite Hm in Hids, Hb. cbn [fst] in Hids, Hb.
  assert (Hids' : List.map c_id added
                  = List.filter
                      (fun i => negb (arr_includes
                                        (List.map c_id (st_categories st)) i))
                      ["all"; "frequent"; "recent"; "uncategorized"]).
  { rewrite Hids.
    change ["all"; "frequent"; "recent"; "uncategorized"]
      with (List.map (fun d : string * string * string => fst (fst d))
                     DEFAULT_CATEGORIES).
    rewrite filter_map_bool. reflexivity. }
  clear Hids. rename Hids' into Hids.
  set (st' := if (0 <? length added)%nat
              then st_set_categories (st_categories st ++ added) st else st).
  assert (Hcats : st_categories st' = st_categories st ++ added).
  { unfold st'. destruct added; simpl; [rewrite app_nil_r |]; reflexivity. }
  assert (Hpresent : Forall (fun i => In i (List.map c_id (st_categories st')))
                            ["all"; "frequent"; "recent"; "uncategorized"]).
  { rewrite Hcats, List.map_app, Hids. apply Forall_forall. intros i Hi.
    apply list_elem_of_In in Hi. apply in_or_app.
    destruct (arr_includes (List.map c_id (st_categories st)) i) eqn:E.
    - left. apply arr_includes_In. exact E.
    - right. apply filter_In. split; [exact Hi |]. rewrite E. reflexivity. }
  split; [exists added; auto |].
  split; [unfold st'; destruct (0 <? length added)%nat; reflexivity |].
  split; [unfold st'; destruct (0 <? length added)%nat; reflexivity |].
  split; [unfold st'; destruct (0 <? length added)%nat; reflexivity |].
  split; [exact Hpresent |].
  destruct (ensureDefaultCategories_run st' w') as (added' & w'' & Hm' & ->).
  assert (Hnone : List.filter
                    (fun d : string * string * string =>
                       negb (arr_includes (List.map c_id (st_categories st'))
                                          (fst (fst d))))
                    DEFAULT_CATEGORIES = []).
  { rewrite Forall_forall in Hpresent.
    assert (Hin : forall i, In i ["all"; "frequent"; "recent"; "uncategorized"] ->
                  arr_includes (List.map c_id (st_categories st')) i = true).
    { intros i Hi. apply arr_includes_In. apply Hpresent.
      apply list_elem_of_In. exact Hi. }
    unfold DEFAULT_CATEGORIES. cbn [List.filter fst].
    rewrite !Hin by (simpl; tauto). reflexivity. }
  rewrite Hnone in Hm'. injection Hm' as <- <-. reflexivity.
Qed.

End DefaultsFacts.

(** ** The counts kept by the storage backed service *)

Section ServiceInvariants.

Variable dateNow : nat -> Z.
Variable uuidv4 : nat -> string.

(** [updateCategoryCount] adds [delta] to the count of [cid] and touches
    nothing else. *)
Lemma updateCategoryCount_effect cid delta st w :
  let st' := fst (updateCategoryCount dateNow cid delta st w) in
  st_bookmarks st' = st_bookmarks st /\ st_tags st' = st_tags st /\
  c_id <$> st_categories st' = c_id <$> st_categories st /\
  (forall f : string -> Z,
     NoDup (c_id <$> st_categories st) ->
     Forall (fun c => c_bookmarkCount c = f (c_id c)) (st_categories st) ->
     Forall (fun c => c_bookmarkCount c
                      = f (c_id c) + (if String.eqb cid (c_id c) then delta else 0))
            (st_categories st')).
Proof.
  unfold updateCategoryCount.
  destruct (findIndex _ (st_categories st)) as [i|] eqn:Hi.
  - destruct (findIndex_Some _ _ _ Hi) as (c & Hc & Hp & _).
    apply String.eqb_eq in Hp. rewrite Hc.
    unfold bind, now, ret. simpl. repeat split.
    + apply (fmap_insert_same c_id _ _ c); [exact Hc | reflexivity].
    + intros f Hnd Hall. rewrite Forall_lookup in Hall.
      apply Forall_lookup. intros j c' Hj.
      destruct (decide (j = i)) as [-> | Hne].
      * rewrite list_lookup_insert_eq in Hj
          by (eapply lookup_lt_Some; eassumption).
        injection Hj as <-. simpl. rewrite Hp, String.eqb_refl.
        rewrite (Hall i c Hc), Hp. reflexivity.
      * rewrite list_lookup_insert_ne in Hj by congruence.
        rewrite (Hall j c' Hj).
        destruct (String.eqb cid (c_id c')) eqn:E; [| lia].
        apply String.eqb_eq in E. exfalso. apply Hne.
        apply (proj1 (NoDup_alt _) Hnd j i (c_id c')).
        -- rewrite list_lookup_fmap, Hj. reflexivity.
        -- rewrite list_lookup_fmap, Hc. simpl. congruence.
  - simpl. repeat split. intros f _ Hall. apply findIndex_None in Hi.
    rewrite Forall_forall in Hall, Hi. apply Forall_forall. intros c Hc.
    rewrite (Hall c Hc). specialize (Hi c Hc). simpl in Hi.
    rewrite String.eqb_sym, Hi. lia.
Qed.

Lemma service_addBookmark_launches settings bookmark st w :
  analysisOff settings ->
  snd (fst (fst (service_addBookmark dateNow uuidv4 settings bookmark st w)))
  = None.
Proof.
  intros Hoff. unfold service_addBookmark, bind, now, uuid.
  cbv beta iota zeta.
  destruct (updateCategoryCount dateNow _ 1 st _) as [st1 w1].
  assert (E : set_autoClassify settings
              && negb (String.eqb (set_apiKey settings) "") = false).
  { destruct Hoff as [-> | ->]; [reflexivity |]. apply andb_false_r. }
  rewrite E. reflexivity.
Qed.

Lemma service_addBookmark_keeps settings bookmark st w :
  countsConsistent (st_bookmarks st) (st_categories st) ->
  let st' := snd (fst (service_addBookmark dateNow uuidv4 settings bookmark
                                           st w)) in
  countsConsistent (st_bookmarks st') (st_categories st').
Proof.
  intros [Hnd Hall]. cbv zeta.
  unfold service_addBookmark, bind, now, uuid. cbv beta iota zeta.
  match goal with
  | |- context [updateCategoryCount dateNow ?c 1 st ?w0] =>
      pose proof (updateCategoryCount_effect c 1 st w0) as H;
      destruct (updateCategoryCount dateNow c 1 st w0) as [st1 w1]
  end.
  match goal with
  | |- context [st_set_bookmarks (st_bookmarks st ++ [?b])] =>
      set (new := b) in *
  end.
  cbn [fst snd] in *. destruct H as (B & _ & I & C).
  assert (K : countsConsistent (st_bookmarks st ++ [new]) (st_categories st1)).
  { split; [rewrite I; exact Hnd |].
    eapply Forall_impl;
      [apply (C (fun i => directMembers i (st_bookmarks st)) Hnd Hall) |].
    simpl. intros c Hc. rewrite Hc, directMembers_snoc. reflexivity. }
  destruct (_ && _); unfold ret;
    cbn [fst snd st_set_bookmarks st_bookmarks st_categories]; exact K.
Qed.

Lemma service_deleteBookmark_keeps id st w :
  countsConsistent (st_bookmarks st) (st_categories st) ->
  let st' := snd (fst (service_deleteBookmark dateNow id st w)) in
  countsConsistent (st_bookmarks st') (st_categories st').
Proof.
  intros [Hnd Hall]. cbv zeta. unfold service_deleteBookmark.
  destruct (findIndex _ (st_bookmarks st)) as [i|] eqn:Hi;
    [| split; assumption].
  destruct (findIndex_Some _ _ _ Hi) as (old & Hold & _). rewrite Hold.
  unfold bind.
  pose proof (updateCategoryCount_effect (b_categoryId old) (-1) st w) as H.
  destruct (updateCategoryCount dateNow (b_categoryId old) (-1) st w)
    as [st1 w1].
  cbn [fst snd] in *. destruct H as (B & _ & I & C). unfold ret. cbn [fst snd st_set_bookmarks st_bookmarks st_categories].
  split; [rewrite I; exact Hnd |].
  eapply Forall_impl;
    [apply (C (fun i => directMembers i (st_bookmarks st)) Hnd Hall) |].
  simpl. intros c Hc.
  rewrite Hc, (directMembers_delete _ _ _ old Hold).
  destruct (String.eqb (b_categoryId old) (c_id c)); lia.
Qed.

Lemma service_updateBookmark_keeps id data st w :
  ch_categoryId data <> Some "" ->
  countsConsistent (st_bookmarks st) (st_categories st) ->
  let st' := snd (fst (service_updateBookmark dateNow id data st w)) in
  countsConsistent (st_bookmarks st') (st_categories st').
Proof.
  intros Hnamed [Hnd Hall]. cbv zeta. unfold service_updateBookmark.
  destruct (findIndex _ (st_bookmarks st)) as [i|] eqn:Hi;
    [| split; assumption].
  destruct (findIndex_Some _ _ _ Hi) as (old & Hold & _). rewrite Hold.
  unfold bind, now. cbv beta iota zeta.
  set (upd := b_with_updatedAt (dateNow (w_clock w)) (applyChanges data old)).
  set (w1 := {| w_clock := S (w_clock w); w_ids := w_ids w |}).
  assert (Hins : forall cid,
    directMembers cid (<[i := upd]> (st_bookmarks st))
    = directMembers cid (st_bookmarks st)
      - (if String.eqb (b_categoryId old) cid then 1 else 0)
      + (if String.eqb (b_categoryId upd) cid then 1 else 0)).
  { intros cid. apply directMembers_insert. exact Hold. }
  destruct (ch_categoryId data) as [c|] eqn:Hcat.
  - assert (Hc : c <> "") by congruence.
    apply String.eqb_neq in Hc.
    assert (Hupd : b_categoryId upd = c).
    { unfold upd. simpl. rewrite Hcat. reflexivity. }
    unfold JS.truthy_ostr, JS.ostr_or, JS.str_or. rewrite Hc. cbn [negb andb].
    destruct (String.eqb c (b_categoryId old)) eqn:E; cbn [negb].
    + apply String.eqb_eq in E. unfold bind, ret. cbn [fst snd st_set_bookmarks st_bookmarks st_categories].
      split; [exact Hnd |]. eapply Forall_impl; [exact Hall |]. simpl.
      intros c0 Hc0. rewrite Hins, Hupd, E, Hc0. lia.
    + unfold bind.
      pose proof (updateCategoryCount_effect (b_categoryId old) (-1) st w1) as Ha.
      destruct (updateCategoryCount dateNow (b_categoryId old) (-1) st w1)
        as [sta wa].
      pose proof (updateCategoryCount_effect c 1 sta wa) as Hb.
      destruct (updateCategoryCount dateNow c 1 sta wa) as [stb wb].
      cbn [fst snd] in *. destruct Ha as (_ & _ & Ia & Ca).
      destruct Hb as (_ & _ & Ib & Cb). unfold ret. cbn [fst snd st_set_bookmarks st_bookmarks st_categories].
      split; [rewrite Ib, Ia; exact Hnd |].
      eapply Forall_impl.
      * apply (Cb (fun i => directMembers i (st_bookmarks st)
                            + (if String.eqb (b_categoryId old) i
                               then -1 else 0)));
          [rewrite Ia; exact Hnd |].
        apply (Ca (fun i => directMembers i (st_bookmarks st)) Hnd Hall).
      * simpl. intros c0 Hc0. rewrite Hc0, Hins, Hupd.
        destruct (String.eqb (b_categoryId old) (c_id c0)); lia.
  - assert (Hupd : b_categoryId upd = b_categoryId old).
    { unfold upd. simpl. rewrite Hcat. reflexivity. }
    unfold bind, ret. cbn [fst snd st_set_bookmarks st_bookmarks st_categories].
    split; [exact Hnd |]. eapply Forall_impl; [exact Hall |]. simpl.
    intros c0 Hc0. rewrite Hins, Hupd, Hc0. lia.
Qed.

Lemma service_perform_keeps settings a sv w :
  analysisOff settings ->
  keepsCategoryNamed a ->
  countsConsistent (st_bookmarks (sv_storage sv)) (st_categories (sv_storage sv)) ->
  let sv' := fst (service_perform dateNow uuidv4 settings sv a w) in
  countsConsistent (st_bookmarks (sv_storage sv'))
                   (st_categories (sv_storage sv')) /\
  sv_launched sv' = sv_launched sv.
Proof.
  intros Hoff Ha H. destruct a as [bookmark | id data | id];
    unfold service_perform, bind, ret; cbv zeta.
  - pose proof (service_addBookmark_keeps settings bookmark (sv_storage sv) w H)
      as K.
    pose proof (service_addBookmark_launches settings bookmark (sv_storage sv)
                                            w Hoff) as L.
    destruct (service_addBookmark _ _ _ _ _ _) as [[[r l] st'] w'].
    cbn [fst snd sv_storage sv_launched] in *. subst l.
    split; [exact K | apply app_nil_r].
  - pose proof (service_updateBookmark_keeps id data (sv_storage sv) w Ha H)
      as K.
    destruct (service_updateBookmark _ _ _ _ _) as [[r st'] w'].
    split; [exact K | reflexivity].
  - pose proof (service_deleteBookmark_keeps id (sv_storage sv) w H) as K.
    destruct (service_deleteBookmark _ _ _ _) as [[r st'] w'].
    split; [exact K | reflexivity].
Qed.

(** X9. The service keeps the counts by increments as long as no analysis
    is launched: with automatic classification switched off or no key
    set, when no two stored categories share an id and every stored
    category carries the number of stored bookmarks filed under it, the
    same holds after any sequence of [addBookmark], [updateBookmark] and
    [deleteBookmark] calls of the service, and no analysis has been
    launched, provided no update sets [categoryId] to the empty string
    (such an update moves the bookmark without touching any count). *)
Theorem service_keeps_counts (settings : AiSettings)
    (actions : list ServiceAction) (sv : Service) (w : World) :
  analysisOff settings ->
  Forall keepsCategoryNamed actions ->
  countsConsistent (st_bookmarks (sv_storage sv)) (st_categories (sv_storage sv)) ->
  let sv' := fst (forEach (service_perform dateNow uuidv4 settings) actions
                          sv w) in
  countsConsistent (st_bookmarks (sv_storage sv'))
                   (st_categories (sv_storage sv')) /\
  sv_launched sv' = sv_launched sv.
Proof.
  intros Hoff Hactions. revert sv w.
  induction Hactions as [|a actions Ha _ IH]; intros sv w H; cbv zeta.
  - split; [exact H | reflexivity].
  - cbn [forEach]. unfold bind.
    pose proof (service_perform_keeps settings a sv w Hoff Ha H) as [K L].
    destruct (service_perform dateNow uuidv4 settings sv a w) as [sv1 w1].
    cbn [fst] in K, L. destruct (IH sv1 w1 K) as [K' L'].
    split; [exact K' | congruence].
Qed.

End ServiceInvariants.

(** ** Folding and unfolding a category of the projected tree *)

Lemma CategoryTree_nested_ind (P : CategoryTree -> Prop) :
  (forall node, Forall P (ct_children node) -> P node) ->
  forall node, P node.
Proof.
  intros Hstep. fix IH 1. intros node. apply Hstep.
  destruct node as [c children]; simpl.
  induction children as [|x l IHl]; constructor.
  - apply IH.
  - exact IHl.
Qed.

Lemma findIndex_app {A} (p : A -> bool) (l1 l2 : list A) :
  findIndex p (l1 ++ l2)
  = match findIndex p l1 with
    | Some i => Some i
    | None => (fun j => (length l1 + j)%nat) <$> findIndex p l2
    end.
Proof.
  induction l1 as [|x l1 IH]; simpl.
  - destruct (findIndex p l2); reflexivity.
  - destruct (p x); [reflexivity |]. rewrite IH.
    destruct (findIndex p l1); [reflexivity |].
    destruct (findIndex p l2); reflexivity.
Qed.

Lemma firstHit_first (target : string) (state : FolderState)
    (l : list CategoryTree) :
  Forall (fun node =>
      let r := findAndUpdate_visit target state node in
      treeArities (snd r) = treeArities node /\
      match findIndex (fun c => String.eqb (c_id c) target)
                      (treeCategories node) with
      | None => r = (false, node)
      | Some i =>
          fst r = true /\
          exists c, treeCategories node !! i = Some c /\
                    treeCategories (snd r)
                    = <[i := c_with_folderState state c]> (treeCategories node)
      end) l ->
  let r := firstHit (findAndUpdate_visit target state) l in
  flat_map treeArities (snd r) = flat_map treeArities l /\
  length (snd r) = length l /\
  match findIndex (fun c => String.eqb (c_id c) target)
                  (flat_map treeCategories l) with
  | None => r = (false, l)
  | Some i =>
      fst r = true /\
      exists c, flat_map treeCategories l !! i = Some c /\
                flat_map treeCategories (snd r)
                = <[i := c_with_folderState state c]>
                    (flat_map treeCategories l)
  end.
Proof.
  intros Hl. induction Hl as [|x xs Hx _ IHxs]; cbv zeta.
  - simpl. auto.
  - cbn [firstHit flat_map]. rewrite findIndex_app.
    cbv zeta in Hx. destruct Hx as (Hax & Hx).
    destruct (findAndUpdate_visit target state x) as [found x'].
    cbn [fst snd] in *.
    destruct (findIndex _ (treeCategories x)) as [i|].
    + destruct Hx as (-> & c & Hc & Hx'). cbn [fst snd flat_map].
      rewrite Hax, Hx'. repeat split. exists c.
      split; [apply lookup_app_l_Some, Hc |].
      rewrite insert_app_l by (eapply lookup_lt_Some; exact Hc).
      reflexivity.
    + injection Hx as -> ->. cbv zeta in IHxs.
      destruct IHxs as (Ha & Hlen & IHxs).
      destruct (firstHit (findAndUpdate_visit target state) xs)
        as [found' xs'].
      cbn [fst snd flat_map length] in *. rewrite Ha, Hlen.
      split; [reflexivity |]. split; [reflexivity |].
      destruct (findIndex _ (flat_map treeCategories xs)) as [j|];
        cbn [fmap option_fmap option_map].
      * destruct IHxs as (-> & c & Hc & Hxs'). split; [reflexivity |].
        exists c. split.
        -- rewrite lookup_app_r by lia.
           replace (length (treeCategories x) + j - length (treeCategories x))%nat
             with j by lia.
           exact Hc.
        -- rewrite Hxs', insert_app_r. reflexivity.
      * injection IHxs as -> ->. reflexivity.
Qed.

(** What one round of the loop does to the categories of the subtree it
    looks at: the first category with the target id, in depth-first order,
    gets the new state. *)
Lemma findAndUpdate_visit_first (target : string) (state : FolderState)
    (node : CategoryTree) :
  let r := findAndUpdate_visit target state node in
  treeArities (snd r) = treeArities node /\
  match findIndex (fun c => String.eqb (c_id c) target) (treeCategories node) with
  | None => r = (false, node)
  | Some i =>
      fst r = true /\
      exists c, treeCategories node !! i = Some c /\
                treeCategories (snd r)
                = <[i := c_with_folderState state c]> (treeCategories node)
  end.
Proof.
  induction node as [node IH] using CategoryTree_nested_ind.
  pose proof (firstHit_first target state (ct_children node) IH) as Hlist.
  clear IH.
  destruct node as [c children]. cbv zeta in *.
  cbn [findAndUpdate_visit ct_category ct_children treeCategories findIndex
       treeArities] in *.
  destruct (String.eqb (c_id c) target) eqn:Hc.
  - cbn [fst snd treeArities treeCategories ct_category ct_children].
    split; [reflexivity |]. split; [reflexivity |]. exists c.
    split; reflexivity.
  - destruct Hlist as (Ha & Hlen & Hlist).
    destruct children as [|x xs].
    + simpl. auto.
    + cbn [length Nat.ltb Nat.leb].
      destruct (firstHit (findAndUpdate_visit target state) (x :: xs))
        as [found children'].
      cbn [fst snd treeArities treeCategories ct_category ct_children] in *.
      rewrite Ha, Hlen. split; [reflexivity |].
      destruct (findIndex _ (flat_map treeCategories (x :: xs))) as [j|];
        cbn [fmap option_fmap option_map].
      * destruct Hlist as (-> & c' & Hc' & Hch). split; [reflexivity |].
        exists c'. split; [exact Hc' |].
        change (<[S j:=c_with_folderState state c']>
                  (c :: flat_map treeCategories (x :: xs)))
          with (c :: <[j:=c_with_folderState state c']>
                       (flat_map treeCategories (x :: xs))).
        rewrite Hch. reflexivity.
      * injection Hlist as -> ->. reflexivity.
Qed.

(** X10. [updateCategoryFolderState] sets the [folderState] of the first
    category with the given id in the depth-first order of the projected
    tree, and of that one only: every other category, a later one with the
    same id included, and the shape of the tree are as before.  When no
    category of the tree carries the id the tree is returned as it is and
    [findAndUpdate] answers [false]. *)
Theorem findAndUpdate_first_match (cats : list CategoryTree) (target : string)
    (state : FolderState) :
  let all := flat_map treeCategories cats in
  let r := findAndUpdate cats target state in
  updateCategoryFolderState target state cats = snd r /\
  flat_map treeArities (snd r) = flat_map treeArities cats /\
  match findIndex (fun c => String.eqb (c_id c) target) all with
  | None => r = (false, cats)
  | Some i =>
      fst r = true /\
      exists c, all !! i = Some c /\ c_id c = target /\
                Forall (fun c' => c_id c' <> target) (take i all) /\
                flat_map treeCategories (snd r)
                = <[i := c_with_folderState state c]> all
  end.
Proof.
  cbv zeta. split; [reflexivity |]. unfold findAndUpdate.
  pose proof (firstHit_first target state cats) as H.
  cbv zeta in H. destruct H as (Ha & _ & H).
  { apply Forall_forall. intros node _.
    apply (findAndUpdate_visit_first target state node). }
  split; [exact Ha |].
  destruct (findIndex _ (flat_map treeCategories cats)) as [i|] eqn:Hi;
    [| exact H].
  destruct H as (Hf & c & Hc & Hr). split; [exact Hf |]. exists c.
  destruct (findIndex_Some _ _ _ Hi) as (c0 & Hc0 & Hp & Hpre).
  rewrite Hc in Hc0. injection Hc0 as <-.
  split; [exact Hc |]. split; [apply String.eqb_eq, Hp |].
  split; [| exact Hr].
  eapply Forall_impl; [exact Hpre |]. simpl. intros c' Hc'.
  apply String.eqb_neq. exact Hc'.
Qed.

(** ** What a synchronisation keeps of the stored records *)

Lemma bookmarkMapOf_fold_lookup (l : list Bookmark) (k : option string) :
  forall (m : gmap (option string) Bookmark),
    match fold_left (fun m b => <[b_originalId b := b]> m) l m !! k with
    | Some e => (In e l /\ b_originalId e = k) \/ m !! k = Some e
    | None => (forall e, In e l -> b_originalId e <> k) /\ m !! k = None
    end.
Proof.
  induction l as [|b l IH]; intros m; simpl.
  - destruct (m !! k); [right; reflexivity | split; [intros e [] | reflexivity]].
  - specialize (IH (<[b_originalId b := b]> m)).
    destruct (fold_left _ l _ !! k) as [e|].
    + destruct IH as [[Hin Hk] | Hm]; [left; split; [right |]; assumption |].
      destruct (decide (b_originalId b = k)) as [Heq | Hne].
      * rewrite <- Heq, lookup_insert_eq in Hm. injection Hm as <-.
        left. split; [left; reflexivity | exact Heq].
      * rewrite lookup_insert_ne in Hm by exact Hne. right. exact Hm.
    + destruct IH as [Hall Hm].
      destruct (decide (b_originalId b = k)) as [Heq | Hne].
      * rewrite <- Heq, lookup_insert_eq in Hm. discriminate.
      * rewrite lookup_insert_ne in Hm by exact Hne. split; [| exact Hm].
        intros e [<- | He]; [exact Hne | apply Hall, He].
Qed.

Section KeptFacts.

Variable dateNow : nat -> Z.
Variable uuidv4 : nat -> string.
Variable urlOrigin : string -> option string.

Lemma extractFavicon_userData (b : Bookmark) :
  b_id (extractFavicon urlOrigin b) = b_id b /\
  b_categoryId (extractFavicon urlOrigin b) = b_categoryId b /\
  b_tags (extractFavicon urlOrigin b) = b_tags b /\
  b_createdAt (extractFavicon urlOrigin b) = b_createdAt b /\
  b_description (extractFavicon urlOrigin b) = b_description b /\
  b_visitCount (extractFavicon urlOrigin b) = b_visitCount b /\
  b_lastVisited (extractFavicon urlOrigin b) = b_lastVisited b /\
  b_aiGenerated (extractFavicon urlOrigin b) = b_aiGenerated b /\
  b_title (extractFavicon urlOrigin b) = b_title b.
Proof.
  unfold extractFavicon. destruct (JS.truthy_ostr (b_favicon b));
    [repeat split |].
  destruct (urlOrigin (b_url b)); repeat split.
Qed.

Lemma convertNode_kept stored acc n w :
  JS.truthy_ostr (f_url n) = true ->
  exists b w',
    convertNode dateNow uuidv4 urlOrigin (bookmarkMapOf stored) acc n w
      = (acc ++ [b], w') /\
    ((exists e, In e stored /\ b_originalId e = Some (f_id n) /\
                keepsUserData e b /\
                b_title b = JS.str_or (f_title n) (b_title e)) \/
     ((forall e, In e stored -> b_originalId e <> Some (f_id n)) /\
      freshFor uuidv4 n b)).
Proof.
  intros Hu. unfold convertNode. rewrite Hu. cbn [negb].
  pose proof (bookmarkMapOf_fold_lookup stored (Some (f_id n)) ∅) as Hm.
  fold (bookmarkMapOf stored) in Hm.
  destruct (bookmarkMapOf stored !! Some (f_id n)) as [e|].
  - destruct Hm as [[Hin Hk] | Hm]; [| rewrite lookup_empty in Hm; discriminate].
    unfold bind, now, ret. eexists _, _. split; [reflexivity |]. left.
    exists e. split; [exact Hin |]. split; [exact Hk |].
    match goal with |- context [extractFavicon urlOrigin ?x] =>
      destruct (extractFavicon_userData x)
        as (H1 & H2 & H3 & H4 & H5 & H6 & H7 & H8 & H9)
    end.
    unfold keepsUserData. rewrite H1, H2, H3, H4, H5, H6, H7, H8, H9.
    repeat split.
  - destruct Hm as [Hall _]. unfold bind, uuid, now, ret.
    destruct (JS.truthy_onum (f_dateAdded n)) eqn:Hd; cbv beta iota;
      (eexists _, _; split; [reflexivity |]; right; split; [exact Hall |];
       match goal with |- context [extractFavicon urlOrigin ?x] =>
         destruct (extractFavicon_userData x)
           as (H1 & H2 & H3 & H4 & H5 & H6 & H7 & H8 & H9)
       end;
       unfold freshFor; rewrite H1, H2, H3, H4, H5, H6, H7, H8, H9;
       cbn [b_id b_categoryId b_tags b_description b_visitCount b_lastVisited
            b_aiGenerated b_title b_createdAt];
       repeat split; try discriminate; eauto; intros; congruence).
Qed.

(** X11. [convertBrowserBookmarks] keeps what the user attached to a
    stored record: the output record made for a bookmark node that
    correlates to a stored record (through [originalId]) has that record's
    id, category, tags, description, creation time, visit count, last visit
    and analysis, and takes over only the node's title and url; a node
    without a stored record yields a fresh record that is uncategorised,
    untagged, unvisited and created when the node says.  Stored categories
    are handed back with their ids in the same order. *)
Theorem convertBrowserBookmarks_keeps_user_data (nodes : list FlatNode)
    (stored : list Bookmark) (cats : list Category) (w : World) :
  let out := fst (convertBrowserBookmarks dateNow uuidv4 urlOrigin nodes
                    stored cats w) in
  Forall2 (fun n b =>
             (exists e, In e stored /\ b_originalId e = Some (f_id n) /\
                        keepsUserData e b /\
                        b_title b = JS.str_or (f_title n) (b_title e)) \/
             ((forall e, In e stored -> b_originalId e <> Some (f_id n)) /\
              freshFor uuidv4 n b))
          (flatLeaves nodes) (fst out) /\
  ((0 < length cats)%nat -> List.map c_id (snd out) = List.map c_id cats).
Proof.
  cbv zeta.
  destruct (convertBrowserBookmarks_run dateNow uuidv4 urlOrigin nodes stored
              cats w)
    as (cats0 & w0 & bs & w1 & cs & w2 & E0 & E1 & E2 & ->).
  cbn [fst snd]. split.
  - assert (H : forall nodes acc w,
      exists bs' w',
        forEach (convertNode dateNow uuidv4 urlOrigin (bookmarkMapOf stored))
                nodes acc w = (acc ++ bs', w') /\
        Forall2 (fun n b =>
             (exists e, In e stored /\ b_originalId e = Some (f_id n) /\
                        keepsUserData e b /\
                        b_title b = JS.str_or (f_title n) (b_title e)) \/
             ((forall e, In e stored -> b_originalId e <> Some (f_id n)) /\
              freshFor uuidv4 n b))
          (flatLeaves nodes) bs').
    { clear. induction nodes as [|n nodes IH]; intros acc w.
      - exists [], w. rewrite app_nil_r. split; [reflexivity | constructor].
      - simpl. unfold bind, flatLeaves. simpl.
        destruct (JS.truthy_ostr (f_url n)) eqn:Hu.
        + destruct (convertNode_kept stored acc n w Hu) as (b & w1 & -> & Hb).
          destruct (IH (acc ++ [b]) w1) as (bs & w' & -> & Hbs).
          exists (b :: bs), w'. rewrite <- app_assoc. split; [reflexivity |].
          constructor; assumption.
        + rewrite (convertNode_folder dateNow uuidv4 urlOrigin _ acc n w Hu).
          destruct (IH acc w) as (bs & w' & -> & Hbs). eauto. }
    destruct (H nodes [] w0) as (bs' & w' & E & F). rewrite E1 in E.
    injection E as -> _. exact F.
  - intros Hlen. pose proof (recount_direct dateNow bs cats0 w1) as (_ & Hids & _).
    rewrite E2 in Hids. cbn [fst] in Hids. rewrite Hids.
    apply Nat.ltb_lt in Hlen. rewrite Hlen in E0. unfold ret in E0.
    injection E0 as <- _. reflexivity.
Qed.

End KeptFacts.

(** ** What the tree walking pass hands out *)

Lemma grown_refl c : grown c c.
Proof. split; [reflexivity | lia]. Qed.

Lemma grown_trans c1 c2 c3 : grown c1 c2 -> grown c2 c3 -> grown c1 c3.
Proof. intros [E1 L1] [E2 L2]. split; [congruence | lia]. Qed.

Lemma Forall2_grown_refl l : Forall2 grown l l.
Proof. induction l; constructor; [apply grown_refl | assumption]. Qed.

Lemma grown_insert (l : list Category) (i : nat) (c : Category) (t : Z) :
  l !! i = Some c ->
  Forall2 grown l (<[i := c_with_count (c_bookmarkCount c + 1) t c]> l).
Proof.
  revert i. induction l as [|x l IH]; intros [|i] H; try discriminate.
  - injection H as ->. constructor; [| apply Forall2_grown_refl].
    split; [reflexivity | simpl; lia].
  - change (<[S i:=c_with_count (c_bookmarkCount c + 1) t c]> (x :: l))
      with (x :: <[i:=c_with_count (c_bookmarkCount c + 1) t c]> l).
    constructor; [apply grown_refl | apply IH, H].
Qed.

Lemma folderRecord_grown n c c' : folderRecord n c -> grown c c' -> folderRecord n c'.
Proof.
  intros (H1 & H2 & H3 & H4 & H5 & H6) [E _]. destruct c, c'.
  simpl in *. injection E as -> -> -> -> -> -> -> -> -> -> ->.
  repeat split; assumption.
Qed.

Section WalkFacts.

Variable dateNow : nat -> Z.
Variable uuidv4 : nat -> string.

Lemma syncLeaf_shape (m : gmap string Bookmark) node parent s w :
  (forall k e, m !! k = Some e -> b_originalId e = Some k) ->
  exists b s' w',
    syncLeaf dateNow uuidv4 m node parent s w = (s', w') /\
    sy_bookmarks s' = sy_bookmarks s ++ [b] /\
    leafRecord m node b /\
    Forall2 grown (sy_newCategories s) (sy_newCategories s').
Proof.
  intros Hm. unfold syncLeaf, leafRecord.
  assert (Hcats : forall cid,
    Forall2 grown (sy_newCategories s)
      match sy_categoryMap s !! cid with
      | Some ref =>
          match sy_newCategories s !! ref with
          | Some category =>
              <[ref := c_with_count (c_bookmarkCount category + 1)
                                    (c_updatedAt category) category]>
                (sy_newCategories s)
          | None => sy_newCategories s
          end
      | None => sy_newCategories s
      end).
  { intros cid. destruct (sy_categoryMap s !! cid) as [ref|];
      [| apply Forall2_grown_refl].
    destruct (sy_newCategories s !! ref) as [c|] eqn:Hc;
      [| apply Forall2_grown_refl].
    apply grown_insert, Hc. }
  destruct (m !! n_id node) as [e|] eqn:He.
  - destruct (JS.onum_or (n_dateAdded node) 0 <=? b_updatedAt e) eqn:Hk.
    + exists e. eexists _, _. split; [reflexivity |]. simpl.
      split; [reflexivity |]. split; [| apply Forall2_grown_refl].
      split; [apply Hm, He | reflexivity].
    + run_eff.
      destruct (String.eqb (b_id e) "") eqn:Hid;
        destruct (b_createdAt e =? 0) eqn:Hcr; cbn [negb];
        [destruct (JS.truthy_onum (n_dateAdded node)) | |
         destruct (JS.truthy_onum (n_dateAdded node)) | ];
        cbv beta iota;
        (eexists _, _, _; split; [reflexivity |];
         cbn [sy_bookmarks sy_newCategories];
         split; [reflexivity |]; split; [| apply Hcats];
         cbn [b_originalId b_title b_url b_tags b_visitCount b_aiGenerated
              b_description b_lastVisited b_id b_createdAt];
         rewrite ?num_or_zero;
         repeat split;
         try (intros Hx; apply String.eqb_neq in Hx; congruence);
         try (intros Hx; apply Z.eqb_neq in Hx; congruence);
         try (apply String.eqb_neq in Hid; intros; reflexivity);
         try (intros; reflexivity)).
  - run_eff. destruct (JS.truthy_onum (n_dateAdded node)) eqn:Hd;
      cbv beta iota;
      (eexists _, _, _; split; [reflexivity |];
       cbn [sy_bookmarks sy_newCategories];
       split; [reflexivity |]; split; [| apply Hcats];
       cbn [b_originalId b_title b_url b_tags b_visitCount b_aiGenerated
            b_description b_lastVisited b_id b_createdAt];
       repeat split; intros; congruence).
Qed.

Lemma folderCategory_shape cats node parent s w :
  exists cid added s' w',
    folderCategory dateNow uuidv4 cats node parent s w = ((cid, s'), w') /\
    sy_bookmarks s' = sy_bookmarks s /\
    sy_newCategories s' = sy_newCategories s ++ added /\
    Forall2 folderRecord
            (List.filter (unmatchedFolder cats) [node]) added.
Proof.
  unfold folderCategory, unmatchedFolder. cbn [List.filter].
  destruct (List.find _ cats) as [c|] eqn:Hfind.
  - exists (c_id c), [], s, w. split; [reflexivity |]. split; [reflexivity |].
    rewrite app_nil_r. split; [reflexivity | constructor].
  - unfold bind, uuid, now, ret.
    destruct (JS.truthy_onum (n_dateAdded node)); cbv beta iota;
      (eexists _, [_], _, _; split; [reflexivity |];
       cbn [sy_bookmarks sy_newCategories];
       split; [reflexivity |]; split; [reflexivity |];
       constructor; [| constructor]; repeat split).
Qed.

(** One pass over a subtree: a record for every bookmark node reached, in
    order; the categories it started from, with counts that did not
    shrink, followed by a new category for every folder reached that
    matches no stored category. *)
Lemma processBookmarkNode_shape (cats : list Category)
    (m : gmap string Bookmark) (node : BrowserBookmarkNode) :
  (forall k e, m !! k = Some e -> b_originalId e = Some k) ->
  forall parent s w,
    exists bs kept added s' w',
      processBookmarkNode dateNow uuidv4 cats m node parent s w = (s', w') /\
      sy_bookmarks s' = sy_bookmarks s ++ bs /\
      Forall2 (leafRecord m) (syncLeaves node) bs /\
      sy_newCategories s' = kept ++ added /\
      Forall2 grown (sy_newCategories s) kept /\
      Forall2 folderRecord
              (List.filter (unmatchedFolder cats) (syncFolders node)) added.
Proof.
  intros Hm. induction node as [node IH] using BrowserBookmarkNode_nested_ind.
  assert (Hloop : forall children, n_children node = Some children ->
    forall parent s w,
      exists bs kept added s' w',
        forEach (fun acc child =>
                   processBookmarkNode dateNow uuidv4 cats m child parent acc)
                children s w = (s', w') /\
        sy_bookmarks s' = sy_bookmarks s ++ bs /\
        Forall2 (leafRecord m) (flat_map syncLeaves children) bs /\
        sy_newCategories s' = kept ++ added /\
        Forall2 grown (sy_newCategories s) kept /\
        Forall2 folderRecord
                (List.filter (unmatchedFolder cats)
                             (flat_map syncFolders children)) added).
  { intros children Hch. specialize (IH children Hch). clear Hch.
    induction IH as [|c cs Hc _ IHcs]; intros parent s w.
    - exists [], (sy_newCategories s), [], s, w. split; [reflexivity |].
      rewrite !app_nil_r. split; [reflexivity |]. split; [constructor |].
      split; [reflexivity |]. split; [apply Forall2_grown_refl | constructor].
    - destruct (Hc parent s w)
        as (bs1 & k1 & a1 & s1 & w1 & E1 & Hb1 & Hl1 & Hc1 & Hk1 & Hf1).
      destruct (IHcs parent s1 w1)
        as (bs2 & k2 & a2 & s2 & w2 & E2 & Hb2 & Hl2 & Hc2 & Hk2 & Hf2).
      rewrite Hc1 in Hk2.
      apply Forall2_app_inv_l in Hk2 as (k2a & k2b & Hka & Hkb & ->).
      exists (bs1 ++ bs2), k2a, (k2b ++ a2), s2, w2. split.
      { simpl. unfold bind. rewrite E1. exact E2. }
      split; [rewrite Hb2, Hb1, app_assoc; reflexivity |].
      split; [simpl; apply Forall2_app; assumption |].
      split; [rewrite Hc2, app_assoc; reflexivity |].
      split.
      + eapply Forall2_chain; [| exact Hk1 | exact Hka].
        intros x y z. apply grown_trans.
      + simpl. rewrite filter_app_bool. apply Forall2_app; [| exact Hf2].
        eapply Forall2_chain; [| exact Hf1 | exact Hkb].
        intros x y z. apply folderRecord_grown. }
  intros parent s w.
  destruct node as [i p ix u t d g ch].
  cbn [processBookmarkNode syncLeaves syncFolders n_parentId n_url n_children]
    in *.
  destruct (negb (JS.truthy_ostr p)); cbn [orb] in *.
  { destruct ch as [children|].
    - apply (Hloop children eq_refl None s w).
    - exists [], (sy_newCategories s), [], s, w. split; [reflexivity |].
      rewrite !app_nil_r. split; [reflexivity |]. split; [constructor |].
      split; [reflexivity |]. split; [apply Forall2_grown_refl | constructor]. }
  destruct (negb (JS.truthy_ostr u)); cbn [orb] in *.
  { unfold bind at 1.
    destruct (folderCategory_shape cats (BNode i p ix u t d g ch) parent s w)
      as (cid & a0 & s1 & w1 & E1 & Hb1 & Hc1 & Hf1).
    rewrite E1.
    match goal with
    | |- context [List.filter (unmatchedFolder cats) (?x :: ?rest)] =>
        change (x :: rest) with ([x] ++ rest);
        rewrite (filter_app_bool (unmatchedFolder cats) [x] rest)
    end.
    destruct ch as [children|].
    - destruct (Hloop children eq_refl (Some cid) s1 w1)
        as (bs & k2 & a2 & s2 & w2 & E2 & Hb2 & Hl2 & Hc2 & Hk2 & Hf2).
      rewrite Hc1 in Hk2.
      apply Forall2_app_inv_l in Hk2 as (k2a & k2b & Hka & Hkb & ->).
      exists bs, k2a, (k2b ++ a2), s2, w2. split; [exact E2 |].
      split; [rewrite Hb2, Hb1; reflexivity |]. split; [exact Hl2 |].
      split; [rewrite Hc2, app_assoc; reflexivity |].
      split; [exact Hka |].
      apply Forall2_app; [| exact Hf2].
      eapply Forall2_chain; [| exact Hf1 | exact Hkb].
      intros x y z. apply folderRecord_grown.
    - exists [], (sy_newCategories s), a0, s1, w1. split; [reflexivity |].
      rewrite app_nil_r. split; [exact Hb1 |]. split; [constructor |].
      split; [exact Hc1 |]. split; [apply Forall2_grown_refl |].
      cbn [List.filter app] in *. rewrite app_nil_r. exact Hf1. }
  destruct (syncLeaf_shape m (BNode i p ix u t d g ch) parent s w Hm)
    as (b & s1 & w1 & E1 & Hb1 & Hl1 & Hk1).
  exists [b], (sy_newCategories s1), [], s1, w1. split; [exact E1 |].
  split; [exact Hb1 |]. split; [constructor; [exact Hl1 | constructor] |].
  rewrite app_nil_r. split; [reflexivity |]. split; [exact Hk1 | constructor].
Qed.

(** X12. The tree walking [syncBookmarks] writes nothing when the host
    hands out no root.  Otherwise it stores one record per bookmark node it
    reaches below the first root, in walk order: the stored record itself
    when one is correlated to the node and is not older than it, a record
    rebuilt from the node that keeps the stored tags, visit count and
    analysis but drops description and last visit when the stored record
    is older, a new untagged record otherwise.  Every stored category is
    kept in place with all its fields, its count at least what it was, and
    one collapsed, non-builtin category named after the folder is appended
    for every folder reached whose title matches no stored non-builtin
    category, in walk order; tags are left alone and the last clock
    reading is recorded as the time of the pass. *)
Theorem syncBookmarks_shape (root : BrowserBookmarkNode)
    (rest : list BrowserBookmarkNode) (st : Storage) (w : World) :
  syncBookmarks dateNow uuidv4 [] st w = (None, w) /\
  exists st' w' kept added,
    syncBookmarks dateNow uuidv4 (root :: rest) st w = (Some st', w') /\
    Forall2 (leafRecord (originalIdMap (st_bookmarks st)))
            (walkedLeaves (root :: rest)) (st_bookmarks st') /\
    st_categories st' = kept ++ added /\
    Forall2 grown (st_categories st) kept /\
    Forall2 folderRecord
            (List.filter (unmatchedFolder (st_categories st))
                         (walkedFolders (root :: rest))) added /\
    st_tags st' = st_tags st /\
    exists k, st_lastSync st' = dateNow k /\ w_clock w' = S k.
Proof.
  split; [reflexivity |].
  assert (Hm : forall k e, originalIdMap (st_bookmarks st) !! k = Some e ->
                           b_originalId e = Some k).
  { intros k e He. apply (originalIdMap_lookup _ _ _ He). }
  assert (Hloop : forall children s w,
    exists bs kept added s' w',
      forEach (fun acc child =>
                 processBookmarkNode dateNow uuidv4 (st_categories st)
                   (originalIdMap (st_bookmarks st)) child None acc)
              children s w = (s', w') /\
      sy_bookmarks s' = sy_bookmarks s ++ bs /\
      Forall2 (leafRecord (originalIdMap (st_bookmarks st)))
              (flat_map syncLeaves children) bs /\
      sy_newCategories s' = kept ++ added /\
      Forall2 grown (sy_newCategories s) kept /\
      Forall2 folderRecord
              (List.filter (unmatchedFolder (st_categories st))
                           (flat_map syncFolders children)) added).
  { induction children as [|c cs IHcs]; intros s w0.
    - exists [], (sy_newCategories s), [], s, w0. split; [reflexivity |].
      rewrite !app_nil_r. split; [reflexivity |]. split; [constructor |].
      split; [reflexivity |]. split; [apply Forall2_grown_refl | constructor].
    - destruct (processBookmarkNode_shape (st_categories st) _ c Hm None s w0)
        as (bs1 & k1 & a1 & s1 & w1 & E1 & Hb1 & Hl1 & Hc1 & Hk1 & Hf1).
      destruct (IHcs s1 w1)
        as (bs2 & k2 & a2 & s2 & w2 & E2 & Hb2 & Hl2 & Hc2 & Hk2 & Hf2).
      rewrite Hc1 in Hk2.
      apply Forall2_app_inv_l in Hk2 as (k2a & k2b & Hka & Hkb & ->).
      exists (bs1 ++ bs2), k2a, (k2b ++ a2), s2, w2. split.
      { simpl. unfold bind. rewrite E1. exact E2. }
      split; [rewrite Hb2, Hb1, app_assoc; reflexivity |].
      split; [simpl; apply Forall2_app; assumption |].
      split; [rewrite Hc2, app_assoc; reflexivity |].
      split.
      + eapply Forall2_chain; [| exact Hk1 | exact Hka].
        intros x y z. apply grown_trans.
      + simpl. rewrite filter_app_bool. apply Forall2_app; [| exact Hf2].
        eapply Forall2_chain; [| exact Hf1 | exact Hkb].
        intros x y z. apply folderRecord_grown. }
  unfold syncBookmarks, walkedLeaves, walkedFolders.
  destruct (n_children root) as [children|].
  - destruct (Hloop children (initSync (st_categories st)) w)
      as (bs & kept & added & s' & w' & E & Hb & Hl & Hc & Hk & Hf).
    unfold bind at 1. rewrite E. unfold bind, now, ret.
    eexists _, _, kept, added. split; [reflexivity |].
    cbn [st_bookmarks st_categories st_tags st_lastSync w_clock].
    rewrite Hb. split; [exact Hl |]. split; [exact Hc |].
    split; [exact Hk |]. split; [exact Hf |]. split; [reflexivity |]. eauto.
  - unfold bind, now, ret.
    eexists _, _, (st_categories st), []. split; [reflexivity |].
    cbn [st_bookmarks st_categories st_tags st_lastSync w_clock initSync
         sy_bookmarks sy_newCategories List.filter].
    split; [constructor |]. rewrite app_nil_r. split; [reflexivity |].
    split; [apply Forall2_grown_refl |]. split; [constructor |].
    split; [reflexivity |]. eauto.
Qed.

End WalkFacts.

(** ** The query projection as a selection *)

Lemma filter_bool_submseteq {A} (p : A -> bool) (l : list A) :
  List.filter p l ⊆+ l.
Proof. apply sublist_submseteq, filter_bool_sublist. Qed.

Section SelectionFacts.

Variable dateNow : nat -> Z.
Variable localeCompare : string -> string -> Z.

Lemma categoryFilter_submseteq search bs w :
  fst (categoryFilter dateNow search bs w) ⊆+ bs.
Proof.
  unfold categoryFilter.
  destruct (JS.truthy_ostr (sp_categoryId search) && _); [| reflexivity].
  destruct (String.eqb _ "uncategorized");
    [apply filter_bool_submseteq |].
  destruct (String.eqb _ "frequent").
  { simpl. etransitivity; [apply submseteq_take |].
    apply Permutation_submseteq.
    apply (sort_perm (fun a b => b_visitCount b - b_visitCount a)). }
  destruct (String.eqb _ "recent"); [| apply filter_bool_submseteq].
  unfold bind, now, ret. simpl. apply filter_bool_submseteq.
Qed.

Lemma tagFilter_sublist search bs : tagFilter search bs `sublist_of` bs.
Proof.
  unfold tagFilter. destruct (sp_tags search) as [tags|]; [| reflexivity].
  destruct (0 <? length tags)%nat; [apply filter_bool_sublist | reflexivity].
Qed.

Lemma keywordFilter_sublist search bs : keywordFilter search bs `sublist_of` bs.
Proof.
  unfold keywordFilter. destruct (JS.truthy_ostr (sp_keyword search));
    [apply filter_bool_sublist | reflexivity].
Qed.

Lemma compareBookmarks_key search :
  sortsByDate search = true ->
  forall a b, (compareBookmarks localeCompare search a b <=? 0)
              = (orderedKey search a <=? orderedKey search b).
Proof.
  intros Hd a b. unfold compareBookmarks, orderedKey, sortsByDate in *.
  destruct (sp_sortBy search) as [[| | |]|]; try discriminate;
    destruct (sp_sortOrder search) as [[|]|];
    match goal with
    | |- (?x <=? 0) = (?y <=? ?z) =>
        destruct (Z.leb_spec x 0), (Z.leb_spec y z); lia || reflexivity
    end.
Qed.

(** X13. [filteredBookmarks] only selects and arranges: what it hands out
    is drawn from the store's bookmarks, none of them twice.  Unless the
    query sorts by title or url, the result is ordered by the chosen date
    ([createdAt], or [lastVisited] with 0 for never), ascending when asked
    for and descending otherwise, and bookmarks with the same date stay in
    the order the filter stages left them in. *)
Theorem filteredBookmarks_selects_and_orders (search : SearchParams)
    (bs : list Bookmark) (w : World) :
  let out := fst (filteredBookmarks dateNow localeCompare search bs w) in
  let staged := keywordFilter search
                  (tagFilter search (fst (categoryFilter dateNow search bs w))) in
  out ⊆+ bs /\
  Permutation out staged /\
  (sortsByDate search = true ->
   StronglySorted (fun a b => orderedKey search a <= orderedKey search b) out /\
   forall v, List.filter (fun b => orderedKey search b =? v) out
             = List.filter (fun b => orderedKey search b =? v) staged).
Proof.
  cbv zeta. unfold filteredBookmarks, bind.
  pose proof (categoryFilter_submseteq search bs w) as Hc.
  destruct (categoryFilter dateNow search bs w) as [r w']. cbn [fst] in *.
  unfold ret. cbn [fst].
  split; [| split].
  - etransitivity; [apply Permutation_submseteq, sort_perm |].
    etransitivity; [apply sublist_submseteq, keywordFilter_sublist |].
    etransitivity; [apply sublist_submseteq, tagFilter_sublist |].
    exact Hc.
  - apply sort_perm.
  - intros Hd. split.
    + apply (sort_sorted (orderedKey search)), compareBookmarks_key, Hd.
    + intros v.
      apply (sort_stable (orderedKey search)), compareBookmarks_key, Hd.
Qed.

End SelectionFacts.

(** ** What the projected category tree contains *)

Lemma projects_sound_list (categories : list Category)
    (nodes : list CategoryTree) :
  Forall (fun n => forall level,
            projects categories (c_id (ct_category n)) level (ct_children n) ->
            Forall (fun c' => exists c l,
                      c' = c_with_level l (levelState l) c /\
                      filedUnder categories (c_id (ct_category n)) c)
                   (flat_map treeCategories (ct_children n)))
         nodes ->
  forall key level,
    projects categories key level nodes ->
    Forall (fun c' => exists c l,
              c' = c_with_level l (levelState l) c /\
              filedUnder categories key c)
           (flat_map treeCategories nodes).
Proof.
  intros HP key level Hproj.
  inversion Hproj as [k lv ns group Hperm _ _ Hmap Hkids]; subst.
  apply Forall_forall. intros c' Hc'. apply list_elem_of_In in Hc'.
  apply in_flat_map in Hc' as (n & Hn & Hc').
  assert (Hcat : exists c0, In c0 categories /\ parentKey c0 = key /\
                            ct_category n = c_with_level level (levelState level) c0).
  { assert (Hin : In (ct_category n) (List.map ct_category nodes))
      by (apply in_map, Hn).
    rewrite Hmap in Hin. apply in_map_iff in Hin as (c0 & E & Hc0).
    apply (Permutation_in _ Hperm) in Hc0. apply filter_In in Hc0 as [Hc0 Hk].
    apply String.eqb_eq in Hk. eauto. }
  destruct Hcat as (c0 & Hc0 & Hk & E).
  destruct n as [cat children]. simpl in Hc', E. destruct Hc' as [<- | Hc'].
  - exists c0, level. split; [exact E |]. apply filed_here; assumption.
  - rewrite Forall_forall in HP, Hkids.
    specialize (HP _ (proj2 (list_elem_of_In _ _) Hn) (level + 1)).
    specialize (Hkids _ (proj2 (list_elem_of_In _ _) Hn)). simpl in HP, Hkids.
    specialize (HP Hkids). rewrite Forall_forall in HP.
    destruct (HP c' (proj2 (list_elem_of_In _ _) Hc')) as (c & l & Ec & Hf).
    exists c, l. split; [exact Ec |].
    apply (filed_below categories key c0 c Hc0 Hk).
    rewrite E in Hf. exact Hf.
Qed.

Lemma projects_sound (categories : list Category) (nodes : list CategoryTree)
    (key : string) (level : Z) :
  projects categories key level nodes ->
  Forall (fun c' => exists c l,
            c' = c_with_level l (levelState l) c /\
            filedUnder categories key c)
         (flat_map treeCategories nodes).
Proof.
  apply projects_sound_list. apply Forall_forall. intros n _. revert n.
  induction n as [n IH] using CategoryTree_nested_ind.
  intros level'. apply projects_sound_list, IH.
Qed.

Lemma projects_complete (categories : list Category) (key : string)
    (c : Category) :
  filedUnder categories key c ->
  forall nodes level,
    projects categories key level nodes ->
    exists l, In (c_with_level l (levelState l) c)
                 (flat_map treeCategories nodes).
Proof.
  induction 1 as [key c Hc Hk | key p c Hp Hk _ IH]; intros nodes level Hproj;
    inversion Hproj as [k lv ns group Hperm _ _ Hmap Hkids]; subst.
  - exists level.
    assert (Hin : In (c_with_level level (levelState level) c)
                     (List.map ct_category nodes)).
    { rewrite Hmap. apply in_map. apply (Permutation_in _ (Permutation_sym Hperm)).
      apply filter_In. split; [exact Hc | apply String.eqb_refl]. }
    apply in_map_iff in Hin as (n & E & Hn). apply in_flat_map. exists n.
    split; [exact Hn |]. destruct n; simpl in *. left. exact E.
  - assert (Hin : In (c_with_level level (levelState level) p)
                     (List.map ct_category nodes)).
    { rewrite Hmap. apply in_map. apply (Permutation_in _ (Permutation_sym Hperm)).
      apply filter_In. split; [exact Hp | apply String.eqb_refl]. }
    apply in_map_iff in Hin as (n & E & Hn).
    rewrite Forall_forall in Hkids.
    specialize (Hkids _ (proj2 (list_elem_of_In _ _) Hn)). rewrite E in Hkids.
    destruct (IH _ _ Hkids) as (l & Hl). exists l. apply in_flat_map.
    exists n. split; [exact Hn |]. destruct n; simpl in *. right. exact Hl.
Qed.

(** X15. Whenever [buildCategoryTree] returns, the tree holds exactly the
    categories that are filed under the root directly or through a chain
    of stored categories: every record of the tree is a stored category
    with its level and the folder state of that level written in, and
    every stored category filed under the root is in the tree.  A category
    whose [parentId] names no stored category is left out, with everything
    filed under it. *)
Theorem buildCategoryTree_reachable (categories : list Category) (fuel : nat)
    (tree : list CategoryTree) :
  buildCategoryTree fuel categories = Some tree ->
  (forall c', In c' (flat_map treeCategories tree) ->
              exists c l, c' = c_with_level l (levelState l) c /\
                          filedUnder categories "root" c) /\
  (forall c, filedUnder categories "root" c ->
             exists l, In (c_with_level l (levelState l) c)
                          (flat_map treeCategories tree)) /\
  (forall c, In c categories -> parentKey c <> "root" ->
             (forall p, In p categories -> c_id p <> parentKey c) ->
             ~ filedUnder categories "root" c).
Proof.
  intros H. apply buildTree_projects in H. split; [| split].
  - intros c' Hc'. pose proof (projects_sound _ _ _ _ H) as Hs.
    rewrite Forall_forall in Hs. apply Hs, list_elem_of_In, Hc'.
  - intros c Hc. apply (projects_complete _ _ _ Hc _ _ H).
  - intros c _ Hroot Horphan Hf.
    assert (Hgen : forall key c0, filedUnder categories key c0 ->
              parentKey c0 = key \/
              exists p, In p categories /\ c_id p = parentKey c0).
    { clear. induction 1 as [key c Hc Hk | key p c Hp Hk _ IH];
        [left; exact Hk |].
      destruct IH as [E | IH]; [| right; exact IH].
      right. exists p. split; [exact Hp | congruence]. }
    destruct (Hgen _ _ Hf) as [E | (p & Hp & E)]; [congruence |].
    exact (Horphan p Hp E).
Qed.

(** ** Display *)

Section DisplayFacts.

Variable dateNow : nat -> Z.
Variable formatDate : Z -> string.
Variable localeCompare : string -> string -> Z.

(** X16. [getRelativeTimeDescription] reads the clock once and words the
    whole seconds between its argument and that reading: below one minute,
    and for every date in the future, it says "just now"; from there on it
    shows the number of whole minutes, hours, days, months of 30 days or
    years of 365 days, in the largest unit that has begun before the next
    one's threshold.  The number shown is never 0, and it is at most 59
    minutes, 23 hours, 29 days and 12 months. *)
Theorem getRelativeTimeDescription_buckets (d : Z) (locale : string)
    (w : World) :
  let diff := (dateNow (w_clock w) - d) / 1000 in
  let r := getRelativeTimeDescription dateNow (Some d) locale w in
  snd r = {| w_clock := S (w_clock w); w_ids := w_ids w |} /\
  (diff < 60 ->
   fst r = if String.eqb locale "zh-CN" then "刚刚" else "just now") /\
  (60 <= diff ->
   exists u,
     fst r = ago locale (diff / unitSeconds u) u /\
     unitSeconds u <= diff /\ 1 <= diff / unitSeconds u /\
     (forall lim, unitLimit u = Some lim -> diff < lim) /\
     (forall most, unitMost u = Some most -> diff / unitSeconds u <= most)).
Proof.
  cbv zeta. unfold getRelativeTimeDescription, bind, now.
  cbn [fst snd w_clock].
  set (diff := (dateNow (w_clock w) - d) / 1000). clearbody diff.
  destruct (Z.ltb_spec diff 60) as [H1 | H1];
    [unfold ret; cbn [fst snd]; split; [reflexivity |];
     split; [reflexivity | lia] |].
  assert (Hago : forall u,
    (if String.eqb locale "zh-CN"
     then (showNumber (diff / unitSeconds u) ++
           match u with
           | Minutes => "分钟前" | Hours => "小时前" | Days => "天前"
           | Months => "个月前" | Years => "年前"
           end)%string
     else (showNumber (diff / unitSeconds u) ++
           match u with
           | Minutes => " minutes ago" | Hours => " hours ago"
           | Days => " days ago" | Months => " months ago"
           | Years => " years ago"
           end)%string)
    = ago locale (diff / unitSeconds u) u).
  { intros u. unfold ago. destruct (String.eqb locale "zh-CN"); reflexivity. }
  destruct (Z.ltb_spec diff 3600) as [H2 | H2].
  { unfold ret; cbn [fst snd]. split; [reflexivity |]. split; [lia |].
    intros _. exists Minutes. rewrite <- Hago. cbn [unitSeconds].
    split; [reflexivity |]. split; [lia |].
    split; [Z.div_mod_to_equations; lia |].
    split; intros x [= <-]; [lia | Z.div_mod_to_equations; lia]. }
  destruct (Z.ltb_spec diff 86400) as [H3 | H3].
  { unfold ret; cbn [fst snd]. split; [reflexivity |]. split; [lia |].
    intros _. exists Hours. rewrite <- Hago. cbn [unitSeconds].
    split; [reflexivity |]. split; [lia |].
    split; [Z.div_mod_to_equations; lia |].
    split; intros x [= <-]; [lia | Z.div_mod_to_equations; lia]. }
  destruct (Z.ltb_spec diff 2592000) as [H4 | H4].
  { unfold ret; cbn [fst snd]. split; [reflexivity |]. split; [lia |].
    intros _. exists Days. rewrite <- Hago. cbn [unitSeconds].
    split; [reflexivity |]. split; [lia |].
    split; [Z.div_mod_to_equations; lia |].
    split; intros x [= <-]; [lia | Z.div_mod_to_equations; lia]. }
  destruct (Z.ltb_spec diff 31536000) as [H5 | H5].
  { unfold ret; cbn [fst snd]. split; [reflexivity |]. split; [lia |].
    intros _. exists Months. rewrite <- Hago. cbn [unitSeconds].
    split; [reflexivity |]. split; [lia |].
    split; [Z.div_mod_to_equations; lia |].
    split; intros x [= <-]; [lia | Z.div_mod_to_equations; lia]. }
  unfold ret; cbn [fst snd]. split; [reflexivity |]. split; [lia |].
  intros _. exists Years. rewrite <- Hago. cbn [unitSeconds].
  split; [reflexivity |]. split; [lia |].
  split; [Z.div_mod_to_equations; lia |].
  split; intros x [=].
Qed.

Lemma getRelativeTimeDescription_run (d : Z) (locale : string) (w : World) :
  exists rel,
    getRelativeTimeDescription dateNow (Some d) locale w
    = (rel, {| w_clock := S (w_clock w); w_ids := w_ids w |}).
Proof.
  unfold getRelativeTimeDescription, bind, now, ret.
  repeat match goal with
         | |- context [if ?c then _ else _] => destruct c
         end; eexists; reflexivity.
Qed.

Lemma enhanceBookmarks_run bs cats : forall w,
  exists es,
    enhanceBookmarks dateNow formatDate bs cats w
    = (es, {| w_clock := (w_clock w + length bs)%nat; w_ids := w_ids w |}) /\
    List.map eb_bookmark es = bs /\
    Forall (fun e =>
              eb_isFolder e = false /\ eb_level e = 0 /\
              eb_formattedDate e = formatDate (b_createdAt (eb_bookmark e)) /\
              eb_path e
              = match List.find (fun c => String.eqb (c_id c)
                                            (b_categoryId (eb_bookmark e)))
                                cats with
                | Some c => [c_name c]
                | None => ["未分类"]
                end)
           es.
Proof.
  induction bs as [|b bs IH]; intros w.
  - exists []. simpl. rewrite Nat.add_0_r. destruct w.
    split; [reflexivity |]. split; [reflexivity | constructor].
  - unfold enhanceBookmarks in *. rewrite mapM_cons_run. unfold bind at 1.
    destruct (getRelativeTimeDescription_run (b_createdAt b) "zh-CN" w)
      as [rel ->].
    unfold ret at 1.
    destruct (IH {| w_clock := S (w_clock w); w_ids := w_ids w |})
      as (es & -> & Hmap & Hall).
    eexists. split; [| split].
    + cbn [w_clock w_ids length]. rewrite Nat.add_succ_r. reflexivity.
    + cbn [List.map eb_bookmark]. rewrite Hmap. reflexivity.
    + constructor; [| exact Hall]. repeat split.
Qed.

(** X17. The last step of the store's [filteredBookmarks] decorates and
    neither drops nor reorders: the displayed list carries, in order, the
    very records the query stages and the final ordering hand out, every
    one as a leaf of level 0 whose path is the name of the first category
    with the bookmark's [categoryId], or the word for "uncategorized" when
    there is none; the clock is read once more per displayed record. *)
Theorem displayedBookmarks_decorates (search : SearchParams) (s : Store)
    (w : World) :
  let selected := filteredBookmarks dateNow localeCompare search (bookmarks s) w in
  let r := displayedBookmarks dateNow formatDate localeCompare search s w in
  List.map eb_bookmark (fst r) = fst selected /\
  Forall (fun e =>
            eb_isFolder e = false /\ eb_level e = 0 /\
            eb_formattedDate e = formatDate (b_createdAt (eb_bookmark e)) /\
            eb_path e
            = match List.find (fun c => String.eqb (c_id c)
                                          (b_categoryId (eb_bookmark e)))
                              (categories s) with
              | Some c => [c_name c]
              | None => ["未分类"]
              end)
         (fst r) /\
  w_clock (snd r) = (w_clock (snd selected) + length (fst selected))%nat.
Proof.
  cbv zeta. unfold displayedBookmarks, bind.
  destruct (filteredBookmarks dateNow localeCompare search (bookmarks s) w)
    as [result w1].
  destruct (enhanceBookmarks_run result (categories s) w1)
    as (es & -> & Hmap & Hall).
  cbn [fst snd w_clock]. auto.
Qed.

End DisplayFacts.

(** ** Analysing a bookmark *)

Section AnalysisFacts.

Variable dateNow : nat -> Z.
Variable uuidv4 : nat -> string.
Variable aiAnalyze : Bookmark -> option (option AiGenerated).

Lemma updateCategoryCount_bookmarks cid delta st w :
  st_bookmarks (fst (updateCategoryCount dateNow cid delta st w))
  = st_bookmarks st /\
  st_tags (fst (updateCategoryCount dateNow cid delta st w)) = st_tags st /\
  st_lastSync (fst (updateCategoryCount dateNow cid delta st w))
  = st_lastSync st.
Proof.
  unfold updateCategoryCount.
  destruct (findIndex _ (st_categories st)) as [i|]; [| auto].
  destruct (st_categories st !! i); [| auto].
  unfold bind, now, ret. simpl. auto.
Qed.

Lemma updateCategoryCount_uncounted cid delta st w :
  c_with_count 0 0 <$> st_categories (fst (updateCategoryCount dateNow cid delta st w))
  = c_with_count 0 0 <$> st_categories st.
Proof.
  unfold updateCategoryCount.
  destruct (findIndex _ (st_categories st)) as [i|]; [| reflexivity].
  destruct (st_categories st !! i) as [c|] eqn:Hc; [| reflexivity].
  unfold bind, now, ret. cbn [fst st_set_categories st_categories].
  apply (fmap_insert_same _ _ _ c); [exact Hc | reflexivity].
Qed.

(** What filing under the recommended category leaves behind. *)
Lemma recommendCategory_run name ub st w :
  exists cid st0 w0 st1 w1 st2 w2,
    (match categoryNamed name (st_categories st) with
     | Some c => cid = c_id c /\ st0 = st /\ w0 = w
     | None =>
         cid = uuidv4 (w_ids w) /\
         w0 = {| w_clock := S (S (w_clock w)); w_ids := S (w_ids w) |} /\
         exists created updated,
           st0 = st_set_categories
                   (st_categories st ++
                    [{| c_id := cid; c_name := name; c_parentId := None;
                        c_color := None; c_icon := None;
                        c_order := Z.of_nat (length (st_categories st));
                        c_createdAt := created; c_updatedAt := updated;
                        c_bookmarkCount := 1; c_isAiGenerated := true;
                        c_builtin := None; c_level := None;
                        c_folderState := None |}]) st
     end) /\
    updateCategoryCount dateNow "uncategorized" (-1) st0 w0 = (st1, w1) /\
    updateCategoryCount dateNow cid 1 st1 w1 = (st2, w2) /\
    recommendCategory dateNow uuidv4 name ub st w
    = ((b_with_category cid (b_updatedAt ub) ub, st2), w2).
Proof.
  unfold recommendCategory, categoryNamed.
  destruct (List.find _ (st_categories st)) as [c|].
  - unfold bind at 1. unfold ret at 1. cbv beta iota. unfold bind.
    destruct (updateCategoryCount dateNow "uncategorized" (-1) st w)
      as [st1 w1] eqn:E1.
    destruct (updateCategoryCount dateNow (c_id c) 1 st1 w1) as [st2 w2] eqn:E2.
    exists (c_id c), st, w, st1, w1, st2, w2. auto.
  - unfold bind at 1. unfold bind at 1, uuid at 1. unfold bind at 1, now at 1.
    unfold bind at 1, now at 1. unfold ret at 1. cbv beta iota.
    cbn [w_clock w_ids]. unfold bind.
    match goal with
    | |- context [updateCategoryCount dateNow "uncategorized" (-1) ?s ?v] =>
        destruct (updateCategoryCount dateNow "uncategorized" (-1) s v)
          as [st1 w1] eqn:E1
    end.
    destruct (updateCategoryCount dateNow (uuidv4 (w_ids w)) 1 st1 w1)
      as [st2 w2] eqn:E2.
    eexists (uuidv4 (w_ids w)), _, _, st1, w1, st2, w2.
    split; [split; [reflexivity |]; split; [reflexivity |];
            eexists _, _; reflexivity |].
    split; [exact E1 |]. split; [exact E2 | reflexivity].
Qed.

(** The two phases of a successful analysis. *)
Lemma analyzeBookmark_run id st w i b data :
  findIndex (fun b => String.eqb (b_id b) id) (st_bookmarks st) = Some i ->
  st_bookmarks st !! i = Some b ->
  aiAnalyze b = Some data ->
  exists ub1 st1 w1 ub2 st2 w2,
    match recommendsCategory data b with
    | Some name =>
        recommendCategory dateNow uuidv4 name
          (b_with_analysis data (dateNow (w_clock w)) b) st
          {| w_clock := S (w_clock w); w_ids := w_ids w |}
        = ((ub1, st1), w1)
    | None =>
        ub1 = b_with_analysis data (dateNow (w_clock w)) b /\ st1 = st /\
        w1 = {| w_clock := S (w_clock w); w_ids := w_ids w |}
    end /\
    match recommendsTags data with
    | Some tags =>
        exists work,
          forEach (recommendTag dateNow uuidv4) tags
                  {| tw_all := st_tags st1; tw_map := tagRefs (st_tags st1);
                     tw_bookmarkTags := [] |} w1 = (work, w2) /\
          ub2 = b_with_tags (tw_bookmarkTags work) ub1 /\
          st2 = st_set_tags (tw_all work) st1
    | None => ub2 = ub1 /\ st2 = st1 /\ w2 = w1
    end /\
    analyzeBookmark dateNow uuidv4 aiAnalyze id st w
    = ((Some ub2, st_set_bookmarks (<[i := ub2]> (st_bookmarks st)) st2), w2).
Proof.
  intros Hi Hb Hai. unfold analyzeBookmark. rewrite Hi, Hb, Hai.
  unfold bind at 1, now at 1. cbv beta iota zeta.
  set (ub0 := b_with_analysis data (dateNow (w_clock w)) b).
  set (w' := {| w_clock := S (w_clock w); w_ids := w_ids w |}).
  change (b_categoryId ub0) with (b_categoryId b).
  assert (H1 : exists ub1 st1 w1,
    (if JS.truthy_ostr match data with
                       | Some d => ai_category d
                       | None => None
                       end
        && String.eqb (b_categoryId b) "uncategorized"
     then recommendCategory dateNow uuidv4
            (JS.ostr_or match data with
                        | Some d => ai_category d
                        | None => None
                        end "") ub0 st
     else ret (ub0, st)) w' = ((ub1, st1), w1) /\
    match recommendsCategory data b with
    | Some name =>
        recommendCategory dateNow uuidv4 name ub0 st w' = ((ub1, st1), w1)
    | None => ub1 = ub0 /\ st1 = st /\ w1 = w'
    end).
  { unfold recommendsCategory. destruct data as [d|]; simpl.
    - destruct (ai_category d) as [name|]; simpl.
      + destruct (String.eqb name "") eqn:En; simpl.
        * eexists _, _, _. split; [reflexivity | auto].
        * destruct (String.eqb (b_categoryId b) "uncategorized").
          -- unfold JS.str_or. rewrite En.
             destruct (recommendCategory dateNow uuidv4 name ub0 st w')
               as [[ub1 st1] w1].
             exists ub1, st1, w1. split; reflexivity.
          -- eexists _, _, _. split; [reflexivity | auto].
      + eexists _, _, _. split; [reflexivity | auto].
    - eexists _, _, _. split; [reflexivity | auto]. }
  destruct H1 as (ub1 & st1 & w1 & E1 & H1).
  unfold bind at 1. rewrite E1.
  assert (H2 : exists ub2 st2 w2,
    (match (match data with Some d => ai_tags d | None => None end) with
     | Some tags =>
         if (0 <? length tags)%nat then
           do work <- forEach (recommendTag dateNow uuidv4) tags
                        {| tw_all := st_tags st1; tw_map := tagRefs (st_tags st1);
                           tw_bookmarkTags := [] |};
           ret (b_with_tags (tw_bookmarkTags work) ub1,
                st_set_tags (tw_all work) st1)
         else ret (ub1, st1)
     | None => ret (ub1, st1)
     end) w1 = ((ub2, st2), w2) /\
    match recommendsTags data with
    | Some tags =>
        exists work,
          forEach (recommendTag dateNow uuidv4) tags
                  {| tw_all := st_tags st1; tw_map := tagRefs (st_tags st1);
                     tw_bookmarkTags := [] |} w1 = (work, w2) /\
          ub2 = b_with_tags (tw_bookmarkTags work) ub1 /\
          st2 = st_set_tags (tw_all work) st1
    | None => ub2 = ub1 /\ st2 = st1 /\ w2 = w1
    end).
  { unfold recommendsTags. destruct data as [d|].
    - destruct (ai_tags d) as [[|t ts]|].
      + eexists _, _, _. split; [reflexivity | auto].
      + cbn [length Nat.ltb Nat.leb]. unfold bind.
        destruct (forEach (recommendTag dateNow uuidv4) (t :: ts) _ w1)
          as [work w2] eqn:Ew.
        eexists _, _, w2. split; [reflexivity |]. exists work. auto.
      + eexists _, _, _. split; [reflexivity | auto].
    - eexists _, _, _. split; [reflexivity | auto]. }
  destruct H2 as (ub2 & st2 & w2 & E2 & H2).
  unfold bind at 1. rewrite E2. unfold ret.
  exists ub1, st1, w1, ub2, st2, w2. auto.
Qed.

Lemma recommendCategory_frame name ub st w :
  let r := recommendCategory dateNow uuidv4 name ub st w in
  (exists cid, fst (fst r) = b_with_category cid (b_updatedAt ub) ub) /\
  st_bookmarks (snd (fst r)) = st_bookmarks st /\
  st_tags (snd (fst r)) = st_tags st /\
  st_lastSync (snd (fst r)) = st_lastSync st.
Proof.
  cbv zeta.
  destruct (recommendCategory_run name ub st w)
    as (cid & st0 & w0 & st1 & w1 & st2 & w2 & H0 & E1 & E2 & ->).
  cbn [fst snd].
  pose proof (updateCategoryCount_bookmarks "uncategorized" (-1) st0 w0)
    as (B1 & T1 & L1).
  pose proof (updateCategoryCount_bookmarks cid 1 st1 w1) as (B2 & T2 & L2).
  rewrite E1 in B1, T1, L1. rewrite E2 in B2, T2, L2. cbn [fst] in *.
  assert (H : st_bookmarks st0 = st_bookmarks st /\ st_tags st0 = st_tags st /\
              st_lastSync st0 = st_lastSync st).
  { destruct (categoryNamed name (st_categories st)).
    - destruct H0 as (_ & -> & _). auto.
    - destruct H0 as (_ & _ & c & u & ->). auto. }
  destruct H as (B0 & T0 & L0).
  split; [eauto |]. repeat split; congruence.
Qed.

(** X18. [analyzeBookmark] returns [null] and leaves the storage and the
    clock alone when no stored bookmark carries the id or when the analysis
    fails.  Otherwise it returns the analysed bookmark and stores it in the
    place of the first bookmark with that id: the record keeps its id,
    title, url, favicon, description, creation time, visits and host
    correlation, carries the analysis and the time of the analysis; its
    category changes only when a category is recommended and the bookmark
    is uncategorised, its tags only when at least one tag is recommended;
    no other bookmark changes. *)
Theorem analyzeBookmark_outcome (id : string) (st : Storage) (w : World) :
  let r := analyzeBookmark dateNow uuidv4 aiAnalyze id st w in
  match findIndex (fun b => String.eqb (b_id b) id) (st_bookmarks st) with
  | None => r = ((None, st), w)
  | Some i =>
      exists b,
        st_bookmarks st !! i = Some b /\
        match aiAnalyze b with
        | None => r = ((None, st), w)
        | Some data =>
            exists b',
              fst (fst r) = Some b' /\
              st_bookmarks (snd (fst r)) = <[i := b']> (st_bookmarks st) /\
              analysed data (dateNow (w_clock w)) b b' /\
              (recommendsCategory data b = None ->
               b_categoryId b' = b_categoryId b /\
               st_categories (snd (fst r)) = st_categories st) /\
              (recommendsTags data = None ->
               b_tags b' = b_tags b /\ st_tags (snd (fst r)) = st_tags st)
        end
  end.
Proof.
  cbv zeta.
  destruct (findIndex _ (st_bookmarks st)) as [i|] eqn:Hi.
  2: { unfold analyzeBookmark. rewrite Hi. reflexivity. }
  destruct (findIndex_Some _ _ _ Hi) as (b & Hb & _). exists b.
  split; [exact Hb |].
  destruct (aiAnalyze b) as [data|] eqn:Hai.
  2: { unfold analyzeBookmark. rewrite Hi, Hb, Hai. reflexivity. }
  destruct (analyzeBookmark_run id st w i b data Hi Hb Hai)
    as (ub1 & st1 & w1 & ub2 & st2 & w2 & H1 & H2 & ->).
  cbn [fst snd]. exists ub2. split; [reflexivity |].
  split; [reflexivity |].
  set (ub0 := b_with_analysis data (dateNow (w_clock w)) b) in *.
  assert (F1 : (exists cid, ub1 = b_with_category cid (b_updatedAt ub0) ub0) /\
               st_tags st1 = st_tags st /\
               (recommendsCategory data b = None ->
                ub1 = ub0 /\ st1 = st)).
  { destruct (recommendsCategory data b) as [name|].
    - pose proof (recommendCategory_frame name ub0 st
                    {| w_clock := S (w_clock w); w_ids := w_ids w |}) as F.
      cbv zeta in F. rewrite H1 in F. cbn [fst snd] in F.
      destruct F as (Hc & _ & T & _). split; [exact Hc |].
      split; [exact T | discriminate].
    - destruct H1 as (-> & -> & _). split; [| auto].
      exists (b_categoryId ub0). destruct b; reflexivity. }
  destruct F1 as ((cid & Hub1) & T1 & N1).
  assert (F2 : (exists tags, ub2 = b_with_tags tags ub1) /\
               st_categories st2 = st_categories st1 /\
               (recommendsTags data = None -> ub2 = ub1 /\ st2 = st1)).
  { destruct (recommendsTags data) as [tags|].
    - destruct H2 as (work & _ & -> & ->). split; [eauto |].
      split; [reflexivity | discriminate].
    - destruct H2 as (-> & -> & _). split; [| auto].
      exists (b_tags ub1). destruct ub1; reflexivity. }
  destruct F2 as ((tags & Hub2) & C2 & N2).
  split; [| split].
  - subst ub2 ub1. split; reflexivity.
  - intros Hn. destruct (N1 Hn) as (E1 & E2). subst ub2 ub1.
    cbn [st_set_bookmarks st_categories]. rewrite C2, E2.
    split; [| reflexivity]. rewrite E1. reflexivity.
  - intros Hn. destruct (N2 Hn) as (E1 & E2). rewrite E1, E2.
    cbn [st_set_bookmarks st_tags]. rewrite T1. split; [| reflexivity].
    rewrite Hub1. reflexivity.
Qed.

Lemma recommendsCategory_uncategorized data b name :
  recommendsCategory data b = Some name -> b_categoryId b = "uncategorized".
Proof.
  unfold recommendsCategory. destruct data as [d|]; [| discriminate].
  destruct (JS.truthy_ostr (ai_category d)); [| discriminate].
  destruct (String.eqb_spec (b_categoryId b) "uncategorized");
    [auto | discriminate].
Qed.

(** X19. [analyzeBookmark] and the counts.  On a storage whose categories
    have distinct ids and carry the number of bookmarks filed under them,
    an analysis that creates no category leaves the counts consistent: the
    bookmark either stays where it is or moves from "uncategorized" to an
    existing category, whose counts are decremented and incremented.  An
    analysis that creates a category (under an id that is new) appends it
    with [bookmarkCount] 1 and then increments it for the bookmark it
    files there: the new category ends with count 2 for one more member,
    every other category stays consistent. *)
Theorem analyzeBookmark_counts (id : string) (st : Storage) (w : World) :
  countsConsistent (st_bookmarks st) (st_categories st) ->
  let st' := snd (fst (analyzeBookmark dateNow uuidv4 aiAnalyze id st w)) in
  match createsCategory aiAnalyze id st with
  | None => countsConsistent (st_bookmarks st') (st_categories st')
  | Some name =>
      ~ In (uuidv4 (w_ids w))
           ("uncategorized" :: List.map c_id (st_categories st)) ->
      exists kept created,
        st_categories st' = kept ++ [created] /\
        List.map c_id kept = List.map c_id (st_categories st) /\
        Forall (fun c => c_bookmarkCount c
                         = directMembers (c_id c) (st_bookmarks st')) kept /\
        c_id created = uuidv4 (w_ids w) /\ c_name created = name /\
        c_bookmarkCount created = 2 /\
        directMembers (c_id created) (st_bookmarks st')
        = directMembers (c_id created) (st_bookmarks st) + 1
  end.
Proof.
  intros [Hnd Hall]. cbv zeta. unfold createsCategory.
  destruct (findIndex _ (st_bookmarks st)) as [i|] eqn:Hi.
  2: { unfold analyzeBookmark. rewrite Hi. split; assumption. }
  destruct (findIndex_Some _ _ _ Hi) as (b & Hb & _). rewrite Hb.
  destruct (aiAnalyze b) as [data|] eqn:Hai.
  2: { unfold analyzeBookmark. rewrite Hi, Hb, Hai. split; assumption. }
  destruct (analyzeBookmark_run id st w i b data Hi Hb Hai)
    as (ub1 & st1 & w1 & ub2 & st2 & w2 & H1 & H2 & ->).
  cbn [fst snd st_set_bookmarks st_bookmarks st_categories].
  set (ub0 := b_with_analysis data (dateNow (w_clock w)) b) in *.
  set (w' := {| w_clock := S (w_clock w); w_ids := w_ids w |}) in *.
  assert (F2 : b_categoryId ub2 = b_categoryId ub1 /\
               st_categories st2 = st_categories st1).
  { destruct (recommendsTags data) as [tags|].
    - destruct H2 as (work & _ & -> & ->). split; reflexivity.
    - destruct H2 as (-> & -> & _). split; reflexivity. }
  destruct F2 as (Hcat2 & ->).
  assert (Hins : forall cid,
    directMembers cid (<[i := ub2]> (st_bookmarks st))
    = directMembers cid (st_bookmarks st)
      - (if String.eqb (b_categoryId b) cid then 1 else 0)
      + (if String.eqb (b_categoryId ub1) cid then 1 else 0)).
  { intros cid. rewrite <- Hcat2. apply directMembers_insert. exact Hb. }
  destruct (recommendsCategory data b) as [name|] eqn:Hrec.
  2: { destruct H1 as (-> & -> & _). split; [exact Hnd |].
       eapply Forall_impl; [exact Hall |]. simpl. intros c Hc.
       rewrite Hins, Hc. change (b_categoryId ub0) with (b_categoryId b). lia. }
  pose proof (recommendsCategory_uncategorized _ _ _ Hrec) as Hun.
  destruct (recommendCategory_run name ub0 st w')
    as (cid & st0 & w0 & sta & wa & stb & wb & H0 & Ea & Eb & Erun).
  rewrite Erun in H1. injection H1 as <- <- <-.
  cbn [b_categoryId b_with_category] in Hins.
  pose proof (updateCategoryCount_effect dateNow "uncategorized" (-1) st0 w0)
    as Ha.
  rewrite Ea in Ha. cbn [fst] in Ha. destruct Ha as (_ & _ & Ia & Ca).
  pose proof (updateCategoryCount_effect dateNow cid 1 sta wa) as Hb'.
  rewrite Eb in Hb'. cbn [fst] in Hb'. destruct Hb' as (_ & _ & Ib & Cb).
  destruct (categoryNamed name (st_categories st)) as [c|] eqn:Hnamed.
  - destruct H0 as (-> & -> & ->).
    split; [rewrite Ib, Ia; exact Hnd |].
    eapply Forall_impl.
    + apply (Cb (fun k => directMembers k (st_bookmarks st)
                          + (if String.eqb "uncategorized" k then -1 else 0)));
        [rewrite Ia; exact Hnd |].
      apply (Ca (fun k => directMembers k (st_bookmarks st)) Hnd Hall).
    + cbv beta. intros c0 Hc0. rewrite Hc0, Hins, Hun.
      destruct (String.eqb "uncategorized" (c_id c0)); lia.
  - destruct H0 as (-> & -> & created & updated & ->). intros Hfresh.
    change (w_ids w') with (w_ids w) in *.
    set (newId := uuidv4 (w_ids w)) in *.
    set (newc := {| c_id := newId; c_name := name; c_parentId := None;
                    c_color := None; c_icon := None;
                    c_order := Z.of_nat (length (st_categories st));
                    c_createdAt := created; c_updatedAt := updated;
                    c_bookmarkCount := 1; c_isAiGenerated := true;
                    c_builtin := None; c_level := None;
                    c_folderState := None |}) in *.
    cbn [st_set_categories st_categories] in Ia, Ca.
    assert (Hnd0 : NoDup (c_id <$> (st_categories st ++ [newc]))).
    { rewrite fmap_app. apply NoDup_app. split; [exact Hnd |]. split.
      - intros x Hx Hx'. apply list_elem_of_In in Hx'.
        destruct Hx' as [<- | []]. apply Hfresh. right.
        apply list_elem_of_In in Hx. exact Hx.
      - apply NoDup_singleton. }
    set (f := fun k => if String.eqb newId k then 1
                       else directMembers k (st_bookmarks st)).
    assert (Hall0 : Forall (fun c => c_bookmarkCount c = f (c_id c))
                           (st_categories st ++ [newc])).
    { apply Forall_app. split.
      - rewrite Forall_forall in Hall. apply Forall_forall. intros c Hc.
        unfold f. destruct (String.eqb_spec newId (c_id c)) as [E | _];
          [| apply Hall, Hc].
        exfalso. apply Hfresh. right. rewrite E. apply in_map.
        apply list_elem_of_In. exact Hc.
      - constructor; [| constructor]. unfold f. simpl.
        rewrite String.eqb_refl. reflexivity. }
    pose proof (Cb (fun k => f k + (if String.eqb "uncategorized" k
                                   then -1 else 0))
                   ltac:(rewrite Ia; exact Hnd0) (Ca f Hnd0 Hall0)) as Hfinal.
    assert (Hshape : exists kept c', st_categories stb = kept ++ [c'] /\
                       c_id <$> kept = c_id <$> st_categories st /\
                       c_id c' = newId /\ c_name c' = name).
    { match type of Ea with
      | updateCategoryCount _ _ _ ?s0 ?v0 = _ =>
          pose proof (updateCategoryCount_uncounted "uncategorized" (-1) s0 v0)
            as Ua
      end.
      pose proof (updateCategoryCount_uncounted newId 1 sta wa) as Ub.
      rewrite Ea in Ua. rewrite Eb in Ub. cbn [fst] in Ua, Ub.
      rewrite Ua in Ub. cbn [st_set_categories st_categories] in Ub.
      rewrite fmap_app in Ub.
      apply fmap_app_inv in Ub as (kept & last & Hk & Hl & ->).
      destruct last as [|c' [|? ?]]; try discriminate.
      exists kept, c'. split; [reflexivity |].
      split; [| split].
      - apply (f_equal (fmap c_id)) in Hk. rewrite <- !list_fmap_compose in Hk.
        symmetry. exact Hk.
      - apply (f_equal (fmap c_id)) in Hl. cbn in Hl. congruence.
      - apply (f_equal (fmap c_name)) in Hl. cbn in Hl. congruence. }
    destruct Hshape as (kept & c' & Hcats & Hkept & Hid & Hname).
    rewrite Hcats in Hfinal. apply Forall_app in Hfinal as [Hk Hc'].
    apply Forall_cons_iff in Hc' as [Hc' _].
    assert (Hnu : String.eqb "uncategorized" newId = false).
    { apply String.eqb_neq. intros E. apply Hfresh. left. exact E. }
    exists kept, c'. split; [exact Hcats |].
    split; [exact Hkept |]. split; [| split; [exact Hid |]].
    + rewrite Forall_forall in Hk. apply Forall_forall. intros c Hc.
      rewrite (Hk c Hc), Hins, Hun. unfold f.
      assert (Hne : String.eqb newId (c_id c) = false).
      { apply String.eqb_neq. intros E. apply Hfresh. right.
        change (List.map c_id (st_categories st))
          with (c_id <$> st_categories st).
        rewrite <- Hkept, E. apply list_elem_of_In, list_elem_of_fmap.
        exists c. split; [reflexivity | exact Hc]. }
      rewrite Hne. destruct (String.eqb "uncategorized" (c_id c)); lia.
    + split; [exact Hname |]. rewrite Hc', Hins, Hun, Hid. unfold f.
      rewrite Hnu, String.eqb_refl. split; lia.
Qed.

Lemma totalCount_snoc ts t : totalCount (ts ++ [t]) = totalCount ts + t_count t.
Proof.
  unfold totalCount. induction ts as [|x ts IH]; simpl; [lia |].
  rewrite IH. lia.
Qed.

Lemma totalCount_insert (ts : list Tag) i t t' :
  ts !! i = Some t ->
  totalCount (<[i := t']> ts) = totalCount ts - t_count t + t_count t'.
Proof.
  unfold totalCount. revert i.
  induction ts as [|x ts IH]; intros [|i] H; try discriminate.
  - injection H as ->. simpl. lia.
  - change (<[S i:=t']> (x :: ts)) with (x :: <[i:=t']> ts). simpl.
    rewrite (IH i H). lia.
Qed.

Lemma tgrown_refl t : tgrown t t.
Proof. split; [reflexivity | lia]. Qed.

Lemma tgrown_trans t1 t2 t3 : tgrown t1 t2 -> tgrown t2 t3 -> tgrown t1 t3.
Proof. intros [E1 L1] [E2 L2]. split; [congruence | lia]. Qed.

Lemma tagRefs_valid (ts : list Tag) (k : string) (i : nat) :
  tagRefs ts !! k = Some i ->
  exists t, ts !! i = Some t /\ toLowerCase (t_name t) = k.
Proof.
  unfold tagRefs.
  assert (H : forall (l : list (nat * Tag)) (m : gmap string nat),
    (forall it, In it l -> ts !! fst it = Some (snd it)) ->
    (forall k i, m !! k = Some i ->
                 exists t, ts !! i = Some t /\ toLowerCase (t_name t) = k) ->
    forall k i,
      fold_left (fun m it => <[toLowerCase (t_name (snd it)) := fst it]> m) l m
        !! k = Some i ->
      exists t, ts !! i = Some t /\ toLowerCase (t_name t) = k).
  { induction l as [|[j t] l IH]; intros m Hl Hm k0 i0; simpl; [apply Hm |].
    apply IH.
    - intros it Hit. apply Hl. right. exact Hit.
    - intros k1 i1. destruct (decide (toLowerCase (t_name t) = k1)) as [<- | Hne].
      + rewrite lookup_insert_eq. intros [= <-]. exists t.
        split; [apply (Hl (j, t)); left; reflexivity | reflexivity].
      + rewrite lookup_insert_ne by exact Hne. apply Hm. }
  apply H.
  - intros it Hit. apply list_elem_of_In, elem_of_lookup_imap_1 in Hit.
    destruct Hit as (j & t & -> & Ht). exact Ht.
  - intros k1 i1. rewrite lookup_empty. discriminate.
Qed.

(** One round of the tag loop. *)
Lemma recommendTag_step (room : Z) (work : TagWork) (name : string)
    (w : World) :
  1 <= room -> roomFor room (tw_all work) ->
  (forall k i, tw_map work !! k = Some i ->
               exists t, tw_all work !! i = Some t /\
                         toLowerCase (t_name t) = k) ->
  exists work' w',
    recommendTag dateNow uuidv4 work name w = (work', w') /\
    roomFor (room - 1) (tw_all work') /\
    (forall k i, tw_map work' !! k = Some i ->
                 exists t, tw_all work' !! i = Some t /\
                           toLowerCase (t_name t) = k) /\
    (exists tid, tw_bookmarkTags work' = tw_bookmarkTags work ++ [tid] /\
                 holdsTag (tw_all work') name tid) /\
    (forall i t, tw_all work !! i = Some t ->
                 exists t', tw_all work' !! i = Some t' /\ tgrown t t') /\
    (forall i t', tw_all work' !! i = Some t' ->
                  (length (tw_all work) <= i)%nat -> recommended t') /\
    (length (tw_all work) <= length (tw_all work'))%nat /\
    totalCount (tw_all work') = totalCount (tw_all work) + 1.
Proof.
  intros Hroom [Hmax Hbound] Hvalid. unfold recommendTag.
  assert (Hless : Forall (fun t => - 2 ^ 53 <= t_count t /\
                                   t_count t + (room - 1) <= 2 ^ 53)
                         (tw_all work)).
  { eapply Forall_impl; [exact Hbound |]. cbv beta. intros t Ht. lia. }
  destruct (tw_map work !! toLowerCase name) as [ref|] eqn:Href.
  - destruct (Hvalid _ _ Href) as (tag & Htag & Hname). rewrite Htag.
    assert (Hexact : js_add (t_count tag) 1 = t_count tag + 1).
    { apply js_add_exact.
      pose proof (Forall_lookup_1 _ _ _ _ Hbound Htag) as Ht. cbv beta in Ht.
      lia. }
    rewrite Hexact.
    unfold bind, now, ret. eexists _, _. split; [reflexivity |].
    cbn [tw_all tw_map tw_bookmarkTags].
    assert (Hlt : (ref < length (tw_all work))%nat)
      by (eapply lookup_lt_Some; exact Htag).
    split; [| split; [| split; [| split; [| split; [| split]]]]].
    + split; [lia |]. apply Forall_insert; [exact Hless |].
      pose proof (Forall_lookup_1 _ _ _ _ Hbound Htag) as Ht. cbv beta in Ht.
      cbn [t_count t_counted_at]. lia.
    + intros k i Hk. destruct (Hvalid _ _ Hk) as (t & Ht & Hn).
      destruct (decide (i = ref)) as [-> | Hne].
      * rewrite list_lookup_insert_eq by exact Hlt. eexists.
        split; [reflexivity |]. rewrite Htag in Ht. injection Ht as <-.
        exact Hn.
      * rewrite list_lookup_insert_ne by congruence. eauto.
    + exists (t_id tag). split; [reflexivity |]. exists ref. eexists.
      split; [apply list_lookup_insert_eq; exact Hlt |].
      split; [reflexivity | exact Hname].
    + intros i t Ht. destruct (decide (i = ref)) as [-> | Hne].
      * rewrite list_lookup_insert_eq by exact Hlt. eexists.
        split; [reflexivity |]. rewrite Htag in Ht. injection Ht as <-.
        split; [reflexivity | cbn [t_count t_counted_at]; lia].
      * rewrite list_lookup_insert_ne by congruence. exists t.
        split; [exact Ht | apply tgrown_refl].
    + intros i t' Ht' Hi. apply lookup_lt_Some in Ht'.
      rewrite length_insert in Ht'. lia.
    + rewrite length_insert. lia.
    + rewrite (totalCount_insert _ _ tag _ Htag).
      cbn [t_count t_counted_at]. lia.
  - unfold bind, uuid, now, ret. eexists _, _. split; [reflexivity |].
    cbn [tw_all tw_map tw_bookmarkTags].
    split; [| split; [| split; [| split; [| split; [| split]]]]].
    + split; [lia |]. apply Forall_app. split; [exact Hless |].
      constructor; [| constructor]. cbn [t_count]. lia.
    + intros k i. destruct (decide (toLowerCase name = k)) as [<- | Hne].
      * rewrite lookup_insert_eq. intros [= <-]. eexists.
        split;
          [rewrite lookup_app_r by lia; rewrite Nat.sub_diag; reflexivity
          | reflexivity].
      * rewrite lookup_insert_ne by exact Hne. intros Hk.
        destruct (Hvalid _ _ Hk) as (t & Ht & Hn). exists t.
        split; [apply lookup_app_l_Some, Ht | exact Hn].
    + eexists. split; [reflexivity |]. exists (length (tw_all work)).
      eexists.
      split;
        [rewrite lookup_app_r by lia; rewrite Nat.sub_diag; reflexivity
        | split; reflexivity].
    + intros i t Ht. exists t.
      split; [apply lookup_app_l_Some, Ht | apply tgrown_refl].
    + intros i t' Ht' Hi. rewrite lookup_app_r in Ht' by exact Hi.
      destruct (i - length (tw_all work))%nat as [|j]; [| discriminate].
      injection Ht' as <-. split; [reflexivity | simpl; lia].
    + rewrite length_app. lia.
    + rewrite totalCount_snoc. reflexivity.
Qed.

Lemma tgrown_holdsTag (ts ts' : list Tag) (name tid : string) :
  (forall i t, ts !! i = Some t -> exists t', ts' !! i = Some t' /\ tgrown t t') ->
  holdsTag ts name tid -> holdsTag ts' name tid.
Proof.
  intros Hg (i & t & Ht & Hid & Hname).
  destruct (Hg i t Ht) as (t' & Ht' & [E _]).
  exists i, t'. split; [exact Ht' |].
  split.
  - rewrite <- Hid. exact (f_equal t_id E).
  - rewrite <- Hname. exact (f_equal (fun x => toLowerCase (t_name x)) E).
Qed.

Lemma tgrown_recommended t t' : tgrown t t' -> recommended t -> recommended t'.
Proof.
  intros [E L] [A C]. split.
  - rewrite <- A. exact (f_equal t_isAiGenerated E).
  - lia.
Qed.

(** The whole tag loop. *)
Lemma recommendTag_loop (names : list string) (work : TagWork) (w : World) :
  roomFor (Z.of_nat (length names)) (tw_all work) ->
  (forall k i, tw_map work !! k = Some i ->
               exists t, tw_all work !! i = Some t /\
                         toLowerCase (t_name t) = k) ->
  exists work' w',
    forEach (recommendTag dateNow uuidv4) names work w = (work', w') /\
    (exists tids, tw_bookmarkTags work' = tw_bookmarkTags work ++ tids /\
                  Forall2 (holdsTag (tw_all work')) names tids) /\
    (forall i t, tw_all work !! i = Some t ->
                 exists t', tw_all work' !! i = Some t' /\ tgrown t t') /\
    (forall i t', tw_all work' !! i = Some t' ->
                  (length (tw_all work) <= i)%nat -> recommended t') /\
    (length (tw_all work) <= length (tw_all work'))%nat /\
    totalCount (tw_all work')
    = totalCount (tw_all work) + Z.of_nat (length names).
Proof.
  revert work w. induction names as [|name names IH];
    intros work w Hroom Hvalid.
  - exists work, w. split; [reflexivity |].
    split; [exists []; split; [symmetry; apply app_nil_r | constructor] |].
    split; [intros i t Ht; exists t; split; [exact Ht | apply tgrown_refl] |].
    split; [intros i t' Ht' Hi; apply lookup_lt_Some in Ht'; lia |].
    split; [lia | simpl; lia].
  - destruct (recommendTag_step (Z.of_nat (length (name :: names))) work name w)
      as (work1 & w1 & E1 & Hroom1 & Hvalid1 & (tid & Htags1 & Hholds1) & Hg1
          & Hnew1 & Hlen1 & Htot1);
      [cbn [length]; lia | exact Hroom | exact Hvalid |].
    replace (Z.of_nat (length (name :: names)) - 1)
      with (Z.of_nat (length names)) in Hroom1 by (cbn [length]; lia).
    destruct (IH work1 w1 Hroom1 Hvalid1)
      as (work2 & w2 & E2 & (tids & Htags2 & Hholds2) & Hg2 & Hnew2 & Hlen2
          & Htot2).
    exists work2, w2.
    split; [cbn [forEach]; unfold bind; rewrite E1; exact E2 |].
    split; [| split; [| split; [| split]]].
    + exists (tid :: tids). split.
      * rewrite Htags2, Htags1, <- app_assoc. reflexivity.
      * constructor; [| exact Hholds2].
        eapply tgrown_holdsTag; [exact Hg2 | exact Hholds1].
    + intros i t Ht. destruct (Hg1 i t Ht) as (t1 & Ht1 & G1).
      destruct (Hg2 i t1 Ht1) as (t2 & Ht2 & G2).
      exists t2. split; [exact Ht2 | eapply tgrown_trans; eassumption].
    + intros i t2 Ht2 Hi.
      destruct (tw_all work1 !! i) as [t1|] eqn:Ht1.
      * destruct (Hg2 i t1 Ht1) as (t2' & Ht2' & G2).
        rewrite Ht2 in Ht2'. injection Ht2' as <-.
        eapply tgrown_recommended; [exact G2 |]. eapply Hnew1; eassumption.
      * apply lookup_ge_None in Ht1. apply (Hnew2 i t2 Ht2). exact Ht1.
    + lia.
    + rewrite Htot2, Htot1. cbn [length]. lia.
Qed.

(** X20. When the analysis of a stored bookmark recommends at least one
    tag and the counts of the stored tags can be raised that often within
    the range in which the counters are exact, [analyzeBookmark] returns
    the bookmark with one tag id per recommended name, in the order of the
    recommendation: each id is the id of a stored tag whose name is the
    recommended name once both are put in lower case by the host.  The
    stored tags stay in place with their id, name, colour, creation time
    and origin, their counts do not shrink; the tags that were missing are
    appended as tags made by the analysis; and the sum of all counts grows
    by the number of recommended names, repeated names included. *)
Theorem analyzeBookmark_tags (id : string) (st : Storage) (w : World)
    (names : list string) :
  tagsFor aiAnalyze id st = Some names ->
  roomFor (Z.of_nat (length names)) (st_tags st) ->
  exists b' st' w' kept added,
    analyzeBookmark dateNow uuidv4 aiAnalyze id st w = ((Some b', st'), w') /\
    st_tags st' = kept ++ added /\
    Forall2 tgrown (st_tags st) kept /\
    Forall recommended added /\
    Forall2 (holdsTag (st_tags st')) names (b_tags b') /\
    totalCount (st_tags st')
    = totalCount (st_tags st) + Z.of_nat (length names).
Proof.
  unfold tagsFor. intros H Hroom.
  destruct (findIndex _ (st_bookmarks st)) as [i|] eqn:Hi; [| discriminate].
  destruct (st_bookmarks st !! i) as [b|] eqn:Hb; [| discriminate].
  destruct (aiAnalyze b) as [data|] eqn:Hai; [| discriminate].
  destruct (analyzeBookmark_run id st w i b data Hi Hb Hai)
    as (ub1 & st1 & w1 & ub2 & st2 & w2 & H1 & H2 & Hrun).
  rewrite H in H2. destruct H2 as (work & Eloop & -> & ->).
  assert (Ht1 : st_tags st1 = st_tags st).
  { destruct (recommendsCategory data b) as [name|].
    - pose proof (recommendCategory_frame name
        (b_with_analysis data (dateNow (w_clock w)) b) st
        {| w_clock := S (w_clock w); w_ids := w_ids w |}) as F.
      cbv zeta in F. rewrite H1 in F. cbn [fst snd] in F. tauto.
    - destruct H1 as (_ & -> & _). reflexivity. }
  destruct (recommendTag_loop names
              {| tw_all := st_tags st1; tw_map := tagRefs (st_tags st1);
                 tw_bookmarkTags := [] |} w1)
    as (work' & w' & E & (tids & Htids & Hholds) & Hg & Hnew & Hlen & Htot).
  { cbn [tw_all]. rewrite Ht1. exact Hroom. }
  { cbn [tw_all tw_map]. apply tagRefs_valid. }
  rewrite Eloop in E. injection E as <- <-.
  cbn [tw_all tw_bookmarkTags app] in *. rewrite Ht1 in *.
  eexists _, _, _, (take (length (st_tags st)) (tw_all work)),
    (drop (length (st_tags st)) (tw_all work)).
  split; [exact Hrun |].
  destruct st1; cbn [st_tags st_set_tags st_set_bookmarks b_tags b_with_tags] in *.
  split; [symmetry; apply take_drop |].
  split.
  { apply Forall2_same_length_lookup. split.
    - rewrite length_take. lia.
    - intros j t t' Ht Ht'. destruct (Hg j t Ht) as (t2 & Ht2 & G).
      rewrite lookup_take_lt in Ht' by (eapply lookup_lt_Some; exact Ht).
      rewrite Ht2 in Ht'. injection Ht' as <-. exact G. }
  split.
  { apply Forall_lookup. intros j t Ht. rewrite lookup_drop in Ht.
    apply (Hnew _ _ Ht). lia. }
  split; [rewrite Htids; exact Hholds | exact Htot].
Qed.

End AnalysisFacts.

(** ** Sorting a bookmark forest *)

Lemma unitsLt_unitsLe (a b : list N) : unitsLt a b = false <-> unitsLe b a.
Proof.
  revert b. induction a as [|x a IH]; intros [|y b]; cbn [unitsLt].
  - split; [intros _; constructor | reflexivity].
  - split; [discriminate | intros H; inversion H].
  - split; [intros _; constructor | reflexivity].
  - rewrite orb_false_iff, andb_false_iff, IH. split.
    + intros [Hlt [Hne | Hle]].
      * apply N.ltb_ge in Hlt. apply N.eqb_neq in Hne.
        apply unitsLe_less. lia.
      * apply N.ltb_ge in Hlt. destruct (N.eq_dec x y) as [-> | Hne].
        -- apply unitsLe_same. exact Hle.
        -- apply unitsLe_less. lia.
    + intros H. inversion H as [| ? ? ? ? Hlt | ? ? ? Hle]; subst.
      * split; [apply N.ltb_ge; lia | left; apply N.eqb_neq; lia].
      * split; [apply N.ltb_ge; lia | right; exact Hle].
Qed.

Lemma unitsLe_refl (a : list N) : unitsLe a a.
Proof. induction a; constructor; assumption. Qed.

Lemma unitsLe_trans (a b c : list N) :
  unitsLe a b -> unitsLe b c -> unitsLe a c.
Proof.
  intros Hab. revert c. induction Hab as [b | x y a b Hlt | x a b Hab IH];
    intros c Hbc.
  - constructor.
  - inversion Hbc; subst; [apply unitsLe_less; lia | apply unitsLe_less; exact Hlt].
  - inversion Hbc; subst; [apply unitsLe_less; assumption |].
    apply unitsLe_same. apply IH. assumption.
Qed.

Lemma unitsLt_asym (a b : list N) : unitsLt a b = true -> unitsLt b a = false.
Proof.
  revert b. induction a as [|x a IH]; intros [|y b]; cbn [unitsLt];
    try discriminate; try reflexivity.
  intros H. apply orb_true_iff in H.
  apply orb_false_iff. destruct H as [H | H].
  - apply N.ltb_lt in H. split; [apply N.ltb_ge; lia |].
    apply andb_false_iff. left. apply N.eqb_neq. lia.
  - apply andb_prop in H as [E H]. apply N.eqb_eq in E. subst y.
    split; [apply N.ltb_irrefl |]. apply andb_false_iff. right.
    apply IH, H.
Qed.

Lemma keyLe_trans (k1 k2 k3 : SortKey) :
  keyLe k1 k2 -> keyLe k2 k3 -> keyLe k1 k3.
Proof.
  destruct k1, k2, k3; simpl; try tauto; [apply unitsLe_trans | lia].
Qed.

(** The comparison of the code and the order of the keys. *)
Lemma valueLt_keyLe sortBy a b :
  valueLt sortBy a b = false <-> keyLe (sortKey sortBy b) (sortKey sortBy a).
Proof.
  destruct sortBy; cbn [valueLt sortKey keyLe]; unfold js_lt.
  - apply unitsLt_unitsLe.
  - rewrite Z.ltb_ge. unfold JS.onum_or.
    destruct (e_dateAdded a) as [x|], (e_dateAdded b) as [y|];
      repeat match goal with
             | |- context [Z.eqb ?z 0] => destruct (Z.eqb_spec z 0); subst
             end; split; lia.
  - apply unitsLt_unitsLe.
  - destruct (e_url a) as [u|], (e_url b) as [v|]; cbn [JS.ostr_or];
      unfold JS.str_or;
      repeat match goal with
             | |- context [String.eqb ?x ""] =>
                 destruct (String.eqb_spec x ""); subst
             end; apply unitsLt_unitsLe.
Qed.

Lemma valueLt_asym sortBy a b :
  valueLt sortBy a b = true -> valueLt sortBy b a = false.
Proof.
  destruct sortBy; cbn [valueLt]; unfold js_lt; try apply unitsLt_asym. lia.
Qed.

Lemma compareNodes_before sortBy sortOrder a b :
  (compareNodes sortBy sortOrder a b <=? 0) = true ->
  nodeBefore sortBy sortOrder a b.
Proof.
  unfold compareNodes, nodeBefore.
  destruct (e_isFolder a), (e_isFolder b); simpl; try discriminate; auto;
    destruct sortOrder;
    destruct (valueLt sortBy a b) eqn:Hab, (valueLt sortBy b a) eqn:Hba;
    simpl; try discriminate; intros _; right; (split; [reflexivity |]);
    try (apply valueLt_keyLe; assumption);
    try (apply valueLt_asym in Hab; congruence).
Qed.

Lemma compareNodes_after sortBy sortOrder a b :
  (compareNodes sortBy sortOrder a b <=? 0) = false ->
  nodeBefore sortBy sortOrder b a.
Proof.
  unfold compareNodes, nodeBefore.
  destruct (e_isFolder a), (e_isFolder b); simpl; try discriminate; auto;
    destruct sortOrder;
    destruct (valueLt sortBy a b) eqn:Hab, (valueLt sortBy b a) eqn:Hba;
    simpl; try discriminate; intros _; right; (split; [reflexivity |]);
    apply valueLt_keyLe; assumption.
Qed.

Lemma nodeBefore_trans sortBy sortOrder a b c :
  nodeBefore sortBy sortOrder a b -> nodeBefore sortBy sortOrder b c ->
  nodeBefore sortBy sortOrder a c.
Proof.
  unfold nodeBefore.
  intros [[Fa Fb] | [Fab Vab]] [[Fb' Fc] | [Fbc Vbc]].
  - congruence.
  - left. split; congruence.
  - left. split; congruence.
  - right. split; [congruence |].
    destruct sortOrder; eapply keyLe_trans; eassumption.
Qed.

Lemma sameKey_keyLe (k1 k2 : SortKey) :
  sameKey k1 k2 = true -> keyLe k1 k2 /\ keyLe k2 k1.
Proof.
  destruct k1 as [x|m], k2 as [y|n]; simpl; try discriminate.
  - intros H. apply bool_decide_eq_true in H. subst y.
    split; apply unitsLe_refl.
  - intros H. apply Z.eqb_eq in H. lia.
Qed.

Lemma tied_compareNodes sortBy sortOrder a x y :
  tied sortBy a x = true -> tied sortBy a y = true ->
  (compareNodes sortBy sortOrder x y <=? 0) = true.
Proof.
  unfold tied. intros Hx Hy.
  apply andb_prop in Hx as [Hx1 Hx2]. apply andb_prop in Hy as [Hy1 Hy2].
  apply Bool.eqb_prop in Hx1, Hy1.
  apply sameKey_keyLe in Hx2 as [Hax Hxa], Hy2 as [Hay Hya].
  assert (Hxy : valueLt sortBy x y = false)
    by (apply valueLt_keyLe; eapply keyLe_trans; eassumption).
  assert (Hyx : valueLt sortBy y x = false)
    by (apply valueLt_keyLe; eapply keyLe_trans; eassumption).
  unfold compareNodes. rewrite <- Hx1, <- Hy1, Hxy, Hyx.
  destruct (e_isFolder a), sortOrder; reflexivity.
Qed.

Section SortOrderFacts.

Context {A : Type} (cmp : A -> A -> Z) (R : A -> A -> Prop).
Hypothesis cmp_before : forall a b, (cmp a b <=? 0) = true -> R a b.
Hypothesis cmp_after : forall a b, (cmp a b <=? 0) = false -> R b a.
Hypothesis R_trans : forall a b c, R a b -> R b c -> R a c.

Lemma sort_insert_ordered (x : A) (l : list A) :
  StronglySorted R l -> StronglySorted R (sort_insert cmp x l).
Proof.
  induction l as [|y l IH]; intros Hs; simpl.
  - repeat constructor.
  - inversion Hs as [|? ? Hl Hy]; subst.
    destruct (cmp x y <=? 0) eqn:E.
    + constructor; [exact Hs |].
      constructor; [apply cmp_before; exact E |].
      eapply Forall_impl; [exact Hy |]. simpl. intros z Hz.
      eapply R_trans; [apply cmp_before; exact E | exact Hz].
    + constructor; [apply IH; exact Hl |].
      rewrite (sort_insert_perm cmp x l).
      constructor; [apply cmp_after; exact E | exact Hy].
Qed.

Lemma sort_ordered (l : list A) : StronglySorted R (sort cmp l).
Proof.
  induction l as [|x l IH]; simpl; [constructor |].
  apply sort_insert_ordered. exact IH.
Qed.

End SortOrderFacts.

Lemma sort_insert_keeps_ties {A} (cmp : A -> A -> Z) (p : A -> bool)
    (x : A) (l : list A) :
  (forall a b, p a = true -> p b = true -> (cmp a b <=? 0) = true) ->
  List.filter p (sort_insert cmp x l) = List.filter p (x :: l).
Proof.
  intros Hp. induction l as [|y l IH]; simpl; [reflexivity |].
  destruct (cmp x y <=? 0) eqn:E; [reflexivity |].
  simpl. rewrite IH. simpl.
  destruct (p x) eqn:Px, (p y) eqn:Py; try reflexivity.
  rewrite (Hp x y Px Py) in E. discriminate.
Qed.

Lemma sort_keeps_ties {A} (cmp : A -> A -> Z) (p : A -> bool) (l : list A) :
  (forall a b, p a = true -> p b = true -> (cmp a b <=? 0) = true) ->
  List.filter p (sort cmp l) = List.filter p l.
Proof.
  intros Hp. induction l as [|x l IH]; simpl; [reflexivity |].
  rewrite (sort_insert_keeps_ties cmp p x _ Hp). simpl. rewrite IH.
  reflexivity.
Qed.

Lemma height_forest (node : EnhancedBookmarkNode)
    (nodes : list EnhancedBookmarkNode) :
  In node nodes -> (height node <= forestHeight nodes)%nat.
Proof.
  unfold forestHeight. induction nodes as [|n nodes IH]; [contradiction |].
  intros [-> | H]; simpl; [lia |]. specialize (IH H). lia.
Qed.

Lemma height_children (node : EnhancedBookmarkNode)
    (children : list EnhancedBookmarkNode) :
  e_children node = Some children ->
  height node = S (forestHeight children).
Proof.
  destruct node as [i p ix u t d ch lv f fs pa]. simpl. intros ->.
  reflexivity.
Qed.

Lemma mapOpt_each {A B} (f : A -> option B) (Q : A -> B -> Prop)
    (xs : list A) :
  (forall x, In x xs -> exists y, f x = Some y /\ Q x y) ->
  exists ys, mapOpt f xs = Some ys /\ Forall2 Q xs ys.
Proof.
  induction xs as [|x xs IH]; intros H; simpl.
  - exists []. split; [reflexivity | constructor].
  - destruct (H x (or_introl eq_refl)) as (y & Hy & Qy).
    destruct IH as (ys & Hys & Qys); [intros z Hz; apply H; right; exact Hz |].
    exists (y :: ys). rewrite Hy, Hys. split; [reflexivity |].
    constructor; assumption.
Qed.

Lemma arranged_nil sortBy sortOrder : arranged sortBy sortOrder [] [].
Proof.
  apply (arranged_level sortBy sortOrder [] [] []);
    [reflexivity | constructor | reflexivity | constructor].
Qed.

(** X21. [sortBookmarks] returns, for every forest, a forest of the same
    nodes in which nothing but the order of siblings changed.  At every
    level the nodes are those of the input level; folders stand before
    bookmarks; folders among themselves and bookmarks among themselves
    stand in the requested order of their keys: the title put in lower
    case by the host, the date added (a missing date counting as 0) or
    the url (a missing url counting as the empty string), texts in the
    dictionary order of their UTF-16 code units; nodes of the same kind
    with the same key keep the order of the input; and the children of
    every node are arranged in the same way, a node without children
    being returned as it is. *)
Theorem sortBookmarks_arranges (fuel : nat) (sortBy : SortBy)
    (sortOrder : SortOrder) (bookmarks : list EnhancedBookmarkNode) :
  (forestHeight bookmarks < fuel)%nat ->
  exists sorted,
    sortBookmarks fuel sortBy sortOrder bookmarks = Some sorted /\
    arranged sortBy sortOrder bookmarks sorted.
Proof.
  revert bookmarks. induction fuel as [|fuel IH]; intros bookmarks Hfuel;
    [lia |].
  cbn [sortBookmarks]. cbv zeta.
  pose proof (sort_perm (compareNodes sortBy sortOrder) bookmarks) as Hperm.
  destruct (mapOpt_each
    (fun node =>
       match e_children node with
       | Some (c :: cs) =>
           match sortBookmarks fuel sortBy sortOrder (c :: cs) with
           | Some children => Some (e_with_children (Some children) node)
           | None => None
           end
       | _ => Some node
       end)
    (fun s o =>
       e_with_children None o = e_with_children None s /\
       option_Forall2 (arranged sortBy sortOrder)
                      (e_children s) (e_children o))
    (sort (compareNodes sortBy sortOrder) bookmarks)) as (out & Hout & Hall).
  { intros node Hnode.
    assert (Hin : In node bookmarks).
    { apply list_elem_of_In. rewrite <- Hperm. apply list_elem_of_In.
      exact Hnode. }
    destruct (e_children node) as [[|c cs]|] eqn:Hch.
    - exists node. split; [reflexivity |]. split; [reflexivity |].
      rewrite Hch. constructor. apply arranged_nil.
    - destruct (IH (c :: cs)) as (children & Hc & Harr).
      { pose proof (height_forest node bookmarks Hin) as Hh.
        rewrite (height_children node (c :: cs) Hch) in Hh. lia. }
      rewrite Hc. eexists. split; [reflexivity |].
      split; [reflexivity |]. cbn [e_children e_with_children].
      constructor. exact Harr.
    - exists node. split; [reflexivity |]. split; [reflexivity |].
      rewrite Hch. constructor. }
  exists out. split; [exact Hout |].
  apply (arranged_level sortBy sortOrder bookmarks
           (sort (compareNodes sortBy sortOrder) bookmarks) out).
  - exact Hperm.
  - apply sort_ordered.
    + apply compareNodes_before.
    + apply compareNodes_after.
    + apply nodeBefore_trans.
  - intros a. apply sort_keeps_ties. intros x y.
    apply tied_compareNodes.
  - exact Hall.
Qed.

End HostFacts.

(** * Worked instances *)

Section Instances.

Import Sample.

Example strings_sample :
  toLowerCase "GitHub" = "github" /\ toLowerCase "ÉCOLE" = "école" /\
  includes "https://github.com" "hub" = true /\
  includes "abc" "" = true /\ includes "abc" "abd" = false /\
  trim "  a b  " = "a b" /\ trim "　a b  " = "a b".
Proof. repeat split; reflexivity. Qed.

(** The fresh synchronisation of the host tree [Work / Site A]: one
    category named Work that is not builtin and has no parent, one bookmark
    titled Site A filed under it and correlated to the host node [h1]. *)
Example fresh_sync_sample :
  exists st',
    fst (syncBookmarks clock ids hostTree emptyStorage w0) = Some st' /\
    List.map (fun c => (c_name c, c_builtin c, c_parentId c, c_bookmarkCount c))
             (st_categories st')
      = [("Work", None, None, 1)] /\
    List.map (fun b => (b_title b, b_originalId b)) (st_bookmarks st')
      = [("Site A", Some "h1")] /\
    List.map b_categoryId (st_bookmarks st') = List.map c_id (st_categories st').
Proof. eexists. vm_compute. repeat split; reflexivity. Qed.

Lemma hostNodes_distinct : NoDup (List.map f_id (flatLeaves hostNodes)).
Proof. apply (bool_decide_unpack _). vm_compute. exact I. Defined.

(** On the fresh host tree of the specification the first pass stamps the
    bookmark at 1008 and the second pass, run on the first one's output,
    at 1013: the two outputs differ. *)
Lemma second_pass_restamps_counterexample :
  let pass1 := convertBrowserBookmarks clock ids origin hostNodes [] [] w0 in
  let pass2 := convertBrowserBookmarks clock ids origin hostNodes
                 (fst (fst pass1)) (snd (fst pass1)) (snd pass1) in
  List.map b_updatedAt (fst (fst pass1)) = [1008] /\
  List.map b_updatedAt (fst (fst pass2)) = [1013] /\
  fst pass2 <> fst pass1.
Proof. vm_compute. repeat split; congruence. Qed.

Lemma hostTree_distinct : NoDup (List.map n_id (walkedLeaves hostTree)).
Proof. apply (bool_decide_unpack _). vm_compute. exact I. Defined.

Lemma hostTree_named : Forall (fun n => n_id n <> "") (walkedLeaves hostTree).
Proof. repeat constructor. discriminate. Defined.

Lemma hostTree_past :
  forall n k, In n (walkedLeaves hostTree) ->
              JS.onum_or (n_dateAdded n) 0 <= frozen k.
Proof. intros n k [<- | []]. vm_compute. discriminate. Defined.

(** With a clock that stands still the second pass repeats the first. *)
Lemma second_pass_repeats_first_witness :
  NoDup (List.map f_id (flatLeaves hostNodes)) /\
  (forall j k, frozen j = frozen k) /\
  (let pass1 := fst (convertBrowserBookmarks frozen ids origin hostNodes
                       [localNote] [] w0) in
   let pass2 := fst (convertBrowserBookmarks frozen ids origin hostNodes
                       (fst pass1) (snd pass1) w0) in
   Forall2 restamped (fst pass1) (fst pass2) /\
   Forall2 c_restamped (snd pass1) (snd pass2) /\
   pass2 = pass1) /\
  NoDup (List.map n_id (walkedLeaves hostTree)) /\
  Forall (fun n => n_id n <> "") (walkedLeaves hostTree) /\
  (forall n k, In n (walkedLeaves hostTree) ->
               JS.onum_or (n_dateAdded n) 0 <= frozen k) /\
  exists st1 st2,
    fst (syncBookmarks frozen ids hostTree (storageOf [localNote] builtins) w0)
      = Some st1 /\
    fst (syncBookmarks frozen ids hostTree st1 w0) = Some st2 /\
    st_bookmarks st2 = st_bookmarks st1 /\
    st_categories st2 = st_categories st1.
Proof.
  split; [exact hostNodes_distinct |]. split; [reflexivity |].
  destruct (fst (syncBookmarks frozen ids hostTree
                   (storageOf [localNote] builtins) w0)) as [st1|] eqn:Hrun;
    [| vm_compute in Hrun; discriminate Hrun].
  pose proof (second_pass_repeats_first frozen ids origin hostNodes
                [localNote] [] hostTree (storageOf [localNote] builtins) st1
                w0 w0) as [Hflat Htree].
  destruct (Hflat hostNodes_distinct) as (H1 & H2 & H3).
  split; [split; [exact H1 | split; [exact H2 | apply H3; reflexivity]] |].
  split; [exact hostTree_distinct |]. split; [exact hostTree_named |].
  split; [exact hostTree_past |].
  destruct (Htree hostTree_distinct hostTree_named hostTree_past Hrun)
    as (st2 & Hrun2 & Hb & Hc).
  exists st1, st2. split; [reflexivity |]. split; [exact Hrun2 |].
  split; [exact Hb | exact Hc].
Defined.

(** A record made inside the application is dropped by both passes. *)
Lemma local_record_dropped_counterexample :
  In localNote [localNote] /\ b_originalId localNote = None /\
  ~ In localNote
      (fst (fst (convertBrowserBookmarks clock ids origin hostNodes
                   [localNote] [] w0))) /\
  exists st',
    fst (syncBookmarks clock ids hostTree (storageOf [localNote] builtins) w0)
      = Some st' /\
    ~ In localNote (st_bookmarks st').
Proof.
  split; [left; reflexivity |]. split; [reflexivity |]. split.
  - vm_compute. intros [H | []]. discriminate H.
  - eexists. split; [vm_compute; reflexivity |].
    vm_compute. intros [H | []]. discriminate H.
Qed.

Lemma sync_output_follows_host_witness :
  hostTree <> [] /\
  exists st',
    fst (syncBookmarks clock ids hostTree (storageOf [localNote] builtins) w0)
      = Some st' /\
    (forall b, b_originalId b = None -> ~ In b (st_bookmarks st')).
Proof.
  assert (Hne : hostTree <> []) by discriminate.
  split; [exact Hne |].
  destruct (sync_output_follows_host clock ids origin hostNodes hostTree
              [localNote] [] (storageOf [localNote] builtins) w0)
    as (_ & _ & _ & Htree).
  destruct (Htree Hne) as (st' & Hrun & _ & Hnone & _).
  exists st'. split; [exact Hrun | exact Hnone].
Defined.

(** [play] is a child of [work]; the bookmark filed under [play] is not
    counted for [work]. *)
Lemma recount_count_consistency_witness :
  findIndex (fun c => String.eqb (c_id c) "work")
            (categories (storeOf shelf [work; play] [])) = Some 0%nat /\
  Forall (fun c' => c_bookmarkCount c' = directMembers (c_id c') shelf)
         (fst (recount clock shelf [work; play] w0)) /\
  exists c',
    categories (fst (updateCategoryBookmarkCount clock "work"
                       (storeOf shelf [work; play] []) w0)) !! 0%nat = Some c' /\
    c_bookmarkCount c' = directMembers "work" shelf.
Proof.
  assert (Hi : findIndex (fun c => String.eqb (c_id c) "work")
                 (categories (storeOf shelf [work; play] [])) = Some 0%nat)
    by reflexivity.
  split; [exact Hi |].
  pose proof (recount_count_consistency clock ids origin shelf [work; play]
                hostNodes [] [] "work" (storeOf shelf [work; play] []) 0%nat w0)
    as ((H1 & _) & _ & H3).
  split; [exact H1 |].
  destruct (H3 Hi) as (c & c' & _ & Hc' & _ & Hcount & _).
  exists c'. split; [exact Hc' | exact Hcount].
Defined.

Example recount_sample :
  List.map (fun c => (c_id c, c_bookmarkCount c))
           (fst (recount clock shelf [work; play] w0))
  = [("work", 2); ("play", 1)].
Proof. reflexivity. Qed.

(** A tag listed twice on one bookmark is counted twice. *)
Lemma tag_listed_twice_counterexample :
  let ts := tags (fst (updateTags clock ids [] (storeOf twice [] []) w0)) in
  List.map (fun t => (t_name t, t_count t)) ts = [("dev", 2)] /\
  referencing "dev" twice = 1.
Proof. vm_compute. split; reflexivity. Qed.

Lemma shelf_tags_distinct : Forall (fun b => NoDup (b_tags b)) shelf.
Proof. apply (bool_decide_unpack _). vm_compute. exact I. Defined.

Lemma updateTags_prunes_and_counts_witness :
  Forall (fun b => NoDup (b_tags b)) shelf /\
  let ts := tags (fst (updateTags clock ids [] (storeOf shelf [] []) w0)) in
  Forall (fun t => 0 < t_count t) ts /\
  NoDup (List.map t_name ts) /\
  (forall t, In t ts -> t_count t = referencing (t_name t) shelf).
Proof.
  split; [exact shelf_tags_distinct |].
  pose proof (updateTags_prunes_and_counts clock ids [] (storeOf shelf [] []) w0)
    as (H1 & H2 & _ & _ & H5).
  split; [exact H1 |]. split; [exact H2 | exact (H5 shelf_tags_distinct)].
Defined.

Example updateTags_sample :
  List.map (fun t => (t_name t, t_count t))
           (tags (fst (updateTags clock ids [] (storeOf shelf [] []) w0)))
  = [("dev", 2); ("git", 1)].
Proof. reflexivity. Qed.

(** The scenario of the specification: 25 bookmarks, 20 selected; the
    store and the service then narrow the selection to the bookmarks tagged
    [low]. *)
Lemma frequent_selects_top_twenty_first_witness :
  sp_categoryId frequent = Some "frequent" /\
  filteredBookmarks clock collate frequent visited w0
    = (sort (compareBookmarks collate frequent)
            (keywordFilter frequent (tagFilter frequent (mostVisited visited))),
       w0) /\
  service_searchBookmarks clock (Some " T ") (Some "frequent") (Some ["low"])
                          visited w0
    = (mentioning (Some " T ")
                  (carryingSomeTag (Some ["low"]) (mostVisited visited)), w0) /\
  List.map b_visitCount
           (fst (service_searchBookmarks clock (Some " T ") (Some "frequent")
                                         (Some ["low"]) visited w0))
    = [9; 8; 7; 7] /\
  length (mostVisited visited) = Nat.min 20 (length visited) /\
  (forall a b, In a (mostVisited visited) -> In b (lessVisited visited) ->
               b_visitCount b <= b_visitCount a).
Proof.
  assert (Hc : sp_categoryId frequent = Some "frequent") by reflexivity.
  split; [exact Hc |].
  pose proof (frequent_selects_top_twenty_first clock collate frequent
                (Some " T ") (Some ["low"]) visited w0 Hc)
    as (H1 & H2 & _ & _ & H5 & _ & H7 & _).
  split; [exact H1 |]. split; [exact H2 |].
  split; [rewrite H2; vm_compute; reflexivity |].
  split; [exact H5 | exact H7].
Defined.

Example frequent_sample :
  List.map b_visitCount (mostVisited visited)
  = [100; 60; 50; 40; 30; 20; 19; 18; 17; 16; 15; 14; 13; 12; 11; 10; 9; 8; 7; 7]
  /\ List.map b_id (List.filter (visitedTimes 7) (mostVisited visited))
     = [tally 6; tally 7]
  /\ List.map b_visitCount
              (fst (filteredBookmarks clock collate frequent visited w0))
     = [9; 8; 7; 7].
Proof. vm_compute. repeat split; reflexivity. Qed.

(** The service level search keeps a bookmark that carries only one of
    the two requested tags. *)
Lemma service_search_any_tag_counterexample :
  exists b,
    In b (fst (service_searchBookmarks clock None None (Some ["dev"; "git"])
                                       shelf w0)) /\
    b_tags b = ["dev"] /\ ~ hasAllTags ["dev"; "git"] b.
Proof.
  exists (bookmark "b2" "News" "https://news.example" "play" ["dev"] 5 None).
  split; [vm_compute; right; left; reflexivity |]. split; [reflexivity |].
  intros H. specialize (H "git" (or_intror (or_introl eq_refl))).
  simpl in H. destruct H as [H | []]. discriminate H.
Qed.

Lemma tag_filter_semantics_witness :
  sp_tags (tagged ["dev"; "git"]) = Some ["dev"; "git"] /\
  ["dev"; "git"] <> [] /\
  (forall b, In b (tagFilter (tagged ["dev"; "git"]) shelf)
             <-> In b shelf /\ hasAllTags ["dev"; "git"] b) /\
  (forall b, In b (fst (service_searchBookmarks clock None None
                          (Some ["dev"; "git"]) shelf w0))
             <-> In b shelf /\ hasSomeTag ["dev"; "git"] b).
Proof.
  assert (H1 : sp_tags (tagged ["dev"; "git"]) = Some ["dev"; "git"])
    by reflexivity.
  assert (H2 : ["dev"; "git"] <> @nil string) by discriminate.
  split; [exact H1 |]. split; [exact H2 |].
  pose proof (tag_filter_semantics clock (tagged ["dev"; "git"]) ["dev"; "git"]
                shelf w0 H1 H2) as (Ha & _ & Hb & _).
  split; [exact Ha | exact Hb].
Defined.

Example tagFilter_sample :
  List.map b_id (tagFilter (tagged ["dev"; "git"]) shelf) = ["b1"]
  /\ List.map b_id (fst (service_searchBookmarks clock None None
                           (Some ["dev"; "git"]) shelf w0)) = ["b1"; "b2"].
Proof. vm_compute. split; reflexivity. Qed.


(** Without the condition on the parent links the projection need not
    return: no amount of fuel is enough for [selfRooted]. *)
Lemma buildCategoryTree_selfRooted (fuel : nat) :
  buildCategoryTree fuel [selfRooted] = None.
Proof.
  unfold buildCategoryTree. generalize 0.
  induction fuel as [|fuel IH]; intros level; [reflexivity |].
  simpl. rewrite groupByParent_lookup.
  change (childrenOf "root" [selfRooted]) with [selfRooted].
  simpl. rewrite IH. reflexivity.
Qed.



Lemma shelf_ids_distinct : NoDup (List.map b_id shelf).
Proof. apply (bool_decide_unpack _). vm_compute. exact I. Defined.

Lemma shelf_categories_distinct :
  NoDup (List.map c_id (builtins ++ [work; play])).
Proof. apply (bool_decide_unpack _). vm_compute. exact I. Defined.

Lemma deleteCategory_spec_witness :
  NoDup (List.map b_id shelf) /\
  NoDup (List.map c_id (builtins ++ [work; play])) /\
  (exists s' w',
     deleteCategory clock ids "work"
                    (storeOf shelf (builtins ++ [work; play]) []) w0
       = ((true, s'), w') /\
     Forall (fun b' => In (b_categoryId b') (List.map c_id (categories s')))
            (bookmarks s') /\
     List.map c_id (categories s') = ["all"; "uncategorized"; "play"]) /\
  deleteCategory clock ids "all"
                 (storeOf shelf (builtins ++ [work; play]) []) w0
    = ((false, storeOf shelf (builtins ++ [work; play]) []), w0).
Proof.
  split; [exact shelf_ids_distinct |].
  split; [exact shelf_categories_distinct |]. split.
  - destruct (deleteCategory_spec clock ids "work"
                (storeOf shelf (builtins ++ [work; play]) []) w0
                shelf_ids_distinct shelf_categories_distinct)
      as (ok & s' & w' & Hrun & _ & _ & Hdel).
    destruct (Hdel work) as (-> & _ & HC & _ & _ & Hfiled);
      [simpl; tauto | reflexivity | reflexivity |].
    exists s', w'. split; [exact Hrun |]. split.
    + apply Hfiled;
        [discriminate | simpl; tauto | repeat constructor; simpl; tauto].
    + apply (f_equal (List.map c_id)) in HC. rewrite !map_map in HC.
      exact HC.
  - destruct (deleteCategory_spec clock ids "all"
                (storeOf shelf (builtins ++ [work; play]) []) w0
                shelf_ids_distinct shelf_categories_distinct)
      as (ok & s' & w' & Hrun & _ & Hrefuse & _).
    destruct (Hrefuse (category "all" "All" None 0 (Some true) None))
      as (-> & -> & ->); [simpl; tauto | reflexivity | reflexivity |].
    exact Hrun.
Defined.

(** With two bookmarks under one identifier the loop of [deleteCategory]
    updates the first of them twice: the second stays filed under the
    deleted category.  With two categories under one identifier, the first
    of them not builtin, the builtin one is deleted as well.  And where no
    category ['uncategorized'] is stored, the bookmark moved there is
    filed under no stored category. *)
Lemma deleteCategory_duplicate_ids_counterexample :
  (exists s' w',
     deleteCategory clock ids "work"
                    (storeOf twins (builtins ++ [work]) []) w0
       = ((true, s'), w') /\
     List.map c_id (categories s') = ["all"; "uncategorized"] /\
     List.map (fun b => (b_title b, b_categoryId b)) (bookmarks s')
       = [("One", "uncategorized"); ("Two", "work")]) /\
  (exists s' w',
     deleteCategory clock ids "x" (storeOf [] shadowed []) w0
       = ((true, s'), w') /\
     In (category "x" "Fixed" None 1 (Some true) None)
        (categories (storeOf [] shadowed [])) /\
     categories s' = []) /\
  (exists s' w',
     deleteCategory clock ids "work"
       (storeOf [bookmark "b3" "Docs" "https://docs.example" "work" [] 1 None]
                [work] []) w0
       = ((true, s'), w') /\
     categories s' = [] /\
     List.map b_categoryId (bookmarks s') = ["uncategorized"]).
Proof.
  split; [| split].
  - eexists _, _. split; [vm_compute; reflexivity |].
    split; reflexivity.
  - eexists _, _. split; [vm_compute; reflexivity |].
    split; [simpl; tauto | reflexivity].
  - eexists _, _. split; [vm_compute; reflexivity |].
    split; reflexivity.
Qed.

Example deleteCategory_builtin_sample :
  deleteCategory clock ids "all" (storeOf shelf (builtins ++ [work; play]) []) w0
  = ((false, storeOf shelf (builtins ++ [work; play]) []), w0).
Proof. reflexivity. Qed.

Lemma shelf_lacks_id : Forall (fun b => b_id b <> "b9") shelf.
Proof. repeat constructor; discriminate. Defined.

Lemma deleteBookmark_not_found_witness :
  Forall (fun b => b_id b <> "b9") shelf /\
  deleteBookmark clock ids "b9" (storeOf shelf builtins []) w0
    = ((false, storeOf shelf builtins []), w0) /\
  service_deleteBookmark clock "b9" (storageOf shelf builtins) w0
    = ((false, storageOf shelf builtins), w0).
Proof.
  split; [exact shelf_lacks_id |].
  exact (deleteBookmark_not_found clock ids "b9" (storeOf shelf builtins [])
           (storageOf shelf builtins) w0 shelf_lacks_id shelf_lacks_id).
Defined.


Example searchBookmarks_sample :
  List.map e_id (searchBookmarks forest "Git") = ["2"; "3"; "5"] /\
  List.map e_id
    (searchBookmarks [ enode "1" "ÉCOLE" (Some "https://a.example") None;
                       enode "2" "école" (Some "https://b.example") None;
                       enode "3" "Lycée" (Some "https://c.example") None ]
                     "École")
  = ["1"; "2"].
Proof. split; reflexivity. Qed.

End Instances.

(** * Further worked instances *)

Section MoreInstances.

Import Sample.

(** The sample session on the tidy shelf: a bookmark is added under Play,
    another is moved there, one is visited, one is deleted, and Play is
    deleted at the end. *)
Example session_sample :
  let s' := fst (forEach (perform clock ids host) session tidy w0) in
  List.map (fun b => (b_id b, b_categoryId b, b_visitCount b)) (bookmarks s')
    = [("b1", "uncategorized", 3); ("b2", "uncategorized", 6);
       ("uuid-", "uncategorized", 0)] /\
  List.map (fun c => (c_id c, c_bookmarkCount c)) (categories s')
    = [("uncategorized", 3); ("work", 0)] /\
  List.map (fun t => (t_name t, t_count t)) (tags s')
    = [("dev", 2); ("git", 2)] /\
  storage s' = {| st_bookmarks := bookmarks s'; st_categories := categories s';
                  st_tags := tags s'; st_lastSync := 0 |}.
Proof. vm_compute. repeat split; reflexivity. Qed.

Lemma tidy_counts : countsConsistent (bookmarks tidy) (categories tidy).
Proof.
  split; [apply (bool_decide_unpack _); vm_compute; exact I |].
  repeat constructor.
Defined.

Lemma tidy_tags : tagsConsistent (bookmarks tidy) (tags tidy).
Proof.
  split; [apply (bool_decide_unpack _); vm_compute; exact I |].
  split; [repeat constructor |]. split; [repeat constructor |].
  intros name Hname. vm_compute in Hname. vm_compute. tauto.
Defined.

Lemma tidy_written : writtenBack tidy.
Proof. repeat split. Defined.

Lemma store_keeps_counts_witness :
  countsConsistent (bookmarks tidy) (categories tidy) /\
  (let s' := fst (forEach (perform clock ids host) session tidy w0) in
   countsConsistent (bookmarks s') (categories s')).
Proof.
  split; [exact tidy_counts |].
  exact (store_keeps_counts clock ids host session tidy w0 tidy_counts).
Defined.

Lemma store_keeps_tags_witness :
  tagsConsistent (bookmarks tidy) (tags tidy) /\
  (let s' := fst (forEach (perform clock ids host) session tidy w0) in
   tagsConsistent (bookmarks s') (tags s')).
Proof.
  split; [exact tidy_tags |].
  exact (store_keeps_tags clock ids host session tidy w0 tidy_tags).
Defined.

Lemma store_writes_back_witness :
  writtenBack tidy /\
  writtenBack (fst (forEach (perform clock ids host) session tidy w0)).
Proof.
  split; [exact tidy_written |].
  exact (store_writes_back clock ids host session tidy w0 tidy_written).
Defined.

(** Counters are exact up to [2^53]; there a further visit is lost, and
    beyond that the sum is rounded to the even neighbour. *)
Example js_add_sample :
  js_add 41 1 = 42 /\ js_add (2 ^ 53) 1 = 2 ^ 53 /\
  js_add (2 ^ 53 + 2) 1 = 2 ^ 53 + 4 /\ js_add (- 2 ^ 53) (-1) = - 2 ^ 53.
Proof. repeat split; reflexivity. Qed.

Lemma addBookmarkVisit_counts_visits_witness :
  findIndex (fun b => String.eqb (b_id b) "b2") (bookmarks tidy) = Some 1%nat /\
  - 2 ^ 53 <= 5 /\ 5 + Z.of_nat 3 <= 2 ^ 53 /\
  (let r := forEach (perform clock ids host)
                    (replicate 3 (AddBookmarkVisit "b2")) tidy w0 in
   List.map (fun b => (b_id b, b_visitCount b, b_lastVisited b))
            (bookmarks (fst r))
     = [("b1", 3, None); ("b2", 8, Some 1002); ("b3", 1, None)] /\
   categories (fst r) = categories tidy /\ tags (fst r) = tags tidy /\
   snd r = {| w_clock := 3; w_ids := 0 |}).
Proof.
  assert (Hi : findIndex (fun b => String.eqb (b_id b) "b2") (bookmarks tidy)
               = Some 1%nat) by reflexivity.
  assert (Hlo : - 2 ^ 53 <= 5) by (vm_compute; discriminate).
  assert (Hhi : 5 + Z.of_nat 3 <= 2 ^ 53) by (vm_compute; discriminate).
  split; [exact Hi |]. split; [exact Hlo |]. split; [exact Hhi |].
  destruct (addBookmarkVisit_counts_visits clock ids host 3 "b2" tidy w0 1
              (bookmark "b2" "News" "https://news.example" "play" ["dev"] 5 None)
              Hi eq_refl Hlo Hhi) as (B & C & T & W).
  cbv zeta. rewrite B, C, T, W. repeat split.
Defined.

(** The sample session of the service: one bookmark added under Play, one
    moved there, one deleted. *)
Example serviceSession_sample :
  let st' := sv_storage (fst (forEach (service_perform clock ids quiet)
                                      serviceSession tidyService w0)) in
  List.map (fun b => (b_id b, b_categoryId b)) (st_bookmarks st')
    = [("b1", "play"); ("b2", "play"); ("uuid-", "play")] /\
  List.map (fun c => (c_id c, c_bookmarkCount c)) (st_categories st')
    = [("uncategorized", 0); ("work", 0); ("play", 3)].
Proof. vm_compute. repeat split; reflexivity. Qed.

(** An update that blanks the category moves the bookmark and leaves the
    count of the category it came from as it was. *)
Example service_blank_category_sample :
  let blank := mkChanges None None None None None (Some "") None None None
                         None None None None None None in
  let st' := snd (fst (service_updateBookmark clock "b2" blank
                                              (storage tidy) w0)) in
  List.map (fun b => (b_id b, b_categoryId b)) (st_bookmarks st')
    = [("b1", "work"); ("b2", ""); ("b3", "work")] /\
  List.map (fun c => (c_id c, c_bookmarkCount c)) (st_categories st')
    = [("uncategorized", 0); ("work", 2); ("play", 1)].
Proof. vm_compute. repeat split; reflexivity. Qed.

Lemma serviceSession_named : Forall keepsCategoryNamed serviceSession.
Proof. repeat constructor. simpl. discriminate. Defined.

Lemma quiet_off : analysisOff quiet.
Proof. left. reflexivity. Defined.

Lemma service_keeps_counts_witness :
  analysisOff quiet /\
  Forall keepsCategoryNamed serviceSession /\
  countsConsistent (st_bookmarks (sv_storage tidyService))
                   (st_categories (sv_storage tidyService)) /\
  (let sv' := fst (forEach (service_perform clock ids quiet) serviceSession
                           tidyService w0) in
   countsConsistent (st_bookmarks (sv_storage sv'))
                    (st_categories (sv_storage sv')) /\
   sv_launched sv' = sv_launched tidyService).
Proof.
  split; [exact quiet_off |].
  split; [exact serviceSession_named |]. split; [exact tidy_counts |].
  exact (service_keeps_counts clock ids quiet serviceSession tidyService w0
           quiet_off serviceSession_named tidy_counts).
Defined.

(** With automatic classification switched on, [addBookmark] launches the
    analysis of the new bookmark.  Run to its end right away, that
    analysis files the bookmark under a new category Reading, whose count
    is two for its one member. *)
Example launched_analysis_sample :
  let r := service_addBookmark clock ids eager loose (storage tidy) w0 in
  snd (fst (fst r)) = Some "uuid-" /\
  (let st' := snd (fst (analyzeBookmark clock ids advice "uuid-"
                                        (snd (fst r)) (snd r))) in
   List.map (fun b => (b_id b, b_categoryId b)) (st_bookmarks st')
     = [("b1", "work"); ("b2", "play"); ("b3", "work"); ("uuid-", "uuid-i")] /\
   List.map (fun c => (c_id c, c_name c, c_bookmarkCount c)) (st_categories st')
     = [("uncategorized", "Uncategorized", 0); ("work", "Work", 2);
        ("play", "Play", 1); ("uuid-i", "Reading", 2)]).
Proof. vm_compute. repeat split; reflexivity. Qed.

Lemma buildCategoryTree_reachable_witness :
  exists tree,
    buildCategoryTree 3 [work; play; stray] = Some tree /\
    List.map c_id (flat_map treeCategories tree) = ["work"; "play"] /\
    ~ filedUnder [work; play; stray] "root" stray.
Proof.
  destruct (buildCategoryTree 3 [work; play; stray]) as [tree|] eqn:E;
    [| vm_compute in E; discriminate].
  pose proof (buildCategoryTree_reachable _ _ _ E) as (_ & _ & Horphan).
  exists tree. split; [reflexivity |]. split.
  - vm_compute in E. injection E as <-. reflexivity.
  - apply Horphan.
    + simpl. tauto.
    + vm_compute. discriminate.
    + intros p [<- | [<- | [<- | []]]]; vm_compute; discriminate.
Defined.

(** A keyword in capitals, and in the service one with white space or
    ideographic spaces around it, finds the bookmark of GitHub. *)
Example keyword_sample :
  List.map b_id
    (fst (filteredBookmarks clock collate
            (mkSearchParams (Some "GIT") None None None None) shelf w0))
    = ["b1"] /\
  List.map b_id (fst (service_searchBookmarks clock (Some "  Git ") None None
                                              shelf w0))
    = ["b1"] /\
  List.map b_id (fst (service_searchBookmarks clock (Some "　git　")
                                              None None shelf w0))
    = ["b1"].
Proof. vm_compute. repeat split; reflexivity. Qed.

(** Ninety seconds are one minute, a day and a half is one day, 364 days
    are twelve months. *)
Example relativeTime_sample :
  fst (getRelativeTimeDescription clock (Some (1000 - 90 * 1000)) "en" w0)
    = "1 minutes ago" /\
  fst (getRelativeTimeDescription clock (Some (1000 - 129600 * 1000)) "en" w0)
    = "1 days ago" /\
  fst (getRelativeTimeDescription clock (Some (1000 - 31449600 * 1000)) "en" w0)
    = "12 months ago" /\
  fst (getRelativeTimeDescription clock (Some 5000) "en" w0) = "just now".
Proof. vm_compute. repeat split; reflexivity. Qed.

(** The analysis of the bookmark in the inbox: it is filed under a new
    category Reading, which ends with a count of two for its one member;
    the stored tag dev is counted once more, a tag rust is made and counted
    twice, and the bookmark carries tag ids. *)
Example analysis_sample :
  let r := analyzeBookmark clock ids advice "n1" inbox w0 in
  option_map (fun b => (b_categoryId b, b_tags b)) (fst (fst r))
    = Some ("uuid-", ["t1"; "uuid-i"; "uuid-i"]) /\
  List.map (fun c => (c_name c, c_bookmarkCount c))
           (st_categories (snd (fst r)))
    = [("Uncategorized", 0); ("Work", 1); ("Reading", 2)] /\
  List.map (fun t => (t_id t, t_name t, t_count t)) (st_tags (snd (fst r)))
    = [("t1", "dev", 3); ("uuid-i", "rust", 2)].
Proof. vm_compute. repeat split; reflexivity. Qed.

(** A recommended category and a recommended tag that differ from
    stored ones in the case of an accented letter are found: no category
    and no tag is made, the stored category takes the bookmark and the
    stored tag is counted once more. *)
Example analysis_folds_case_sample :
  let r := analyzeBookmark clock ids conseil "n1" cartable w0 in
  createsCategory conseil "n1" cartable = None /\
  option_map (fun b => (b_categoryId b, b_tags b)) (fst (fst r))
    = Some ("c1", ["t1"]) /\
  List.map (fun c => (c_id c, c_bookmarkCount c)) (st_categories (snd (fst r)))
    = [("uncategorized", 0); ("c1", 1)] /\
  List.map (fun t => (t_id t, t_count t)) (st_tags (snd (fst r)))
    = [("t1", 5)].
Proof. vm_compute. repeat split; reflexivity. Qed.

Lemma inbox_counts :
  countsConsistent (st_bookmarks inbox) (st_categories inbox).
Proof.
  split; [apply (bool_decide_unpack _); vm_compute; exact I |].
  repeat constructor.
Defined.

Lemma analyzeBookmark_counts_witness :
  countsConsistent (st_bookmarks inbox) (st_categories inbox) /\
  (exists kept created,
     st_categories (snd (fst (analyzeBookmark clock ids advice "n1" inbox w0)))
     = kept ++ [created] /\
     List.map c_id kept = List.map c_id (st_categories inbox) /\
     c_name created = "Reading" /\ c_bookmarkCount created = 2).
Proof.
  split; [exact inbox_counts |].
  assert (Hfresh : ~ In (ids (w_ids w0))
                        ("uncategorized" :: List.map c_id (st_categories inbox))).
  { intros [H | [H | [H | []]]]; discriminate H. }
  destruct (analyzeBookmark_counts (stringHost := westernHost) clock ids advice
              "n1" inbox w0 inbox_counts Hfresh)
    as (kept & created & Hc & Hk & _ & _ & Hn & Hcount & _).
  exists kept, created. auto.
Defined.

Lemma analyzeBookmark_tags_witness :
  tagsFor advice "n1" inbox = Some ["Dev"; "rust"; "RUST"] /\
  roomFor 3 (st_tags inbox) /\
  (exists b' st' w',
     analyzeBookmark clock ids advice "n1" inbox w0 = ((Some b', st'), w') /\
     Forall2 (holdsTag (st_tags st')) ["Dev"; "rust"; "RUST"] (b_tags b') /\
     totalCount (st_tags st') = totalCount (st_tags inbox) + 3).
Proof.
  assert (H : tagsFor advice "n1" inbox = Some ["Dev"; "rust"; "RUST"])
    by reflexivity.
  assert (Hroom : roomFor 3 (st_tags inbox)).
  { split; [vm_compute; discriminate |].
    repeat constructor; vm_compute; discriminate. }
  split; [exact H |]. split; [exact Hroom |].
  destruct (analyzeBookmark_tags clock ids advice "n1" inbox w0 _ H Hroom)
    as (b' & st' & w' & kept & added & E & _ & _ & _ & Hh & Ht).
  exists b', st', w'. auto.
Defined.

(** The mixed forest by ascending title: the folder first, its folder
    child first, the two children titled beta in the order of the input. *)
Example sortBookmarks_sample :
  option_map
    (List.map (fun n => (e_id n, option_map (List.map e_id) (e_children n))))
    (sortBookmarks 3 SortTitle Asc mixed)
  = Some [("b", Some ["e"; "c"; "d"]); ("f", None); ("a", None)] /\
  sortBookmarks 1 SortTitle Asc mixed = None.
Proof. split; reflexivity. Qed.

(** The code units of characters of one, two, three and four bytes; a
    character outside the basic plane sorts before the last characters of
    the basic plane, although its bytes are larger. *)
Example codeUnits_sample :
  codeUnits "aé€😀" = [97; 233; 8364; 55357; 56832]%N /\
  js_lt "😀" "ｚ" = true /\ js_lt "ｚ" "😀" = false /\
  List.map e_id
    (default [] (sortBookmarks 1 SortTitle Asc
                   [ enode "p" "ｚ" (Some "https://p.example") None;
                     enode "q" "😀" (Some "https://q.example") None ]))
  = ["q"; "p"].
Proof. repeat split; reflexivity. Qed.

Lemma sortBookmarks_arranges_witness :
  (forestHeight mixed < 3)%nat /\
  (exists sorted,
     sortBookmarks 3 SortTitle Asc mixed = Some sorted /\
     arranged SortTitle Asc mixed sorted).
Proof.
  assert (H : (forestHeight mixed < 3)%nat) by (vm_compute; lia).
  split; [exact H |].
  exact (sortBookmarks_arranges 3 SortTitle Asc mixed H).
Defined.

End MoreInstances.
